(* ===== verification/_CoqProject ===== *)
-Q . S2P
Prelude.v
GoMonad.v
GoStrings.v
GoRegexp.v
GoPath.v
Api.v
Dcp.v
Command.v
Env.v
Crypto.v
Cluster.v
Sim.v
Hosts.v
Dest.v
Reconciler.v
ReconcilerInv.v
ReconcilerProps.v
ReconcilerOps.v
Scenarios.v
Lifecycle.v
OffloadApi.v
Driver.v
Server.v
Wait.v
DriverProps.v
DriverRun.v
ServerProps.v
DriverStatus.v
DriverScenarios.v
ManagerApi.v
Manager.v
ManagerTrace.v
ManagerProps.v
ManagerRun.v
ManagerScenarios.v
Process.v
MakeJwt.v
Daemon.v
Entry.v
EntryScenarios.v
