(* ===== verification/Prelude.v ===== *)
(** Verification of nnf-dm, the data movement service of Near Node Flash.

    * The program

    nnf-dm copies data between the storage of compute jobs ("rabbit" nodes) and
    global Lustre file systems.  Its parts, under src/:

    - the data movement reconciler (internal/controller/datamovement_controller.go)
      runs one [mpirun ... dcp] command per NnfDataMovement resource of the
      namespace it watches, follows its progress, and writes its status;
    - the helpers (internal/controller/helpers/datamovement_helpers.go) find the
      hosts, write the MPI hostfile, prepare the destination, build the command
      and scrape its output; the reconciler and the copy offload driver share them;
    - the data movement manager (internal/controller/datamovementmanager_controller.go)
      deploys the service: secret, deployment, service, daemonset, and the
      finalizers of the Lustre file systems the workers mount;
    - the copy offload daemon (daemons/copy-offload: pkg/server and pkg/driver)
      is an HTTP server inside a job that takes copy requests, creates the
      resource and runs the command itself;
    - three commands: cmd/main.go (the controllers), daemons/copy-offload/cmd/main.go
      (the daemon) and daemons/copy-offload-testing/make-jwt (keys and tokens).

    * The files

    Prelude is this file: tactics, hint databases and lemmas for all.  The language and its
    library: GoMonad (results, errors, panics, state passing), GoStrings, GoRegexp,
    GoPath.  The resources: Api, OffloadApi, ManagerApi.  What lies outside the
    program is an interface with laws: Env ([Kube], [OS]), Cluster (the API server:
    optimistic concurrency, stale reads, lost answers), Crypto, Process; Sim and the
    Scenarios files are concrete instances that satisfy the laws and on which the
    witnesses run.

    - helpers: Dcp ([ParseDcpProgress], [ParseDcpStats], [TrimDcpProgressFromOutput]),
      Command ([BuildDMCommand], [InjectOrteTmpdirBase], [buildStatOrMkdirCommand]),
      Hosts ([GetDMProfile] to [PeekMpiHostfile]), Dest ([PrepareDestination] and what
      it calls);
    - reconciler: Reconciler (the state [Sys] is DataMovementReconciler with its
      goroutines; [Reconcile], [cancel], [finish], [parseAndUpdateProgress] and the step
      relation [step]), ReconcilerInv, ReconcilerProps, ReconcilerOps, Lifecycle, Scenarios;
    - copy offload: Driver ([DSys] is Driver and its requests), Wait (the threads that
      wait for completions), Server, DriverProps, DriverRun, ServerProps,
      DriverStatus, DriverScenarios;
    - manager: Manager, ManagerTrace (a client that records the calls it passes on),
      ManagerProps, ManagerRun, ManagerScenarios;
    - commands: MakeJwt, Daemon, Entry, EntryScenarios.

    * What is proved

    - Reconciler: in every reachable state a data movement has at most one command,
      which is in the map of active operations; the resource only moves forward; each
      step of the process is a step of the lifecycle of Lifecycle.v or none; a result stays in the map until it
      is written; cancelling cancels the running command; what the end of a command
      and a failed preparation leave behind.
    - Helpers: the text of the commands, the hostfile (against a reference text, and read
      back), hosts node by node, where a copy out of an index mount goes, that every
      failure of the preparation is fatal, what the scrapers read and keep.
    - Manager, with any client and whatever it answers: what was read and written before
      it reports to be ready and before it releases a file system; the volumes of a
      worker; errors and conflicts.
    - Copy offload: commands are tracked and can be cancelled; a request starts exactly
      one command or none; a shutdown is granted only when no request is recorded; no
      completion is missed by a waiting thread; whose requests are reported; what the
      final write stores.
    - Commands: a daemon with a key serves nobody without a token, tokens of the generator are
      accepted by the daemon, each data movement has one controller.

    Some theorems show where the code does not do what it means to:
    [offload_exit_status_ignored], [cancel_before_start_needs_deletion],
    [timeout_wakeup_lost], [late_request_cut_off], [stale_daemonset_misleads],
    [objects_settle_but_daemonset], [offload_data_movement_is_watched] with
    [offload_runs_twice], [empty_key_serves_anyone], [listing_order_changes_daemonset],
    [passing_error_survives_success], [split_progress_line_lost],
    [failed_final_read_leaks], [ParseDcpStats_never_links].

    * Bounds

    Every function is total without fuel: recursion is on lists, strings and
    expressions.  [RetryOnConflict] has the five attempts of [retry.DefaultRetry], the
    line scanner the limit of 64 KiB of [bufio.Scanner]; counts of dcp wrap at 32 bits
    as in the code, and durations at 64.

    * What is assumed

    - [KubeLaws]: an update carries the current resource version or fails; reads may be
      old; failed updates may have been stored.  Other writers leave the status of data
      movements in the watched namespace and the finalizer alone ([others]); the copy
      offload daemon does write such statuses, see [offload_data_movement_is_watched].
    - A reconciliation is one step of the machine, and so is the end of a goroutine; two
      reconciliations of one resource do not overlap in controller-runtime.
    - A panic in [Reconcile] ends the process (a restart step); a panic in an HTTP handler is recovered.
    - Nothing is assumed of what the client of the manager answers: it reads from caches, so
      the theorems are about its calls and the answers they got.
    - The server gives a created resource a fresh name; namespaces are DNS labels, which
      have no character that is special in the expressions of the index mounts.

    * What is not modelled

    Logging, metrics (internal/controller/metrics), flag parsing, schemes, TLS, the
    watches of [SetupWithManager], the JSON and URL decoding of requests (their
    results are parameters), the C client library of the daemon, generated and
    vendored code beyond the functions listed above. *)
From Stdlib Require Export ZArith Ascii String Lia.
From stdpp Require Export base gmap strings list option.
From stdpp Require Export list_basics list_relations list_monad.

(** * Hint databases of the development *)
Create Rewrite HintDb go_strings.
Create HintDb go_frame.

(** * Tactics *)

(** Split conjunctions and existentials in the context, then simplify. *)
Ltac destr_and := repeat match goal with
  | H : _ ∧ _ |- _ => destruct H
  | H : ∃ _, _ |- _ => destruct H
  end.

(** An equation between closed terms, by the virtual machine and without reading values back. *)
Ltac by_vm := match goal with |- _ = ?b => vm_cast_no_check (eq_refl b) end.

(** Decide the first [Z] comparison of the goal with [lia]. *)
Ltac zcase := match goal with
  | |- context [(?x <? ?y)%Z] => destruct (Z.ltb_spec x y); try lia
  | |- context [(?x <=? ?y)%Z] => destruct (Z.leb_spec x y); try lia
  | |- context [(?x =? ?y)%Z] => destruct (Z.eqb_spec x y); try lia
  end.

(** [Forall] of a literal list, each element by assumption or evaluation. *)
Ltac solve_forall := repeat match goal with
  | |- Forall _ [] => apply List.Forall_nil
  | |- Forall _ (_ :: _) => apply List.Forall_cons; [done|]
  end.

(** * Strings as lists of bytes *)

Lemma string_app_nil_l (a : string) : "" +:+ a = a.
Proof. done. Qed.

Lemma string_app_cons c (a b : string) : String c a +:+ b = String c (a +:+ b).
Proof. done. Qed.

Lemma string_app_assoc (a b c : string) : a +:+ (b +:+ c) = (a +:+ b) +:+ c.
Proof. induction a as [|x a IH]; [done|]. by rewrite !string_app_cons, IH. Qed.

Lemma string_app_nil_r (a : string) : a +:+ "" = a.
Proof. induction a as [|x a IH]; [done|]. by rewrite string_app_cons, IH. Qed.

Lemma string_length_app (a b : string) :
  String.length (a +:+ b) = String.length a + String.length b.
Proof. induction a as [|x a IH]; [done|]. rewrite string_app_cons. cbn. by rewrite IH. Qed.

Lemma string_app_inv_tail (a b c : string) : a +:+ c = b +:+ c → a = b.
Proof.
  intros H. assert (String.length a = String.length b) as Hl.
  { apply (f_equal String.length) in H. rewrite !string_length_app in H. lia. }
  revert b H Hl. induction a as [|x a IH]; intros [|y b]; cbn; intros H Hl; try lia; [done|].
  rewrite !string_app_cons in H. injection H as -> H. f_equal. apply IH; [done|lia].
Qed.

#[export] Hint Rewrite string_app_nil_l string_app_nil_r string_app_cons : go_strings.

(** Characters occurring in a string. *)
Fixpoint has_char (c : ascii) (s : string) : bool :=
  match s with
  | EmptyString => false
  | String d s' => Ascii.eqb c d || has_char c s'
  end.

Lemma has_char_app c a b : has_char c (a +:+ b) = has_char c a || has_char c b.
Proof.
  induction a as [|x a IH]; [done|].
  rewrite string_app_cons. cbn. by rewrite IH, orb_assoc.
Qed.
#[export] Hint Rewrite has_char_app : go_strings.

Fixpoint string_forall (p : ascii → bool) (s : string) : bool :=
  match s with
  | EmptyString => true
  | String d s' => p d && string_forall p s'
  end.

Lemma string_forall_app p a b :
  string_forall p (a +:+ b) = string_forall p a && string_forall p b.
Proof.
  induction a as [|x a IH]; [done|].
  rewrite string_app_cons. cbn. by rewrite IH, andb_assoc.
Qed.

Lemma string_forall_has_char p c s :
  string_forall p s = true → p c = false → has_char c s = false.
Proof.
  induction s as [|d s IH]; cbn; [done|]. intros [Hd Hs]%andb_prop Hc.
  rewrite IH by done. destruct (Ascii.eqb_spec c d); [congruence|done].
Qed.

(** A byte that occurs nowhere after (or before) a position fixes that position. *)
Lemma split_last_char c a b a' b' :
  has_char c b = false → has_char c b' = false →
  a +:+ String c b = a' +:+ String c b' → a = a' ∧ b = b'.
Proof.
  intros Hb Hb'. revert a'. induction a as [|x a IH]; intros [|y a'];
    rewrite ?string_app_nil_l, ?string_app_cons; intros H; injection H; intros; subst.
  - done.
  - exfalso. revert Hb. rewrite has_char_app. cbn. by rewrite Ascii.eqb_refl, orb_true_r.
  - exfalso. revert Hb'. rewrite has_char_app. cbn. by rewrite Ascii.eqb_refl, orb_true_r.
  - destruct (IH a') as [-> ->]; done.
Qed.

Lemma split_only_char c a b a' b' :
  has_char c a = false → has_char c b = false →
  a +:+ String c b = a' +:+ String c b' → a = a' ∧ b = b'.
Proof.
  intros Ha Hb. revert a'. induction a as [|x a IH]; intros [|y a'];
    rewrite ?string_app_nil_l, ?string_app_cons; intros H; injection H; intros; subst.
  - done.
  - exfalso. revert Hb. rewrite has_char_app. cbn. by rewrite Ascii.eqb_refl, orb_true_r.
  - cbn in Ha. by rewrite Ascii.eqb_refl in Ha.
  - cbn in Ha. apply orb_false_elim in Ha as [_ Ha]. destruct (IH Ha a') as [-> ->]; done.
Qed.

(** A pair by its first component *)
Lemma some_default {A} (d : A) (o : option A) : bool_decide (is_Some o) = true → o = Some (default d o).
Proof. by intros [x ->]%bool_decide_eq_true. Qed.

Lemma pair_of_fst {A B} (p : A * B) a : fst p = a → p = (a, snd p).
Proof. destruct p. by intros <-. Qed.

