(* ===== verification/GoMonad.v ===== *)
(** Go results, errors and effects.

    A Go call returns a value, returns a non-nil error or panics ([outcome]).
    Effectful code is state passing over a world [W] that survives errors and
    panics ([M W A]).  The error values are those the sources build: plain and
    wrapped errors, the helpers' [invalidError], Kubernetes status errors and
    the DWS [ResourceErrorInfo] with its builder methods. *)
From S2P Require Import Prelude.

(** * Error values *)

(** ResourceErrorSeverity and ResourceErrorType of the DWS API *)
Inductive ResourceErrorSeverity := SeverityMinor | SeverityMajor | SeverityFatal.
Inductive ResourceErrorType := TypeInternal | TypeWLM | TypeUser.

#[export] Instance ResourceErrorSeverity_eq_dec : EqDecision ResourceErrorSeverity.
Proof. solve_decision. Defined.
#[export] Instance ResourceErrorType_eq_dec : EqDecision ResourceErrorType.
Proof. solve_decision. Defined.

Record ResourceErrorInfo := {
  UserMessage : string;
  DebugMessage : string;
  Type_ : ResourceErrorType;
  Severity : ResourceErrorSeverity
}.

(** The reasons of a Kubernetes status error the code distinguishes. *)
Inductive StatusReason := NotFound | Conflict | AlreadyExists | NoMatch | OtherReason.

#[export] Instance StatusReason_eq_dec : EqDecision StatusReason.
Proof. solve_decision. Defined.

Inductive error :=
| ErrorString (msg : string)                       (* errors.New, fmt.Errorf without %w *)
| WrapError (msg : string) (inner : error)         (* fmt.Errorf with %w: full text, wrapped error *)
| InvalidError (err : error)                       (* helpers.invalidError *)
| StatusError (reason : StatusReason) (msg : string)
| ResourceErr (info : ResourceErrorInfo).

(** * Outcomes *)

Inductive outcome (A : Type) : Type :=
| Ret (a : A)
| Fail (e : error)
| Panic (why : string).
Arguments Ret {A} a.
Arguments Fail {A} e.
Arguments Panic {A} why.

#[export] Instance outcome_ret : MRet outcome := λ A a, Ret a.
#[export] Instance outcome_bind : MBind outcome := λ A B f o,
  match o with Ret a => f a | Fail e => Fail e | Panic p => Panic p end.

(** Dereferencing a Go pointer: nil panics. *)
Definition deref {A} (p : option A) : outcome A :=
  match p with Some a => Ret a | None => Panic "nil pointer dereference" end.

(** * Effectful code *)

Definition M (W A : Type) : Type := W → outcome A * W.

#[export] Instance M_ret {W} : MRet (M W) := λ A a w, (Ret a, w).
#[export] Instance M_bind {W} : MBind (M W) := λ A B f m w,
  match m w with
  | (Ret a, w') => f a w'
  | (Fail e, w') => (Fail e, w')
  | (Panic p, w') => (Panic p, w')
  end.

Section Combinators.
Context {W : Type}.

(** [return err] *)
Definition fail {A} (e : error) : M W A := λ w, (Fail e, w).

Definition lift_outcome {A} (o : outcome A) : M W A := λ w, (o, w).

(** [x, err := m], the error left to the caller's branch *)
Definition attempt {A} (m : M W A) : M W (error + A) := λ w,
  match m w with
  | (Ret a, w') => (Ret (inr a), w')
  | (Fail e, w') => (Ret (inl e), w')
  | (Panic p, w') => (Panic p, w')
  end.

(** [if err != nil { return f(err) }] *)
Definition map_err {A} (f : error → error) (m : M W A) : M W A := λ w,
  match m w with
  | (Fail e, w') => (Fail (f e), w')
  | r => r
  end.
End Combinators.
