(* ===== verification/GoStrings.v ===== *)
(** Go's [strings] and [strconv] as the sources use them.

    Go strings are byte strings, modelled by Stdlib's [string].  Case mapping
    and white space are those of ASCII text: every string the code lower-cases
    or splits into fields is the output of [stat], an error text, a hostfile
    or an HTTP header. *)
From S2P Require Import Prelude GoMonad.
From stdpp Require Import pretty.

Definition chr (c : ascii) : string := String c "".
Definition newline : ascii := "010".
Definition nl : string := chr newline.

(** * Prefixes, suffixes and searching *)

(** The rest of [s] after the prefix [p], when [p] is a prefix. *)
Fixpoint strip_prefix (p s : string) : option string :=
  match p, s with
  | EmptyString, _ => Some s
  | String a p', String b s' => if Ascii.eqb a b then strip_prefix p' s' else None
  | String _ _, EmptyString => None
  end.

Definition HasPrefix (s p : string) : bool :=
  match strip_prefix p s with Some _ => true | None => false end.

Definition TrimPrefix (s p : string) : string :=
  match strip_prefix p s with Some rest => rest | None => s end.

Fixpoint take_str (n : nat) (s : string) : string :=
  match n, s with
  | S n', String c s' => String c (take_str n' s')
  | _, _ => ""
  end.

Fixpoint drop_str (n : nat) (s : string) : string :=
  match n, s with
  | O, _ => s
  | S n', String _ s' => drop_str n' s'
  | S _, EmptyString => ""
  end.

Definition HasSuffix (s suf : string) : bool :=
  (String.length suf <=? String.length s)%nat
  && String.eqb (drop_str (String.length s - String.length suf) s) suf.

(** The first occurrence of [sub] in [s], as the texts before and after it. *)
Fixpoint cut (sub s : string) : option (string * string) :=
  match strip_prefix sub s with
  | Some rest => Some ("", rest)
  | None =>
      match s with
      | EmptyString => None
      | String c s' =>
          match cut sub s' with
          | Some (before, after) => Some (String c before, after)
          | None => None
          end
      end
  end.

(** [strings.Index]: the byte offset of the first occurrence, or -1. *)
Definition Index (s sub : string) : Z :=
  match cut sub s with
  | Some (before, _) => Z.of_nat (String.length before)
  | None => (-1)%Z
  end.

Definition Contains (s sub : string) : bool :=
  match cut sub s with Some _ => true | None => false end.

(** * Replacing, splitting and joining

    [skip] counts the bytes of an occurrence that are still to be dropped, so
    that the recursion is on the string itself.  The patterns and separators
    are non-empty literals everywhere in the sources. *)
Fixpoint replace_go (old new s : string) (skip : nat) : string :=
  match s with
  | EmptyString => ""
  | String c s' =>
      match skip with
      | S k => replace_go old new s' k
      | O =>
          match strip_prefix old s with
          | Some _ => new +:+ replace_go old new s' (pred (String.length old))
          | None => String c (replace_go old new s' 0)
          end
      end
  end.

Definition ReplaceAll (s old new : string) : string := replace_go old new s 0.

(** [strings.Replace(s, old, new, 1)] *)
Definition Replace1 (s old new : string) : string :=
  match cut old s with
  | Some (before, after) => before +:+ new +:+ after
  | None => s
  end.

Fixpoint split_go (sep s cur : string) (skip : nat) : list string :=
  match s with
  | EmptyString => [cur]
  | String c s' =>
      match skip with
      | S k => split_go sep s' cur k
      | O =>
          match strip_prefix sep s with
          | Some _ => cur :: split_go sep s' "" (pred (String.length sep))
          | None => split_go sep s' (cur +:+ String c "") 0
          end
      end
  end.

Definition Split (s sep : string) : list string := split_go sep s "" 0.

Fixpoint Join (l : list string) (sep : string) : string :=
  match l with
  | [] => ""
  | [x] => x
  | x :: l' => x +:+ sep +:+ Join l' sep
  end.

(** * Characters *)

Definition is_digit (c : ascii) : bool :=
  let n := N_of_ascii c in (48 <=? n)%N && (n <=? 57)%N.

Definition is_space (c : ascii) : bool :=
  let n := N_of_ascii c in ((9 <=? n)%N && (n <=? 13)%N) || (n =? 32)%N.

Definition lower_char (c : ascii) : ascii :=
  let n := N_of_ascii c in
  if ((65 <=? n)%N && (n <=? 90)%N) then ascii_of_N (n + 32) else c.

Fixpoint ToLower (s : string) : string :=
  match s with
  | EmptyString => ""
  | String c s' => String (lower_char c) (ToLower s')
  end.

Fixpoint trim_left (s : string) : string :=
  match s with
  | String c s' => if is_space c then trim_left s' else s
  | EmptyString => ""
  end.

Fixpoint rev_str (s acc : string) : string :=
  match s with
  | EmptyString => acc
  | String c s' => rev_str s' (String c acc)
  end.

Definition TrimSpace (s : string) : string :=
  rev_str (trim_left (rev_str (trim_left s) "")) "".

(** [strings.Fields]: the maximal runs of non-space bytes. *)
Fixpoint fields_go (s cur : string) : list string :=
  match s with
  | EmptyString => match cur with "" => [] | _ => [cur] end
  | String c s' =>
      if is_space c
      then match cur with "" => fields_go s' "" | _ => cur :: fields_go s' "" end
      else fields_go s' (cur +:+ String c "")
  end.

Definition Fields (s : string) : list string := fields_go s "".

(** * Numbers *)

(** [fmt.Sprintf("%d", n)] *)
Definition itoa (n : Z) : string := pretty n.

Definition digit_val (c : ascii) : Z := Z.of_N (N_of_ascii c) - 48.

Fixpoint digits_val (acc : Z) (s : string) : Z :=
  match s with
  | EmptyString => acc
  | String c s' => digits_val (acc * 10 + digit_val c) s'
  end.

Definition int64_min : Z := - 2 ^ 63.
Definition int64_max : Z := 2 ^ 63 - 1.

(** Conversion to a [w]-bit two's complement integer, as Go's [int32(x)]. *)
Definition to_int32 (z : Z) : Z := (z + 2 ^ 31) mod 2 ^ 32 - 2 ^ 31.

(** The wrap-around of [int64] arithmetic. *)
Definition to_int64 (z : Z) : Z := (z + 2 ^ 63) mod 2 ^ 64 - 2 ^ 63.

Definition atoi_error (s why : string) : error :=
  ErrorString ("strconv.Atoi: parsing " +:+ s +:+ ": " +:+ why).

(** [strconv.Atoi] on a 64-bit platform. *)
Definition Atoi (s : string) : outcome Z :=
  let '(neg, ds) :=
    match s with
    | String "-" s' => (true, s')
    | String "+" s' => (false, s')
    | _ => (false, s)
    end in
  if match ds with "" => true | _ => false end || negb (string_forall is_digit ds)
  then Fail (atoi_error s "invalid syntax")
  else
    let v := digits_val 0 ds in
    let z := if neg then (- v)%Z else v in
    if (int64_min <=? z)%Z && (z <=? int64_max)%Z
    then Ret z
    else Fail (atoi_error s "value out of range").

(** * Lemmas: prefixes, suffixes, searching *)

Lemma strip_prefix_Some p s r : strip_prefix p s = Some r ↔ s = p +:+ r.
Proof.
  revert s. induction p as [|a p IH]; intros s; [cbn; rewrite string_app_nil_l; split; congruence|].
  rewrite string_app_cons. destruct s as [|b s]; cbn; [done|].
  destruct (Ascii.eqb_spec a b) as [->|Hne]; [rewrite IH|]; split; congruence.
Qed.

Lemma strip_prefix_app p r : strip_prefix p (p +:+ r) = Some r.
Proof. by apply strip_prefix_Some. Qed.

Lemma HasPrefix_iff s p : HasPrefix s p = true ↔ ∃ r, s = p +:+ r.
Proof.
  unfold HasPrefix. destruct (strip_prefix p s) as [r|] eqn:E.
  - apply strip_prefix_Some in E. naive_solver.
  - split; [done|]. intros [r ->]. by rewrite strip_prefix_app in E.
Qed.

Lemma TrimPrefix_app p r : TrimPrefix (p +:+ r) p = r.
Proof. unfold TrimPrefix. by rewrite strip_prefix_app. Qed.

Lemma take_str_app a b : take_str (String.length a) (a +:+ b) = a.
Proof. induction a as [|x a IH]; [by destruct b|]. rewrite string_app_cons. cbn. by rewrite IH. Qed.

Lemma drop_str_app a b : drop_str (String.length a) (a +:+ b) = b.
Proof. induction a as [|x a IH]; [done|]. by rewrite string_app_cons. Qed.

Lemma take_drop_str n s : take_str n s +:+ drop_str n s = s.
Proof.
  revert s. induction n as [|n IH]; intros [|c s]; [done..|].
  cbn. by rewrite string_app_cons, IH.
Qed.

Lemma HasSuffix_app r suf : HasSuffix (r +:+ suf) suf = true.
Proof.
  unfold HasSuffix. rewrite string_length_app.
  replace (String.length r + String.length suf - String.length suf)%nat
    with (String.length r) by lia.
  rewrite drop_str_app, String.eqb_refl, andb_true_r. apply Nat.leb_le. lia.
Qed.

Lemma HasSuffix_iff s suf : HasSuffix s suf = true ↔ ∃ r, s = r +:+ suf.
Proof.
  split; [|intros [r ->]; apply HasSuffix_app].
  unfold HasSuffix. intros [_ Heq%String.eqb_eq]%andb_prop.
  exists (take_str (String.length s - String.length suf) s).
  pose proof (take_drop_str (String.length s - String.length suf) s) as Ht.
  by rewrite Heq in Ht.
Qed.

Lemma cut_Some sub s b a : cut sub s = Some (b, a) → s = b +:+ sub +:+ a.
Proof.
  revert b. induction s as [|c s IH]; intros b; cbn [cut];
    (destruct (strip_prefix sub _) as [r|] eqn:E; [apply strip_prefix_Some in E; naive_solver|]);
    [done|].
  destruct (cut sub s) as [[b' a']|] eqn:Ec; [|done].
  intros [= <- <-]. rewrite string_app_cons. f_equal. by apply IH.
Qed.

Lemma cut_is_Some sub b a : is_Some (cut sub (b +:+ sub +:+ a)).
Proof.
  induction b as [|c b IH].
  - rewrite string_app_nil_l. destruct sub as [|x sub], a as [|y a]; cbn [cut];
      rewrite ?string_app_nil_l, ?strip_prefix_app; cbn; eauto.
    all: change (String x sub +:+ ?z) with (String x sub +:+ z).
    all: rewrite string_app_cons; cbn [cut]; rewrite <- string_app_cons, strip_prefix_app; eauto.
  - rewrite string_app_cons. cbn [cut]. destruct (strip_prefix _ _); [eauto|].
    destruct IH as [[b' a'] ->]. eauto.
Qed.

Lemma Contains_iff s sub : Contains s sub = true ↔ ∃ b a, s = b +:+ sub +:+ a.
Proof.
  unfold Contains. destruct (cut sub s) as [[b a]|] eqn:E.
  - apply cut_Some in E. naive_solver.
  - split; [done|]. intros (b & a & ->). destruct (cut_is_Some sub b a). congruence.
Qed.

(** The occurrence found is the first: none starts earlier. *)
Lemma cut_first sub s b a b' a' :
  cut sub s = Some (b, a) → s = b' +:+ sub +:+ a' → String.length b ≤ String.length b'.
Proof.
  revert b b'. induction s as [|c s IH]; intros b b'; cbn [cut];
    destruct (strip_prefix sub _) as [r|] eqn:E; try (intros [= <- <-]; cbn; lia).
  destruct (cut sub s) as [[b2 a2]|] eqn:Ec; [|done]. intros [= <- <-] Hs.
  destruct b' as [|x b'].
  - rewrite string_app_nil_l in Hs. rewrite Hs, strip_prefix_app in E. done.
  - rewrite string_app_cons in Hs. injection Hs as -> Hs. cbn. apply le_n_S. eauto.
Qed.

(** Slicing at the end of the occurrence found by [Index]. *)
Lemma Index_cut s sub b a :
  cut sub s = Some (b, a) →
  let idx := Z.to_nat (Index s sub + Z.of_nat (String.length sub)) in
  take_str idx s = b +:+ sub ∧ drop_str idx s = a.
Proof.
  intros E. unfold Index. rewrite E. cbn.
  replace (Z.to_nat _) with (String.length (b +:+ sub)) by (rewrite string_length_app; lia).
  rewrite (cut_Some _ _ _ _ E), string_app_assoc. split; [apply take_str_app|apply drop_str_app].
Qed.

Lemma Index_neg s sub : Index s sub = (-1)%Z ↔ cut sub s = None.
Proof. unfold Index. destruct (cut sub s) as [[??]|]; split; try done. lia. Qed.

(** * Lemmas: splitting and joining *)

Lemma Join_cons x l sep : l ≠ [] → Join (x :: l) sep = x +:+ sep +:+ Join l sep.
Proof. by destruct l. Qed.

Lemma split_go_ne sep s cur k : split_go sep s cur k ≠ [].
Proof.
  revert cur k. induction s as [|c s IH]; intros cur k; cbn [split_go]; [done|].
  destruct k; [|apply IH]. by destruct (strip_prefix _ _).
Qed.

Lemma split_go_skip sep a b cur :
  split_go sep (a +:+ b) cur (String.length a) = split_go sep b cur 0.
Proof. induction a as [|x a IH]; [done|]. by rewrite string_app_cons. Qed.

(** Induction over the pieces of a split: a step either crosses one separator
    or one byte that starts no separator. *)
Lemma split_ind sep (Hsep : sep ≠ "") (P : string → Prop) :
  P "" →
  (∀ r, P r → P (sep +:+ r)) →
  (∀ c s, strip_prefix sep (String c s) = None → P s → P (String c s)) →
  ∀ s, P s.
Proof.
  intros H0 Hs Hc s. remember (String.length s) as n eqn:Hn.
  revert s Hn. induction n as [n IH] using lt_wf_ind. intros [|c s] ->; [done|].
  destruct (strip_prefix sep (String c s)) as [r|] eqn:E.
  - apply strip_prefix_Some in E. rewrite E. apply Hs. eapply IH; [|done].
    rewrite E, string_length_app. destruct sep; [done|]. cbn. lia.
  - apply Hc; [done|]. eapply IH; [|done]. cbn. lia.
Qed.

Lemma split_go_sep sep r cur :
  sep ≠ "" → split_go sep (sep +:+ r) cur 0 = cur :: split_go sep r "" 0.
Proof.
  intros Hsep. destruct sep as [|x sep]; [done|]. rewrite string_app_cons. cbn [split_go].
  rewrite <- string_app_cons, strip_prefix_app. cbn. by rewrite split_go_skip.
Qed.

Lemma Join_split_go sep s cur : sep ≠ "" → Join (split_go sep s cur 0) sep = cur +:+ s.
Proof.
  intros Hsep. revert cur. induction s as [|r IH|c s E IH] using (split_ind sep Hsep); intros cur.
  - by rewrite string_app_nil_r.
  - rewrite split_go_sep, Join_cons, IH by (done || apply split_go_ne). done.
  - cbn [split_go]. rewrite E, IH, <- string_app_assoc. done.
Qed.

(** Joining what [Split] returns gives the string back. *)
Lemma Join_Split s sep : sep ≠ "" → Join (Split s sep) sep = s.
Proof. intros. unfold Split. by rewrite Join_split_go. Qed.

Lemma strip_prefix_chr c d s : strip_prefix (chr c) (String d s) = if Ascii.eqb c d then Some s else None.
Proof. cbn. by destruct (Ascii.eqb c d), s. Qed.

Lemma split_go_nochar c a b cur :
  has_char c a = false →
  split_go (chr c) (a +:+ b) cur 0 = split_go (chr c) b (cur +:+ a) 0.
Proof.
  revert cur. induction a as [|x a IH]; intros cur; cbn; [by rewrite string_app_nil_r|].
  intros [Hx Ha]%orb_false_elim. rewrite string_app_cons. cbn [split_go].
  rewrite strip_prefix_chr, Hx, IH by done. by rewrite <- string_app_assoc.
Qed.

Lemma Split_Join c l :
  l ≠ [] → Forall (λ x, has_char c x = false) l → Split (Join l (chr c)) (chr c) = l.
Proof.
  intros Hne Hl. unfold Split. induction Hl as [|x l Hx Hl IH]; [done|].
  destruct l as [|y l].
  - cbn [Join]. by rewrite <- (string_app_nil_r x) at 1; rewrite split_go_nochar.
  - rewrite Join_cons, split_go_nochar, split_go_sep, IH by done. done.
Qed.

Lemma split_go_pieces c s cur :
  has_char c cur = false → Forall (λ x, has_char c x = false) (split_go (chr c) s cur 0).
Proof.
  revert cur. induction s as [|d s IH]; intros cur Hcur; cbn [split_go]; [by constructor|].
  rewrite strip_prefix_chr. destruct (Ascii.eqb c d) eqn:E.
  - constructor; [done|]. by apply IH.
  - apply IH. rewrite has_char_app, Hcur. cbn. by rewrite E.
Qed.

Lemma Split_pieces c s : Forall (λ x, has_char c x = false) (Split s (chr c)).
Proof. by apply split_go_pieces. Qed.

(** * Lemmas: replacing *)

Lemma replace_go_skip old new a b :
  replace_go old new (a +:+ b) (String.length a) = ReplaceAll b old new.
Proof. induction a as [|x a IH]; [done|]. by rewrite string_app_cons. Qed.

Lemma ReplaceAll_hit old new b :
  old ≠ "" → ReplaceAll (old +:+ b) old new = new +:+ ReplaceAll b old new.
Proof.
  intros Hne. unfold ReplaceAll at 1. destruct old as [|x old]; [done|].
  rewrite string_app_cons. cbn [replace_go].
  rewrite <- string_app_cons, strip_prefix_app. cbn. by rewrite replace_go_skip.
Qed.

(** A part in which the first byte of the pattern does not occur is kept. *)
Lemma ReplaceAll_skip x old new a b :
  has_char x a = false →
  ReplaceAll (a +:+ b) (String x old) new = a +:+ ReplaceAll b (String x old) new.
Proof.
  unfold ReplaceAll. induction a as [|c a IH]; [done|]. cbn [has_char].
  intros [Hc Ha]%orb_false_elim. rewrite !string_app_cons. cbn [replace_go].
  rewrite (IH Ha). cbn [strip_prefix]. by rewrite Hc.
Qed.

Lemma ReplaceAll_nochar x old new a :
  has_char x a = false → ReplaceAll a (String x old) new = a.
Proof.
  intros H. rewrite <- (string_app_nil_r a) at 1.
  rewrite ReplaceAll_skip by done. apply string_app_nil_r.
Qed.

Lemma ReplaceAll_miss old new c s :
  strip_prefix old (String c s) = None →
  ReplaceAll (String c s) old new = String c (ReplaceAll s old new).
Proof. unfold ReplaceAll. cbn [replace_go]. by intros ->. Qed.

(** No occurrence, no change. *)
Lemma ReplaceAll_not_contains s old new :
  Contains s old = false → ReplaceAll s old new = s.
Proof.
  induction s as [|c s IH]; [done|]. intros H.
  destruct (strip_prefix old (String c s)) as [r|] eqn:E.
  - apply strip_prefix_Some in E. exfalso. apply not_true_iff_false in H. apply H, Contains_iff.
    exists "", r. by rewrite E.
  - rewrite ReplaceAll_miss, IH; [done| |done]. apply not_true_iff_false. intros Ht.
    apply not_true_iff_false in H. apply H. apply Contains_iff in Ht as (b & a & ->).
    apply Contains_iff. by exists (String c b), a.
Qed.

(** * Lemmas: numbers *)

Lemma pretty_N_char_digit n : is_digit (pretty_N_char n) = true.
Proof. unfold pretty_N_char. by repeat case_match. Qed.

Lemma digit_val_pretty n : (n < 10)%N → digit_val (pretty_N_char n) = Z.of_N n.
Proof.
  intros Hn. assert (n = 0 ∨ n = 1 ∨ n = 2 ∨ n = 3 ∨ n = 4 ∨ n = 5 ∨ n = 6 ∨ n = 7 ∨ n = 8 ∨ n = 9)%N
    as H by lia. by repeat (destruct H as [->|H]; [done|]); subst.
Qed.

Lemma pretty_N_go_spec n s :
  ∃ d, pretty_N_go n s = d +:+ s ∧ string_forall is_digit d = true
       ∧ (∀ acc r, digits_val acc (d +:+ r)
            = digits_val (acc * 10 ^ Z.of_nat (String.length d) + Z.of_N n) r)%Z
       ∧ (n ≠ 0%N → d ≠ "").
Proof.
  revert s. induction n as [n IH] using (well_founded_ind N.lt_wf_0). intros s.
  destruct (decide (n = 0%N)) as [->|Hn].
  - exists "". rewrite pretty_N_go_0. repeat split; [|done]. intros. f_equal.
    rewrite string_app_nil_l || idtac. cbn. lia.
  - rewrite pretty_N_go_step by lia.
    destruct (IH (n `div` 10)%N ltac:(apply N.div_lt; lia) (String (pretty_N_char (n `mod` 10)) s))
      as (d & -> & Hd & Hv & _).
    exists (d +:+ chr (pretty_N_char (n `mod` 10))). repeat split.
    + by rewrite <- string_app_assoc.
    + rewrite string_forall_app, Hd. cbn. by rewrite pretty_N_char_digit.
    + intros acc r. rewrite <- string_app_assoc, Hv. unfold chr.
      rewrite string_app_cons, string_app_nil_l. cbn [digits_val].
      rewrite digit_val_pretty by (apply N.mod_lt; lia). rewrite string_length_app. cbn.
      f_equal. rewrite Nat2Z.inj_add, Z.pow_add_r by lia.
      rewrite N2Z.inj_div, N2Z.inj_mod. pose proof (Z.div_mod (Z.of_N n) 10 ltac:(lia)). cbn in *. lia.
    + intros _. by destruct d.
Qed.

(** The decimal text of a natural number is a non-empty run of digits ... *)
Lemma itoa_digits n :
  (0 ≤ n)%Z → string_forall is_digit (itoa n) = true ∧ itoa n ≠ ""
              ∧ digits_val 0 (itoa n) = n.
Proof.
  intros Hn. unfold itoa. destruct n as [|p|p]; [done| |lia].
  change (pretty (Z.pos p)) with (pretty (N.pos p)). unfold pretty, pretty_N.
  rewrite decide_False by done.
  destruct (pretty_N_go_spec (N.pos p) "") as (d & -> & Hd & Hv & Hne).
  rewrite string_app_nil_r. repeat split; [done|by apply Hne|].
  specialize (Hv 0%Z ""). rewrite string_app_nil_r in Hv. by rewrite Hv.
Qed.

(** [Atoi] of a run of digits that fits in 64 bits. *)
Lemma Atoi_digits_val d :
  d ≠ "" → string_forall is_digit d = true → (0 ≤ digits_val 0 d ≤ int64_max)%Z →
  Atoi d = Ret (digits_val 0 d).
Proof.
  intros Hne Hd [H0 Hmax]. unfold Atoi. destruct d as [|c s]; [done|].
  cbn [string_forall] in Hd. apply andb_prop in Hd as [Hc Hs].
  destruct c as [[] [] [] [] [] [] [] []]; try done; cbn [string_forall];
    rewrite ?Hc, ?Hs; cbn [andb negb orb];
    (rewrite (proj2 (Z.leb_le int64_min _)) by (unfold int64_min; lia));
    by rewrite (proj2 (Z.leb_le _ int64_max)).
Qed.

(** ... which [Atoi] reads back. *)
Lemma Atoi_itoa n : (0 ≤ n ≤ int64_max)%Z → Atoi (itoa n) = Ret n.
Proof.
  intros [H0 Hmax]. destruct (itoa_digits n H0) as (Hd & Hne & Hv).
  rewrite Atoi_digits_val; rewrite ?Hv; auto.
Qed.

(** * Lemmas: occurrences and separators *)

(** An occurrence that avoids the byte [c] lies on one side of it. *)
Lemma strip_prefix_sep c sub a b :
  has_char c sub = false →
  match strip_prefix sub (a +:+ String c b) with
  | Some r => ∃ a', a = sub +:+ a' ∧ r = a' +:+ String c b
  | None => strip_prefix sub a = None
  end.
Proof.
  revert a. induction sub as [|x sub IH]; intros a; cbn [has_char strip_prefix].
  - intros _. by exists a.
  - intros [Hx Hsub]%orb_false_elim. destruct a as [|y a].
    + rewrite string_app_nil_l. cbn. rewrite Ascii.eqb_sym in Hx. by rewrite Hx.
    + rewrite string_app_cons. cbn. destruct (Ascii.eqb_spec x y) as [->|]; [|done].
      specialize (IH a Hsub). destruct (strip_prefix sub (a +:+ String c b)); [|done].
      destruct IH as (a' & -> & ->). by exists a'.
Qed.

Lemma cut_sep c sub a b :
  sub ≠ "" → has_char c sub = false →
  cut sub (a +:+ String c b) =
    match cut sub a with
    | Some (x, y) => Some (x, y +:+ String c b)
    | None => match cut sub b with
              | Some (x, y) => Some (a +:+ String c x, y)
              | None => None
              end
    end.
Proof.
  intros Hne Hc. induction a as [|y a IH].
  - rewrite string_app_nil_l. cbn [cut].
    pose proof (strip_prefix_sep c sub "" b Hc) as Hs. rewrite string_app_nil_l in Hs.
    destruct (strip_prefix sub (String c b)).
    + destruct Hs as (a' & Ha & _). by destruct sub.
    + rewrite Hs. destruct (cut sub b) as [[??]|]; [by rewrite string_app_nil_l|done].
  - rewrite string_app_cons. cbn [cut].
    pose proof (strip_prefix_sep c sub (String y a) b Hc) as Hs. rewrite string_app_cons in Hs.
    destruct (strip_prefix sub (String y (a +:+ String c b))) as [r|].
    + destruct Hs as (a' & Ha & ->). rewrite Ha, strip_prefix_app. done.
    + rewrite Hs, IH. destruct (cut sub a) as [[??]|]; [done|].
      destruct (cut sub b) as [[??]|]; [by rewrite string_app_cons|done].
Qed.

Lemma Contains_sep c sub a b :
  sub ≠ "" → has_char c sub = false →
  Contains (a +:+ String c b) sub = Contains a sub || Contains b sub.
Proof.
  intros Hne Hc. unfold Contains. rewrite cut_sep by done.
  destruct (cut sub a) as [[??]|]; [done|]. by destruct (cut sub b) as [[??]|].
Qed.

Lemma cut_not_contains sub s : Contains s sub = false → cut sub s = None.
Proof. unfold Contains. by destruct (cut sub s). Qed.

(** A pattern that occurs once, after text without its first byte. *)
Lemma ReplaceAll_once x old new a b :
  has_char x a = false → ReplaceAll b (String x old) new = b →
  ReplaceAll (a +:+ String x old +:+ b) (String x old) new = a +:+ new +:+ b.
Proof. intros Ha Hb. by rewrite ReplaceAll_skip, ReplaceAll_hit, Hb. Qed.
