(* ===== verification/GoRegexp.v ===== *)
(** Go's [regexp], for the fragment of the RE2 syntax the sources use.

    Matching is leftmost-first: the leftmost starting position, and at that
    position the first alternative and the longest repetition that let the
    rest of the expression match.  [run] is the backtracking matcher with its
    continuation; [matches] is the language it recognises, and the two are
    proved to agree ([find_Some], [find_None]).  Expressions are matched byte by
    byte: [.] stops only at a newline, and every other class of the sources is
    ASCII, so a rune that spans several bytes never makes a difference. *)
From S2P Require Import Prelude GoMonad GoStrings.

Inductive re : Type :=
| Eps
| Cls (p : ascii → bool)         (* one byte of a class *)
| Seq (r1 r2 : re)
| Alt (r1 r2 : re)               (* r1|r2, the left one preferred *)
| Star (p : ascii → bool)        (* greedy repetition of a class *)
| Grp (r : re)                   (* capturing group *)
| EndText.                       (* $ *)

Fixpoint lit (s : string) (r : re) : re :=
  match s with
  | EmptyString => r
  | String c s' => Seq (Cls (Ascii.eqb c)) (lit s' r)
  end.

(** [.] *)
Definition dot (c : ascii) : bool := negb (Ascii.eqb newline c).
(** [x+] *)
Definition Plus (p : ascii → bool) : re := Seq (Cls p) (Star p).
(** [x?], greedy *)
Definition Opt (r : re) : re := Alt r Eps.
(** [x{1,3}] *)
Definition Rep13 (p : ascii → bool) : re :=
  Seq (Cls p) (Opt (Seq (Cls p) (Opt (Cls p)))).

(** * The matcher *)

Fixpoint star_run {X} (p : ascii → bool) (s : string) (k : string → option X) : option X :=
  match s with
  | String c s' =>
      if p c then match star_run p s' k with Some x => Some x | None => k s end else k s
  | EmptyString => k s
  end.

Fixpoint run {X} (r : re) (s : string) (caps : list string)
    (k : string → list string → option X) : option X :=
  match r with
  | Eps => k s caps
  | Cls p => match s with String c s' => if p c then k s' caps else None | _ => None end
  | Seq a b => run a s caps (λ s' caps', run b s' caps' k)
  | Alt a b => match run a s caps k with Some x => Some x | None => run b s caps k end
  | Star p => star_run p s (λ s', k s' caps)
  | Grp a => run a s caps (λ s' caps',
      k s' (caps' ++ [take_str (String.length s - String.length s') s]))
  | EndText => match s with EmptyString => k s caps | _ => None end
  end.

(** The match at the start of [s]: the whole match, then the groups. *)
Definition match_here (r : re) (s : string) : option (list string) :=
  run r s [] (λ rest caps, Some (take_str (String.length s - String.length rest) s :: caps)).

Fixpoint find (r : re) (s : string) : option (list string) :=
  match match_here r s with
  | Some m => Some m
  | None => match s with String _ s' => find r s' | EmptyString => None end
  end.

(** [FindStringSubmatch]: nil when nothing matches. *)
Definition FindStringSubmatch (r : re) (s : string) : list string := default [] (find r s).

Definition MatchString (r : re) (s : string) : bool := bool_decide (is_Some (find r s)).

(** * The language of an expression

    [matches r w rest caps]: [r] matches [w] when [rest] follows, with the
    groups [caps]. *)
Inductive matches : re → string → string → list string → Prop :=
| m_eps rest : matches Eps "" rest []
| m_cls p c rest : p c = true → matches (Cls p) (chr c) rest []
| m_seq a b w1 w2 rest c1 c2 :
    matches a w1 (w2 +:+ rest) c1 → matches b w2 rest c2 →
    matches (Seq a b) (w1 +:+ w2) rest (c1 ++ c2)
| m_alt_l a b w rest c : matches a w rest c → matches (Alt a b) w rest c
| m_alt_r a b w rest c : matches b w rest c → matches (Alt a b) w rest c
| m_star p w rest : string_forall p w = true → matches (Star p) w rest []
| m_grp a w rest c : matches a w rest c → matches (Grp a) w rest (c ++ [w])
| m_end : matches EndText "" "" [].

(** * The matcher recognises the language *)

Lemma consumed_take (w rest : string) :
  take_str (String.length (w +:+ rest) - String.length rest) (w +:+ rest) = w.
Proof.
  rewrite string_length_app.
  replace (_ + _ - _) with (String.length w) by lia. apply take_str_app.
Qed.

Lemma star_run_sound {X} p s (k : string → option X) x :
  star_run p s k = Some x →
  ∃ w rest, s = w +:+ rest ∧ string_forall p w = true ∧ k rest = Some x.
Proof.
  induction s as [|c s IH]; cbn; [by exists "", ""|].
  destruct (p c) eqn:Hp; [|by exists "", (String c s)].
  destruct (star_run p s k) as [y|] eqn:E.
  - intros [= ->]. destruct (IH eq_refl) as (w & rest & -> & Hw & Hk).
    exists (String c w), rest. cbn. by rewrite Hp, Hw.
  - intros Hk. by exists "", (String c s).
Qed.

Lemma star_run_complete {X} p w rest (k : string → option X) :
  string_forall p w = true → is_Some (k rest) → is_Some (star_run p (w +:+ rest) k).
Proof.
  intros Hw Hk. induction w as [|c w IH].
  - rewrite string_app_nil_l. destruct rest as [|c rest]; cbn; [done|].
    destruct (p c); [|done]. destruct (star_run p rest k); [by eexists|done].
  - cbn in Hw. apply andb_prop in Hw as [Hc Hw]. rewrite string_app_cons. cbn.
    rewrite Hc. destruct (IH Hw) as [x ->]. by eexists.
Qed.

Lemma run_sound {X} r s caps (k : string → list string → option X) x :
  run r s caps k = Some x →
  ∃ w rest c, s = w +:+ rest ∧ matches r w rest c ∧ k rest (caps ++ c) = Some x.
Proof.
  revert s caps k. induction r as [|p|a IHa b IHb|a IHa b IHb|p|a IHa|]; intros s caps k; cbn.
  - intros H. exists "", s, []. rewrite app_nil_r. eauto using m_eps.
  - destruct s as [|c s]; [done|]. destruct (p c) eqn:Hp; [|done]. intros H.
    exists (chr c), s, []. rewrite app_nil_r. eauto using m_cls.
  - intros (w1 & r1 & c1 & -> & H1 & H2)%IHa.
    apply IHb in H2 as (w2 & rest & c2 & -> & H2 & Hk).
    exists (w1 +:+ w2), rest, (c1 ++ c2). rewrite <- string_app_assoc, app_assoc.
    eauto using m_seq.
  - destruct (run a s caps k) as [y|] eqn:E.
    + intros [= ->]. apply IHa in E as (w & rest & c & ? & ? & ?). eauto 8 using m_alt_l.
    + intros (w & rest & c & ? & ? & ?)%IHb. eauto 8 using m_alt_r.
  - intros (w & rest & -> & Hw & Hk)%star_run_sound.
    exists w, rest, []. rewrite app_nil_r. eauto using m_star.
  - intros (w & rest & c & -> & Hm & Hk)%IHa. rewrite consumed_take in Hk.
    exists w, rest, (c ++ [w]). rewrite app_assoc. eauto using m_grp.
  - destruct s; [|done]. intros H. exists "", "", []. rewrite app_nil_r. eauto using m_end.
Qed.

Lemma run_complete {X} r w rest c caps (k : string → list string → option X) :
  matches r w rest c → is_Some (k rest (caps ++ c)) → is_Some (run r (w +:+ rest) caps k).
Proof.
  intros Hm. revert caps k.
  induction Hm as [|p ch rest Hp|a b w1 w2 rest c1 c2 _ IH1 _ IH2|a b w rest c _ IH
                  |a b w rest c _ IH|p w rest Hw|a w rest c _ IH|]; intros caps k Hk; cbn;
    rewrite ?app_nil_r in Hk.
  - done.
  - unfold chr. rewrite string_app_cons, string_app_nil_l. by rewrite Hp.
  - rewrite <- string_app_assoc. apply IH1, IH2. by rewrite <- app_assoc.
  - destruct (IH caps k Hk) as [x ->]. by eexists.
  - destruct (run a _ caps k); [by eexists|]. by apply IH.
  - by apply star_run_complete.
  - apply IH. rewrite consumed_take, <- app_assoc. done.
  - done.
Qed.

Lemma match_here_Some r s m :
  match_here r s = Some m →
  ∃ w rest c, s = w +:+ rest ∧ matches r w rest c ∧ m = w :: c.
Proof.
  unfold match_here. intros (w & rest & c & -> & Hm & Hk)%run_sound.
  rewrite consumed_take in Hk. injection Hk as <-. eauto 6.
Qed.

Lemma match_here_None r w rest c :
  match_here r (w +:+ rest) = None → matches r w rest c → False.
Proof.
  unfold match_here. intros Hn Hm.
  destruct (run_complete r w rest c [] (λ rest' caps,
    Some (take_str (String.length (w +:+ rest) - String.length rest') (w +:+ rest) :: caps)) Hm)
    as [x Hx]; [by eexists|]. congruence.
Qed.

(** What [find] returns is a match, and no match starts before it. *)
Lemma find_Some r s m :
  find r s = Some m →
  ∃ pre w rest c, s = pre +:+ w +:+ rest ∧ matches r w rest c ∧ m = w :: c
    ∧ ∀ pre' w' rest' c', s = pre' +:+ w' +:+ rest' → matches r w' rest' c' →
        String.length pre ≤ String.length pre'.
Proof.
  induction s as [|x s IH]; cbn [find]; destruct (match_here r _) as [m'|] eqn:E.
  - intros [= ->]. apply match_here_Some in E as (w & rest & c & ? & ? & ?).
    exists "", w, rest, c. repeat split; [done..|]. cbn. lia.
  - done.
  - intros [= ->]. apply match_here_Some in E as (w & rest & c & ? & ? & ?).
    exists "", w, rest, c. repeat split; [done..|]. cbn. lia.
  - intros (pre & w & rest & c & -> & Hm & -> & Hleft)%IH.
    exists (String x pre), w, rest, c. repeat split; [done..|].
    intros [|y pre'] w' rest' c' Heq Hm'.
    + rewrite string_app_nil_l in Heq. rewrite Heq in E. by destruct (match_here_None _ _ _ _ E Hm').
    + rewrite string_app_cons in Heq. injection Heq as _ Heq. cbn. apply le_n_S. eauto.
Qed.

Lemma find_None r s pre w rest c :
  find r s = None → s = pre +:+ w +:+ rest → ¬ matches r w rest c.
Proof.
  revert s. induction pre as [|x pre IH]; intros s Hf -> Hm.
  - rewrite string_app_nil_l in Hf. destruct (w +:+ rest) eqn:Ew; cbn [find] in Hf;
      rewrite <- Ew in Hf; destruct (match_here r _) eqn:E; try done;
      by apply (match_here_None _ _ _ _ E Hm).
  - rewrite string_app_cons in Hf. cbn [find] in Hf.
    destruct (match_here r _); [done|]. by eapply IH.
Qed.

(** [MatchString] decides whether some substring is in the language. *)
Lemma MatchString_iff r s :
  MatchString r s = true ↔ ∃ pre w rest c, s = pre +:+ w +:+ rest ∧ matches r w rest c.
Proof.
  unfold MatchString. rewrite bool_decide_eq_true. split.
  - intros [m (pre & w & rest & c & ? & ? & _)%find_Some]. eauto 6.
  - intros (pre & w & rest & c & Hs & Hm). destruct (find r s) eqn:E; [by eexists|].
    by destruct (find_None r s pre w rest c E Hs).
Qed.

(** * Shapes of the expressions the sources use *)

Lemma matches_lit s r w rest c :
  matches (lit s r) w rest c ↔ ∃ w', w = s +:+ w' ∧ matches r w' rest c.
Proof.
  revert w. induction s as [|x s IH]; intros w; cbn [lit].
  - split; [intros H; by exists w|]. by intros (w' & -> & H).
  - split.
    + inversion 1 as [| |a b w1 w2 rest' c1 c2 H1 H2| | | | |]; subst.
      inversion H1 as [|p y rest' Hp| | | | | |]; subst. apply Ascii.eqb_eq in Hp as ->.
      apply IH in H2 as (w' & -> & H2). by exists w'.
    + intros (w' & -> & H). rewrite string_app_cons.
      change (String x (s +:+ w')) with (chr x +:+ (s +:+ w')). change c with ([] ++ c).
      apply m_seq; [apply m_cls, Ascii.eqb_refl|]. apply IH. eauto.
Qed.

Lemma matches_Grp r w rest c :
  matches (Grp r) w rest c ↔ ∃ c', c = c' ++ [w] ∧ matches r w rest c'.
Proof.
  split; [inversion 1; eauto|]. intros (c' & -> & H). by apply m_grp.
Qed.

Lemma matches_Seq a b w rest c :
  matches (Seq a b) w rest c ↔
  ∃ w1 w2 c1 c2, w = w1 +:+ w2 ∧ c = c1 ++ c2 ∧ matches a w1 (w2 +:+ rest) c1 ∧ matches b w2 rest c2.
Proof.
  split; [inversion 1; eauto 10|]. intros (w1 & w2 & c1 & c2 & -> & -> & ? & ?). by apply m_seq.
Qed.

Lemma matches_Star p w rest c :
  matches (Star p) w rest c ↔ c = [] ∧ string_forall p w = true.
Proof. split; [by inversion 1|]. intros [-> ?]. by apply m_star. Qed.

Lemma matches_Cls p w rest c :
  matches (Cls p) w rest c ↔ ∃ x, w = chr x ∧ c = [] ∧ p x = true.
Proof. split; [inversion 1; eauto|]. intros (x & -> & -> & ?). by apply m_cls. Qed.

Lemma matches_Plus p w rest c :
  matches (Plus p) w rest c ↔ c = [] ∧ w ≠ "" ∧ string_forall p w = true.
Proof.
  unfold Plus. rewrite matches_Seq. split.
  - intros (w1 & w2 & c1 & c2 & -> & -> & (x & -> & -> & Hx)%matches_Cls & (-> & Hw)%matches_Star).
    repeat split; [done|]. unfold chr. rewrite string_app_cons. cbn. by rewrite Hx.
  - destruct w as [|x w]; [by intros (_ & ? & _)|]. intros (-> & _ & [Hx Hw]%andb_prop).
    exists (chr x), w, [], []. rewrite matches_Cls, matches_Star. eauto 8.
Qed.

Lemma matches_Eps w rest c : matches Eps w rest c ↔ w = "" ∧ c = [].
Proof. split; [by inversion 1|]. intros [-> ->]. apply m_eps. Qed.

Lemma matches_Alt a b w rest c :
  matches (Alt a b) w rest c ↔ matches a w rest c ∨ matches b w rest c.
Proof. split; [inversion 1; eauto|]. intros [?|?]; eauto using m_alt_l, m_alt_r. Qed.

Lemma matches_Rep13 p w rest c :
  matches (Rep13 p) w rest c ↔
  c = [] ∧ string_forall p w = true ∧ 1 ≤ String.length w ≤ 3.
Proof.
  unfold Rep13, Opt. setoid_rewrite matches_Seq. split.
  - intros (w1 & w2 & c1 & c2 & -> & -> & (x & -> & -> & Hx)%matches_Cls & H).
    unfold chr. rewrite string_app_cons, string_app_nil_l.
    apply matches_Alt in H as [(w3 & w4 & c3 & c4 & -> & -> & (y & -> & -> & Hy)%matches_Cls & H)%matches_Seq
                              |[-> ->]%matches_Eps]; [|cbn; rewrite Hx; repeat split; lia].
    unfold chr. rewrite string_app_cons, string_app_nil_l.
    apply matches_Alt in H as [(z & -> & -> & Hz)%matches_Cls|[-> ->]%matches_Eps];
      cbn; rewrite Hx, Hy, ?Hz; repeat split; lia.
  - intros (-> & Hw & Hl). destruct w as [|x w]; [cbn in Hl; lia|]. cbn in Hw, Hl.
    apply andb_prop in Hw as [Hx Hw]. exists (chr x), w, [], []. rewrite matches_Cls, matches_Alt.
    repeat split; eauto. destruct w as [|y w]; [right; by apply matches_Eps|left].
    cbn in Hw, Hl. apply andb_prop in Hw as [Hy Hw].
    apply matches_Seq. exists (chr y), w, [], []. rewrite matches_Cls, matches_Alt.
    repeat split; eauto. destruct w as [|z w]; [right; by apply matches_Eps|left].
    cbn in Hw, Hl. destruct w; [|cbn in Hl; lia].
    apply andb_prop in Hw as [Hz _]. apply matches_Cls. eauto.
Qed.

(** * Evaluating a match *)

Lemma find_here r s m : match_here r s = Some m → find r s = Some m.
Proof. intros H. destruct s; cbn [find]; by rewrite H. Qed.

(** An expression that starts with a byte the text does not have never matches. *)
Lemma find_lit_absent x s r t : has_char x t = false → find (lit (String x s) r) t = None.
Proof.
  intros Hx. destruct (find _ t) as [m|] eqn:E; [|done].
  apply find_Some in E as (pre & w & rest & c & -> & Hm & _).
  apply matches_lit in Hm as (w' & -> & _). exfalso. revert Hx.
  rewrite !has_char_app. cbn. rewrite Ascii.eqb_refl, orb_true_r. done.
Qed.

Lemma run_lit {X} s r t caps (k : string → list string → option X) :
  run (lit s r) (s +:+ t) caps k = run r t caps k.
Proof.
  induction s as [|x s IH]; [done|]. cbn [lit run]. rewrite string_app_cons.
  by rewrite Ascii.eqb_refl.
Qed.

(** The text does not start with a byte of the class. *)
Definition stops (p : ascii → bool) (s : string) : Prop :=
  match s with EmptyString => True | String c _ => p c = false end.

(** A greedy repetition takes the whole run of the class if the rest matches. *)
Lemma star_run_max {X} p w rest (k : string → option X) x :
  string_forall p w = true → stops p rest → k rest = Some x →
  star_run p (w +:+ rest) k = Some x.
Proof.
  intros Hw Hr Hk. induction w as [|c w IH].
  - rewrite string_app_nil_l. destruct rest as [|c rest]; cbn in *; [done|]. by rewrite Hr.
  - cbn in Hw. apply andb_prop in Hw as [Hc Hw]. rewrite string_app_cons. cbn.
    by rewrite Hc, IH.
Qed.

(** [<literal>([class]+)] at the start of a line captures the run. *)
Lemma find_lit_run s p d rest :
  d ≠ "" → string_forall p d = true → stops p rest →
  find (lit s (Grp (Plus p))) (s +:+ d +:+ rest) = Some [s +:+ d; d].
Proof.
  intros Hne Hd Hr. apply find_here. unfold match_here. rewrite run_lit.
  destruct d as [|c d]; [done|]. cbn in Hd. apply andb_prop in Hd as [Hc Hd].
  rewrite string_app_cons. cbn [run Plus]. rewrite Hc.
  erewrite star_run_max; [done..|]. cbv beta.
  rewrite <- string_app_cons, string_app_assoc, !consumed_take. done.
Qed.
