(* ===== verification/GoPath.v ===== *)
(** Go's [path/filepath] on Unix: [Clean], [Join], [Dir], [Base] and [IsAbs]. *)
From S2P Require Import Prelude GoMonad GoStrings.

Definition slash : string := "/".

(** One element of the path against the elements kept so far, last first. *)
Definition clean_step (rooted : bool) (stack : list string) (elem : string) : list string :=
  if String.eqb elem "" || String.eqb elem "." then stack
  else if String.eqb elem ".." then
    match stack with
    | top :: below =>
        if String.eqb top ".." then (if rooted then stack else ".." :: stack) else below
    | [] => if rooted then [] else [".."]
    end
  else elem :: stack.

Definition clean_elems (rooted : bool) (elems : list string) : list string :=
  rev (foldl (clean_step rooted) [] elems).

Definition IsAbs (path : string) : bool := HasPrefix path "/".

Definition Clean (path : string) : string :=
  let rooted := IsAbs path in
  let out := Join (clean_elems rooted (Split path slash)) slash in
  if rooted then slash +:+ out else if String.eqb out "" then "." else out.

(** [filepath.Join(a, b)] *)
Definition PathJoin (a b : string) : string :=
  if negb (String.eqb a "") then Clean (a +:+ slash +:+ b)
  else if negb (String.eqb b "") then Clean b
  else "".

(** The path up to and including its last slash, and what follows it. *)
Fixpoint dir_part (path : string) : string :=
  match path with
  | EmptyString => ""
  | String c path' =>
      match dir_part path' with
      | EmptyString => if Ascii.eqb "/" c then slash else ""
      | d => String c d
      end
  end.

Definition file_part (path : string) : string := drop_str (String.length (dir_part path)) path.

Definition Dir (path : string) : string := Clean (dir_part path).

Fixpoint trim_left_slash (s : string) : string :=
  match s with
  | String c s' => if Ascii.eqb "/" c then trim_left_slash s' else s
  | EmptyString => ""
  end.

Definition Base (path : string) : string :=
  if String.eqb path "" then "."
  else
    let file := file_part (rev_str (trim_left_slash (rev_str path "")) "") in
    if String.eqb file "" then "/" else file.

(** * Samples *)

Example Clean_samples :
  map Clean [""; "/"; "//a/./b//c/"; "/../a"; "a/../.."; "../a/.."; "/a/b/../../c"]
  = ["."; "/"; "/a/b/c"; "/a"; ".."; ".."; "/c"].
Proof. vm_compute. reflexivity. Qed.

Example Base_samples :
  map Base [""; "/"; "a"; "/a/b"; "/a/b//"] = ["."; "/"; "a"; "b"; "b"].
Proof. vm_compute. reflexivity. Qed.

Example Dir_samples :
  map Dir [""; "/"; "a"; "/a/b"; "/a/b/"; "/tmp/hostfile"] = ["."; "/"; "."; "/a"; "/a/b"; "/tmp"].
Proof. vm_compute. reflexivity. Qed.

(** * Clean paths *)

(** A path element that [Clean] keeps. *)
Definition normal_elem (e : string) : Prop :=
  e ≠ "" ∧ e ≠ "." ∧ e ≠ ".." ∧ has_char "/" e = false.

Lemma clean_step_normal rooted stack e :
  normal_elem e → clean_step rooted stack e = e :: stack.
Proof.
  intros (H1%String.eqb_neq & H2%String.eqb_neq & H3%String.eqb_neq & _). unfold clean_step.
  by rewrite H1, H2, H3.
Qed.

Lemma clean_fold_normal rooted stack elems :
  Forall normal_elem elems → foldl (clean_step rooted) stack elems = rev elems ++ stack.
Proof.
  intros H. revert stack. induction H as [|e elems He _ IH]; intros stack; cbn; [done|].
  rewrite clean_step_normal, IH by done. by rewrite <- app_assoc.
Qed.

Lemma normal_noslash elems :
  Forall normal_elem elems → Forall (λ x, has_char "/" x = false) elems.
Proof. induction 1 as [|x l (_ & _ & _ & ?) _ IH]; by constructor. Qed.

Lemma Split_rooted elems :
  elems ≠ [] → Forall normal_elem elems →
  Split (slash +:+ Join elems slash) slash = "" :: elems.
Proof.
  intros Hne H. rewrite <- (Split_Join "/" ("" :: elems)); [|done|constructor; [done|by apply normal_noslash]].
  by rewrite Join_cons.
Qed.

(** A rooted path of normal elements is clean. *)
Lemma Clean_rooted elems :
  elems ≠ [] → Forall normal_elem elems →
  Clean (slash +:+ Join elems slash) = slash +:+ Join elems slash.
Proof.
  intros Hne H. unfold Clean. rewrite Split_rooted by done. unfold clean_elems.
  cbn [foldl]. change (clean_step (IsAbs (slash +:+ Join elems slash)) [] "") with (@nil string).
  rewrite clean_fold_normal, app_nil_r, rev_involutive by done. done.
Qed.

Lemma dir_part_noslash s : has_char "/" s = false → dir_part s = "".
Proof.
  induction s as [|c s IH]; cbn [has_char dir_part]; [done|].
  intros [Hc Hs]%orb_false_elim. by rewrite IH, Hc.
Qed.

Lemma dir_part_slash a b : has_char "/" b = false → dir_part (a +:+ slash +:+ b) = a +:+ slash.
Proof.
  intros Hb. induction a as [|c a IH].
  - rewrite !string_app_nil_l. change (slash +:+ b) with (String "/" b). cbn [dir_part].
    by rewrite dir_part_noslash.
  - rewrite !string_app_cons. cbn [dir_part]. rewrite IH. by destruct a.
Qed.

Lemma Join_snoc elems e sep :
  elems ≠ [] → Join (elems ++ [e]) sep = Join elems sep +:+ sep +:+ e.
Proof.
  induction elems as [|x elems IH]; [done|]. intros _.
  destruct elems as [|y elems]; [done|]. cbn [app] in *.
  rewrite (Join_cons x (y :: elems ++ [e])), (Join_cons x (y :: elems)), IH by done.
  by rewrite <- !string_app_assoc.
Qed.

(** [Dir] of a clean rooted path drops the last element. *)
Lemma Dir_rooted elems e :
  elems ≠ [] → Forall normal_elem elems → normal_elem e →
  Dir (slash +:+ Join (elems ++ [e]) slash) = slash +:+ Join elems slash.
Proof.
  intros Hne H He. unfold Dir. rewrite Join_snoc, string_app_assoc by done.
  rewrite dir_part_slash by (by destruct He as (_ & _ & _ & ?)).
  unfold Clean.
  assert (Split ((slash +:+ Join elems slash) +:+ slash) slash = "" :: elems ++ [""]) as ->.
  { rewrite <- (Split_Join "/" ("" :: elems ++ [""])).
    - change (chr "/") with slash. rewrite Join_cons, Join_snoc, string_app_nil_r by (done || by destruct elems).
      by rewrite <- !string_app_assoc.
    - done.
    - constructor; [done|]. apply Forall_app. split; [by apply normal_noslash|by repeat constructor]. }
  change (IsAbs ((slash +:+ Join elems slash) +:+ slash)) with true. unfold clean_elems. cbn [foldl].
  change (clean_step true [] "") with (@nil string).
  rewrite foldl_app, (clean_fold_normal true [] elems), app_nil_r by done. cbn [foldl].
  change (clean_step true (rev elems) "") with (rev elems). by rewrite rev_involutive.
Qed.
