(* ===== verification/Api.v ===== *)
(** The API objects the components read and write.

    Records follow the Go types of the NNF, DWS and core APIs, restricted to
    the fields the sources use.  A pointer is an [option] (nil is [None]); a
    [metav1.MicroTime] is a [Z] of microseconds with 0 for the zero time. *)
From S2P Require Import Prelude GoMonad GoStrings.

(** * Errors *)

Section Errors.
Definition type_name (t : ResourceErrorType) : string :=
  match t with TypeInternal => "Internal" | TypeWLM => "WLM" | TypeUser => "User" end.

(** [(e *ResourceErrorInfo) Error()] *)
Definition ResourceErrorInfo_Error (e : ResourceErrorInfo) : string :=
  let message := if String.eqb (DebugMessage e) "" then UserMessage e else DebugMessage e in
  ToLower (type_name (Type_ e)) +:+ " error: " +:+ message.

(** [err.Error()] *)
Fixpoint Error (e : error) : string :=
  match e with
  | ErrorString msg | WrapError msg _ | StatusError _ msg => msg
  | InvalidError err => Error err
  | ResourceErr info => ResourceErrorInfo_Error info
  end.

(** [newInvalidError(format, ...)]: the text is formatted, nothing is wrapped. *)
Definition newInvalidError (msg : string) : error := InvalidError (ErrorString msg).

(** [fmt.Errorf("<pre>%w<post>", err)] *)
Definition Errorf_w (pre : string) (e : error) (post : string) : error :=
  WrapError (pre +:+ Error e +:+ post) e.

(** [apierrors.ReasonForError], through wrapped errors. *)
Fixpoint ReasonForError (e : error) : option StatusReason :=
  match e with
  | StatusError r _ => Some r
  | WrapError _ inner => ReasonForError inner
  | InvalidError err => ReasonForError err
  | ErrorString _ | ResourceErr _ => None
  end.

Definition IsNotFound (e : error) : bool := bool_decide (ReasonForError e = Some NotFound).
Definition IsConflict (e : error) : bool := bool_decide (ReasonForError e = Some Conflict).

(** [client.IgnoreNotFound] *)
Definition IgnoreNotFound (e : error) : option error :=
  if IsNotFound e then None else Some e.

(** [NewResourceError("msg")] *)
Definition NewResourceError (msg : string) : ResourceErrorInfo :=
  {| UserMessage := ""; DebugMessage := msg; Type_ := TypeInternal; Severity := SeverityMinor |}.

Definition WithUserMessage (msg : string) (e : ResourceErrorInfo) : ResourceErrorInfo :=
  if String.eqb (UserMessage e) ""
  then {| UserMessage := msg; DebugMessage := DebugMessage e;
          Type_ := Type_ e; Severity := Severity e |}
  else e.

Definition WithError (err : error) (e : ResourceErrorInfo) : ResourceErrorInfo :=
  let debugMessageList := if String.eqb (DebugMessage e) "" then [] else [DebugMessage e] in
  match err with
  | ResourceErr child =>
      let childMessage :=
        if String.eqb (DebugMessage child) "" then UserMessage child else DebugMessage child in
      {| UserMessage := UserMessage child;
         DebugMessage := Join (debugMessageList ++ [childMessage]) ": ";
         Type_ := Type_ child; Severity := Severity child |}
  | _ =>
      {| UserMessage := UserMessage e;
         DebugMessage := Join (debugMessageList ++ [Error err]) ": ";
         Type_ := Type_ e; Severity := Severity e |}
  end.

Definition set_Severity (s : ResourceErrorSeverity) (e : ResourceErrorInfo) : ResourceErrorInfo :=
  {| UserMessage := UserMessage e; DebugMessage := DebugMessage e; Type_ := Type_ e; Severity := s |}.

Definition WithFatal (e : ResourceErrorInfo) : ResourceErrorInfo := set_Severity SeverityFatal e.

Definition WithMajor (e : ResourceErrorInfo) : ResourceErrorInfo :=
  match Severity e with
  | SeverityFatal => e
  | _ => set_Severity SeverityMajor e
  end.

(** [NewResourceError(msg).WithError(err).WithMajor()] and [.WithFatal()] *)
Definition major_error (msg : string) (err : error) : error :=
  ResourceErr (WithMajor (WithError err (NewResourceError msg))).
Definition fatal_error (msg : string) (err : error) : error :=
  ResourceErr (WithFatal (WithError err (NewResourceError msg))).
End Errors.

(** * Metadata *)

Record ObjectReference := { Kind : string; RefName : string; RefNamespace : string }.

#[export] Instance ObjectReference_eq_dec : EqDecision ObjectReference.
Proof. solve_decision. Defined.

(** [types.NamespacedName], namespace first. *)
Abbreviation NamespacedName := (string * string)%type.

Record ObjectMeta := {
  Name : string;
  Namespace : string;
  GenerateName : string;
  Labels : gmap string string;
  Finalizers : list string;
  DeletionTimestamp : option Z;
  ResourceVersion : N
}.

(** [(t *MicroTime) IsZero()]: nil and the zero time *)
Definition IsZero (t : option Z) : bool :=
  match t with None => true | Some z => (z =? 0)%Z end.

Definition ContainsFinalizer (m : ObjectMeta) (f : string) : bool :=
  bool_decide (f ∈ Finalizers m).

Definition set_Finalizers (fs : list string) (m : ObjectMeta) : ObjectMeta :=
  {| Name := Name m; Namespace := Namespace m; GenerateName := GenerateName m;
     Labels := Labels m; Finalizers := fs; DeletionTimestamp := DeletionTimestamp m;
     ResourceVersion := ResourceVersion m |}.

Definition AddFinalizer (f : string) (m : ObjectMeta) : ObjectMeta :=
  if ContainsFinalizer m f then m else set_Finalizers (Finalizers m ++ [f]) m.

Definition RemoveFinalizer (f : string) (m : ObjectMeta) : ObjectMeta :=
  set_Finalizers (filter (λ e, e ≠ f) (Finalizers m)) m.

(** * NnfDataMovement *)

Record NnfDataMovementSpecSourceDestination := {
  Path : string;
  StorageReference : ObjectReference
}.

Record NnfDataMovementConfig := {
  Dryrun : bool;
  MpirunOptions : string;
  DcpOptions : string;
  LogStdout : bool;
  StoreStdout : bool;
  Slots : option Z;
  MaxSlots : option Z
}.

Record NnfDataMovementSpec := {
  Source : option NnfDataMovementSpecSourceDestination;
  Destination : option NnfDataMovementSpecSourceDestination;
  UserId : Z;
  GroupId : Z;
  Cancel : bool;
  ProfileReference : ObjectReference;
  UserConfig : option NnfDataMovementConfig
}.

Record NnfDataMovementCommandStatus := {
  Command : string;
  ElapsedTime : Z;
  ProgressPercentage : option Z;
  LastMessage : string;
  LastMessageTime : Z;
  Seconds : string;
  Items : option Z;
  Directories : option Z;
  Files : option Z;
  Links : option Z;
  Data : string;
  Rate : string
}.

Definition empty_CommandStatus : NnfDataMovementCommandStatus :=
  {| Command := ""; ElapsedTime := 0; ProgressPercentage := None; LastMessage := "";
     LastMessageTime := 0; Seconds := ""; Items := None; Directories := None; Files := None;
     Links := None; Data := ""; Rate := "" |}.

Record NnfDataMovementStatus := {
  State : string;
  Status : string;
  Message : string;
  StartTime : option Z;
  EndTime : option Z;
  Restarts : Z;
  CommandStatus : option NnfDataMovementCommandStatus;
  ResourceError : option ResourceErrorInfo
}.

Definition empty_Status : NnfDataMovementStatus :=
  {| State := ""; Status := ""; Message := ""; StartTime := None; EndTime := None;
     Restarts := 0; CommandStatus := None; ResourceError := None |}.

Definition DataMovementConditionTypeStarting : string := "Starting".
Definition DataMovementConditionTypeRunning : string := "Running".
Definition DataMovementConditionTypeFinished : string := "Finished".
Definition DataMovementConditionReasonSuccess : string := "Success".
Definition DataMovementConditionReasonFailed : string := "Failed".
Definition DataMovementConditionReasonInvalid : string := "Invalid".
Definition DataMovementConditionReasonCancelled : string := "Cancelled".
Definition DataMovementNamespace : string := "nnf-dm-system".
Definition DataMovementWorkerLabel : string := "dm.cray.hpe.com/worker".

Record NnfDataMovement := {
  dm_Meta : ObjectMeta;
  dm_Spec : NnfDataMovementSpec;
  dm_Status : NnfDataMovementStatus
}.

Definition dm_key (dm : NnfDataMovement) : NamespacedName :=
  (Namespace (dm_Meta dm), Name (dm_Meta dm)).

Section Setters.
Definition set_meta (m : ObjectMeta) (dm : NnfDataMovement) : NnfDataMovement :=
  {| dm_Meta := m; dm_Spec := dm_Spec dm; dm_Status := dm_Status dm |}.

Definition set_status (s : NnfDataMovementStatus) (dm : NnfDataMovement) : NnfDataMovement :=
  {| dm_Meta := dm_Meta dm; dm_Spec := dm_Spec dm; dm_Status := s |}.

(** [dm.Spec.Destination.Path = p] *)
Definition set_DestinationPath (p : string) (dm : NnfDataMovement) : NnfDataMovement :=
  let sp := dm_Spec dm in
  {| dm_Meta := dm_Meta dm;
     dm_Spec := {| Source := Source sp;
                   Destination := (λ d, {| Path := p; StorageReference := StorageReference d |})
                                    <$> Destination sp;
                   UserId := UserId sp; GroupId := GroupId sp; Cancel := Cancel sp;
                   ProfileReference := ProfileReference sp; UserConfig := UserConfig sp |};
     dm_Status := dm_Status dm |}.

Definition set_state_status (st re : string) (s : NnfDataMovementStatus) : NnfDataMovementStatus :=
  {| State := st; Status := re; Message := Message s; StartTime := StartTime s;
     EndTime := EndTime s; Restarts := Restarts s; CommandStatus := CommandStatus s;
     ResourceError := ResourceError s |}.

Definition set_message (m : string) (s : NnfDataMovementStatus) : NnfDataMovementStatus :=
  {| State := State s; Status := Status s; Message := m; StartTime := StartTime s;
     EndTime := EndTime s; Restarts := Restarts s; CommandStatus := CommandStatus s;
     ResourceError := ResourceError s |}.

Definition set_times (b e : option Z) (s : NnfDataMovementStatus) : NnfDataMovementStatus :=
  {| State := State s; Status := Status s; Message := Message s; StartTime := b;
     EndTime := e; Restarts := Restarts s; CommandStatus := CommandStatus s;
     ResourceError := ResourceError s |}.

Definition set_restarts (n : Z) (s : NnfDataMovementStatus) : NnfDataMovementStatus :=
  {| State := State s; Status := Status s; Message := Message s; StartTime := StartTime s;
     EndTime := EndTime s; Restarts := n; CommandStatus := CommandStatus s;
     ResourceError := ResourceError s |}.

Definition set_command_status (c : option NnfDataMovementCommandStatus)
    (s : NnfDataMovementStatus) : NnfDataMovementStatus :=
  {| State := State s; Status := Status s; Message := Message s; StartTime := StartTime s;
     EndTime := EndTime s; Restarts := Restarts s; CommandStatus := c;
     ResourceError := ResourceError s |}.

(** [SetResourceError(err)] for a non-nil error *)
Definition SetResourceError (err : error) (s : NnfDataMovementStatus) : NnfDataMovementStatus :=
  {| State := State s; Status := Status s; Message := Message s; StartTime := StartTime s;
     EndTime := EndTime s; Restarts := Restarts s; CommandStatus := CommandStatus s;
     ResourceError := Some (WithError err (NewResourceError "")) |}.
End Setters.

(** * Profiles, storage and pods *)

Record NnfDataMovementProfileData := {
  Default : bool;
  p_Slots : Z;
  p_MaxSlots : Z;
  p_Command : string;
  p_LogStdout : bool;
  p_StoreStdout : bool;
  ProgressIntervalSeconds : Z;
  CreateDestDir : bool;
  StatCommand : string;
  MkdirCommand : string;
  SetprivCommand : string
}.

Record NnfDataMovementProfile := {
  p_Name : string;
  p_Namespace : string;
  p_Data : NnfDataMovementProfileData
}.

Record NnfStorageAllocationSetSpec := { TargetType : string; Nodes : list string }.

Record NnfStorage := {
  st_FileSystemType : string;
  AllocationSets : list NnfStorageAllocationSetSpec
}.

Record NnfNodeStorage := { ns_FileSystemType : string }.

Record Pod := {
  pod_Name : string;
  pod_Namespace : string;
  pod_Labels : gmap string string;
  NodeName : string;
  PodIP : string
}.
