(* ===== verification/Dcp.v ===== *)
(** Scraping the output of [dcp]: [ParseDcpProgress], [ParseDcpStats] and
    [TrimDcpProgressFromOutput] of internal/controller/helpers. *)
From S2P Require Import Prelude GoMonad GoStrings GoRegexp Api.

(** [Copied.+\(([[:digit:]]{1,3})%\)] *)
Definition progressRe : re :=
  lit "Copied" (Seq (Plus dot) (lit "(" (Seq (Grp (Rep13 is_digit)) (lit "%)" Eps)))).

Definition digit_or_dot (c : ascii) : bool := is_digit c || Ascii.eqb "." c.

Definition dcpStatsRegexes : list (string * re) :=
  [ ("seconds", lit "Seconds: " (Grp (Plus digit_or_dot)));
    ("items", lit "Items: " (Grp (Plus is_digit)));
    ("dirs", lit "Directories: " (Grp (Plus is_digit)));
    ("files", lit "Files: " (Grp (Plus is_digit)));
    ("links", lit "Files: " (Grp (Plus is_digit)));
    ("data", lit "Data: " (Grp (Star dot)));
    ("rate", lit "Rate: " (Grp (Star dot))) ].

(** * Setters of the command status *)

Definition set_ProgressPercentage (p : option Z) (c : NnfDataMovementCommandStatus) :=
  {| Command := Command c; ElapsedTime := ElapsedTime c; ProgressPercentage := p;
     LastMessage := LastMessage c; LastMessageTime := LastMessageTime c; Seconds := Seconds c;
     Items := Items c; Directories := Directories c; Files := Files c; Links := Links c;
     Data := Data c; Rate := Rate c |}.

(** The statistics: seconds, items, directories, files, links, data and rate. *)
Definition set_stats (se : string) (it di fi li : option Z) (da ra : string)
    (c : NnfDataMovementCommandStatus) :=
  {| Command := Command c; ElapsedTime := ElapsedTime c;
     ProgressPercentage := ProgressPercentage c;
     LastMessage := LastMessage c; LastMessageTime := LastMessageTime c; Seconds := se;
     Items := it; Directories := di; Files := fi; Links := li; Data := da; Rate := ra |}.

(** * Operations *)

(** [match[1]]: out of range panics. *)
Definition group1 (m : list string) : outcome string :=
  match m !! 1 with Some g => Ret g | None => Panic "index out of range" end.

Definition wrap_outcome {A} (msg : string) (o : outcome A) : outcome A :=
  match o with Fail e => Fail (Errorf_w msg e "") | r => r end.

Definition ParseDcpProgress (line : string) (cmdStatus : NnfDataMovementCommandStatus)
    : outcome NnfDataMovementCommandStatus :=
  match FindStringSubmatch progressRe line with
  | [] => Ret cmdStatus
  | m =>
      g ← group1 m;
      progress ← wrap_outcome "failed to parse progress output: " (Atoi g);
      Ret (set_ProgressPercentage (Some (to_int32 progress)) cmdStatus)
  end.

(** The [switch s.name] of [ParseDcpStats]: [None] is the default case. *)
Definition store_stat (name : string) (m : list string) (c : NnfDataMovementCommandStatus)
    : outcome (option NnfDataMovementCommandStatus) :=
  let number msg (store : Z → NnfDataMovementCommandStatus) :=
    g ← group1 m;
    n ← wrap_outcome msg (Atoi g);
    Ret (Some (store (to_int32 n))) in
  let text (store : string → NnfDataMovementCommandStatus) :=
    g ← group1 m; Ret (Some (store g)) in
  if String.eqb name "seconds" then
    text (λ g, set_stats g (Items c) (Directories c) (Files c) (Links c) (Data c) (Rate c) c)
  else if String.eqb name "items" then
    number "failed to parse Items output: "
      (λ n, set_stats (Seconds c) (Some n) (Directories c) (Files c) (Links c) (Data c) (Rate c) c)
  else if String.eqb name "dirs" then
    number "failed to parse Directories output: "
      (λ n, set_stats (Seconds c) (Items c) (Some n) (Files c) (Links c) (Data c) (Rate c) c)
  else if String.eqb name "files" then
    number "failed to parse Directories output: "
      (λ n, set_stats (Seconds c) (Items c) (Directories c) (Some n) (Links c) (Data c) (Rate c) c)
  else if String.eqb name "links" then
    number "failed to parse Links output: "
      (λ n, set_stats (Seconds c) (Items c) (Directories c) (Files c) (Some n) (Data c) (Rate c) c)
  else if String.eqb name "data" then
    text (λ g, set_stats (Seconds c) (Items c) (Directories c) (Files c) (Links c) g (Rate c) c)
  else if String.eqb name "rate" then
    text (λ g, set_stats (Seconds c) (Items c) (Directories c) (Files c) (Links c) (Data c) g c)
  else Ret None.

(** The loop over the regexes: the first that matches decides. *)
Fixpoint stats_loop (rs : list (string * re)) (line : string) (c : NnfDataMovementCommandStatus)
    : outcome NnfDataMovementCommandStatus :=
  match rs with
  | [] => Ret c
  | (name, regex) :: rs' =>
      match FindStringSubmatch regex line with
      | [] => stats_loop rs' line c
      | m =>
          stored ← store_stat name m c;
          match stored with Some c' => Ret c' | None => stats_loop rs' line c end
      end
  end.

Definition ParseDcpStats (line : string) (cmdStatus : NnfDataMovementCommandStatus)
    : outcome NnfDataMovementCommandStatus :=
  stats_loop dcpStatsRegexes line cmdStatus.

(** First loop of [TrimDcpProgressFromOutput]: (found, first, last). *)
Fixpoint scan_progress (i : Z) (lines : list string) (acc : bool * Z * Z) : bool * Z * Z :=
  match lines with
  | [] => acc
  | line :: lines' =>
      let '(found, first, last) := acc in
      scan_progress (i + 1) lines'
        (if MatchString progressRe line
         then (true, (if found then first else i), i)
         else acc)
  end.

Definition snip : list string := ["..."; "<snipped dcp progress output>"; "..."].

(** Second loop: copy the lines outside the range, snip the range once. *)
Fixpoint copy_lines (first last i : Z) (insertedSnip : bool) (lines : list string) : list string :=
  match lines with
  | [] => []
  | line :: lines' =>
      if (i =? first)%Z || (i =? last)%Z
      then line :: copy_lines first last (i + 1) insertedSnip lines'
      else if (first <? i)%Z && (i <? last)%Z
      then (if insertedSnip then [] else snip) ++ copy_lines first last (i + 1) true lines'
      else line :: copy_lines first last (i + 1) insertedSnip lines'
  end.

Definition TrimDcpProgressFromOutput (output : string) : string :=
  let threshold := 2%Z in
  let lines := Split output nl in
  let '(progressFound, first, last) := scan_progress 0 lines (false, (-1)%Z, (-1)%Z) in
  if negb progressFound || (first =? -1)%Z || (last =? -1)%Z || (last - first <=? threshold - 1)%Z
  then output
  else Join (copy_lines first last 0 false lines) nl.


(** [ProgressCollectionEnabled(interval)], the interval in nanoseconds. *)
Definition ProgressCollectionEnabled (collectInterval : Z) : bool :=
  (1000000000 <=? collectInterval)%Z.

(** * The samples of the unit tests and of the comments *)

Example progress_sample :
  ParseDcpProgress "Copied 1.000 GiB (10%) in 1.001 secs (4.174 GiB/s) 9 secs left ..." empty_CommandStatus
  = Ret (set_ProgressPercentage (Some 10%Z) empty_CommandStatus).
Proof. vm_compute. reflexivity. Qed.

Example stats_sample :
  ParseDcpStats "Seconds: 171.458" empty_CommandStatus
  = Ret (set_stats "171.458" None None None None "" "" empty_CommandStatus).
Proof. vm_compute. reflexivity. Qed.

(** * Trimming *)

Definition is_progress (line : string) : bool := MatchString progressRe line.
Definition no_progress (lines : list string) : Prop := Forall (λ l, is_progress l = false) lines.

Lemma progress_cases lines :
  no_progress lines
  ∨ (∃ a x b, lines = a ++ x :: b ∧ no_progress a ∧ is_progress x = true ∧ no_progress b)
  ∨ (∃ a x m y b, lines = a ++ x :: m ++ y :: b ∧ no_progress a ∧ is_progress x = true
       ∧ is_progress y = true ∧ no_progress b).
Proof.
  induction lines as [|l lines IH]; [left; constructor|].
  destruct (is_progress l) eqn:El.
  - right. destruct IH as [H|[(a & x & b & -> & Ha & Hx & Hb)|(a & x & m & y & b & -> & Ha & Hx & Hy & Hb)]].
    + left. exists [], l, lines. repeat split; auto. constructor.
    + right. exists [], l, a, x, b. repeat split; auto. constructor.
    + right. exists [], l, (a ++ x :: m), y, b. rewrite <- app_assoc. repeat split; auto. constructor.
  - destruct IH as [H|[(a & x & b & -> & Ha & Hx & Hb)|(a & x & m & y & b & -> & Ha & Hx & Hy & Hb)]].
    + left. by constructor.
    + right; left. exists (l :: a), x, b. repeat split; auto. by constructor.
    + right; right. exists (l :: a), x, m, y, b. repeat split; auto. by constructor.
Qed.

Lemma scan_app i a b acc :
  scan_progress i (a ++ b) acc = scan_progress (i + Z.of_nat (length a)) b (scan_progress i a acc).
Proof.
  revert i acc. induction a as [|x a IH]; intros i [[found f] l]; cbn [app scan_progress length].
  - f_equal. lia.
  - rewrite IH. f_equal; lia.
Qed.

Lemma scan_no_progress i a acc : no_progress a → scan_progress i a acc = acc.
Proof.
  intros Ha. revert i acc. induction Ha as [|x a Hx _ IH]; intros i [[found f] l];
    cbn [scan_progress]; [done|].
  unfold is_progress in Hx. by rewrite Hx, IH.
Qed.

Lemma scan_found i a f l : ∃ l', scan_progress i a (true, f, l) = (true, f, l').
Proof.
  revert i l. induction a as [|x a IH]; intros i l; cbn [scan_progress]; [by eexists|].
  destruct (MatchString progressRe x); apply IH.
Qed.

Lemma scan_one a x b :
  no_progress a → is_progress x = true → no_progress b →
  scan_progress 0 (a ++ x :: b) (false, (-1)%Z, (-1)%Z)
  = (true, Z.of_nat (length a), Z.of_nat (length a)).
Proof.
  intros Ha Hx Hb. rewrite scan_app, (scan_no_progress 0 a) by done. cbn [scan_progress].
  unfold is_progress in Hx. rewrite Hx, scan_no_progress by done. repeat f_equal; lia.
Qed.

Lemma scan_two a x m y b :
  no_progress a → is_progress x = true → is_progress y = true → no_progress b →
  scan_progress 0 (a ++ x :: m ++ y :: b) (false, (-1)%Z, (-1)%Z)
  = (true, Z.of_nat (length a), Z.of_nat (length a + 1 + length m)).
Proof.
  intros Ha Hx Hy Hb. rewrite scan_app, (scan_no_progress 0 a) by done. cbn [scan_progress].
  unfold is_progress in Hx, Hy. rewrite Hx, scan_app.
  destruct (scan_found (0 + Z.of_nat (length a) + 1) m (0 + Z.of_nat (length a))
              (0 + Z.of_nat (length a))) as [l' ->].
  cbn [scan_progress]. rewrite Hy, scan_no_progress by done. repeat f_equal; lia.
Qed.

Lemma copy_before first last i ins a r :
  (i + Z.of_nat (length a) ≤ first)%Z → (first < last)%Z →
  copy_lines first last i ins (a ++ r)
  = a ++ copy_lines first last (i + Z.of_nat (length a)) ins r.
Proof.
  revert i. induction a as [|x a IH]; intros i Hi Hfl; cbn [app length copy_lines] in *.
  - f_equal. lia.
  - replace ((i =? first)%Z || (i =? last)%Z) with false by lia.
    replace ((first <? i)%Z && (i <? last)%Z) with false by lia.
    rewrite IH by lia. f_equal. do 2 f_equal. lia.
Qed.

Lemma copy_after first last i ins b :
  (last < i)%Z → (first < last)%Z → copy_lines first last i ins b = b.
Proof.
  revert i. induction b as [|x b IH]; intros i Hi Hfl; cbn [copy_lines]; [done|].
  replace ((i =? first)%Z || (i =? last)%Z) with false by lia.
  replace ((first <? i)%Z && (i <? last)%Z) with false by lia.
  rewrite IH by lia. done.
Qed.

Lemma copy_range_inserted first last i m r :
  (first < i)%Z → (i + Z.of_nat (length m) ≤ last)%Z →
  copy_lines first last i true (m ++ r)
  = copy_lines first last (i + Z.of_nat (length m)) true r.
Proof.
  revert i. induction m as [|x m IH]; intros i Hi Hl; cbn [app length copy_lines] in *.
  - f_equal. lia.
  - replace ((i =? first)%Z || (i =? last)%Z) with false by lia.
    replace ((first <? i)%Z && (i <? last)%Z) with true by lia.
    rewrite IH by lia. cbn [app]. f_equal. lia.
Qed.

Lemma copy_edge first last i ins x r :
  i = first ∨ i = last →
  copy_lines first last i ins (x :: r) = x :: copy_lines first last (i + 1) ins r.
Proof. intros H. cbn [copy_lines]. by replace ((i =? first)%Z || (i =? last)%Z) with true by lia. Qed.

Lemma copy_range_first first last i z r :
  (first < i < last)%Z →
  copy_lines first last i false (z :: r) = snip ++ copy_lines first last (i + 1) true r.
Proof.
  intros H. cbn [copy_lines]. replace ((i =? first)%Z || (i =? last)%Z) with false by lia.
  by replace ((first <? i)%Z && (i <? last)%Z) with true by lia.
Qed.

(** The lines kept: everything up to the first progress line, one snippet in
    place of the range, everything from the last progress line on. *)
Lemma copy_lines_range a x z m y b :
  copy_lines (Z.of_nat (length a)) (Z.of_nat (length a + 1 + length (z :: m))) 0 false
    (a ++ x :: (z :: m) ++ y :: b)
  = a ++ x :: snip ++ y :: b.
Proof.
  cbn [length]. rewrite copy_before by lia. f_equal. rewrite copy_edge by lia. f_equal.
  cbn [app]. rewrite copy_range_first by lia. f_equal.
  rewrite copy_range_inserted by lia. rewrite copy_edge by lia. f_equal.
  apply copy_after; lia.
Qed.

(** What [TrimDcpProgressFromOutput] does to the lines of the output. *)
Definition trim_lines (lines : list string) : list string :=
  let '(found, first, last) := scan_progress 0 lines (false, (-1)%Z, (-1)%Z) in
  if found && (1 <? last - first)%Z then copy_lines first last 0 false lines else lines.

Lemma trim_lines_keep lines :
  no_progress lines ∨ (∃ a x b, lines = a ++ x :: b ∧ no_progress a ∧ is_progress x = true ∧ no_progress b)
  ∨ (∃ a x y b, lines = a ++ x :: y :: b ∧ no_progress a ∧ is_progress x = true
       ∧ is_progress y = true ∧ no_progress b) →
  trim_lines lines = lines.
Proof.
  unfold trim_lines. intros [H|[(a & x & b & -> & ? & ? & ?)|(a & x & y & b & -> & ? & ? & ? & ?)]].
  - by rewrite scan_no_progress.
  - rewrite scan_one by done. by replace (_ && _) with false by lia.
  - pose proof (scan_two a x [] y b) as Hs. cbn [app length] in Hs. rewrite Hs by done.
    cbn [andb]. by zcase.
Qed.

Lemma trim_lines_snip a x z m y b :
  no_progress a → is_progress x = true → is_progress y = true → no_progress b →
  trim_lines (a ++ x :: (z :: m) ++ y :: b) = a ++ x :: snip ++ y :: b.
Proof.
  intros. unfold trim_lines. rewrite scan_two by done.
  cbn [andb length]. zcase. apply copy_lines_range.
Qed.

Lemma Split_nl_ne s : Split s nl ≠ [].
Proof. apply split_go_ne. Qed.

Lemma Trim_lines output :
  TrimDcpProgressFromOutput output = Join (trim_lines (Split output nl)) nl.
Proof.
  unfold TrimDcpProgressFromOutput, trim_lines.
  assert (Join (Split output nl) nl = output) as Hj by by apply Join_Split.
  revert Hj. generalize (Split output nl) as lines. intros lines Hj. cbv zeta.
  destruct (progress_cases lines) as
    [H|[(a & x & b & -> & Ha & Hx & Hb)|(a & x & m & y & b & -> & Ha & Hx & Hy & Hb)]].
  - by rewrite scan_no_progress.
  - rewrite scan_one by done. cbn [negb orb andb]. rewrite Z.sub_diag. cbn [Z.leb Z.ltb].
    by rewrite orb_true_r.
  - rewrite scan_two by done. cbn [negb orb andb]. repeat zcase; cbn [orb]; done.
Qed.

(** * Progress lines *)

(** The texts [progressRe] matches. *)
Lemma matches_progressRe w rest c :
  matches progressRe w rest c ↔
  ∃ m d, w = "Copied" +:+ m +:+ "(" +:+ d +:+ "%)" ∧ c = [d] ∧ m ≠ "" ∧ string_forall dot m = true
         ∧ string_forall is_digit d = true ∧ 1 ≤ String.length d ≤ 3.
Proof.
  unfold progressRe. rewrite matches_lit. split.
  - intros (w' & -> & (m & w2 & c1 & c2 & -> & -> & (-> & Hm & Hd)%matches_Plus & H)%matches_Seq).
    apply matches_lit in H as (w3 & -> & H).
    apply matches_Seq in H as (d & w4 & c3 & c4 & -> & -> & (c5 & -> & H)%matches_Grp & Hl).
    apply matches_Rep13 in H as (-> & Hdig & Hlen).
    apply matches_lit in Hl as (w5 & -> & [-> ->]%matches_Eps). exists m, d. by split_and!; try lia.
  - intros (m & d & -> & -> & Hm & Hd & Hdig & Hlen).
    exists (m +:+ "(" +:+ d +:+ "%)"). split; [done|]. apply matches_Seq.
    exists m, ("(" +:+ d +:+ "%)"), [], [d]. rewrite matches_Plus, matches_lit.
    repeat split; auto. exists (d +:+ "%)"). split; [done|]. apply matches_Seq.
    exists d, "%)", [d], []. rewrite matches_Grp, matches_lit. repeat split; auto.
    + exists []. rewrite matches_Rep13. auto.
    + exists "". by rewrite matches_Eps.
Qed.

(** At most three digits: [Atoi] succeeds and the value fits in an [int32]. *)
Lemma Atoi_digits d :
  string_forall is_digit d = true → 1 ≤ String.length d ≤ 3 →
  ∃ n, Atoi d = Ret n ∧ (0 ≤ n ≤ 999)%Z ∧ to_int32 n = n.
Proof.
  intros Hd Hlen.
  assert (∀ c, is_digit c = true → 0 ≤ digit_val c ≤ 9)%Z as Hv.
  { intros c. unfold is_digit, digit_val. intros [?%N.leb_le ?%N.leb_le]%andb_prop. lia. }
  assert (∃ n, digits_val 0 d = n ∧ 0 ≤ n ≤ 999)%Z as (n & Hn & Hr).
  { eexists. split; [done|]. destruct d as [|x [|y [|z [|? d]]]]; cbn in Hlen, Hd |- *; try lia.
    all: repeat match goal with H : _ && _ = true |- _ => apply andb_prop in H as [? ?] end.
    all: repeat match goal with H : is_digit _ = true |- _ => apply Hv in H end; lia. }
  exists n. split; [|split; [done|unfold to_int32; rewrite Z.mod_small; lia]].
  subst n. apply Atoi_digits_val; [by intros ->; cbn in Hlen; lia|done|unfold int64_max; lia].
Qed.

(** A progress line gives its percentage. *)
Lemma ParseDcpProgress_hit line c :
  is_progress line = true →
  ∃ n, ParseDcpProgress line c = Ret (set_ProgressPercentage (Some n) c) ∧ (0 ≤ n ≤ 999)%Z.
Proof.
  unfold is_progress, MatchString, ParseDcpProgress, FindStringSubmatch.
  rewrite bool_decide_eq_true. intros [m Hm]. rewrite Hm. cbn [default].
  apply find_Some in Hm as (pre & w & rest & caps & _ & Hw & -> & _).
  apply matches_progressRe in Hw as (mid & d & _ & -> & _ & _ & Hdig & Hlen).
  destruct (Atoi_digits d Hdig Hlen) as (n & Ha & Hr & Hi). exists n. split; [|done].
  cbn. rewrite Ha. cbn. by rewrite Hi.
Qed.

Lemma ParseDcpProgress_miss line c : is_progress line = false → ParseDcpProgress line c = Ret c.
Proof.
  unfold is_progress, MatchString, ParseDcpProgress, FindStringSubmatch.
  rewrite bool_decide_eq_false, <- eq_None_not_Some. by intros ->.
Qed.

(** * Properties *)

(** The status of a trimmed output is independent of how it was split. *)
Lemma Split_Join_nl l :
  l ≠ [] → Forall (λ x, has_char newline x = false) l → Split (Join l nl) nl = l.
Proof. apply Split_Join. Qed.

Lemma snip_no_progress : no_progress snip.
Proof. by repeat constructor. Qed.

(** The lines of the trimmed output. *)
Lemma Split_Trim output : Split (TrimDcpProgressFromOutput output) nl = trim_lines (Split output nl).
Proof.
  rewrite Trim_lines. pose proof (Split_pieces newline output : Forall _ (Split output nl)) as Hp.
  pose proof (Split_nl_ne output) as Hne. revert Hp Hne. generalize (Split output nl) as lines.
  intros lines Hp Hne.
  destruct (progress_cases lines) as
    [H|[(a & x & b & -> & Ha & Hx & Hb)|(a & x & [|z m] & y & b & -> & Ha & Hx & Hy & Hb)]].
  1-3: rewrite trim_lines_keep by eauto 12; by apply Split_Join_nl.
  rewrite trim_lines_snip by done. apply Split_Join_nl; [by destruct a|].
  decompose_Forall_hyps. apply Forall_app; split; [done|].
  by repeat (constructor; [done|]).
Qed.

Lemma filter_no_progress l : no_progress l → filter (λ x, is_progress x = true) l = [].
Proof.
  induction 1 as [|x l Hx _ IH]; [done|]. rewrite filter_cons_False by congruence. done.
Qed.

(** C33.  Trimming leaves an output with fewer than two progress lines as it is.  Otherwise it keeps
    everything up to the first progress line and everything from the last one on, and puts one snippet
    in place of the lines strictly between them, progress or not, if there are any: the first and the
    last progress line are then the only ones left. *)
Theorem Trim_first_last output :
  (length (filter (λ l, is_progress l = true) (Split output nl)) < 2 → TrimDcpProgressFromOutput output = output) ∧
  (∀ a x m y b, Split output nl = a ++ x :: m ++ y :: b →
     no_progress a → is_progress x = true → is_progress y = true → no_progress b →
     (m = [] → TrimDcpProgressFromOutput output = output) ∧
     (m ≠ [] →
        Split (TrimDcpProgressFromOutput output) nl = a ++ x :: snip ++ y :: b ∧
        filter (λ l, is_progress l = true) (Split (TrimDcpProgressFromOutput output) nl) = [x; y])).
Proof.
  assert (trim_lines (Split output nl) = Split output nl → TrimDcpProgressFromOutput output = output) as Hkeep.
  { intros H. rewrite Trim_lines, H. by apply Join_Split. }
  split.
  - intros Hlt. apply Hkeep, trim_lines_keep. destruct (progress_cases (Split output nl)) as
      [H|[H|(a & x & m & y & b & E & _ & Hx & Hy & _)]]; [eauto 12..|]. exfalso.
    rewrite E, filter_app, filter_cons_True, filter_app, filter_cons_True in Hlt by done.
    rewrite length_app in Hlt. cbn in Hlt. rewrite length_app in Hlt. cbn in Hlt. lia.
  - intros a x m y b Hs Ha Hx Hy Hb. split.
    + intros ->. apply Hkeep. rewrite Hs. apply trim_lines_keep. eauto 12.
    + destruct m as [|z m]; [done|]. intros _. rewrite Split_Trim, Hs, trim_lines_snip by done.
      split; [done|]. rewrite filter_app, filter_no_progress, filter_cons_True by done.
      rewrite filter_app, (filter_no_progress snip) by apply snip_no_progress.
      by rewrite filter_cons_True, filter_no_progress.
Qed.

(** Trimmed output has at most two progress lines, whatever the command printed. *)
Theorem Trim_at_most_two output :
  length (filter (λ l, is_progress l = true) (Split (TrimDcpProgressFromOutput output) nl)) ≤ 2.
Proof.
  rewrite Split_Trim. destruct (progress_cases (Split output nl)) as
    [H|[(a & x & b & -> & Ha & Hx & Hb)|(a & x & [|z m] & y & b & -> & Ha & Hx & Hy & Hb)]].
  - rewrite trim_lines_keep, filter_no_progress by eauto. cbn. lia.
  - rewrite trim_lines_keep by eauto 12. rewrite filter_app, filter_cons_True by done.
    rewrite !filter_no_progress by done. cbn. lia.
  - cbn [app]. rewrite trim_lines_keep by eauto 12.
    rewrite filter_app, !filter_cons_True, !filter_no_progress by done. cbn. lia.
  - rewrite trim_lines_snip, filter_app, filter_cons_True, filter_app, filter_cons_True by done.
    rewrite !filter_no_progress by (done || apply snip_no_progress). cbn. lia.
Qed.

(** Trimming an output that was trimmed already changes nothing. *)
Theorem Trim_idempotent output :
  TrimDcpProgressFromOutput (TrimDcpProgressFromOutput output) = TrimDcpProgressFromOutput output.
Proof.
  rewrite (Trim_lines (TrimDcpProgressFromOutput output)), Split_Trim, Trim_lines. f_equal.
  destruct (progress_cases (Split output nl)) as
    [H|[(a & x & b & -> & Ha & Hx & Hb)|(a & x & [|z m] & y & b & -> & Ha & Hx & Hy & Hb)]].
  1-3: cbn [app]; do 2 f_equal; apply trim_lines_keep; eauto 12.
  rewrite trim_lines_snip by done. by apply (trim_lines_snip a x "..." (tail snip) y b).
Qed.

(** Reading the progress of a line never fails; it leaves the status alone or stores a
    percentage between 0 and 999, and touches no other field. *)
Theorem ParseDcpProgress_total line c :
  ∃ c', ParseDcpProgress line c = Ret c' ∧
    (c' = c ∨ ∃ n, c' = set_ProgressPercentage (Some n) c ∧ (0 ≤ n ≤ 999)%Z).
Proof.
  destruct (is_progress line) eqn:E.
  - destruct (ParseDcpProgress_hit line c E) as (n & -> & Hn). eauto 6.
  - rewrite ParseDcpProgress_miss by done. eauto.
Qed.

Lemma digits_no_char c d :
  is_digit c = false → string_forall is_digit d = true → has_char c d = false.
Proof. eauto using string_forall_has_char. Qed.

Lemma string_forall_dot s : has_char newline s = false → string_forall dot s = true.
Proof.
  induction s as [|x s IH]; cbn [has_char string_forall]; [done|].
  intros [Hx Hs]%orb_false_elim. rewrite IH by done. unfold dot. by rewrite Hx.
Qed.

Lemma itoa_len n : (0 ≤ n ≤ 999)%Z → 1 ≤ String.length (itoa n) ≤ 3.
Proof.
  intros Hn. assert (∃ m, m < 1000 ∧ n = Z.of_nat m) as (m & Hm & ->) by (exists (Z.to_nat n); lia).
  assert (forallb (λ m, (1 <=? String.length (itoa (Z.of_nat m))) &&
                        (String.length (itoa (Z.of_nat m)) <=? 3)) (seq 0 1000) = true) as H
    by (vm_compute; reflexivity).
  rewrite forallb_forall in H. specialize (H m ltac:(apply in_seq; lia)).
  apply andb_prop in H as [?%Nat.leb_le ?%Nat.leb_le]. done.
Qed.

(** A line with one ["(n%)"]: the match found captures [n]. *)
Lemma find_progress amount n post :
  has_char newline amount = false → has_char "%" amount = false → has_char "%" post = false →
  (0 ≤ n ≤ 999)%Z →
  ∃ w, find progressRe ("Copied " +:+ amount +:+ " (" +:+ itoa n +:+ "%)" +:+ post) = Some [w; itoa n].
Proof.
  intros Hnl Hp Hpost Hn. destruct (itoa_digits n ltac:(lia)) as (Hd & Hne & Hv).
  set (s := "Copied " +:+ _).
  assert (s = "" +:+ ("Copied" +:+ (" " +:+ amount +:+ " ") +:+ "(" +:+ itoa n +:+ "%)") +:+ post) as Hs.
  { unfold s. rewrite string_app_nil_l, <- !string_app_assoc. done. }
  assert (matches progressRe ("Copied" +:+ (" " +:+ amount +:+ " ") +:+ "(" +:+ itoa n +:+ "%)") post [itoa n]) as Hm.
  { apply matches_progressRe. exists (" " +:+ amount +:+ " "), (itoa n). split_and!; try done.
    - apply string_forall_dot. rewrite !has_char_app, Hnl. done.
    - apply itoa_len, Hn.
    - apply itoa_len, Hn. }
  destruct (find progressRe s) as [m|] eqn:E; [|by destruct (find_None _ _ _ _ _ _ E Hs Hm)].
  apply find_Some in E as (pre & w & rest & c & Hs' & Hw & -> & Hleft).
  specialize (Hleft _ _ _ _ Hs Hm). destruct pre; [|cbn in Hleft; lia].
  apply matches_progressRe in Hw as (mid & d & -> & -> & _ & _ & Hd' & _).
  exists ("Copied" +:+ mid +:+ "(" +:+ d +:+ "%)"). repeat f_equal. rewrite Hs' in Hs.
  assert (("Copied" +:+ (" " +:+ amount +:+ " ") +:+ "(" +:+ itoa n) +:+ String "%" (")" +:+ post)
          = ("Copied" +:+ mid +:+ "(" +:+ d) +:+ String "%" (")" +:+ rest)) as Heq.
  { revert Hs. rewrite !string_app_nil_l, <- !string_app_assoc. intros Hs. symmetry. exact Hs. }
  apply split_only_char in Heq as [Heq _].
  - rewrite !string_app_assoc, <- !(string_app_assoc _ "(") in Heq.
    apply split_last_char in Heq as [_ ?]; [done|..]; by apply digits_no_char.
  - rewrite !has_char_app, Hp, (digits_no_char "%" (itoa n)) by done. done.
  - by rewrite !has_char_app, Hpost.
Qed.

(** C34.  On a progress line of [dcp], whose only percent sign closes ["(n%)"], the percentage
    stored is [n]. *)
Theorem ParseDcpProgress_reads amount n post c :
  has_char newline amount = false → has_char "%" amount = false → has_char "%" post = false →
  (0 ≤ n ≤ 999)%Z →
  ParseDcpProgress ("Copied " +:+ amount +:+ " (" +:+ itoa n +:+ "%)" +:+ post) c
  = Ret (set_ProgressPercentage (Some n) c).
Proof.
  intros Hnl Hp Hpost Hn. destruct (find_progress amount n post) as [w E]; [done..|].
  unfold ParseDcpProgress, FindStringSubmatch. rewrite E. cbn [default from_option id].
  change (group1 [w; itoa n]) with (@Ret string (itoa n)). cbn [mbind outcome_bind].
  rewrite Atoi_itoa by (unfold int64_max; lia). cbn. unfold to_int32.
  rewrite Z.mod_small by lia. repeat f_equal. lia.
Qed.

Lemma ParseDcpProgress_reads_witness :
  ParseDcpProgress ("Copied " +:+ "18.626 GiB" +:+ " (" +:+ itoa 100 +:+ "%)"
                    +:+ " in 171.434 secs (111.259 MiB/s) done") empty_CommandStatus
  = Ret (set_ProgressPercentage (Some 100%Z) empty_CommandStatus).
Proof. apply ParseDcpProgress_reads; try reflexivity; lia. Defined.

(** * Statistics *)

Lemma FindStringSubmatch_absent x s r t :
  has_char x t = false → FindStringSubmatch (lit (String x s) r) t = [].
Proof. intros H. unfold FindStringSubmatch. by rewrite find_lit_absent. Qed.

Lemma FindStringSubmatch_run s p d rest :
  d ≠ "" → string_forall p d = true → stops p rest →
  FindStringSubmatch (lit s (Grp (Plus p))) (s +:+ d +:+ rest) = [s +:+ d; d].
Proof. intros. unfold FindStringSubmatch. by rewrite find_lit_run. Qed.

(** Whatever a regex other than "links" stores, the number of links is kept. *)
Lemma store_stat_links name m c :
  name ≠ "links" →
  match store_stat name m c with Ret (Some c') => Links c' = Links c | _ => True end.
Proof.
  intros Hn. unfold store_stat.
  repeat match goal with |- context [String.eqb name ?s] => destruct (String.eqb_spec name s) end;
    try done; destruct (group1 m) as [g| |]; try done; cbn; destruct (Atoi g); done.
Qed.

Lemma stats_loop_links name r rs line c :
  name ≠ "links" →
  match stats_loop rs line c with Ret c' => Links c' = Links c | _ => True end →
  match stats_loop ((name, r) :: rs) line c with Ret c' => Links c' = Links c | _ => True end.
Proof.
  intros Hn H. cbn [stats_loop]. destruct (FindStringSubmatch r line) as [|g l]; [done|].
  pose proof (store_stat_links name (g :: l) c Hn) as Hs.
  by destruct (store_stat name (g :: l) c) as [[c'|]| |].
Qed.

(** A regex listed again under another name never gets its turn. *)
Lemma stats_loop_shadow name name' r rs line c :
  (∀ m, match store_stat name m c with Ret None => False | _ => True end) →
  stats_loop ((name, r) :: (name', r) :: rs) line c = stats_loop ((name, r) :: rs) line c.
Proof.
  intros Hs. cbn [stats_loop]. destruct (FindStringSubmatch r line) as [|g l]; [done|].
  specialize (Hs (g :: l)). by destruct (store_stat name (g :: l) c) as [[c'|]| |].
Qed.

(** [ParseDcpStats] never changes the number of links: the regex of the "links" entry is that
    of the "files" entry before it, so the entry is dead code and [Status.CommandStatus.Links] is
    never filled in. *)
Theorem ParseDcpStats_never_links line c c' :
  ParseDcpStats line c = Ret c' → Links c' = Links c.
Proof.
  intros H. cut (match ParseDcpStats line c with Ret c' => Links c' = Links c | _ => True end);
    [by rewrite H|].
  unfold ParseDcpStats, dcpStatsRegexes. do 3 (apply stats_loop_links; [done|]).
  rewrite stats_loop_shadow.
  - do 3 (apply stats_loop_links; [done|]). done.
  - intros m. unfold store_stat. cbn [String.eqb Ascii.eqb Bool.eqb].
    destruct (group1 m) as [g| |]; cbn; try done. by destruct (Atoi g).
Qed.

Lemma ParseDcpStats_never_links_witness :
  ParseDcpStats ("Files: 7" +:+ nl) empty_CommandStatus
    = Ret (set_stats "" None None (Some 7%Z) None "" "" empty_CommandStatus)
  ∧ Links (set_stats "" None None (Some 7%Z) None "" "" empty_CommandStatus) = None.
Proof.
  split; [vm_compute; reflexivity|].
  apply (ParseDcpStats_never_links ("Files: 7" +:+ nl) empty_CommandStatus). vm_compute. reflexivity.
Defined.

(** C35.  A line ["Items: n"] stores [n] converted to an [int32]: the number itself below 2^31, and a
    wrapped, negative number from 2^31 to 2^32 - 1. *)
Theorem ParseDcpStats_items n rest c :
  (0 ≤ n ≤ int64_max)%Z → stops is_digit rest → has_char "S" rest = false →
  ∃ c', ParseDcpStats ("Items: " +:+ itoa n +:+ rest) c = Ret c'
    ∧ Items c' = Some (to_int32 n) ∧ ProgressPercentage c' = ProgressPercentage c
    ∧ ((n < 2 ^ 31)%Z → Items c' = Some n)
    ∧ ((2 ^ 31 ≤ n < 2 ^ 32)%Z → ∃ v, Items c' = Some v ∧ (v < 0)%Z).
Proof.
  intros Hn Hr HS. destruct (itoa_digits n ltac:(lia)) as (Hd & Hne & Hv).
  unfold ParseDcpStats, dcpStatsRegexes. cbn [stats_loop].
  rewrite FindStringSubmatch_absent
    by (rewrite !has_char_app, HS, (digits_no_char "S" (itoa n)) by done; done).
  rewrite FindStringSubmatch_run by done.
  change (store_stat "items" ["Items: " +:+ itoa n; itoa n] c)
    with (n' ← wrap_outcome "failed to parse Items output: " (Atoi (itoa n));
          Ret (Some (set_stats (Seconds c) (Some (to_int32 n')) (Directories c) (Files c) (Links c)
                       (Data c) (Rate c) c))).
  rewrite Atoi_itoa by done. cbn. eexists. split; [done|]. cbn. split_and!; [done..| |].
  - intros Hb. f_equal. unfold to_int32. rewrite Z.mod_small; lia.
  - intros Hb. eexists. split; [done|]. unfold to_int32.
    replace (n + 2 ^ 31)%Z with (n - 2 ^ 31 + 1 * 2 ^ 32)%Z by lia.
    rewrite Z.mod_add, Z.mod_small by lia. lia.
Qed.

Lemma ParseDcpStats_items_witness :
  ∃ c', ParseDcpStats ("Items: " +:+ itoa 3000000000 +:+ nl) empty_CommandStatus = Ret c'
        ∧ Items c' = Some (-1294967296)%Z.
Proof.
  destruct (ParseDcpStats_items 3000000000 nl empty_CommandStatus) as (c' & H & Hi & _);
    [unfold int64_max; lia|reflexivity|reflexivity|]. exists c'. split; [exact H|].
  rewrite Hi. vm_compute. reflexivity.
Defined.

Lemma Trim_first_last_witness :
  filter (λ l, is_progress l = true)
    (Split (TrimDcpProgressFromOutput
       (Join ["Copying data."; "Copied 1 MiB (10%) x"; "Copied 2 MiB (20%) x"; "Copied 9 MiB (100%) done"] nl)) nl)
  = ["Copied 1 MiB (10%) x"; "Copied 9 MiB (100%) done"].
Proof.
  refine (proj2 (proj2 (proj2 (Trim_first_last _) ["Copying data."] "Copied 1 MiB (10%) x"
    ["Copied 2 MiB (20%) x"] "Copied 9 MiB (100%) done" [] _ _ _ _ _) _));
    [vm_compute; reflexivity|by repeat constructor|vm_compute; reflexivity..|by repeat constructor|done].
Defined.
