(* ===== verification/Command.v ===== *)
(** Building the data movement command: [BuildDMCommand],
    [InjectOrteTmpdirBase] and [buildStatOrMkdirCommand] of
    internal/controller/helpers. *)
From S2P Require Import Prelude GoMonad GoStrings GoPath Api.

(** [idx := strings.Index(cmd, word)]; when found,
    [cmd[:idx+len(word)] + text + cmd[idx+len(word):]]. *)
Definition insert_after (cmd word text : string) : string :=
  let idx := Index cmd word in
  if (idx =? -1)%Z then cmd
  else
    let idx := Z.to_nat (idx + Z.of_nat (String.length word)) in
    take_str idx cmd +:+ text +:+ drop_str idx cmd.

Definition InjectOrteTmpdirBase (cmd hostfile : string) : string :=
  insert_after cmd "mpirun" (" --mca orte_tmpdir_base " +:+ Dir hostfile).

(** [getuid] is what [os.Getuid()] returns. *)
Definition buildStatOrMkdirCommand (getuid uid gid : Z) (cmd setprivCmd hostfile path : string)
    : string :=
  let setprivCmd := if (getuid =? 0)%Z then setprivCmd else "" in
  let cmd := ReplaceAll cmd "$SETPRIV" setprivCmd in
  let cmd := ReplaceAll cmd "$HOSTFILE" hostfile in
  let cmd := ReplaceAll cmd "$UID" (itoa uid) in
  let cmd := ReplaceAll cmd "$GID" (itoa gid) in
  let cmd := ReplaceAll cmd "$PATH" path in
  InjectOrteTmpdirBase cmd hostfile.

(** The substitution of the variables in the profile's command. *)
Definition substitute_command (cmd hostfile : string) (usePermissions : bool)
    (uid gid : Z) (src dest : string) : string :=
  let cmd := if usePermissions then cmd
             else ReplaceAll (ReplaceAll cmd "--uid $UID" "") "--gid $GID" "" in
  let cmd := ReplaceAll cmd "$HOSTFILE" hostfile in
  let cmd := ReplaceAll cmd "$UID" (itoa uid) in
  let cmd := ReplaceAll cmd "$GID" (itoa gid) in
  let cmd := ReplaceAll cmd "$SRC" src in
  ReplaceAll cmd "$DEST" dest.

(** The user's extra options: [mpirun] first, then [dcp]. *)
Definition user_options (userConfig : option NnfDataMovementConfig) (cmd : string) : string :=
  match userConfig with
  | None => cmd
  | Some uc =>
      let cmd := if String.eqb (MpirunOptions uc) "" then cmd
                 else insert_after cmd "mpirun" (" " +:+ MpirunOptions uc) in
      if String.eqb (DcpOptions uc) "" then cmd
      else insert_after cmd "dcp" (" " +:+ DcpOptions uc)
  end.

Definition BuildDMCommand (profile : NnfDataMovementProfile) (hostfile : string)
    (usePermissions : bool) (dm : NnfDataMovement) : outcome (list string) :=
  let spec := dm_Spec dm in
  if match UserConfig spec with Some uc => Dryrun uc | None => false end
  then Ret ["true"]
  else
    source ← deref (Source spec);
    destination ← deref (Destination spec);
    let cmd := substitute_command (p_Command (p_Data profile)) hostfile usePermissions
                 (UserId spec) (GroupId spec) (Path source) (Path destination) in
    let cmd := user_options (UserConfig spec) cmd in
    Ret (Split (InjectOrteTmpdirBase cmd hostfile) " ").

(** * Lemmas *)

Lemma insert_after_cut cmd word text b a :
  cut word cmd = Some (b, a) → insert_after cmd word text = b +:+ word +:+ text +:+ a.
Proof.
  intros E. unfold insert_after. destruct (Index_cut _ _ _ _ E) as [Ht Hd].
  destruct (Z.eqb_spec (Index cmd word) (-1)) as [Hneg|_].
  - apply Index_neg in Hneg. congruence.
  - rewrite Ht, Hd. by rewrite <- string_app_assoc.
Qed.

Lemma insert_after_none cmd word text : cut word cmd = None → insert_after cmd word text = cmd.
Proof. intros E. unfold insert_after. apply Index_neg in E. by rewrite E. Qed.

(** The default of the profile's [Command]. *)
Definition default_command : string :=
  "ulimit -n 2048 && mpirun --allow-run-as-root --hostfile $HOSTFILE dcp --progress 1 --uid $UID --gid $GID $SRC $DEST".

Lemma itoa_nodollar n : (0 ≤ n)%Z → has_char "$" (itoa n) = false.
Proof. intros H. by apply string_forall_has_char with is_digit; [apply itoa_digits|]. Qed.

(** The permissions part of the default command. *)
Definition permissions (usePermissions : bool) (uid gid : Z) : string :=
  if usePermissions then "--uid " +:+ itoa uid +:+ " --gid " +:+ itoa gid else " ".

(** Replace one variable in a command written as a right-nested concatenation: skip the parts
    without a dollar sign, replace the variable if it comes
    next, leave the literal rest. *)
Ltac no_dollar := solve [assumption | reflexivity | apply itoa_nodollar; assumption].
Ltac replace_var :=
  repeat rewrite ReplaceAll_skip by no_dollar;
  try rewrite ReplaceAll_hit by done;
  match goal with |- context [ReplaceAll ?t ?o ?n] => change (ReplaceAll t o n) with t end.

(** Substitution in the default command; only text substituted before the last
    variable must be free of dollar signs. *)
Lemma substitute_default hostfile usePermissions uid gid src dest :
  (0 ≤ uid)%Z → (0 ≤ gid)%Z → has_char "$" hostfile = false → has_char "$" src = false →
  substitute_command default_command hostfile usePermissions uid gid src dest
  = "ulimit -n 2048 && mpirun" +:+ " --allow-run-as-root --hostfile" +:+ String " " (hostfile +:+
    String " " ("dcp" +:+ " --progress 1 " +:+ permissions usePermissions uid gid +:+ " " +:+ src
                +:+ " " +:+ dest)).
Proof.
  intros Hu Hg Hh Hs. unfold substitute_command.
  destruct usePermissions; unfold permissions.
  - change default_command with ("ulimit -n 2048 && mpirun --allow-run-as-root --hostfile " +:+
      "$HOSTFILE" +:+ " dcp --progress 1 --uid " +:+ "$UID" +:+ " --gid " +:+ "$GID" +:+ " " +:+
      "$SRC" +:+ " " +:+ "$DEST" +:+ "").
    do 5 replace_var.
    rewrite string_app_nil_r, <- ?string_app_assoc. done.
  - change (ReplaceAll (ReplaceAll default_command "--uid $UID" "") "--gid $GID" "")
      with ("ulimit -n 2048 && mpirun --allow-run-as-root --hostfile " +:+
      "$HOSTFILE" +:+ " dcp --progress 1   " +:+ "$SRC" +:+ " " +:+ "$DEST" +:+ "").
    do 5 replace_var.
    rewrite string_app_nil_r, <- ?string_app_assoc. done.
Qed.

Lemma BuildDMCommand_no_error profile hostfile usePermissions dm e :
  BuildDMCommand profile hostfile usePermissions dm ≠ Fail e.
Proof.
  unfold BuildDMCommand. destruct (match UserConfig (dm_Spec dm) with Some uc => _ | None => _ end); [done|].
  destruct (Source (dm_Spec dm)); [|done]. by destruct (Destination (dm_Spec dm)).
Qed.

(** * Properties *)

Definition options_text (opts : string) : string :=
  if String.eqb opts "" then "" else " " +:+ opts.

(** The extra options of a user configuration; none without one. *)
Definition mpirun_options (uc : option NnfDataMovementConfig) : string :=
  options_text (from_option MpirunOptions "" uc).
Definition dcp_options (uc : option NnfDataMovementConfig) : string :=
  options_text (from_option DcpOptions "" uc).

(** Where the options of the user go in the substituted default command. *)
Lemma user_options_default uc hostfile tail :
  Contains hostfile "dcp" = false → Contains (from_option MpirunOptions "" uc) "dcp" = false →
  user_options uc ("ulimit -n 2048 && mpirun" +:+ " --allow-run-as-root --hostfile" +:+
    String " " (hostfile +:+ String " " ("dcp" +:+ tail)))
  = "ulimit -n 2048 && mpirun" +:+ (mpirun_options uc +:+ " --allow-run-as-root --hostfile") +:+
    String " " (hostfile +:+ String " " ("dcp" +:+ dcp_options uc +:+ tail)).
Proof.
  intros Hh Hm. unfold user_options, mpirun_options, dcp_options.
  destruct uc as [uc|]; [|done]. cbn [from_option] in *.
  set (cmd1 := if String.eqb (MpirunOptions uc) "" then _ else _).
  assert (cmd1 = ("ulimit -n 2048 && mpirun" +:+ options_text (MpirunOptions uc) +:+ " --allow-run-as-root --hostfile") +:+
    String " " (hostfile +:+ String " " ("dcp" +:+ tail))) as ->.
  { unfold cmd1, options_text. destruct (String.eqb (MpirunOptions uc) "").
    - by rewrite string_app_nil_l, <- string_app_assoc.
    - erewrite insert_after_cut by reflexivity. rewrite <- !string_app_assoc. done. }
  change (options_text (DcpOptions uc))
    with (if String.eqb (DcpOptions uc) "" then "" else " " +:+ DcpOptions uc).
  destruct (String.eqb (DcpOptions uc) ""); [by rewrite <- !string_app_assoc|].
  set (pre := "ulimit -n 2048 && mpirun" +:+ _).
  assert (Contains pre "dcp" = false) as Hpre.
  { unfold pre. change (" --allow-run-as-root --hostfile") with (String " " "--allow-run-as-root --hostfile").
    rewrite string_app_assoc, Contains_sep by done.
    assert (Contains ("ulimit -n 2048 && mpirun" +:+ options_text (MpirunOptions uc)) "dcp" = false) as ->; [|done].
    unfold options_text. destruct (String.eqb (MpirunOptions uc) ""); [done|].
    change (" " +:+ MpirunOptions uc) with (String " " (MpirunOptions uc)).
    rewrite Contains_sep by done. rewrite Hm. reflexivity. }
  erewrite insert_after_cut;
    [|by rewrite cut_sep, (cut_not_contains _ pre), cut_sep, (cut_not_contains _ hostfile) by done].
  unfold pre. rewrite <- !string_app_assoc, (string_app_cons _ (hostfile +:+ _)), <- !string_app_assoc.
  reflexivity.
Qed.

(** C20.  For the default command of the profile a dry run is the command [true].  Otherwise the text
    handed to bash (the arguments joined by blanks) is [mpirun] with its session directory next to the
    hostfile, the user's extra options right after [mpirun] and right after [dcp], the uid and gid only
    when permissions are used, and the source and destination last, provided that the ids are not
    negative, the hostfile and the source have no dollar sign, and neither the hostfile nor the extra
    options of [mpirun] contain "dcp". *)
Theorem BuildDMCommand_default profile hostfile usePermissions dm src dest :
  p_Command (p_Data profile) = default_command →
  Source (dm_Spec dm) = Some src → Destination (dm_Spec dm) = Some dest →
  (0 ≤ UserId (dm_Spec dm))%Z → (0 ≤ GroupId (dm_Spec dm))%Z →
  has_char "$" hostfile = false → has_char "$" (Path src) = false →
  Contains hostfile "dcp" = false →
  Contains (from_option MpirunOptions "" (UserConfig (dm_Spec dm))) "dcp" = false →
  ∃ args, BuildDMCommand profile hostfile usePermissions dm = Ret args ∧
    if match UserConfig (dm_Spec dm) with Some uc => Dryrun uc | None => false end then args = ["true"]
    else Join args " " =
      "ulimit -n 2048 && mpirun --mca orte_tmpdir_base " +:+ Dir hostfile
      +:+ mpirun_options (UserConfig (dm_Spec dm)) +:+ " --allow-run-as-root --hostfile "
      +:+ hostfile +:+ " dcp" +:+ dcp_options (UserConfig (dm_Spec dm)) +:+ " --progress 1 "
      +:+ permissions usePermissions (UserId (dm_Spec dm)) (GroupId (dm_Spec dm))
      +:+ " " +:+ Path src +:+ " " +:+ Path dest.
Proof.
  intros Hcmd Hsrc Hdest Hu Hg Hh Hs Hhd Hmd. unfold BuildDMCommand.
  destruct (match UserConfig (dm_Spec dm) with Some uc => Dryrun uc | None => false end) eqn:Hdry; [by eexists|].
  rewrite Hsrc, Hdest, Hcmd. cbn [deref mbind outcome_bind].
  eexists. split; [done|]. rewrite Join_Split by done.
  rewrite substitute_default, user_options_default by done.
  unfold InjectOrteTmpdirBase. erewrite insert_after_cut by reflexivity.
  rewrite <- !string_app_assoc. reflexivity.
Qed.

(** A data movement and a profile to evaluate the operations on. *)
Definition sample_config : NnfDataMovementConfig :=
  {| Dryrun := false; MpirunOptions := "--verbose"; DcpOptions := "--extra opts";
     LogStdout := false; StoreStdout := false; Slots := None; MaxSlots := None |}.

Definition no_reference : ObjectReference := {| Kind := ""; RefName := ""; RefNamespace := "" |}.

Definition sample_meta (name : string) : ObjectMeta :=
  {| Name := name; Namespace := DataMovementNamespace; GenerateName := ""; Labels := ∅;
     Finalizers := []; DeletionTimestamp := None; ResourceVersion := 1 |}.

Definition sample_dm (name src dest : string) (uc : option NnfDataMovementConfig) : NnfDataMovement :=
  {| dm_Meta := sample_meta name;
     dm_Spec := {| Source := Some {| Path := src; StorageReference := no_reference |};
                   Destination := Some {| Path := dest; StorageReference := no_reference |};
                   UserId := 1000; GroupId := 2000; Cancel := false;
                   ProfileReference := {| Kind := "NnfDataMovementProfile"; RefName := "default";
                                          RefNamespace := "nnf-system" |};
                   UserConfig := uc |};
     dm_Status := empty_Status |}.

Definition default_stat_command : string :=
  "mpirun --allow-run-as-root -np 1 --hostfile $HOSTFILE -- $SETPRIV stat --cached never -c '%F' $PATH".
Definition default_mkdir_command : string :=
  "mpirun --allow-run-as-root -np 1 --hostfile $HOSTFILE -- $SETPRIV mkdir -p $PATH".
Definition default_setpriv_command : string := "setpriv --euid $UID --egid $GID --clear-groups".

(** A profile with the defaults of the API. *)
Definition default_profile : NnfDataMovementProfile :=
  {| p_Name := "default"; p_Namespace := "nnf-system";
     p_Data := {| Default := true; p_Slots := 8; p_MaxSlots := 0; p_Command := default_command;
                  p_LogStdout := false; p_StoreStdout := false; ProgressIntervalSeconds := 5;
                  CreateDestDir := true; StatCommand := default_stat_command;
                  MkdirCommand := default_mkdir_command; SetprivCommand := default_setpriv_command |} |}.

Lemma BuildDMCommand_default_witness :
  ∃ args, BuildDMCommand default_profile "/tmp/dm-1/hostfile" true
            (sample_dm "dm-1" "/src/" "/dest/" (Some sample_config)) = Ret args ∧
    Join args " " = "ulimit -n 2048 && mpirun --mca orte_tmpdir_base /tmp/dm-1 --verbose --allow-run-as-root --hostfile /tmp/dm-1/hostfile dcp --extra opts --progress 1 --uid 1000 --gid 2000 /src/ /dest/".
Proof.
  destruct (BuildDMCommand_default default_profile "/tmp/dm-1/hostfile" true
              (sample_dm "dm-1" "/src/" "/dest/" (Some sample_config))
              {| Path := "/src/"; StorageReference := no_reference |}
              {| Path := "/dest/"; StorageReference := no_reference |}) as (args & H & Hj);
    try reflexivity; try (cbn; lia).
  exists args. split; [exact H|]. rewrite Hj. vm_compute. reflexivity.
Defined.

(** [BuildDMCommand] never returns an error; a dry run is the command [true] whatever the
    profile and the paths are, and it panics exactly when a real run has no source or no
    destination. *)
Theorem BuildDMCommand_outcome profile hostfile usePermissions dm :
  let dryrun := match UserConfig (dm_Spec dm) with Some uc => Dryrun uc | None => false end in
  match BuildDMCommand profile hostfile usePermissions dm with
  | Ret args => if dryrun then args = ["true"] else args ≠ []
  | Fail _ => False
  | Panic _ => dryrun = false ∧ (Source (dm_Spec dm) = None ∨ Destination (dm_Spec dm) = None)
  end.
Proof.
  unfold BuildDMCommand. cbv zeta. 
  destruct (match UserConfig (dm_Spec dm) with Some uc => Dryrun uc | None => false end); [reflexivity|].
  destruct (Source (dm_Spec dm)); cbn; [|auto]. destruct (Destination (dm_Spec dm)); cbn; [|auto].
  apply split_go_ne.
Qed.

(** The dcp options of the user are put after the first "dcp" of the whole command line, and
    the hostfile of a data movement is named after it: for a data movement called "dcp-1" they end
    up inside the path of the hostfile, and [dcp] does not get them. *)
Theorem dcp_options_split_hostfile :
  ∃ args, BuildDMCommand default_profile "/tmp/dcp-1/hostfile" true
            (sample_dm "dcp-1" "/src" "/dest" (Some {| Dryrun := false; MpirunOptions := "";
               DcpOptions := "--extra"; LogStdout := false; StoreStdout := false;
               Slots := None; MaxSlots := None |})) = Ret args ∧
    args !! 10 = Some "/tmp/dcp" ∧ args !! 11 = Some "--extra-1/hostfile"
    ∧ args !! 12 = Some "dcp" ∧ args !! 13 = Some "--progress".
Proof. eexists. split; [vm_compute; reflexivity|]. split_and!; reflexivity. Qed.

(** With the default stat (or mkdir) command of the profile, root runs the tool through
    [setpriv] with the uid and gid of the data movement, any other user runs it directly, and
    [mpirun] gets the session directory next to the hostfile. *)
Theorem buildStatOrMkdirCommand_default getuid uid gid hostfile path :
  (0 ≤ uid)%Z → (0 ≤ gid)%Z → has_char "$" hostfile = false →
  buildStatOrMkdirCommand getuid uid gid default_stat_command default_setpriv_command hostfile path
  = "mpirun --mca orte_tmpdir_base " +:+ Dir hostfile +:+ " --allow-run-as-root -np 1 --hostfile "
    +:+ hostfile +:+ " -- "
    +:+ (if (getuid =? 0)%Z
         then "setpriv --euid " +:+ itoa uid +:+ " --egid " +:+ itoa gid +:+ " --clear-groups" else "")
    +:+ " stat --cached never -c '%F' " +:+ path.
Proof.
  intros Hu Hg Hh. unfold buildStatOrMkdirCommand.
  destruct (getuid =? 0)%Z.
  - change (ReplaceAll default_stat_command "$SETPRIV" default_setpriv_command)
      with ("mpirun --allow-run-as-root -np 1 --hostfile " +:+ "$HOSTFILE" +:+ " -- setpriv --euid " +:+
            "$UID" +:+ " --egid " +:+ "$GID" +:+ " --clear-groups stat --cached never -c '%F' " +:+
            "$PATH" +:+ "").
    do 4 replace_var. unfold InjectOrteTmpdirBase. erewrite insert_after_cut by reflexivity.
    rewrite ?string_app_nil_r, <- ?string_app_assoc. reflexivity.
  - change (ReplaceAll default_stat_command "$SETPRIV" "")
      with ("mpirun --allow-run-as-root -np 1 --hostfile " +:+ "$HOSTFILE" +:+
            " --  stat --cached never -c '%F' " +:+ "$PATH" +:+ "").
    do 4 replace_var. unfold InjectOrteTmpdirBase. erewrite insert_after_cut by reflexivity.
    rewrite ?string_app_nil_r, <- ?string_app_assoc. reflexivity.
Qed.

Lemma buildStatOrMkdirCommand_default_witness :
  buildStatOrMkdirCommand 0 1000 2000 default_stat_command default_setpriv_command
    "/tmp/dm-1/hostfile" "/lus/dest"
  = "mpirun --mca orte_tmpdir_base /tmp/dm-1 --allow-run-as-root -np 1 --hostfile /tmp/dm-1/hostfile -- setpriv --euid 1000 --egid 2000 --clear-groups stat --cached never -c '%F' /lus/dest".
Proof.
  rewrite (buildStatOrMkdirCommand_default 0 1000 2000 "/tmp/dm-1/hostfile" "/lus/dest");
    [vm_compute; reflexivity|lia|lia|reflexivity].
Defined.
