(* ===== verification/Env.v ===== *)
(** What the program calls outside its own code: the Kubernetes API and the
    operating system.

    [Kube] and [OS] are the operations; they are parameters of every model that
    uses them.  [OSLaws] states the documented behaviour the
    theorems about files rely on; Sim.v gives a concrete cluster that satisfies it. *)
From S2P Require Import Prelude GoMonad GoStrings Api.

(** Options of a pod listing: namespace, labels and node. *)
Record PodQuery := {
  q_Namespace : string;
  q_Labels : list (string * string);
  q_NodeName : option string
}.

(** The controller-runtime client, for the objects of the helpers and of the
    data movement reconciler.  An update returns the object as the server
    stored it. *)
Class Kube (W : Type) := {
  getDM : NamespacedName → M W NnfDataMovement;
  updateDM : NnfDataMovement → M W NnfDataMovement;
  updateDMStatus : NnfDataMovement → M W NnfDataMovement;
  getProfile : NamespacedName → M W NnfDataMovementProfile;
  getStorage : NamespacedName → M W NnfStorage;
  getNodeStorage : NamespacedName → M W NnfNodeStorage;
  listPods : PodQuery → M W (list Pod)
}.

(** Files, processes, the clock, and the constants of the process. *)
Class OS (W : Type) := {
  mkdirTemp : string → string → M W string;
  mkdirAll : string → M W unit;
  createFile : string → M W unit;
  writeString : string → string → M W unit;
  openFile : string → M W string;
  removeAll : string → M W unit;
  (** [os.Stat(path)], [IsDir()] of the result *)
  statIsDir : string → M W bool;
  (** [command.Run(cmd)]: standard output, and the error if any *)
  runCommand : string → M W (string * option error);
  nowMicro : M W Z;
  environ : string → option string;
  getuid : Z
}.

Definition Getenv {W} `{OS W} (name : string) : string := default "" (environ name).

(** [isTestEnv()] of the helpers *)
Definition isTestEnv {W} `{OS W} : bool := bool_decide (is_Some (environ "NNF_TEST_ENVIRONMENT")).

(** * Judgements on effectful code *)

(** From a state in [P] the code returns a value, in a state in [P]. *)
Definition succeeds {W A} (P : W → Prop) (m : M W A) : Prop :=
  ∀ w, P w → ∃ a w', m w = (Ret a, w') ∧ P w'.

(** The code never panics. *)
Definition no_panic {W A} (m : M W A) : Prop :=
  ∀ w, match fst (m w) with Panic _ => False | _ => True end.

(** The code leaves a view of the state as it is, whatever its outcome. *)
Definition preserves {W A V} (view : W → V) (m : M W A) : Prop :=
  ∀ w, view (snd (m w)) = view w.

(** Whatever value the code returns satisfies [P]. *)
Definition returns {W A} (P : A → Prop) (m : M W A) : Prop :=
  ∀ w a w', m w = (Ret a, w') → P a.

(** Whatever error the code returns satisfies [P]. *)
Definition fails_with {W A} (P : error → Prop) (m : M W A) : Prop :=
  ∀ w e w', m w = (Fail e, w') → P e.

(** * Laws of files *)

Class OSLaws (W : Type) `{OS W} := {
  contents : W → gmap string string;
  (** creating and writing files works *)
  writable : W → Prop;
  mkdirTemp_ret d pat w p w' :
    mkdirTemp d pat w = (Ret p, w') → contents w' = contents w;
  mkdirAll_ret p w w' : mkdirAll p w = (Ret tt, w') → contents w' = contents w;
  createFile_ret p w w' : createFile p w = (Ret tt, w') → contents w' = <[p := ""]> (contents w);
  writeString_ret p s w w' :
    writeString p s w = (Ret tt, w') →
    contents w' = <[p := default "" (contents w !! p) +:+ s]> (contents w);
  openFile_ret p w c w' :
    openFile p w = (Ret c, w') → contents w !! p = Some c ∧ contents w' = contents w;
  mkdirTemp_ok d pat : succeeds writable (mkdirTemp d pat) ∧ no_panic (mkdirTemp d pat);
  mkdirAll_ok p : succeeds writable (mkdirAll p) ∧ no_panic (mkdirAll p);
  createFile_ok p : succeeds writable (createFile p) ∧ no_panic (createFile p);
  writeString_ok p s : succeeds writable (writeString p s) ∧ no_panic (writeString p s);
  openFile_ok p : no_panic (openFile p);
  removeAll_ok p : no_panic (removeAll p);
  statIsDir_ok p : no_panic (statIsDir p);
  runCommand_ok c : no_panic (runCommand c);
  (** the clock is past the epoch *)
  nowMicro_ok w : ∃ t w', nowMicro w = (Ret t, w') ∧ (0 < t)%Z
}.

(** * Reasoning about monadic code *)

Lemma bind_Ret_inv {W A B} (m : M W A) (f : A → M W B) w b w2 :
  (m ≫= f) w = (Ret b, w2) → ∃ a w1, m w = (Ret a, w1) ∧ f a w1 = (Ret b, w2).
Proof. unfold mbind, M_bind. destruct (m w) as [[a|e|p] w1]; intros H; [by exists a, w1|done..]. Qed.

Lemma bind_Ret {W A B} (m : M W A) (f : A → M W B) w a w1 :
  m w = (Ret a, w1) → (m ≫= f) w = f a w1.
Proof. unfold mbind, M_bind. by intros ->. Qed.

Lemma bind_Fail {W A B} (m : M W A) (f : A → M W B) w e w1 :
  m w = (Fail e, w1) → (m ≫= f) w = (Fail e, w1).
Proof. unfold mbind, M_bind. by intros ->. Qed.

Lemma map_err_Ret_inv {W A} f (m : M W A) w a w1 :
  map_err f m w = (Ret a, w1) → m w = (Ret a, w1).
Proof. unfold map_err. by destruct (m w) as [[x|e|p] w']. Qed.

Lemma ret_inv {W A} (a b : A) (w w' : W) :
  (mret a : M W A) w = (Ret b, w') → a = b ∧ w = w'.
Proof. unfold mret, M_ret. by intros [= -> ->]. Qed.

Lemma lift_Ret_inv {W A} (o : outcome A) a (w w' : W) :
  lift_outcome o w = (Ret a, w') → o = Ret a ∧ w = w'.
Proof. unfold lift_outcome. intros H. split; congruence. Qed.

Lemma succeeds_bind {W A B} P (m : M W A) (f : A → M W B) :
  succeeds P m → (∀ a, succeeds P (f a)) → succeeds P (m ≫= f).
Proof.
  intros Hm Hf w Hw. destruct (Hm w Hw) as (a & w' & E & Hw'). rewrite (bind_Ret _ _ _ _ _ E).
  by apply Hf.
Qed.

Lemma succeeds_ret {W A} (P : W → Prop) (a : A) : succeeds P (mret a).
Proof. intros w Hw. by exists a, w. Qed.

Lemma succeeds_map_err {W A} P f (m : M W A) : succeeds P m → succeeds P (map_err f m).
Proof.
  intros Hm w Hw. destruct (Hm w Hw) as (a & w' & E & Hw'). exists a, w'. unfold map_err. by rewrite E.
Qed.

Lemma no_panic_bind {W A B} (m : M W A) (f : A → M W B) :
  no_panic m → (∀ a, no_panic (f a)) → no_panic (m ≫= f).
Proof.
  intros Hm Hf w. unfold mbind, M_bind. specialize (Hm w). destruct (m w) as [[a|e|p] w1]; [|done..].
  apply Hf.
Qed.

Lemma no_panic_ret {W A} (a : A) : no_panic (mret a : M W A).
Proof. done. Qed.

Lemma no_panic_map_err {W A} f (m : M W A) : no_panic m → no_panic (map_err f m).
Proof. intros Hm w. specialize (Hm w). unfold map_err. by destruct (m w) as [[a|e|p] w']. Qed.

Lemma preserves_bind {W A B V} (view : W → V) (m : M W A) (f : A → M W B) :
  preserves view m → (∀ a, preserves view (f a)) → preserves view (m ≫= f).
Proof.
  intros Hm Hf w. specialize (Hm w). unfold mbind, M_bind. destruct (m w) as [[a|e|p] w1]; cbn in *; [|done..].
  by rewrite Hf.
Qed.

Lemma preserves_ret {W A V} (view : W → V) (a : A) : preserves view (mret a : M W A).
Proof. done. Qed.

Lemma preserves_fail {W A V} (view : W → V) e : preserves view (fail e : M W A).
Proof. done. Qed.

Lemma preserves_lift {W A V} (view : W → V) (o : outcome A) : preserves view (lift_outcome o).
Proof. done. Qed.

Lemma preserves_map_err {W A V} (view : W → V) f (m : M W A) :
  preserves view m → preserves view (map_err f m).
Proof. intros Hm w. specialize (Hm w). unfold map_err. by destruct (m w) as [[a|e|p] w']. Qed.

Lemma preserves_attempt {W A V} (view : W → V) (m : M W A) :
  preserves view m → preserves view (attempt m).
Proof. intros Hm w. specialize (Hm w). unfold attempt. by destruct (m w) as [[a|e|p] w']. Qed.

Lemma preserves_eq {W A V} (view : W → V) (m : M W A) w o w' :
  preserves view m → m w = (o, w') → view w' = view w.
Proof. intros Hm E. specialize (Hm w). by rewrite E in Hm. Qed.

Lemma no_panic_fail {W A} e : no_panic (fail e : M W A).
Proof. done. Qed.

Lemma no_panic_lift {W A} (a : A) : no_panic (lift_outcome (Ret a) : M W A).
Proof. done. Qed.

Lemma no_panic_attempt {W A} (m : M W A) : no_panic m → no_panic (attempt m).
Proof. intros Hm w. specialize (Hm w). unfold attempt. by destruct (m w) as [[a|e|p] w']. Qed.

Lemma returns_bind {W A B} (R : A → Prop) (P : B → Prop) (m : M W A) (f : A → M W B) :
  returns R m → (∀ a, R a → returns P (f a)) → returns P (m ≫= f).
Proof. intros Hm Hf w b w2 (a & w1 & E1 & E2)%bind_Ret_inv. eapply Hf; [by eapply Hm|done]. Qed.

Lemma returns_any {W A} (m : M W A) : returns (λ _, True) m.
Proof. done. Qed.

Lemma returns_ret {W A} (P : A → Prop) (a : A) : P a → returns P (mret a : M W A).
Proof. intros Ha w b w' [<- _]%ret_inv. done. Qed.

Lemma returns_attempt {W A} (P : A → Prop) (m : M W A) :
  returns P m → returns (λ r, match r with inr a => P a | inl _ => True end) (attempt m).
Proof.
  intros Hm w a w'. unfold attempt. specialize (Hm w). destruct (m w) as [[x|e|p] w1]; intros [= <- <-]; [|done].
  by eapply Hm.
Qed.

Lemma fails_bind {W A B} (R : A → Prop) P (m : M W A) (f : A → M W B) :
  fails_with P m → returns R m → (∀ a, R a → fails_with P (f a)) → fails_with P (m ≫= f).
Proof.
  intros Hm HR Hf w e w2. unfold mbind, M_bind. specialize (Hm w). specialize (HR w).
  destruct (m w) as [[a|e1|p] w1]; [|intros [= <- <-]; by eapply Hm|done]. apply Hf. by eapply HR.
Qed.

Lemma fails_ret {W A} P (a : A) : fails_with P (mret a : M W A).
Proof. done. Qed.

Lemma fails_attempt {W A} P (m : M W A) : fails_with P (attempt m).
Proof. intros w e w'. unfold attempt. by destruct (m w) as [[a|e1|p] w1]. Qed.

Lemma fails_map_err {W A} (P : error → Prop) f (m : M W A) :
  (∀ e, P (f e)) → fails_with P (map_err f m).
Proof. intros Hf w e w'. unfold map_err. destruct (m w) as [[a|e1|p] w1]; [done| |done]. by intros [= <- _]. Qed.

Lemma attempt_returns {W A} (m : M W A) w :
  no_panic m → ∃ r w', attempt m w = (Ret r, w')
                ∧ match r with inr a => m w = (Ret a, w') | inl e => m w = (Fail e, w') end.
Proof. intros Hm. specialize (Hm w). unfold attempt. destruct (m w) as [[a|e|p] w'];
  [by exists (inr a), w'|by exists (inl e), w'|done]. Qed.

#[export] Hint Resolve succeeds_ret no_panic_ret no_panic_fail no_panic_lift preserves_ret preserves_fail
  preserves_lift : go_frame.

(** Go through the binds, error wrappers and branches of effectful code, proving [succeeds],
    [no_panic] or [preserves] of each step with [tac]. *)
Ltac walk tac := repeat first
  [ solve [eauto 2 with go_frame nocore]
  | solve [tac]
  | apply succeeds_bind | apply no_panic_bind | apply preserves_bind
  | apply succeeds_map_err | apply no_panic_map_err | apply preserves_map_err
  | apply no_panic_attempt | apply preserves_attempt
  | match goal with |- ∀ _, _ => intros ? end
  | match goal with
    | |- context [if ?b then _ else _] => destruct b
    | |- context [match ?x with _ => _ end] => destruct x
    end ].
