(* ===== verification/Crypto.v ===== *)
(** The key libraries the program calls: crypto/ecdsa, crypto/x509,
    encoding/pem, golang.org/x/crypto/ssh and golang-jwt.  A key is its bytes. *)
From S2P Require Import Prelude GoMonad GoStrings Api Env.

Class Crypto (W : Type) := {
  (** [ecdsa.GenerateKey(elliptic.P521(), rand.Reader)] *)
  GenerateKey : M W string;
  MarshalECPrivateKey : string → outcome string;
  MarshalPKCS8PrivateKey : string → outcome string;
  (** [pem.EncodeToMemory] of a block with a type and bytes; [None] is nil *)
  EncodeToMemory : string → string → option string;
  (** the bytes of the block [pem.Decode] finds *)
  pem_Decode : string → option string;
  (** [ssh.NewPublicKey] of the public half of a key *)
  NewPublicKey : string → outcome string;
  MarshalAuthorizedKey : string → string
}.

(** The claims of a token: a subject and the time of issue *)
Record MapClaims := { sub : string; iat : Z }.

(** The token library: [jwt.Parse] as in Server.v, and signing with a method and a key. *)
Class Jwt := {
  jwtParse : (string → error + string) → string → error + bool;
  SignedString : string → MapClaims → string → outcome string
}.
