(* ===== verification/Cluster.v ===== *)
(** The Kubernetes API server, as far as data movement resources are concerned.

    The server keeps the current version of every resource and hands out
    resource versions.  A read comes from a cache and may return any version
    the server ever stored.  An update succeeds only when it carries the
    resource version of the current one; it may also fail for any reason, and a
    failure that is not a conflict may have been stored nevertheless (the answer was lost).
    [KubeLaws] says that the operations of [Kube] behave like this and that
    nothing else a component calls touches these resources. *)
From S2P Require Import Prelude GoMonad GoStrings Api Env.

Record DMStore := {
  (** the current versions *)
  live : gmap NamespacedName NnfDataMovement;
  (** every version there ever was *)
  history : list NnfDataMovement;
  (** the last resource version handed out *)
  counter : N
}.

Definition set_ResourceVersion (r : N) (m : ObjectMeta) : ObjectMeta :=
  {| Name := Name m; Namespace := Namespace m; GenerateName := GenerateName m; Labels := Labels m;
     Finalizers := Finalizers m; DeletionTimestamp := DeletionTimestamp m; ResourceVersion := r |}.

Definition set_rv (r : N) (dm : NnfDataMovement) : NnfDataMovement :=
  set_meta (set_ResourceVersion r (dm_Meta dm)) dm.

Definition rv (dm : NnfDataMovement) : N := ResourceVersion (dm_Meta dm).

(** What an update of the resource changes: labels, finalizers and spec. *)
Definition main_update (cur dm : NnfDataMovement) : NnfDataMovement :=
  {| dm_Meta := {| Name := Name (dm_Meta cur); Namespace := Namespace (dm_Meta cur);
                   GenerateName := GenerateName (dm_Meta cur); Labels := Labels (dm_Meta dm);
                   Finalizers := Finalizers (dm_Meta dm);
                   DeletionTimestamp := DeletionTimestamp (dm_Meta cur);
                   ResourceVersion := ResourceVersion (dm_Meta cur) |};
     dm_Spec := dm_Spec dm; dm_Status := dm_Status cur |}.

(** What an update of the status subresource changes. *)
Definition status_update (cur dm : NnfDataMovement) : NnfDataMovement :=
  set_status (dm_Status dm) cur.

(** A resource marked for deletion disappears with its last finalizer. *)
Definition gone (dm : NnfDataMovement) : bool :=
  negb (IsZero (DeletionTimestamp (dm_Meta dm)))
  && bool_decide (Finalizers (dm_Meta dm) = []).

Definition put (new : NnfDataMovement) (st : DMStore) : DMStore :=
  {| live := if gone new then delete (dm_key new) (live st) else <[dm_key new := new]> (live st);
     history := new :: history st;
     counter := N.max (rv new) (counter st) |}.

(** The new version: with a fresh resource version, or the current one unchanged. *)
Definition next_version (st : DMStore) (cur body new : NnfDataMovement) : Prop :=
  (∃ r, (counter st < r)%N ∧ new = set_rv r body) ∨ (new = cur ∧ body = cur).

Inductive updated (change : NnfDataMovement → NnfDataMovement → NnfDataMovement)
    (st : DMStore) (dm : NnfDataMovement) : outcome NnfDataMovement → DMStore → Prop :=
| updated_ok cur new :
    live st !! dm_key dm = Some cur → rv dm = rv cur →
    next_version st cur (change cur dm) new →
    updated change st dm (Ret new) (put new st)
| updated_failed e : updated change st dm (Fail e) st
| updated_lost e cur new :
    live st !! dm_key dm = Some cur → rv dm = rv cur → IsConflict e = false →
    next_version st cur (change cur dm) new →
    updated change st dm (Fail e) (put new st).

Class KubeLaws (W : Type) {kube : Kube W} {os : OS W} := {
  dms : W → DMStore;
  getDM_law k w :
    dms (snd (getDM k w)) = dms w ∧
    match fst (getDM k w) with
    | Ret dm => dm ∈ history (dms w) ∧ dm_key dm = k
    | Fail _ => True
    | Panic _ => False
    end;
  updateDM_law dm w :
    updated main_update (dms w) dm (fst (updateDM dm w)) (dms (snd (updateDM dm w)));
  updateDMStatus_law dm w :
    updated status_update (dms w) dm (fst (updateDMStatus dm w)) (dms (snd (updateDMStatus dm w)));
  getProfile_law k : preserves dms (getProfile k) ∧ no_panic (getProfile k);
  getStorage_law k : preserves dms (getStorage k) ∧ no_panic (getStorage k);
  getNodeStorage_law k : preserves dms (getNodeStorage k) ∧ no_panic (getNodeStorage k);
  listPods_law q : preserves dms (listPods q) ∧ no_panic (listPods q);
  mkdirTemp_frame d p : preserves dms (mkdirTemp d p);
  mkdirAll_frame p : preserves dms (mkdirAll p);
  createFile_frame p : preserves dms (createFile p);
  writeString_frame p s : preserves dms (writeString p s);
  openFile_frame p : preserves dms (openFile p);
  removeAll_frame p : preserves dms (removeAll p);
  statIsDir_frame p : preserves dms (statIsDir p);
  runCommand_frame c : preserves dms (runCommand c);
  nowMicro_frame : preserves dms nowMicro
}.

#[export] Hint Resolve mkdirTemp_frame mkdirAll_frame createFile_frame writeString_frame
  openFile_frame removeAll_frame statIsDir_frame runCommand_frame nowMicro_frame : go_frame.

(** * Consistent stores *)

(** A resource version names one version of one resource. *)
Record store_ok (st : DMStore) : Prop := {
  live_key k dm : live st !! k = Some dm → dm_key dm = k;
  live_history k dm : live st !! k = Some dm → dm ∈ history st;
  history_rv dm dm' : dm ∈ history st → dm' ∈ history st →
    dm_key dm = dm_key dm' → rv dm = rv dm' → dm = dm';
  history_counter dm : dm ∈ history st → (rv dm ≤ counter st)%N
}.

(** An update that carries a version that was read, and was accepted, replaces that version. *)
Lemma read_is_live st old dm cur :
  store_ok st → old ∈ history st → dm_key dm = dm_key old → rv dm = rv old →
  live st !! dm_key dm = Some cur → rv dm = rv cur → cur = old.
Proof.
  intros Hst Hold Hk Hr Hl Hc. pose proof (live_key _ Hst _ _ Hl). pose proof (live_history _ Hst _ _ Hl).
  eapply history_rv; [done..| |]; congruence.
Qed.

Lemma key_set_rv r dm : dm_key (set_rv r dm) = dm_key dm.
Proof. done. Qed.

Lemma next_version_key st cur body new :
  next_version st cur body new → dm_key body = dm_key cur → dm_key new = dm_key cur.
Proof. intros [(r & _ & ->)|[-> ->]]; [by rewrite key_set_rv|done]. Qed.

Lemma next_version_fresh st cur body new :
  cur ∈ history st → next_version st cur body new → new ∈ history st ∨ (counter st < rv new)%N.
Proof. intros Hcur [(r & Hr & ->)|[-> ->]]; [by right|by left]. Qed.

(** Storing a new version, or one that was stored before. *)
Lemma put_ok st new :
  store_ok st → new ∈ history st ∨ (counter st < rv new)%N → store_ok (put new st).
Proof.
  intros Hst Hnew.
  constructor.
  - cbn. intros k dm. destruct (gone new).
    + rewrite lookup_delete_Some. intros [_ H]. by eapply live_key.
    + rewrite lookup_insert_Some. intros [[<- <-]|[_ H]]; [done|by eapply live_key].
  - cbn. intros k dm Hl. apply elem_of_cons. destruct (gone new).
    + apply lookup_delete_Some in Hl as [_ H]. right. by eapply live_history.
    + apply lookup_insert_Some in Hl as [[_ <-]|[_ H]]; [by left|right; by eapply live_history].
  - cbn. intros dm dm'. rewrite !elem_of_cons. intros [->|H] [->|H'] Hk Hr; [done| | |by eapply history_rv].
    + destruct Hnew as [Hnew|Hnew]; [by eapply history_rv|].
      pose proof (history_counter _ Hst _ H'). lia.
    + destruct Hnew as [Hnew|Hnew]; [by eapply history_rv|].
      pose proof (history_counter _ Hst _ H). lia.
  - cbn. intros dm. rewrite elem_of_cons. intros [->|H]; [lia|].
    pose proof (history_counter _ Hst _ H). lia.
Qed.
