(* ===== verification/Sim.v ===== *)
(** A small cluster and operating system to run the models on.

    [Sim] is a concrete instance of [Kube] and [OS]: a store of data movement
    resources with optimistic concurrency, the other resources as maps, files,
    a clock, answers of commands, and a script of faults: updates that are
    refused or whose answer is lost, and reads that come from an old cache.  It
    satisfies the laws the theorems assume. *)
From S2P Require Import Prelude GoMonad GoStrings Api Command Env Cluster.

(** What happens to an update. *)
Inductive fault := Accepted | Refused | AnswerLost.

Record Sim := {
  sim_store : DMStore;
  sim_profiles : gmap NamespacedName NnfDataMovementProfile;
  sim_storages : gmap NamespacedName NnfStorage;
  sim_nodeStorages : gmap NamespacedName NnfNodeStorage;
  sim_pods : list Pod;
  sim_files : gmap string string;
  sim_commands : gmap string string;
  sim_clock : N;
  (** the faults of the next updates, and how old the next reads are *)
  sim_faults : list fault;
  sim_reads : list nat
}.

Definition sim_with (st : DMStore) (files : gmap string string) (clock : N) (faults : list fault)
    (reads : list nat) (w : Sim) : Sim :=
  {| sim_store := st; sim_profiles := sim_profiles w; sim_storages := sim_storages w;
     sim_nodeStorages := sim_nodeStorages w; sim_pods := sim_pods w; sim_files := files;
     sim_commands := sim_commands w; sim_clock := clock; sim_faults := faults; sim_reads := reads |}.

Definition sim_set_store (st : DMStore) (w : Sim) : Sim :=
  sim_with st (sim_files w) (sim_clock w) (tail (sim_faults w)) (sim_reads w) w.

Definition sim_set_files (files : gmap string string) (w : Sim) : Sim :=
  sim_with (sim_store w) files (sim_clock w) (sim_faults w) (sim_reads w) w.

(** [sim_reads] says how many versions back a read is; the default is the current version. *)
Definition sim_getDM (k : NamespacedName) : M Sim NnfDataMovement := λ w,
  let w' := sim_with (sim_store w) (sim_files w) (sim_clock w) (sim_faults w) (tail (sim_reads w)) w in
  let versions := filter (λ dm, dm_key dm = k) (history (sim_store w)) in
  match live (sim_store w) !! k, versions !! (default 0 (head (sim_reads w))) with
  | Some _, Some dm => (Ret dm, w')
  | _, _ => (Fail (StatusError NotFound "not found"), w')
  end.

Definition sim_update (change : NnfDataMovement → NnfDataMovement → NnfDataMovement)
    (dm : NnfDataMovement) : M Sim NnfDataMovement := λ w,
  let st := sim_store w in
  match live st !! dm_key dm with
  | None => (Fail (StatusError NotFound "not found"), sim_set_store st w)
  | Some cur =>
      let new := set_rv (counter st + 1) (change cur dm) in
      if N.eqb (rv dm) (rv cur) then
        match default Accepted (head (sim_faults w)) with
        | Accepted => (Ret new, sim_set_store (put new st) w)
        | Refused => (Fail (StatusError OtherReason "server is unavailable"), sim_set_store st w)
        | AnswerLost => (Fail (ErrorString "connection lost"), sim_set_store (put new st) w)
        end
      else (Fail (StatusError Conflict "the object has been modified"), sim_set_store st w)
  end.

Definition sim_get {A} (m : gmap NamespacedName A) (k : NamespacedName) : outcome A :=
  match m !! k with Some a => Ret a | None => Fail (StatusError NotFound "not found") end.

Definition pod_matches (q : PodQuery) (p : Pod) : bool :=
  String.eqb (pod_Namespace p) (q_Namespace q)
  && forallb (λ l, bool_decide (pod_Labels p !! fst l = Some (snd l))) (q_Labels q)
  && match q_NodeName q with Some n => String.eqb (NodeName p) n | None => true end.

#[export] Instance sim_kube : Kube Sim := {
  getDM := sim_getDM;
  updateDM := sim_update main_update;
  updateDMStatus := sim_update status_update;
  getProfile k := λ w, (sim_get (sim_profiles w) k, w);
  getStorage k := λ w, (sim_get (sim_storages w) k, w);
  getNodeStorage k := λ w, (sim_get (sim_nodeStorages w) k, w);
  listPods q := λ w, (Ret (List.filter (pod_matches q) (sim_pods w)), w)
}.

Definition no_such_file : error := ErrorString "no such file or directory".

#[export] Instance sim_os : OS Sim := {
  mkdirTemp d pat := λ w, (Ret (d +:+ "/" +:+ pat +:+ "0"), w);
  mkdirAll p := λ w, (Ret tt, w);
  createFile p := λ w, (Ret tt, sim_set_files (<[p := ""]> (sim_files w)) w);
  writeString p s := λ w,
    (Ret tt, sim_set_files (<[p := default "" (sim_files w !! p) +:+ s]> (sim_files w)) w);
  openFile p := λ w, match sim_files w !! p with Some c => (Ret c, w) | None => (Fail no_such_file, w) end;
  removeAll p := λ w, (Ret tt, sim_set_files (filter (λ kv, HasPrefix (fst kv) (p +:+ "/") = false)
                                                     (sim_files w)) w);
  statIsDir p := λ w, (Fail no_such_file, w);
  runCommand c := λ w, (Ret (match sim_commands w !! c with
                             | Some out => (out, None)
                             | None => ("", Some no_such_file)
                             end), w);
  nowMicro := λ w, (Ret (Z.of_N (sim_clock w) + 1)%Z,
                    sim_with (sim_store w) (sim_files w) (sim_clock w + 1) (sim_faults w) (sim_reads w) w);
  environ := λ _, None;
  getuid := 0%Z
}.

#[export] Instance sim_os_laws : OSLaws Sim.
Proof.
  refine {| contents := sim_files; writable := λ _, True |}; cbn.
  all: try (intros; repeat split; try done; eauto; fail).
  - by intros d pat w p w' [= _ <-].
  - by intros p w w' [= <-].
  - by intros p w w' [= <-].
  - by intros p s w w' [= <-].
  - intros p w c w'. destruct (sim_files w !! p) as [x|] eqn:E; [|done]. by intros [= <- <-].
  - intros d pat. split; [intros w _; eauto|done].
  - intros p. split; [intros w _; eauto|done].
  - intros p. split; [intros w _; eauto|done].
  - intros p s. split; [intros w _; eauto|done].
  - intros p w. cbn. by destruct (sim_files w !! p).
  - intros w. eexists _, _. split; [done|]. lia.
Defined.

Lemma sim_update_law change dm w :
  updated change (sim_store w) dm (fst (sim_update change dm w)) (sim_store (snd (sim_update change dm w))).
Proof.
  unfold sim_update. destruct (live (sim_store w) !! dm_key dm) as [cur|] eqn:El; [|apply updated_failed].
  destruct (N.eqb_spec (rv dm) (rv cur)) as [Hr|]; [|apply updated_failed].
  set (new := set_rv _ _).
  assert (next_version (sim_store w) cur (change cur dm) new) as Hn.
  { left. exists (counter (sim_store w) + 1)%N. split; [lia|done]. }
  destruct (default Accepted (head (sim_faults w))); cbn; [by eapply updated_ok|apply updated_failed|].
  by eapply updated_lost.
Qed.

#[export] Instance sim_kube_laws : KubeLaws Sim.
Proof.
  refine {| dms := sim_store |}.
  1: { intros k w. unfold getDM, sim_kube, sim_getDM.
    destruct (live (sim_store w) !! k); [|done].
    destruct (filter _ _ !! _) as [dm|] eqn:E; [|done]. cbn. split; [done|].
    apply list_elem_of_lookup_2, list_elem_of_filter in E. tauto. }
  1-2: intros dm w; apply sim_update_law.
  all: try (intros; split; intros w; cbn; unfold sim_get; try destruct (_ !! _); done).
  all: intros; intros w; try done.
  cbn. by destruct (sim_files w !! _).
Defined.
