(* ===== verification/Hosts.v ===== *)
(** Where a data movement runs: [GetDMProfile], [GetStorageNodeNames],
    [GetWorkerHostnames], [GetCopyOffloadWorkerHostnames] and the MPI hostfile
    ([CreateMpiHostfile], [WriteMpiHostfile], [PeekMpiHostfile]) of
    internal/controller/helpers. *)
From S2P Require Import Prelude GoMonad GoStrings GoPath Api Command Env Cluster Sim.

Section Hosts.
Context {W : Type} {kube : Kube W} {os : OS W}.

Definition GetDMProfile (dm : NnfDataMovement) : M W NnfDataMovementProfile :=
  let ref := ProfileReference (dm_Spec dm) in
  if negb (String.eqb (Kind ref) "NnfDataMovementProfile")
  then fail (ErrorString ("invalid NnfDataMovementProfile kind " +:+ Kind ref))
  else getProfile (RefNamespace ref, RefName ref).

(** The last allocation set for OSTs; -1 is [None]. *)
Definition ost_set (sets : list NnfStorageAllocationSetSpec) : option NnfStorageAllocationSetSpec :=
  foldl (λ target set_, if String.eqb (TargetType set_) "ost" then Some set_ else target) None sets.

Definition GetStorageNodeNames (dm : NnfDataMovement) : M W (list string) :=
  source ← lift_outcome (deref (Source (dm_Spec dm)));
  if String.eqb (Namespace (dm_Meta dm)) (Getenv "NNF_NODE_NAME") || isTestEnv
     || String.eqb (Kind (StorageReference source)) "NnfNodeStorage"
  then mret ["localhost"]
  else
    storageRef ←
      (if String.eqb (Kind (StorageReference source)) "NnfStorage"
       then mret (StorageReference source)
       else
         destination ← lift_outcome (deref (Destination (dm_Spec dm)));
         if String.eqb (Kind (StorageReference destination)) "NnfStorage"
         then mret (StorageReference destination)
         else fail (newInvalidError "Neither source or destination is of NNF Storage type"));
    storage ← map_err
      (λ err, if IsNotFound err then newInvalidError ("NNF Storage not found: " +:+ Error err) else err)
      (getStorage (RefNamespace storageRef, RefName storageRef));
    if negb (String.eqb (st_FileSystemType storage) "lustre")
    then fail (newInvalidError ("Unsupported storage type " +:+ st_FileSystemType storage))
    else
      match ost_set (AllocationSets storage) with
      | None => fail (newInvalidError "ost allocation set not found")
      | Some set_ => mret (Nodes set_)
      end.

(** The FQDN of a worker pod: its address with dashes, in the service. *)
Definition worker_fqdn (pod : Pod) : string :=
  ReplaceAll (PodIP pod) "." "-" +:+ ".dm." +:+ DataMovementNamespace +:+ ".svc.cluster.local".

Definition hostname_map (pods : list Pod) : gmap string string :=
  foldl (λ m pod, <[NodeName pod := worker_fqdn pod]> m) ∅ pods.

(** The loop over the nodes: every node must have a worker. *)
Fixpoint lookup_hosts (m : gmap string string) (nodes : list string) : outcome (list string) :=
  match nodes with
  | [] => Ret []
  | node :: nodes' =>
      match m !! node with
      | None => Fail (newInvalidError ("Hostname invalid for node " +:+ node))
      | Some hostname =>
          rest ← lookup_hosts m nodes';
          Ret (hostname :: rest)
      end
  end.

Definition worker_query : PodQuery :=
  {| q_Namespace := DataMovementNamespace; q_Labels := [(DataMovementWorkerLabel, "true")];
     q_NodeName := None |}.

Definition GetWorkerHostnames (nodes : list string) : M W (list string) :=
  match nodes with
  | [] => lift_outcome (Panic "index out of range")
  | first :: _ =>
      if String.eqb first "localhost" then mret nodes
      else
        pods ← listPods worker_query;
        lift_outcome (lookup_hosts (hostname_map pods) nodes)
  end.

(** A carriage return before the newline is not part of a line. *)
Definition drop_cr (line : string) : string :=
  if HasSuffix line (chr "013") then take_str (String.length line - 1) line else line.

(** [bufio.Scanner] over lines: the final empty piece is no line, and a line
    that fills the 64 KiB buffer is an error. *)
Definition scan_lines (text : string) : outcome (list string) :=
  let pieces := Split text nl in
  let lines := match last pieces with Some "" => removelast pieces | _ => pieces end in
  if existsb (λ l, 65536 <=? N.of_nat (String.length l))%N lines
  then Fail (ErrorString "bufio.Scanner: token too long")
  else Ret (map drop_cr lines).

(** [getPreBuiltHosts]: the first field of every line that has one. *)
Definition line_host (line : string) : list string := take 1 (Fields line).

Definition getPreBuiltHosts : M W (list string) :=
  text ← openFile "/etc/mpi/hostfile";
  lines ← lift_outcome (scan_lines text);
  mret (flat_map line_host lines).

Definition offload_query (workflow namespace nnfNodeName : string) : PodQuery :=
  {| q_Namespace := namespace;
     q_Labels := [("training.kubeflow.org/job-name", workflow);
                  ("training.kubeflow.org/job-role", "worker")];
     q_NodeName := Some nnfNodeName |}.

Definition GetCopyOffloadWorkerHostnames (nodes : list string) (workflow namespace : string)
    (dm : NnfDataMovement) : M W (list string) :=
  match nodes with
  | [] => lift_outcome (Panic "index out of range")
  | first :: others =>
      if String.eqb first "localhost" then
        source ← lift_outcome (deref (Source (dm_Spec dm)));
        if negb (String.eqb (Kind (StorageReference source)) "NnfNodeStorage")
        then fail (newInvalidError "copy offload source storage reference is not of type NnfNodeStorage")
        else
          let nnfNodeName := RefNamespace (StorageReference source) in
          pods ← listPods (offload_query workflow namespace nnfNodeName);
          match pods with
          | [] => fail (newInvalidError ("could not find any worker pods for node " +:+ nnfNodeName))
          | [pod] =>
              mret ((pod_Name pod +:+ "." +:+ workflow +:+ "." +:+ namespace +:+ ".svc.cluster.local")
                    :: others)
          | _ => fail (newInvalidError ("found more than one worker pod for node " +:+ nnfNodeName
                                        +:+ " - there should only be one"))
          end
      else
        map_err (λ err, newInvalidError
                   ("could not get pull hosts from mpi-operator created hostfile: " +:+ Error err))
                getPreBuiltHosts
  end.

(** * The MPI hostfile *)

(** What follows a host on its line. *)
Definition slots_text (slots maxSlots : Z) : string :=
  (if (0 <? slots)%Z then " slots=" +:+ itoa slots else "")
  +:+ (if (0 <? maxSlots)%Z then " max_slots=" +:+ itoa maxSlots else "").

(** The loop of [WriteMpiHostfile]; [unique_hosts] are the hosts written. *)
Fixpoint write_hosts (f : string) (slots maxSlots : Z) (unique_hosts : gset string)
    (hosts : list string) : M W unit :=
  match hosts with
  | [] => mret tt
  | host :: hosts' =>
      if bool_decide (host ∈ unique_hosts) then write_hosts f slots maxSlots unique_hosts hosts'
      else
        _ ← writeString f host;
        _ ← (if (0 <? slots)%Z then writeString f (" slots=" +:+ itoa slots) else mret tt);
        _ ← (if (0 <? maxSlots)%Z then writeString f (" max_slots=" +:+ itoa maxSlots) else mret tt);
        _ ← writeString f nl;
        write_hosts f slots maxSlots ({[host]} ∪ unique_hosts) hosts'
  end.

Definition WriteMpiHostfile (dmName : string) (hosts : list string) (slots maxSlots : Z)
    : M W string :=
  tmpdir ← map_err (λ e, Errorf_w "failed to create directory for MPI hostfile: " e "")
    (if String.eqb dmName "" then mkdirTemp "/tmp" "dm-"
     else let tmpdir := PathJoin "/tmp" dmName in _ ← mkdirAll tmpdir; mret tmpdir);
  let hostfilePath := PathJoin tmpdir "hostfile" in
  _ ← createFile hostfilePath;
  _ ← write_hosts hostfilePath slots maxSlots ∅ hosts;
  mret hostfilePath.

(** A setting of the user configuration, if it is set and not negative. *)
Definition override (field : NnfDataMovementConfig → option Z)
    (uc : option NnfDataMovementConfig) (profile_value : Z) : Z :=
  match uc with
  | Some uc => match field uc with
               | Some v => if (0 <=? v)%Z then v else profile_value
               | None => profile_value
               end
  | None => profile_value
  end.

Definition CreateMpiHostfile (profile : NnfDataMovementProfile) (hosts : list string)
    (dm : NnfDataMovement) : M W string :=
  let uc := UserConfig (dm_Spec dm) in
  let slots := override Slots uc (p_Slots (p_Data profile)) in
  let maxSlots := override MaxSlots uc (p_MaxSlots (p_Data profile)) in
  WriteMpiHostfile (Name (dm_Meta dm)) hosts slots maxSlots.

(** [ReadString] up to the first newline: nothing without one. *)
Definition PeekMpiHostfile (hostfile : string) : M W string :=
  r ← attempt (openFile hostfile);
  match r with
  | inl _ => mret ""
  | inr text =>
      match cut nl text with
      | Some (line, _) => mret (line +:+ nl)
      | None => mret ""
      end
  end.

(** * What a hostfile holds *)

(** The hosts in the order of their first occurrence. *)
Fixpoint uniq (seen : gset string) (hosts : list string) : list string :=
  match hosts with
  | [] => []
  | host :: hosts' =>
      if bool_decide (host ∈ seen) then uniq seen hosts'
      else host :: uniq ({[host]} ∪ seen) hosts'
  end.

Definition hostfile_text (slots maxSlots : Z) (hosts : list string) : string :=
  foldr (λ host text, (host +:+ slots_text slots maxSlots) +:+ nl +:+ text) "" hosts.

Lemma uniq_elem seen hosts h : h ∈ uniq seen hosts ↔ h ∈ hosts ∧ h ∉ seen.
Proof.
  revert seen. induction hosts as [|x hosts IH]; intros seen; cbn.
  { split; [by intros ?%elem_of_nil|by intros [?%elem_of_nil _]]. }
  case_bool_decide as Hx; rewrite ?elem_of_cons, IH, ?elem_of_union, ?elem_of_singleton;
    destruct (decide (h = x)) as [->|]; tauto.
Qed.

Lemma uniq_NoDup seen hosts : NoDup (uniq seen hosts).
Proof.
  revert seen. induction hosts as [|x hosts IH]; intros seen; cbn; [constructor|].
  case_bool_decide; [done|]. constructor; [|done]. rewrite uniq_elem, elem_of_union, elem_of_singleton. tauto.
Qed.

Lemma uniq_sublist seen hosts : uniq seen hosts `sublist_of` hosts.
Proof.
  revert seen. induction hosts as [|x hosts IH]; intros seen; cbn; [constructor|].
  case_bool_decide; by constructor.
Qed.

Context {os_laws : OSLaws W}.

Lemma opt_write_ret (b : bool) f text w w' c :
  (if b then writeString f text else mret tt) w = (Ret tt, w') →
  contents w !! f = Some c →
  contents w' = <[f := c +:+ (if b then text else "")]> (contents w).
Proof.
  destruct b; intros H Hc.
  - apply writeString_ret in H. by rewrite H, Hc.
  - apply ret_inv in H as [_ ->]. rewrite string_app_nil_r. by rewrite insert_id.
Qed.

(** Writing one host: its name, the slots and a newline. *)
Lemma write_host_ret f slots maxSlots host (k : M W unit) w w' c :
  (_ ← writeString f host;
   _ ← (if (0 <? slots)%Z then writeString f (" slots=" +:+ itoa slots) else mret tt);
   _ ← (if (0 <? maxSlots)%Z then writeString f (" max_slots=" +:+ itoa maxSlots) else mret tt);
   _ ← writeString f nl; k) w = (Ret tt, w') →
  contents w !! f = Some c →
  ∃ w1, k w1 = (Ret tt, w') ∧
    contents w1 = <[f := c +:+ (host +:+ slots_text slots maxSlots) +:+ nl]> (contents w).
Proof.
  intros ([] & w1 & H1 & H)%bind_Ret_inv Hc.
  apply bind_Ret_inv in H as ([] & w2 & H2 & H).
  apply bind_Ret_inv in H as ([] & w3 & H3 & H).
  apply bind_Ret_inv in H as ([] & w4 & H4 & H).
  exists w4. split; [done|]. apply writeString_ret in H1, H4. rewrite Hc in H1. cbn [default from_option id] in H1.
  eapply opt_write_ret in H2; [|by rewrite H1, lookup_insert_eq].
  eapply opt_write_ret in H3; [|by rewrite H2, lookup_insert_eq].
  rewrite H4, H3, H2, H1, !lookup_insert_eq, !insert_insert_eq. cbn [default from_option id].
  unfold slots_text. by rewrite <- !string_app_assoc.
Qed.

Lemma write_hosts_ret f slots maxSlots seen hosts w w' c :
  write_hosts f slots maxSlots seen hosts w = (Ret tt, w') →
  contents w !! f = Some c →
  contents w' = <[f := c +:+ hostfile_text slots maxSlots (uniq seen hosts)]> (contents w).
Proof.
  revert seen w c. induction hosts as [|host hosts IH]; intros seen w c; cbn [write_hosts uniq].
  - intros [_ ->]%ret_inv Hc. cbn. by rewrite string_app_nil_r, insert_id.
  - case_bool_decide; [by apply IH|]. intros Hw Hc.
    apply write_host_ret with (c := c) in Hw as (w1 & Hk & Hw1); [|done].
    eapply IH in Hk; [|by rewrite Hw1, lookup_insert_eq].
    rewrite Hk, Hw1, insert_insert_eq. cbn [hostfile_text foldr]. unfold hostfile_text.
    by rewrite <- !string_app_assoc.
Qed.
Lemma write_hosts_ok f slots maxSlots seen hosts :
  succeeds writable (write_hosts f slots maxSlots seen hosts)
  ∧ no_panic (write_hosts f slots maxSlots seen hosts).
Proof.
  revert seen. induction hosts as [|host hosts IH]; intros seen; cbn [write_hosts]; [by auto with go_frame|].
  case_bool_decide; [done|].
  split; walk ltac:(apply writeString_ok || apply IH).
Qed.

Lemma WriteMpiHostfile_ok dmName hosts slots maxSlots :
  succeeds writable (WriteMpiHostfile dmName hosts slots maxSlots)
  ∧ no_panic (WriteMpiHostfile dmName hosts slots maxSlots).
Proof.
  unfold WriteMpiHostfile.
  split; walk ltac:(apply mkdirTemp_ok || apply mkdirAll_ok || apply createFile_ok || apply write_hosts_ok).
Qed.

Lemma tmp_path name :
  normal_elem name →
  PathJoin "/tmp" name = "/tmp/" +:+ name
  ∧ PathJoin ("/tmp/" +:+ name) "hostfile" = "/tmp/" +:+ name +:+ "/hostfile"
  ∧ Dir ("/tmp/" +:+ name +:+ "/hostfile") = "/tmp/" +:+ name.
Proof.
  intros Hn. assert (normal_elem "tmp") as Ht by done. assert (normal_elem "hostfile") as Hh by done.
  pose proof (Clean_rooted ["tmp"; name] ltac:(done) ltac:(solve_forall)) as H1.
  pose proof (Clean_rooted ["tmp"; name; "hostfile"] ltac:(done) ltac:(solve_forall)) as H2.
  pose proof (Dir_rooted ["tmp"; name] "hostfile" ltac:(done) ltac:(solve_forall) Hh) as H3.
  cbn [app Join] in *. unfold PathJoin. cbn [negb String.eqb]. split_and!.
  - etransitivity; [exact H1|]. done.
  - etransitivity; [|etransitivity; [exact H2|]]; done.
  - etransitivity; [|etransitivity; [exact H3|]]; done.
Qed.

(** C17.  The hostfile of a data movement: [CreateMpiHostfile] writes /tmp/<name>/hostfile, whose
    directory (what is removed when the command ends) is /tmp/<name>; its text is one line per
    distinct host in the order of first occurrence, with the slots of the user configuration where
    they are set and not negative and of the profile elsewhere, zero slots left out; every other
    file keeps its text.  It never panics and fails only where the file system does. *)
Theorem CreateMpiHostfile_writes profile hosts dm w :
  normal_elem (Name (dm_Meta dm)) →
  let uc := UserConfig (dm_Spec dm) in
  let dir := "/tmp/" +:+ Name (dm_Meta dm) in
  match CreateMpiHostfile profile hosts dm w with
  | (Ret path, w') =>
      path = dir +:+ "/hostfile" ∧ Dir path = dir ∧
      contents w' = <[path := hostfile_text (override Slots uc (p_Slots (p_Data profile)))
                                (override MaxSlots uc (p_MaxSlots (p_Data profile)))
                                (uniq ∅ hosts)]> (contents w)
  | (Fail _, _) => ¬ writable w
  | (Panic _, _) => False
  end.
Proof.
  intros Hn uc dir. unfold CreateMpiHostfile. fold uc.
  set (slots := override Slots _ _). set (maxSlots := override MaxSlots _ _).
  destruct (WriteMpiHostfile_ok (Name (dm_Meta dm)) hosts slots maxSlots) as [Hok Hnp].
  specialize (Hok w). specialize (Hnp w).
  destruct (WriteMpiHostfile _ _ _ _ w) as [[path|e|p] w'] eqn:E; [|intros Hw; by destruct (Hok Hw) as (? & ? & ? & _)|done].
  clear Hok Hnp. unfold WriteMpiHostfile in E.
  apply bind_Ret_inv in E as (tmpdir & w1 & E1%map_err_Ret_inv & E).
  apply bind_Ret_inv in E as ([] & w2 & E2 & E).
  apply bind_Ret_inv in E as ([] & w3 & E3 & E).
  apply ret_inv in E as [<- <-].
  assert (String.eqb (Name (dm_Meta dm)) "" = false) as Hne by (apply String.eqb_neq; apply Hn).
  rewrite Hne in E1. apply bind_Ret_inv in E1 as ([] & w4 & E4 & E1).
  apply ret_inv in E1 as [<- <-].
  destruct (tmp_path _ Hn) as (P1 & P2 & P3). rewrite P1, P2 in *. fold dir in P3 |- *.
  apply mkdirAll_ret in E4. apply createFile_ret in E2.
  eapply write_hosts_ret in E3; [|by rewrite E2, lookup_insert_eq].
  split_and!; [by unfold dir; rewrite string_app_assoc|exact P3|].
  rewrite E3, E2, E4, insert_insert_eq. by rewrite string_app_nil_l.
Qed.
(** * The hosts of the workers *)

Lemma hostname_map_snoc pods pod :
  hostname_map (pods ++ [pod]) = <[NodeName pod := worker_fqdn pod]> (hostname_map pods).
Proof. unfold hostname_map. by rewrite foldl_app. Qed.

(** The worker of a node is the last listed pod on it. *)
Lemma hostname_map_lookup pods node :
  hostname_map pods !! node = worker_fqdn <$> last (filter (λ pod, NodeName pod = node) pods).
Proof.
  induction pods as [|pod pods IH] using rev_ind; [done|].
  rewrite hostname_map_snoc, filter_app.
  destruct (decide (NodeName pod = node)) as [<-|Hne].
  - rewrite lookup_insert_eq, filter_cons_True, filter_nil by done. by rewrite last_snoc.
  - rewrite lookup_insert_ne, filter_cons_False, filter_nil, app_nil_r by done. exact IH.
Qed.

Lemma lookup_hosts_spec m nodes :
  match lookup_hosts m nodes with
  | Ret hosts => Forall2 (λ node host, m !! node = Some host) nodes hosts
  | Fail _ => ∃ node, node ∈ nodes ∧ m !! node = None
  | Panic _ => False
  end.
Proof.
  induction nodes as [|node nodes IH]; cbn; [constructor|].
  destruct (m !! node) as [host|] eqn:E.
  - destruct (lookup_hosts m nodes) as [hosts|e|p]; cbn; [by constructor| |done].
    destruct IH as (x & Hx & Hm). exists x. split; [by right|done].
  - exists node. split; [by left|done].
Qed.

(** C22.  For nodes that are not local, [GetWorkerHostnames] lists the worker pods of the data
    movement namespace and gives, node by node and in the same order, the service name of the last
    listed worker on the node; when a node has no worker it is an error, never a shorter list. *)
Theorem GetWorkerHostnames_nodewise first others pods w w' :
  first ≠ "localhost" → listPods worker_query w = (Ret pods, w') →
  let worker node := last (filter (λ pod, NodeName pod = node) pods) in
  match GetWorkerHostnames (first :: others) w with
  | (Ret hosts, w1) =>
      w1 = w' ∧ Forall2 (λ node host, worker_fqdn <$> worker node = Some host) (first :: others) hosts
  | (Fail _, w1) => w1 = w' ∧ ∃ node, node ∈ first :: others ∧ worker node = None
  | (Panic _, _) => False
  end.
Proof.
  intros Hne Hl worker. unfold GetWorkerHostnames. apply String.eqb_neq in Hne. rewrite Hne.
  rewrite (bind_Ret _ _ _ _ _ Hl). unfold lift_outcome.
  pose proof (lookup_hosts_spec (hostname_map pods) (first :: others)) as H.
  destruct (lookup_hosts _ _) as [hosts|e|p]; [|destruct H as (node & Hin & Hn)|done].
  - split; [done|]. eapply Forall2_impl; [exact H|]. intros node host Hh.
    cbv beta in Hh |- *. by rewrite hostname_map_lookup in Hh.
  - split; [done|]. exists node. split; [done|]. rewrite hostname_map_lookup in Hn.
    unfold worker. by destruct (last _).
Qed.

(** * Reading a hostfile back *)

(** A host name that survives the trip: not empty, no white space. *)
Definition plain_host (host : string) : Prop :=
  host ≠ "" ∧ string_forall (λ c, negb (is_space c)) host = true.

Lemma fields_go_plain host cur rest :
  string_forall (λ c, negb (is_space c)) host = true →
  fields_go (host +:+ rest) cur = fields_go rest (cur +:+ host).
Proof.
  revert cur. induction host as [|c host IH]; intros cur; [by rewrite string_app_nil_r|].
  cbn [string_forall]. rewrite string_app_cons. intros [Hc Hh]%andb_prop. cbn [fields_go].
  apply negb_true_iff in Hc. rewrite Hc, IH by done. by rewrite <- string_app_assoc, string_app_cons.
Qed.

Lemma line_host_plain host tail :
  plain_host host → (tail = "" ∨ ∃ c t, tail = String c t ∧ is_space c = true) →
  line_host (host +:+ tail) = [host].
Proof.
  intros [Hne Hh] Ht. unfold line_host, Fields. rewrite fields_go_plain, string_app_nil_l by done.
  destruct host as [|x host]; [done|]. destruct Ht as [->|(c & t & -> & Hc)]; cbn [fields_go]; [done|].
  by rewrite Hc.
Qed.

Lemma slots_text_tail slots maxSlots :
  slots_text slots maxSlots = "" ∨ ∃ c t, slots_text slots maxSlots = String c t ∧ is_space c = true.
Proof.
  unfold slots_text. destruct (0 <? slots)%Z; [right; by eexists " "%char, _|].
  rewrite string_app_nil_l. destruct (0 <? maxSlots)%Z; [right; by eexists " "%char, _|by left].
Qed.

Lemma slots_text_no_char c slots maxSlots :
  is_digit c = false → has_char c " slots= max_slots=" = false → has_char c (slots_text slots maxSlots) = false.
Proof.
  intros Hd Hc. assert (∀ n, (0 <? n)%Z = true → has_char c (itoa n) = false) as Hi.
  { intros n Hn%Z.ltb_lt. apply string_forall_has_char with is_digit; [apply itoa_digits; lia|done]. }
  change " slots= max_slots=" with (" slots=" +:+ " max_slots=") in Hc. rewrite has_char_app in Hc.
  apply orb_false_elim in Hc as [Hc1 Hc2]. unfold slots_text. rewrite has_char_app.
  destruct (0 <? slots)%Z eqn:E1; destruct (0 <? maxSlots)%Z eqn:E2; rewrite ?has_char_app, ?Hi, ?Hc1, ?Hc2; done.
Qed.

Definition host_line (slots maxSlots : Z) (host : string) : string :=
  host +:+ slots_text slots maxSlots.

Lemma hostfile_lines slots maxSlots hosts :
  hostfile_text slots maxSlots hosts = Join (map (host_line slots maxSlots) hosts ++ [""]) nl.
Proof.
  induction hosts as [|host hosts IH]; [done|]. cbn [map app hostfile_text foldr].
  rewrite Join_cons by (by destruct hosts). by rewrite <- IH.
Qed.

Lemma Split_hostfile slots maxSlots hosts :
  Forall plain_host hosts →
  Split (hostfile_text slots maxSlots hosts) nl = map (host_line slots maxSlots) hosts ++ [""].
Proof.
  intros H. rewrite hostfile_lines. apply Split_Join; [by destruct hosts|].
  apply Forall_app. split; [|by repeat constructor].
  induction H as [|host hosts [_ Hh] _ IH]; cbn; constructor; [|done].
  unfold host_line. rewrite has_char_app, slots_text_no_char, orb_false_r by done.
  by eapply string_forall_has_char; [exact Hh|].
Qed.

Lemma drop_cr_id line : has_char "013" line = false → drop_cr line = line.
Proof.
  intros H. unfold drop_cr. destruct (HasSuffix line (chr "013")) eqn:E; [|done].
  apply HasSuffix_iff in E as [r ->]. rewrite has_char_app in H. by apply orb_false_elim in H as [_ H].
Qed.

Lemma drop_cr_hosts slots maxSlots hosts :
  Forall plain_host hosts → map drop_cr (map (host_line slots maxSlots) hosts) = map (host_line slots maxSlots) hosts.
Proof.
  induction 1 as [|host hosts [_ Hh] _ IH]; cbn; [done|]. rewrite IH, drop_cr_id; [done|].
  unfold host_line. rewrite has_char_app, slots_text_no_char, orb_false_r by done.
  by eapply string_forall_has_char; [exact Hh|].
Qed.

(** C21.  What one hostfile lists is what reading it back gives: [getPreBuiltHosts] on a file in
    the format [WriteMpiHostfile] writes, with any slots, returns exactly the hosts in their
    order, for host names without white space and lines below the scanner's limit. *)
Theorem hostfile_roundtrip slots maxSlots hosts w w' :
  Forall plain_host hosts →
  Forall (λ host, (N.of_nat (String.length (host_line slots maxSlots host)) < 65536)%N) hosts →
  openFile "/etc/mpi/hostfile" w = (Ret (hostfile_text slots maxSlots hosts), w') →
  getPreBuiltHosts w = (Ret hosts, w').
Proof.
  intros Hp Hl Ho. unfold getPreBuiltHosts. rewrite (bind_Ret _ _ _ _ _ Ho).
  unfold scan_lines. rewrite Split_hostfile, last_snoc, removelast_last by done.
  assert (existsb (λ l, 65536 <=? N.of_nat (String.length l))%N (map (host_line slots maxSlots) hosts)
          = false) as ->.
  { clear -Hl. induction Hl as [|h hosts Hh _ IH]; cbn; [done|]. rewrite IH, orb_false_r.
    by apply N.leb_gt. }
  rewrite drop_cr_hosts by done. unfold mbind, M_bind, lift_outcome, mret, M_ret. do 2 f_equal.
  clear -Hp. induction Hp as [|host hosts Hh _ IH]; cbn [map flat_map]; [done|].
  unfold host_line at 1. rewrite line_host_plain by (done || apply slots_text_tail). cbn. by rewrite IH.
Qed.
End Hosts.

(** * None of this touches the data movement resources *)

Section Frames.
Context {W : Type} {kube : Kube W} {os : OS W} {laws : KubeLaws W}.

Lemma GetDMProfile_frame dm : preserves dms (GetDMProfile dm).
Proof. unfold GetDMProfile. walk ltac:(apply getProfile_law). Qed.

Lemma GetStorageNodeNames_frame dm : preserves dms (GetStorageNodeNames dm).
Proof. unfold GetStorageNodeNames. walk ltac:(apply getStorage_law). Qed.

Lemma GetWorkerHostnames_frame nodes : preserves dms (GetWorkerHostnames nodes).
Proof. unfold GetWorkerHostnames. walk ltac:(apply listPods_law). Qed.

Lemma write_hosts_frame f slots maxSlots seen hosts :
  preserves dms (write_hosts f slots maxSlots seen hosts).
Proof. revert seen. induction hosts as [|h hosts IH]; intros seen; cbn [write_hosts]; walk ltac:(apply IH). Qed.

Lemma CreateMpiHostfile_frame profile hosts dm : preserves dms (CreateMpiHostfile profile hosts dm).
Proof. unfold CreateMpiHostfile, WriteMpiHostfile. walk ltac:(apply write_hosts_frame). Qed.

Lemma PeekMpiHostfile_frame hostfile : preserves dms (PeekMpiHostfile hostfile).
Proof. unfold PeekMpiHostfile. walk idtac. Qed.
End Frames.

#[export] Hint Resolve GetDMProfile_frame GetStorageNodeNames_frame GetWorkerHostnames_frame
  CreateMpiHostfile_frame PeekMpiHostfile_frame : go_frame.

(** * On the simulated cluster *)

Definition worker_pod (name node ip : string) : Pod :=
  {| pod_Name := name; pod_Namespace := DataMovementNamespace;
     pod_Labels := {[ DataMovementWorkerLabel := "true" ]}; NodeName := node; PodIP := ip |}.

Definition lustre_ref : ObjectReference :=
  {| Kind := "NnfStorage"; RefName := "lus"; RefNamespace := "default" |}.

Definition hosts_world (nodes : list string) (hostfile : string) : Sim :=
  {| sim_store := {| live := ∅; history := []; counter := 0 |}; sim_profiles := ∅;
     sim_storages := {[ ("default", "lus") :=
       {| st_FileSystemType := "lustre";
          AllocationSets := [{| TargetType := "mgt"; Nodes := ["rabbit-9"] |};
                             {| TargetType := "ost"; Nodes := nodes |}] |} ]};
     sim_nodeStorages := ∅;
     sim_pods := [worker_pod "w1" "rabbit-1" "10.0.0.1"; worker_pod "w2" "rabbit-2" "10.0.0.2"];
     sim_files := {[ "/etc/mpi/hostfile" := hostfile ]}; sim_commands := ∅; sim_clock := 0;
     sim_faults := []; sim_reads := [] |}.

Lemma CreateMpiHostfile_writes_witness :
  let r := CreateMpiHostfile default_profile ["h1"; "h2"; "h1"] (sample_dm "dm-1" "/a" "/b" None)
             (hosts_world [] "") in
  normal_elem "dm-1" ∧ fst r = Ret "/tmp/dm-1/hostfile" ∧
  contents (snd r) !! "/tmp/dm-1/hostfile" = Some ("h1 slots=8" +:+ nl +:+ "h2 slots=8" +:+ nl).
Proof.
  assert (normal_elem "dm-1") as Hn by (repeat split; discriminate).
  pose proof (CreateMpiHostfile_writes default_profile ["h1"; "h2"; "h1"]
                (sample_dm "dm-1" "/a" "/b" None) (hosts_world [] "") Hn) as H.
  cbv zeta in *. destruct (CreateMpiHostfile _ _ _ _) as [[p|e|p] w']; [|destruct H; exact I|destruct H].
  destruct H as (Hp & _ & Hc). split; [exact Hn|]. cbn [fst snd]. subst p. split; [reflexivity|].
  rewrite Hc. vm_compute. reflexivity.
Defined.

Lemma GetWorkerHostnames_nodewise_witness :
  fst (GetWorkerHostnames ["rabbit-2"; "rabbit-1"] (hosts_world [] ""))
  = Ret ["10-0-0-2.dm.nnf-dm-system.svc.cluster.local"; "10-0-0-1.dm.nnf-dm-system.svc.cluster.local"].
Proof.
  pose proof (GetWorkerHostnames_nodewise "rabbit-2" ["rabbit-1"] (sim_pods (hosts_world [] ""))
                (hosts_world [] "") (hosts_world [] "") ltac:(discriminate) eq_refl) as H.
  cbv zeta in H. destruct (GetWorkerHostnames _ _) as [[hosts|e|p] w1].
  - destruct H as [_ H]. inversion H as [|? h1 ? l1 E1 H1]; subst. inversion H1 as [|? h2 ? l2 E2 H2]; subst.
    inversion H2; subst. vm_compute in E1, E2. injection E1 as <-. injection E2 as <-. reflexivity.
  - destruct H as (_ & node & Hin & Hw).
    apply elem_of_cons in Hin as [->|Hin]; [vm_compute in Hw; discriminate Hw|].
    apply list_elem_of_singleton in Hin as ->. vm_compute in Hw. discriminate Hw.
  - destruct H.
Defined.

Lemma hostfile_roundtrip_witness :
  fst (getPreBuiltHosts (hosts_world [] (hostfile_text 8 0 ["w-0.job"; "w-1.job"]))) = Ret ["w-0.job"; "w-1.job"].
Proof.
  rewrite (hostfile_roundtrip 8 0 ["w-0.job"; "w-1.job"]
             (hosts_world [] (hostfile_text 8 0 ["w-0.job"; "w-1.job"]))
             (hosts_world [] (hostfile_text 8 0 ["w-0.job"; "w-1.job"]))).
  - reflexivity.
  - repeat constructor; discriminate.
  - repeat constructor.
  - vm_compute. reflexivity.
Defined.

Definition lustre_dm : NnfDataMovement :=
  {| dm_Meta := sample_meta "dm-1";
     dm_Spec := {| Source := Some {| Path := "/a"; StorageReference := lustre_ref |};
                   Destination := Some {| Path := "/b"; StorageReference := no_reference |};
                   UserId := 0; GroupId := 0; Cancel := false; ProfileReference := no_reference;
                   UserConfig := None |};
     dm_Status := empty_Status |}.

(** A Lustre storage whose OST allocation set lists no node gives an empty list of nodes
    without an error, and [GetWorkerHostnames] then indexes the empty list: the process panics. *)
Theorem no_ost_nodes_panics :
  fst ((nodes ← GetStorageNodeNames lustre_dm; GetWorkerHostnames nodes) (hosts_world [] ""))
  = Panic "index out of range" ∧
  fst ((nodes ← GetStorageNodeNames lustre_dm; GetWorkerHostnames nodes) (hosts_world ["rabbit-1"] ""))
  = Ret ["10-0-0-1.dm.nnf-dm-system.svc.cluster.local"].
Proof. split; vm_compute; reflexivity. Qed.
