(* ===== verification/Dest.v ===== *)
(** Preparing the destination of a data movement: [PrepareDestination],
    [GetDestinationDir], the index mount directories and the [stat] and [mkdir]
    commands run through [mpirun], of internal/controller/helpers. *)
From S2P Require Import Prelude GoMonad GoStrings GoRegexp GoPath Api Command Env Cluster Sim.

(** [(<namespace>-\d+)(/|$)]; a namespace is a DNS label, so it stands for itself. *)
Definition index_mount_re (namespace : string) : re :=
  Seq (Grp (lit namespace (lit "-" (Plus is_digit))))
      (Grp (Alt (lit "/" Eps) EndText)).

Definition ExtractIndexMountDir (path namespace : string) : outcome string :=
  match FindStringSubmatch (index_mount_re namespace) path with
  | [] => Fail (ErrorString
            ("could not extract index mount directory from source path: " +:+ path
             +:+ ". Looking for pattern '(" +:+ namespace +:+ "-\d+)(/|$)'"))
  | m =>
      match m !! 1 with
      | None => Panic "index out of range"
      | Some idxMount => if HasSuffix path idxMount then Ret "" else Ret idxMount
      end
  end.

Section Dest.
Context {W : Type} {kube : Kube W} {os : OS W}.

Definition mpiStat (profile : NnfDataMovementProfile) (path : string) (uid gid : Z)
    (mpiHostfile : string) : M W string :=
  let cmd := buildStatOrMkdirCommand getuid uid gid (StatCommand (p_Data profile))
               (SetprivCommand (p_Data profile)) mpiHostfile path in
  r ← runCommand cmd;
  match r with
  | (_, Some err) => fail (Errorf_w ("could not stat path ('" +:+ path +:+ "'): ") err "")
  | (output, None) => mret output
  end.

Definition mpiIsDir (profile : NnfDataMovementProfile) (path : string) (uid gid : Z)
    (mpiHostfile : string) : M W bool :=
  output ← mpiStat profile path uid gid mpiHostfile;
  if Contains (ToLower output) "directory" then mret true
  else if Contains (ToLower output) "file" then mret false
  else if String.eqb (Getenv "ENVIRONMENT") "kind" && String.eqb output ("symbolic link" +:+ nl)
  then mret true
  else fail (ErrorString ("could not determine file type of path ('" +:+ path +:+ "'): " +:+ output)).

Definition isSourceAFile (profile : NnfDataMovementProfile) (dm : NnfDataMovement)
    (mpiHostFile : string) : M W bool :=
  source ← lift_outcome (deref (Source (dm_Spec dm)));
  isDir ←
    (if isTestEnv
     then map_err (λ err, Errorf_w "source file does not exist: " err "") (statIsDir (Path source))
     else mpiIsDir profile (Path source) (UserId (dm_Spec dm)) (GroupId (dm_Spec dm)) mpiHostFile);
  mret (negb isDir).

Definition isDestAFile (profile : NnfDataMovementProfile) (dm : NnfDataMovement)
    (mpiHostFile : string) : M W bool :=
  destination ← lift_outcome (deref (Destination (dm_Spec dm)));
  let dest := Path destination in
  r ← attempt
    (if isTestEnv then statIsDir dest
     else mpiIsDir profile dest (UserId (dm_Spec dm)) (GroupId (dm_Spec dm)) mpiHostFile);
  match r with
  | inr isDir => mret (negb isDir)
  | inl _ => mret (negb (HasSuffix dest "/"))
  end.

Definition GetDestinationDir (profile : NnfDataMovementProfile) (dm : NnfDataMovement)
    (mpiHostfile : string) : M W string :=
  destination ← lift_outcome (deref (Destination (dm_Spec dm)));
  srcIsFile ← isSourceAFile profile dm mpiHostfile;
  fileFile ← (if (srcIsFile : bool) then isDestAFile profile dm mpiHostfile else mret false);
  let destDir := if (fileFile : bool) then Dir (Path destination) else Path destination in
  mret (Clean destDir).

Definition has_index_mounts (fsType : string) : bool :=
  String.eqb fsType "gfs2" || String.eqb fsType "xfs".

Definition checkIndexMountDir (dm : NnfDataMovement) : M W string :=
  source ← lift_outcome (deref (Source (dm_Spec dm)));
  let storageRef := StorageReference source in
  let key := (RefNamespace storageRef, RefName storageRef) in
  let not_found kind err :=
    if IsNotFound err
    then newInvalidError ("could not retrieve " +:+ kind +:+ " for checking index mounts: " +:+ Error err)
    else err in
  if String.eqb (Kind storageRef) "NnfStorage" then
    storage ← map_err (not_found "NnfStorage") (getStorage key);
    if has_index_mounts (st_FileSystemType storage)
    then lift_outcome (ExtractIndexMountDir (Path source) (Namespace (dm_Meta dm)))
    else mret ""
  else if String.eqb (Kind storageRef) "NnfNodeStorage" then
    nodeStorage ← map_err (not_found "NnfNodeStorage") (getNodeStorage key);
    if has_index_mounts (ns_FileSystemType nodeStorage)
    then lift_outcome (ExtractIndexMountDir (Path source) (Namespace (dm_Meta dm)))
    else mret ""
  else mret "".

(** Returns the directory to create and the data movement with its new destination. *)
Definition HandleIndexMountDir (profile : NnfDataMovementProfile) (dm : NnfDataMovement)
    (destDir indexMount mpiHostfile : string) : M W (string * NnfDataMovement) :=
  source ← lift_outcome (deref (Source (dm_Spec dm)));
  if HasSuffix (Path source) indexMount then mret (destDir, dm)
  else
    let idxMntDir := PathJoin destDir indexMount in
    srcIsFile ← isSourceAFile profile dm mpiHostfile;
    destIsFile ← isDestAFile profile dm mpiHostfile;
    destination ← lift_outcome (deref (Destination (dm_Spec dm)));
    let dmDest := if (srcIsFile : bool) && (destIsFile : bool) then PathJoin idxMntDir (Base (Path destination))
                  else idxMntDir in
    let dmDest := if HasSuffix (Path destination) "/" then dmDest +:+ "/" else dmDest in
    mret (idxMntDir, set_DestinationPath dmDest dm).

Definition createDestinationDir (profile : NnfDataMovementProfile) (dm : NnfDataMovement)
    (dest mpiHostfile : string) : M W unit :=
  let uid := UserId (dm_Spec dm) in
  let gid := GroupId (dm_Spec dm) in
  r ← attempt (mpiStat profile dest uid gid mpiHostfile);
  exists_ ← (match r with
             | inr _ => mret true
             | inl err => if Contains (ToLower (Error err)) "no such file or directory"
                          then mret false else fail err
             end : M W bool);
  if (exists_ : bool) then mret tt
  else
    let cmd := buildStatOrMkdirCommand getuid uid gid (MkdirCommand (p_Data profile))
                 (SetprivCommand (p_Data profile)) mpiHostfile dest in
    run ← runCommand cmd;
    match run with
    | (output, Some err) =>
        fail (Errorf_w ("data movement mkdir failed ('" +:+ cmd +:+ "'): ") err (" output: " +:+ output))
    | (_, None) => mret tt
    end.

(** The data movement is changed in place, also when a later step fails: the
    result is the data movement and the error, if any. *)
Definition PrepareDestination (profile : NnfDataMovementProfile) (dm : NnfDataMovement)
    (mpiHostfile : string) : M W (NnfDataMovement * option error) :=
  if isTestEnv || negb (CreateDestDir (p_Data profile)) then mret (dm, None)
  else
    destDir ← attempt (GetDestinationDir profile dm mpiHostfile);
    match destDir with
    | inl err => mret (dm, Some (fatal_error "could not determine source type" err))
    | inr destDir =>
        indexMount ← attempt (checkIndexMountDir dm);
        match indexMount with
        | inl err => mret (dm, Some (fatal_error "could not determine index mount directory" err))
        | inr indexMount =>
            handled ← attempt
              (if String.eqb indexMount "" then mret (destDir, dm)
               else HandleIndexMountDir profile dm destDir indexMount mpiHostfile);
            match handled with
            | inl err => mret (dm, Some (fatal_error "could not handle index mount directory" err))
            | inr (destDir, dm) =>
                created ← attempt (createDestinationDir profile dm destDir mpiHostfile);
                match created with
                | inl err => mret (dm, Some (fatal_error "could not create destination directory" err))
                | inr _ => mret (dm, None)
                end
            end
        end
    end.
End Dest.

(** * Samples of the project's own tests *)

Example ExtractIndexMountDir_samples :
  map (λ p, match ExtractIndexMountDir p "winchell31" with Ret m => Some m | _ => None end)
    ["/mnt/nnf/12345-0/winchell31-0/dir1"; "/mnt/nnf/12345-0/winchell31-7/path/to/a/file";
     "/mnt/nnf/12345-0/winchell31-0"; "/mnt/nnf/12345-0/winchell31-11/";
     "/mnt/nnf/12345-0/winchell31-9999999999999/"; ""; "/mnt/nnf/12345-0/wrong-namespace-0/";
     "mnt/nnf/12345-0/winchell31-0-0/"]
  = [Some "winchell31-0"; Some "winchell31-7"; Some ""; Some "winchell31-11";
     Some "winchell31-9999999999999"; None; None; None].
Proof. vm_compute. reflexivity. Qed.

(** * The index mount directory *)

(** [<namespace>-<digits>] *)
Definition is_mount (namespace m : string) : Prop :=
  ∃ d, m = namespace +:+ "-" +:+ d ∧ d ≠ "" ∧ string_forall is_digit d = true.

Lemma matches_index_mount ns w rest c :
  matches (index_mount_re ns) w rest c →
  ∃ m e, w = m +:+ e ∧ c = [m; e] ∧ is_mount ns m ∧ (e = "/" ∨ (e = "" ∧ rest = "")).
Proof.
  unfold index_mount_re.
  intros (m & e & c1 & c2 & -> & -> & (c' & -> & Hm)%matches_Grp & (c'' & -> & He)%matches_Grp)%matches_Seq.
  apply matches_lit in Hm as (m' & -> & Hm). apply matches_lit in Hm as (d & -> & Hd).
  apply matches_Plus in Hd as (-> & Hne & Hd).
  assert (c'' = [] ∧ (e = "/" ∨ (e = "" ∧ rest = ""))) as [-> He'].
  { apply matches_Alt in He as [(e' & -> & [-> ->]%matches_Eps)%matches_lit|He]; [by auto|].
    inversion He; subst; by auto. }
  exists (ns +:+ "-" +:+ d), e. repeat split; [by exists d|done].
Qed.

Lemma index_mount_matches ns m e rest :
  is_mount ns m → (e = "/" ∨ (e = "" ∧ rest = "")) →
  matches (index_mount_re ns) (m +:+ e) rest [m; e].
Proof.
  intros (d & -> & Hne & Hd) He. unfold index_mount_re. apply matches_Seq.
  exists (ns +:+ "-" +:+ d), e, [ns +:+ "-" +:+ d], [e]. repeat split.
  - apply matches_Grp. exists []. split; [done|]. apply matches_lit. eexists. split; [done|].
    apply matches_lit. eexists. split; [done|]. by apply matches_Plus.
  - apply matches_Grp. exists []. split; [done|]. apply matches_Alt.
    destruct He as [->|[-> ->]]; [left|right; apply m_end].
    apply matches_lit. exists "". split; [done|]. by apply matches_Eps.
Qed.

(** [ExtractIndexMountDir] finds the index mount directory, namespace-dash-digits ended by a
    slash or by the end of the path, wherever one occurs: it fails exactly when the path has none,
    returns one that occurs before a slash, and returns "" only when the path ends in one. *)
Theorem ExtractIndexMountDir_finds path namespace :
  let ends_mount pre m post := is_mount namespace m ∧ (path = pre +:+ m +:+ "/" +:+ post ∨ path = pre +:+ m) in
  match ExtractIndexMountDir path namespace with
  | Ret "" => ∃ pre m, is_mount namespace m ∧ path = pre +:+ m
  | Ret m => is_mount namespace m ∧ (∃ pre post, path = pre +:+ m +:+ "/" +:+ post)
             ∧ ¬ ∃ pre, path = pre +:+ m
  | Fail _ => ¬ ∃ pre m post, ends_mount pre m post
  | Panic _ => False
  end.
Proof.
  cbv zeta. unfold ExtractIndexMountDir, FindStringSubmatch.
  destruct (find (index_mount_re namespace) path) as [ms|] eqn:E; cbn [default from_option id].
  - apply find_Some in E as (pre & w & rest & c & Hp & Hm & -> & _).
    apply matches_index_mount in Hm as (m & e & -> & -> & Hmount & He). cbn [lookup list_lookup].
    destruct (HasSuffix path m) eqn:Hs.
    + apply HasSuffix_iff in Hs as [r ->]. eauto.
    + assert (¬ ∃ r, path = r +:+ m) as Hns by (rewrite <- HasSuffix_iff; by destruct (HasSuffix path m)).
      assert (∃ x m', m = String x m') as (x & m' & ->).
      { destruct Hmount as (d & -> & _). destruct namespace; by repeat eexists. }
      split_and!; [done| |done]. destruct He as [->|[-> ->]].
      * exists pre, rest. by rewrite Hp, <- string_app_assoc.
      * exfalso. apply Hns. exists pre. by rewrite Hp, !string_app_nil_r.
  - intros (pre & m & post & Hm & [Hp|Hp]).
    + refine (find_None _ _ pre (m +:+ "/") post [m; "/"] E _ _); [by rewrite Hp, <- string_app_assoc|].
      apply index_mount_matches; [done|by left].
    + refine (find_None _ _ pre (m +:+ "") "" [m; ""] E _ _); [by rewrite Hp, !string_app_nil_r|].
      apply index_mount_matches; [done|by right].
Qed.

(** The check for a path that is the index mount directory itself only compares text: a source
    below the index mount whose own name ends in the text of the index mount is taken for the root,
    and gets no index mount directory on the destination. *)
Theorem ExtractIndexMountDir_suffix_only :
  ExtractIndexMountDir "/mnt/nnf/12345-0/winchell31-0/old-winchell31-0" "winchell31" = Ret "" ∧
  ExtractIndexMountDir "/mnt/nnf/12345-0/winchell31-0/old" "winchell31" = Ret "winchell31-0".
Proof. split; vm_compute; reflexivity. Qed.

Lemma ExtractIndexMountDir_no_panic path ns p : ExtractIndexMountDir path ns ≠ Panic p.
Proof.
  unfold ExtractIndexMountDir, FindStringSubmatch.
  destruct (find (index_mount_re ns) path) as [ms|] eqn:E; cbn [default from_option id]; [|done].
  apply find_Some in E as (pre & w & rest & c & Hp & Hm & -> & _).
  apply matches_index_mount in Hm as (m & e & _ & -> & _). cbn [lookup list_lookup].
  by destruct (HasSuffix path m).
Qed.

Lemma Clean_Join_rooted elems e :
  elems ≠ [] → Forall normal_elem elems → normal_elem e →
  PathJoin (slash +:+ Join elems slash) e = slash +:+ Join (elems ++ [e]) slash.
Proof.
  intros Hne H He. unfold PathJoin. cbn [String.eqb negb slash].
  change (String.eqb ("/" +:+ Join elems "/") "") with false. cbn [negb].
  rewrite <- string_app_assoc, <- Join_snoc by done. apply Clean_rooted; [by destruct elems|].
  apply Forall_app. split; [done|by solve_forall].
Qed.

Lemma set_DestinationPath_same dm dest :
  Destination (dm_Spec dm) = Some dest → set_DestinationPath (Path dest) dm = dm.
Proof. destruct dm as [m [? d ? ? ? ? ?] s]. cbn. intros ->. by destruct dest. Qed.

Section Outcomes.
Context {W : Type} {kube : Kube W} {os : OS W}.

(** C24.  Where a copy out of an index mount goes, for a destination directory and an index mount name
    that are clean.  A source that ends in the index mount is a whole mount: nothing is changed, and
    nothing is looked up.  Otherwise [HandleIndexMountDir] returns the directory [<destDir>/<index mount>]
    as the one to create and changes nothing of the data movement but its destination path: for a file copied onto
    a file it is the path in that directory with the file name asked for, in every other case it is
    the directory itself, with the trailing slash of the request. *)
Theorem HandleIndexMountDir_places profile dm src dest elems indexMount hostfile w sf w1 df w2 :
  elems ≠ [] → Forall normal_elem elems → normal_elem indexMount →
  Source (dm_Spec dm) = Some src → Destination (dm_Spec dm) = Some dest →
  normal_elem (Base (Path dest)) →
  isSourceAFile profile dm hostfile w = (Ret sf, w1) →
  isDestAFile profile dm hostfile w1 = (Ret df, w2) →
  let destDir := slash +:+ Join elems slash in
  let idxMntDir := slash +:+ Join (elems ++ [indexMount]) slash in
  if HasSuffix (Path src) indexMount
  then HandleIndexMountDir profile dm destDir indexMount hostfile w = (Ret (destDir, dm), w)
  else
    ∃ path,
      HandleIndexMountDir profile dm destDir indexMount hostfile w
      = (Ret (idxMntDir, set_DestinationPath (path +:+ (if HasSuffix (Path dest) "/" then "/" else "")) dm), w2)
      ∧ (if sf && df then path = idxMntDir +:+ slash +:+ Base (Path dest) ∧ Dir path = idxMntDir
         else path = idxMntDir).
Proof.
  intros Hne Hel Hi Hs Hd Hb Hsf Hdf destDir idxMntDir. unfold HandleIndexMountDir. rewrite Hs. cbn [deref].
  erewrite !bind_Ret by done. destruct (HasSuffix (Path src) indexMount); [done|].
  assert (elems ++ [indexMount] ≠ []) as Hne' by (by destruct elems).
  assert (Forall normal_elem (elems ++ [indexMount])) as Hel' by (apply Forall_app; split; [done|by solve_forall]).
  exists (if sf && df then PathJoin idxMntDir (Base (Path dest)) else idxMntDir). subst destDir idxMntDir.
  split.
  - rewrite (bind_Ret _ _ _ _ _ Hsf), (bind_Ret _ _ _ _ _ Hdf), Hd. cbn [deref].
    erewrite bind_Ret by done. unfold mret, M_ret. rewrite Clean_Join_rooted by done.
    destruct (HasSuffix (Path dest) "/"); [done|by rewrite string_app_nil_r].
  - destruct (sf && df); [|done]. rewrite Clean_Join_rooted by done.
    split; [by rewrite Join_snoc by done|]. by apply Dir_rooted.
Qed.

(** Metadata and status are left alone. *)
Definition same_but_spec (dm dm' : NnfDataMovement) : Prop :=
  dm_Meta dm' = dm_Meta dm ∧ dm_Status dm' = dm_Status dm.

Lemma PrepareDestination_same profile dm hf :
  returns (λ r, same_but_spec dm (fst r)) (PrepareDestination profile dm hf).
Proof.
  assert (∀ err, returns (λ r : _ * option error, same_but_spec dm (fst r)) (mret (dm, err) : M W _)) as Hsame.
  { intros err. by apply returns_ret. }
  unfold PrepareDestination. destruct (_ || _); [apply Hsame|].
  eapply returns_bind; [apply returns_any|intros [|destDir] _; [apply Hsame|]].
  eapply returns_bind; [apply returns_any|intros [|idx] _; [apply Hsame|]].
  eapply returns_bind; [apply (returns_attempt (λ r : string * _, same_but_spec dm (snd r)))|].
  - destruct (String.eqb idx ""); [by apply returns_ret|]. unfold HandleIndexMountDir.
    eapply returns_bind; [apply returns_any|intros src _]. destruct (HasSuffix _ _); [by apply returns_ret|].
    do 3 (eapply returns_bind; [apply returns_any|intros ? _]). by apply returns_ret.
  - intros [e|[dir dm']]; [intros _; apply Hsame|cbn [snd]; intros Hdm].
    eapply returns_bind; [apply returns_any|]. intros [|] _; by apply returns_ret.
Qed.

Definition is_fatal (e : error) : Prop := ∃ info, e = ResourceErr info ∧ Severity info = SeverityFatal.

Lemma PrepareDestination_error profile dm hf :
  returns (λ r, ∀ e, snd r = Some e → is_fatal e) (PrepareDestination profile dm hf)
  ∧ fails_with (λ _, False) (PrepareDestination profile dm hf).
Proof.
  assert (∀ msg err d, returns (λ r : _ * option error, ∀ e, snd r = Some e → is_fatal e)
            (mret (d, Some (fatal_error msg err)) : M W (NnfDataMovement * _))) as Hfatal.
  { intros msg err d. apply returns_ret. intros e [= <-]. by eexists. }
  split; unfold PrepareDestination; (destruct (_ || _); [try by apply returns_ret|]).
  - eapply returns_bind; [apply returns_any|intros [|destDir] _; [apply Hfatal|]].
    eapply returns_bind; [apply returns_any|intros [|idx] _; [apply Hfatal|]].
    eapply returns_bind; [apply returns_any|intros [|[dir dm']] _; [apply Hfatal|]].
    eapply returns_bind; [apply returns_any|intros [|] _; [apply Hfatal|by apply returns_ret]].
  - apply fails_ret.
  - eapply fails_bind; [apply fails_attempt|apply returns_any|intros [|destDir] _; [apply fails_ret|]].
    eapply fails_bind; [apply fails_attempt|apply returns_any|intros [|idx] _; [apply fails_ret|]].
    eapply fails_bind; [apply fails_attempt|apply returns_any|intros [|[dir dm']] _; [apply fails_ret|]].
    eapply fails_bind; [apply fails_attempt|apply returns_any|intros [|] _; apply fails_ret].
Qed.

Context {os_laws : OSLaws W} {laws : KubeLaws W}.

Lemma mpiIsDir_ok profile path uid gid hf :
  no_panic (mpiIsDir profile path uid gid hf) ∧ preserves dms (mpiIsDir profile path uid gid hf).
Proof. unfold mpiIsDir, mpiStat. split; walk ltac:(apply runCommand_ok). Qed.

Lemma isSourceAFile_frame profile dm hf : preserves dms (isSourceAFile profile dm hf).
Proof. unfold isSourceAFile. walk ltac:(apply mpiIsDir_ok). Qed.

Lemma isDestAFile_frame profile dm hf : preserves dms (isDestAFile profile dm hf).
Proof. unfold isDestAFile. walk ltac:(apply mpiIsDir_ok). Qed.

Lemma isSourceAFile_ok profile dm hf src :
  Source (dm_Spec dm) = Some src → no_panic (isSourceAFile profile dm hf).
Proof.
  intros Hs. unfold isSourceAFile. rewrite Hs. cbn [deref].
  walk ltac:(apply mpiIsDir_ok || apply statIsDir_ok || done).
Qed.

Lemma isDestAFile_ok profile dm hf dest :
  Destination (dm_Spec dm) = Some dest → no_panic (isDestAFile profile dm hf).
Proof.
  intros Hd. unfold isDestAFile. rewrite Hd. cbn [deref].
  walk ltac:(apply mpiIsDir_ok || apply statIsDir_ok || done).
Qed.

Lemma GetDestinationDir_ok profile dm hf src dest :
  Source (dm_Spec dm) = Some src → Destination (dm_Spec dm) = Some dest →
  no_panic (GetDestinationDir profile dm hf).
Proof.
  intros Hs Hd. unfold GetDestinationDir. rewrite Hd. cbn [deref].
  walk ltac:(by eapply isSourceAFile_ok || by eapply isDestAFile_ok || done).
Qed.

Lemma checkIndexMountDir_ok dm src :
  Source (dm_Spec dm) = Some src → no_panic (checkIndexMountDir dm).
Proof.
  intros Hs. unfold checkIndexMountDir. rewrite Hs. cbn [deref].
  assert (∀ path ns, no_panic (lift_outcome (ExtractIndexMountDir path ns) : M W string)) as He.
  { intros path ns w. cbn. pose proof (ExtractIndexMountDir_no_panic path ns) as H.
    destruct (ExtractIndexMountDir path ns); [done..|by eapply H]. }
  walk ltac:(apply getStorage_law || apply getNodeStorage_law || apply He || done).
Qed.

Lemma HandleIndexMountDir_ok profile dm destDir idx hf src dest :
  Source (dm_Spec dm) = Some src → Destination (dm_Spec dm) = Some dest →
  no_panic (HandleIndexMountDir profile dm destDir idx hf).
Proof.
  intros Hs Hd. unfold HandleIndexMountDir. rewrite Hs, Hd. cbn [deref].
  walk ltac:(by eapply isSourceAFile_ok || by eapply isDestAFile_ok || done).
Qed.

Lemma createDestinationDir_ok profile dm dest hf : no_panic (createDestinationDir profile dm dest hf).
Proof. unfold createDestinationDir, mpiStat. walk ltac:(apply runCommand_ok). Qed.

Lemma PrepareDestination_frame profile dm hf : preserves dms (PrepareDestination profile dm hf).
Proof.
  unfold PrepareDestination, GetDestinationDir, checkIndexMountDir, HandleIndexMountDir,
    createDestinationDir, mpiStat.
  walk ltac:(apply isSourceAFile_frame || apply isDestAFile_frame || apply getStorage_law
             || apply getNodeStorage_law).
Qed.

Lemma HandleIndexMountDir_dm profile dm destDir idx hf w dir dm' w' dest :
  Destination (dm_Spec dm) = Some dest →
  HandleIndexMountDir profile dm destDir idx hf w = (Ret (dir, dm'), w') →
  ∃ path, dm' = set_DestinationPath path dm.
Proof.
  intros Hd. unfold HandleIndexMountDir. intros (src & w1 & _ & H)%bind_Ret_inv.
  destruct (HasSuffix (Path src) idx).
  - apply ret_inv in H as [[= _ <-] _]. exists (Path dest). by rewrite set_DestinationPath_same.
  - apply bind_Ret_inv in H as (sf & w2 & _ & H). apply bind_Ret_inv in H as (df & w3 & _ & H).
    apply bind_Ret_inv in H as (d & w4 & _ & H). apply ret_inv in H as [[= _ <-] _]. by eexists.
Qed.

(** Run a step under [attempt] that does not panic, naming its result. *)
Ltac attempt_step r E := match goal with
  | |- context [mbind _ (attempt ?m) ?w] =>
      let w' := fresh "w" in let Ha := fresh "Ha" in
      destruct (attempt_returns m w) as (r & w' & Ha & E);
      [|rewrite (bind_Ret _ _ _ _ _ Ha); clear Ha]
  end.

(** C23.  [PrepareDestination] of a data movement with a source and a destination never panics; what
    it reports is always a fatal resource error, and of the data movement it changes at most the
    destination path. *)
Theorem PrepareDestination_errors_fatal profile dm hostfile w src dest :
  Source (dm_Spec dm) = Some src → Destination (dm_Spec dm) = Some dest →
  match PrepareDestination profile dm hostfile w with
  | (Ret (dm', err), _) =>
      (∃ path, dm' = set_DestinationPath path dm) ∧
      (∀ e, err = Some e → ∃ info, e = ResourceErr info ∧ Severity info = SeverityFatal)
  | _ => False
  end.
Proof.
  intros Hs Hd. assert (∃ path, dm = set_DestinationPath path dm) as Hsame.
  { exists (Path dest). by rewrite set_DestinationPath_same. }
  assert (∀ msg err e, Some (fatal_error msg err) = Some e →
            ∃ info, e = ResourceErr info ∧ Severity info = SeverityFatal) as Hfatal.
  { intros msg err e [= <-]. by eexists. }
  unfold PrepareDestination. destruct (isTestEnv || _); [done|].
  attempt_step r1 E1; [by eapply GetDestinationDir_ok|]. destruct r1 as [|destDir]; [split; [exact Hsame|apply Hfatal]|].
  attempt_step r2 E2; [by eapply checkIndexMountDir_ok|]. destruct r2 as [|idx]; [split; [exact Hsame|apply Hfatal]|].
  attempt_step r3 E3; [destruct (String.eqb idx ""); [done|by eapply HandleIndexMountDir_ok]|].
  destruct r3 as [|[dir dm']]; [split; [exact Hsame|apply Hfatal]|].
  assert (∃ path, dm' = set_DestinationPath path dm) as Hdm'.
  { destruct (String.eqb idx ""); [by apply ret_inv in E3 as [[= _ <-] _]|].
    by eapply HandleIndexMountDir_dm. }
  attempt_step r4 E4; [apply createDestinationDir_ok|]. destruct r4; split; [exact Hdm'|apply Hfatal|exact Hdm'|done].
Qed.
End Outcomes.

#[export] Hint Resolve PrepareDestination_frame : go_frame.

(** * On the simulated cluster *)

Definition dest_stat (path : string) : string :=
  buildStatOrMkdirCommand 0 1000 2000 default_stat_command default_setpriv_command "/tmp/dm-1/hostfile" path.

Definition dest_world : Sim :=
  {| sim_store := {| live := ∅; history := []; counter := 0 |}; sim_profiles := ∅; sim_storages := ∅;
     sim_nodeStorages := ∅; sim_pods := []; sim_files := ∅;
     sim_commands := {[ dest_stat "/mnt/nnf/1-0/rabbit-1-0/job/data.out" := "regular file" +:+ nl ]};
     sim_clock := 0; sim_faults := []; sim_reads := [] |}.

Definition copy_out_dm : NnfDataMovement :=
  sample_dm "dm-1" "/mnt/nnf/1-0/rabbit-1-0/job/data.out" "/lus/global/user/newname.out" None.

Lemma HandleIndexMountDir_places_witness :
  ∃ path, fst (HandleIndexMountDir default_profile copy_out_dm "/lus/global/user" "rabbit-1-0"
                 "/tmp/dm-1/hostfile" dest_world)
          = Ret ("/lus/global/user/rabbit-1-0", set_DestinationPath path copy_out_dm)
          ∧ path = "/lus/global/user/rabbit-1-0/newname.out".
Proof.
  pose proof (HandleIndexMountDir_places default_profile copy_out_dm
              {| Path := "/mnt/nnf/1-0/rabbit-1-0/job/data.out"; StorageReference := no_reference |}
              {| Path := "/lus/global/user/newname.out"; StorageReference := no_reference |}
              ["lus"; "global"; "user"] "rabbit-1-0" "/tmp/dm-1/hostfile" dest_world true dest_world true
              dest_world) as Hall.
  destruct Hall as (path & E & Hp & _).
  - discriminate.
  - repeat constructor; discriminate.
  - repeat constructor; discriminate.
  - reflexivity.
  - reflexivity.
  - vm_compute. repeat constructor; discriminate.
  - by_vm.
  - by_vm.
  - exists path. split; [|rewrite Hp; by_vm].
    change "/lus/global/user" with (slash +:+ Join ["lus"; "global"; "user"] slash). rewrite E.
    subst path. by_vm.
Defined.

Lemma PrepareDestination_errors_fatal_witness :
  match PrepareDestination default_profile copy_out_dm "/tmp/dm-1/hostfile" dest_world with
  | (Ret (dm', err), _) => ∀ e, err = Some e → ∃ info, e = ResourceErr info ∧ Severity info = SeverityFatal
  | _ => False
  end.
Proof.
  pose proof (PrepareDestination_errors_fatal default_profile copy_out_dm "/tmp/dm-1/hostfile" dest_world
                {| Path := "/mnt/nnf/1-0/rabbit-1-0/job/data.out"; StorageReference := no_reference |}
                {| Path := "/lus/global/user/newname.out"; StorageReference := no_reference |}
                eq_refl eq_refl) as H.
  destruct (PrepareDestination _ _ _ _) as [[[dm' err]|e|p] w']; [exact (proj2 H)|exact H|exact H].
Defined.

(** Destinations of the project's own tests: the source is a file, the destination does not exist. *)
Example GetDestinationDir_samples :
  map (λ dest, fst (GetDestinationDir default_profile
                      (sample_dm "dm-1" "/mnt/nnf/1-0/rabbit-1-0/job/data.out" dest None)
                      "/tmp/dm-1/hostfile" dest_world))
    ["/lus/global/user/idontexist"; "/lus/global/user/newdir/"; "/lus/global/user/newdir/newdir2/idontexist"]
  = [Ret "/lus/global/user"; Ret "/lus/global/user/newdir"; Ret "/lus/global/user/newdir/newdir2"].
Proof. vm_compute. reflexivity. Qed.
