(* ===== verification/Reconciler.v ===== *)
(** The data movement reconciler, internal/controller/datamovement_controller.go.

    [Sys] is the state of the process: the cluster and operating system it
    talks to, the map of active operations ([contexts]), the goroutines that
    run data movement commands ([routines]), the cancelled contexts and the
    completion events.  [Reconcile] is one reconciliation; [parseAndUpdateProgress]
    and [finish] are what a goroutine does to the shared state; [step]
    puts them together with what the rest of the cluster does. *)
From S2P Require Import Prelude GoMonad GoStrings GoPath Api Dcp Command Env Cluster Hosts Dest.

Definition finalizer : string := "dm.cray.hpe.com".

(** An entry of the map of active operations; a context is an id. *)
Record DataMovementContext := {
  Ctx : N;
  Result : option NnfDataMovementStatus
}.

(** The goroutine of a started command with the variables it captured. *)
Record Routine := {
  r_req : NamespacedName;
  r_dm : NnfDataMovement;
  r_profile : NnfDataMovementProfile;
  r_hostfile : string;
  r_ctx : N;
  r_cmdStatus : NnfDataMovementCommandStatus;
  r_parseBuf : string;
  r_combinedOutBuf : string;
  r_progressStart : Z
}.

Record Sys (W : Type) := {
  world : W;
  contexts : gmap string DataMovementContext;
  routines : list Routine;
  cancelled : gset N;
  next_ctx : N;
  completions : list NamespacedName
}.
Arguments world {W}.
Arguments contexts {W}.
Arguments routines {W}.
Arguments cancelled {W}.
Arguments next_ctx {W}.
Arguments completions {W}.

Section Setters.
Context {W : Type}.

Definition set_world (w : W) (s : Sys W) : Sys W :=
  {| world := w; contexts := contexts s; routines := routines s; cancelled := cancelled s;
     next_ctx := next_ctx s; completions := completions s |}.

Definition set_contexts (c : gmap string DataMovementContext) (s : Sys W) : Sys W :=
  {| world := world s; contexts := c; routines := routines s; cancelled := cancelled s;
     next_ctx := next_ctx s; completions := completions s |}.

Definition set_routines (r : list Routine) (s : Sys W) : Sys W :=
  {| world := world s; contexts := contexts s; routines := r; cancelled := cancelled s;
     next_ctx := next_ctx s; completions := completions s |}.

(** [Cancel()] of a context *)
Definition cancel_ctx (id : N) (s : Sys W) : Sys W :=
  {| world := world s; contexts := contexts s; routines := routines s;
     cancelled := {[id]} ∪ cancelled s; next_ctx := next_ctx s; completions := completions s |}.

(** [context.WithCancel]: the next id is used up *)
Definition bump_ctx (s : Sys W) : Sys W :=
  {| world := world s; contexts := contexts s; routines := routines s; cancelled := cancelled s;
     next_ctx := next_ctx s + 1; completions := completions s |}.

Definition push_completion (k : NamespacedName) (s : Sys W) : Sys W :=
  {| world := world s; contexts := contexts s; routines := routines s; cancelled := cancelled s;
     next_ctx := next_ctx s; completions := completions s ++ [k] |}.

(** [r.contexts.Store], [r.contexts.Delete] *)
Definition store_ctx (name : string) (c : DataMovementContext) (s : Sys W) : Sys W :=
  set_contexts (<[name := c]> (contexts s)) s.
Definition delete_ctx (name : string) (s : Sys W) : Sys W :=
  set_contexts (delete name (contexts s)) s.
End Setters.

(** * Reconcile *)

Section Reconcile.
Context {W : Type} {kube : Kube W} {os : OS W}.

Definition on_world {A} (m : M W A) : M (Sys W) A := λ s,
  let r := m (world s) in (fst r, set_world (snd r) s).

(** The body of [Reconcile] works on the process and on the variable [dm],
    which the deferred error handler reads. *)
Definition Body (A : Type) : Type := M (Sys W * NnfDataMovement) A.

Definition io {A} (m : M W A) : Body A := λ sd,
  let r := m (world (fst sd)) in (fst r, (set_world (snd r) (fst sd), snd sd)).
Definition get_dm : Body NnfDataMovement := λ sd, (Ret (snd sd), sd).
Definition put_dm (dm : NnfDataMovement) : Body unit := λ sd, (Ret tt, (fst sd, dm)).
Definition gets {A} (f : Sys W → A) : Body A := λ sd, (Ret (f (fst sd)), sd).
Definition modify (f : Sys W → Sys W) : Body unit := λ sd, (Ret tt, (f (fst sd), snd sd)).

(** [r.Update(ctx, dm)], [r.Status().Update(ctx, dm)]: the answer of the server is decoded
    into [dm]. *)
Definition update_in_place (update : NnfDataMovement → M W NnfDataMovement) : Body unit := λ sd,
  let r := update (snd sd) (world (fst sd)) in
  let s := set_world (snd r) (fst sd) in
  match fst r with
  | Ret dm' => (Ret tt, (s, dm'))
  | Fail e => (Fail e, (s, snd sd))
  | Panic p => (Panic p, (s, snd sd))
  end.
Definition update_main : Body unit := update_in_place updateDM.
Definition update_status : Body unit := update_in_place updateDMStatus.

Definition state_of (dm : NnfDataMovement) : string := State (dm_Status dm).
Definition name_of (dm : NnfDataMovement) : string := Name (dm_Meta dm).

(** The status of a data movement cancelled before it started. *)
Definition cancelled_before_start (now : Z) (dm : NnfDataMovement) : NnfDataMovement :=
  set_status (set_times (Some now) (Some now)
    (set_state_status DataMovementConditionTypeFinished DataMovementConditionReasonCancelled
       (dm_Status dm))) dm.

Definition cancel : Body unit :=
  dm ← get_dm;
  if IsZero (StartTime (dm_Status dm)) && negb (IsZero (DeletionTimestamp (dm_Meta dm))) then
    now ← io nowMicro;
    _ ← put_dm (cancelled_before_start now dm);
    update_status
  else
    stored ← gets (λ s, contexts s !! name_of dm);
    match stored with
    | None => mret tt
    | Some dmCtx =>
        match Result dmCtx with
        | Some _ => mret tt
        | None => modify (cancel_ctx (Ctx dmCtx))
        end
    end.

(** The branch for a resource that is being deleted. *)
Definition reconcile_deletion : Body unit :=
  _ ← cancel;
  dm ← get_dm;
  stored ← gets (λ s, contexts s !! name_of dm);
  let remove_finalizer : Body unit :=
    if ContainsFinalizer (dm_Meta dm) finalizer then
      _ ← put_dm (set_meta (RemoveFinalizer finalizer (dm_Meta dm)) dm);
      update_main
    else mret tt in
  match stored with
  | Some ctxEntry =>
      match Result ctxEntry with
      | None => mret tt
      | Some _ => _ ← modify (delete_ctx (name_of dm)); remove_finalizer
      end
  | None => remove_finalizer
  end.

Definition add_finalizer : Body unit :=
  dm ← get_dm;
  _ ← put_dm (set_meta (AddFinalizer finalizer (dm_Meta dm)) dm);
  update_main.

(** Write the status a finished goroutine left. *)
Definition write_result (result : NnfDataMovementStatus) : Body unit :=
  dm ← get_dm;
  _ ← put_dm (set_status result dm);
  _ ← update_status;
  dm ← get_dm;
  modify (delete_ctx (name_of dm)).

(** [time.Duration(profile.Data.ProgressIntervalSeconds) * time.Second] *)
Definition progressCollectInterval (profile : NnfDataMovementProfile) : Z :=
  to_int64 (ProgressIntervalSeconds (p_Data profile) * 1000000000).

(** The status of a data movement that starts. *)
Definition started (now : Z) (cmdStatus : NnfDataMovementCommandStatus) (dm : NnfDataMovement)
    : NnfDataMovement :=
  set_status (set_command_status (Some cmdStatus)
    (set_times (Some now) (EndTime (dm_Status dm))
      (set_state_status DataMovementConditionTypeRunning (Status (dm_Status dm)) (dm_Status dm)))) dm.

(** [cmd.String()] of [exec.CommandContext(dmCtx, "/bin/bash", "-c", ...)] *)
Definition cmd_string (cmdArgs : list string) : string := "/bin/bash -c " +:+ Join cmdArgs " ".

Definition command_status (cmdArgs : list string) : NnfDataMovementCommandStatus :=
  {| Command := cmd_string cmdArgs; ElapsedTime := 0; ProgressPercentage := None; LastMessage := "";
     LastMessageTime := 0; Seconds := ""; Items := None; Directories := None; Files := None;
     Links := None; Data := ""; Rate := "" |}.

(** [go func() {...}()] *)
Definition launch (req : NamespacedName) (profile : NnfDataMovementProfile) (mpiHostfile : string)
    (dmCtx : N) (cmdStatus : NnfDataMovementCommandStatus) : Body unit :=
  dm ← get_dm;
  progressStart ← (if ProgressCollectionEnabled (progressCollectInterval profile) then io nowMicro else mret 0%Z);
  modify (λ s, set_routines
    ({| r_req := req; r_dm := dm; r_profile := profile; r_hostfile := mpiHostfile; r_ctx := dmCtx;
        r_cmdStatus := cmdStatus; r_parseBuf := ""; r_combinedOutBuf := "";
        r_progressStart := progressStart |} :: routines s) s).

(** The profile, the hosts, the hostfile, the destination and the command. *)
Definition prepare_command : Body (NnfDataMovementProfile * string * list string) :=
  dm ← get_dm;
  profile ← map_err (major_error "could not get profile for data movement") (io (GetDMProfile dm));
  nodes ← map_err (major_error "could not get storage nodes for data movement")
            (io (GetStorageNodeNames dm));
  hosts ← map_err (major_error "could not get worker nodes for data movement")
            (io (GetWorkerHostnames nodes));
  mpiHostfile ← map_err (major_error "could not create MPI hostfile")
                  (io (CreateMpiHostfile profile hosts dm));
  _ ← io (PeekMpiHostfile mpiHostfile);
  prepared ← io (PrepareDestination profile dm mpiHostfile);
  _ ← put_dm (fst prepared);
  _ ← (match snd prepared with Some err => fail err | None => mret tt end : Body unit);
  cmdArgs ← map_err (major_error "could not create data movement command")
              (lift_outcome (BuildDMCommand profile mpiHostfile true (fst prepared)));
  mret (profile, mpiHostfile, cmdArgs).

(** Record the start, then run the command in a goroutine. *)
Definition start_command (req : NamespacedName) (profile : NnfDataMovementProfile)
    (mpiHostfile : string) (cmdArgs : list string) : Body unit :=
  dmCtx ← gets next_ctx;
  _ ← modify bump_ctx;
  now ← io nowMicro;
  dm ← get_dm;
  let cmdStatus := command_status cmdArgs in
  _ ← put_dm (started now cmdStatus dm);
  r ← attempt update_status;
  match r with
  | inl err => _ ← modify (cancel_ctx dmCtx); fail err
  | inr _ =>
      dm ← get_dm;
      _ ← modify (store_ctx (name_of dm) {| Ctx := dmCtx; Result := None |});
      launch req profile mpiHostfile dmCtx cmdStatus
  end.

Definition start (req : NamespacedName) : Body unit :=
  p ← prepare_command;
  start_command req (fst (fst p)) (snd (fst p)) (snd p).

Definition count_restart (dm : NnfDataMovement) : NnfDataMovement :=
  set_status (set_restarts (Restarts (dm_Status dm) + 1) (dm_Status dm)) dm.

Definition cancel_failed (err : error) : error :=
  ResourceErr (WithUserMessage "Unable to cancel data movement" (WithError err (NewResourceError ""))).

Definition reconcile_active (req : NamespacedName) (tracked : bool) : Body unit :=
  dm ← get_dm;
  if String.eqb (state_of dm) DataMovementConditionTypeFinished then mret tt
  else if Cancel (dm_Spec dm) then map_err cancel_failed cancel
  else if String.eqb (state_of dm) DataMovementConditionTypeRunning then
    if tracked then mret tt
    else _ ← put_dm (count_restart dm); start req
  else start req.

Definition reconcile_body (req : NamespacedName) : Body unit :=
  dm ← get_dm;
  if negb (IsZero (DeletionTimestamp (dm_Meta dm))) then reconcile_deletion
  else if negb (ContainsFinalizer (dm_Meta dm) finalizer) then add_finalizer
  else
    stored ← gets (λ s, contexts s !! name_of dm);
    match stored ≫= Result with
    | Some result => write_result result
    | None => reconcile_active req (bool_decide (is_Some stored))
    end.

(** What the deferred function makes of an error. *)
Definition record_error (err : error) (dm : NnfDataMovement) : NnfDataMovement :=
  let st := dm_Status dm in
  let st := match err with
            | ResourceErr info =>
                if bool_decide (Severity info = SeverityMinor) then st
                else set_state_status DataMovementConditionTypeFinished
                       DataMovementConditionReasonInvalid st
            | _ => st
            end in
  set_status (set_message (Error err) (SetResourceError err st)) dm.

Definition with_deferred (body : Body unit) (dm : NnfDataMovement) : M (Sys W) unit := λ s,
  match body (s, dm) with
  | (Ret _, (s', _)) => (Ret tt, s')
  | (Fail err, (s', dm')) =>
      let r := updateDMStatus (record_error err dm') (world s') in
      let s'' := set_world (snd r) s' in
      match fst r with
      | Ret _ => (Fail err, s'')
      | Fail updateErr => (Fail updateErr, s'')
      | Panic p => (Panic p, s'')
      end
  | (Panic p, (s', _)) => (Panic p, s')
  end.

Definition Reconcile (req : NamespacedName) : M (Sys W) unit :=
  r ← attempt (on_world (getDM req));
  match r with
  | inl err => match IgnoreNotFound err with None => mret tt | Some e => fail e end
  | inr dm => with_deferred (reconcile_body req) dm
  end.
End Reconcile.

(** * The goroutine of a command *)

Section Routine.
Context {W : Type} {kube : Kube W} {os : OS W}.

Definition set_cmdStatus (c : NnfDataMovementCommandStatus) (buf : string) (r : Routine) : Routine :=
  {| r_req := r_req r; r_dm := r_dm r; r_profile := r_profile r; r_hostfile := r_hostfile r;
     r_ctx := r_ctx r; r_cmdStatus := c; r_parseBuf := buf;
     r_combinedOutBuf := r_combinedOutBuf r; r_progressStart := r_progressStart r |}.

(** The command writes to both buffers of the [MultiWriter]. *)
Definition add_output (text : string) (r : Routine) : Routine :=
  {| r_req := r_req r; r_dm := r_dm r; r_profile := r_profile r; r_hostfile := r_hostfile r;
     r_ctx := r_ctx r; r_cmdStatus := r_cmdStatus r; r_parseBuf := r_parseBuf r +:+ text;
     r_combinedOutBuf := r_combinedOutBuf r +:+ text; r_progressStart := r_progressStart r |}.

(** [LastMessage] and the times of a line. *)
Definition set_last_message (line : string) (now elapsed : Z) (c : NnfDataMovementCommandStatus) :=
  {| Command := Command c; ElapsedTime := elapsed; ProgressPercentage := ProgressPercentage c;
     LastMessage := line; LastMessageTime := now; Seconds := Seconds c; Items := Items c;
     Directories := Directories c; Files := Files c; Links := Links c; Data := Data c;
     Rate := Rate c |}.

(** One line: the progress, and the statistics once it is complete. *)
Definition parse_line (line : string) (c : NnfDataMovementCommandStatus)
    : NnfDataMovementCommandStatus * bool :=
  match ParseDcpProgress line c with
  | Ret c1 =>
      if match ProgressPercentage c1 with Some p => (100 <=? p)%Z | None => false end
      then match ParseDcpStats line c1 with Ret c2 => (c2, true) | _ => (c1, false) end
      else (c1, true)
  | _ => (c, false)
  end.

(** The loop over the lines of the buffer; a line that does not parse ends it, with the
    lines not read yet. *)
Fixpoint parse_lines (progressStart : Z) (lines : list string) (c : NnfDataMovementCommandStatus)
    : M W (NnfDataMovementCommandStatus * option (list string)) :=
  match lines with
  | [] => mret (c, None)
  | line :: lines' =>
      match parse_line line c with
      | (c', false) => mret (c', Some lines')
      | (c', true) =>
          progressNow ← nowMicro;
          parse_lines progressStart lines'
            (set_last_message line progressNow (progressNow - progressStart) c')
      end
  end.

(** [ReadString('\n')] until EOF: the lines with their newline; the text after the last newline
    comes with EOF and is dropped. *)
Definition buffered_lines (buf : string) : list string :=
  map (λ l, l +:+ nl) (removelast (Split buf nl)).
Definition unterminated (buf : string) : string := default "" (last (Split buf nl)).

Definition parseAndUpdateProgress (r : Routine) : M W Routine :=
  p ← parse_lines (r_progressStart r) (buffered_lines (r_parseBuf r)) (r_cmdStatus r);
  match snd p with
  | Some unread => mret (set_cmdStatus (fst p) (Join unread "" +:+ unterminated (r_parseBuf r)) r)
  | None =>
      read ← attempt (getDM (r_req r));
      _ ← (match read with
           | inl _ => mret tt
           | inr dm =>
               _ ← attempt (updateDMStatus
                     (set_status (set_command_status (Some (fst p)) (dm_Status dm)) dm));
               mret tt
           end : M W unit);
      mret (set_cmdStatus (fst p) "" r)
  end.

(** The status when the command has ended with [err], at [now]. *)
Definition final_status (isCancelled : bool) (err : option error) (now : Z) (r : Routine)
    : NnfDataMovementStatus :=
  let dm := r_dm r in
  let st := set_times (StartTime (dm_Status dm)) (Some now)
              (set_state_status DataMovementConditionTypeFinished DataMovementConditionReasonSuccess
                 (dm_Status dm)) in
  let output := TrimDcpProgressFromOutput (r_combinedOutBuf r) in
  if isCancelled then
    set_state_status DataMovementConditionTypeFinished DataMovementConditionReasonCancelled st
  else
    match err with
    | Some err =>
        SetResourceError
          (ResourceErr (WithFatal (WithUserMessage ("data movement operation failed: " +:+ output)
            (WithError err (NewResourceError "")))))
          (set_message (Error err +:+ ": " +:+ output)
            (set_state_status DataMovementConditionTypeFinished DataMovementConditionReasonFailed st))
    | None =>
        if p_StoreStdout (p_Data (r_profile r))
           || match UserConfig (dm_Spec dm) with Some uc => StoreStdout uc | None => false end
        then set_message output st else st
    end.

Definition is_cancelled (id : N) : M (Sys W) bool := λ s, (Ret (bool_decide (id ∈ cancelled s)), s).

(** Leave the status in the entry of the map, if it is still there, and send the event. *)
Definition store_result (dm : NnfDataMovement) (st : NnfDataMovementStatus) : M (Sys W) unit := λ s,
  let s' := match contexts s !! name_of dm with
            | Some ctxEntry => store_ctx (name_of dm) {| Ctx := Ctx ctxEntry; Result := Some st |} s
            | None => s
            end in
  (Ret tt, push_completion (dm_key dm) s').

(** What follows [cmd.Wait()], for a goroutine already taken off the list. *)
Definition finish (r : Routine) (err : option error) : M (Sys W) unit :=
  r ← (if ProgressCollectionEnabled (progressCollectInterval (r_profile r))
       then on_world (parseAndUpdateProgress r) else mret r);
  now ← on_world nowMicro;
  isCancelled ← is_cancelled (r_ctx r);
  let st := final_status isCancelled err now r in
  _ ← on_world (attempt (removeAll (Dir (r_hostfile r))));
  _ ← lift_outcome (deref (CommandStatus st));
  store_result (r_dm r) (set_command_status (Some (r_cmdStatus r)) st).
End Routine.

(** * The machine *)

Section Machine.
Context {W : Type} {kube : Kube W} {os : OS W} {laws : KubeLaws W}.
Context (WatchNamespace : string).

(** What others do to the resources: they leave the finalizer of this controller and, in the
    namespace it watches, the status alone, and nobody revokes a deletion. *)
Inductive others (st : DMStore) : DMStore → Prop :=
| others_same : others st st
| others_create new :
    live st !! dm_key new = None → (counter st < rv new)%N →
    dm_Status new = empty_Status → others st (put new st)
| others_change cur new :
    live st !! dm_key new = Some cur → (counter st < rv new)%N →
    (Namespace (dm_Meta cur) = WatchNamespace → dm_Status new = dm_Status cur) →
    ContainsFinalizer (dm_Meta new) finalizer = ContainsFinalizer (dm_Meta cur) finalizer →
    (IsZero (DeletionTimestamp (dm_Meta cur)) = false →
     DeletionTimestamp (dm_Meta new) = DeletionTimestamp (dm_Meta cur)) →
    others st (put new st).

(** The process is started again: nothing it kept in memory survives, and its commands are gone. *)
Definition restart (s : Sys W) : Sys W :=
  {| world := world s; contexts := ∅; routines := []; cancelled := ∅; next_ctx := 0; completions := [] |}.

(** The state after a call; a panic takes the process down. *)
Definition settle {A} (r : outcome A * Sys W) : Sys W :=
  match fst r with Panic _ => restart (snd r) | _ => snd r end.

Inductive step (s : Sys W) : Sys W → Prop :=
| step_reconcile req :
    fst req = WatchNamespace → step s (settle (Reconcile req s))
| step_output rs1 r rs2 text :
    routines s = rs1 ++ r :: rs2 → step s (set_routines (rs1 ++ add_output text r :: rs2) s)
| step_progress rs1 r rs2 r' w' :
    routines s = rs1 ++ r :: rs2 →
    ProgressCollectionEnabled (progressCollectInterval (r_profile r)) = true →
    parseAndUpdateProgress r (world s) = (Ret r', w') →
    step s (set_routines (rs1 ++ r' :: rs2) (set_world w' s))
| step_finish rs1 r rs2 err :
    routines s = rs1 ++ r :: rs2 →
    step s (settle (finish r err (set_routines (rs1 ++ rs2) s)))
| step_deliver k ks : completions s = k :: ks →
    step s {| world := world s; contexts := contexts s; routines := routines s;
              cancelled := cancelled s; next_ctx := next_ctx s; completions := ks |}
| step_restart : step s (restart s)
| step_others w' : others (dms (world s)) (dms w') → step s (set_world w' s).

(** The process starts, in a cluster where what runs has a start time. *)
Definition initial (s : Sys W) : Prop :=
  store_ok (dms (world s)) ∧ contexts s = ∅ ∧ routines s = [] ∧
  ∀ dm, dm ∈ history (dms (world s)) → state_of dm = DataMovementConditionTypeRunning →
    IsZero (StartTime (dm_Status dm)) = false.

Inductive reachable : Sys W → Prop :=
| reach_initial s : initial s → reachable s
| reach_step s s' : reachable s → step s s' → reachable s'.
End Machine.
