(* ===== verification/ReconcilerInv.v ===== *)
(** The invariant of the data movement reconciler and the proof that every
    step of the machine keeps it.

    The proofs follow the code: [post] is what a piece of the body of
    [Reconcile] guarantees on a normal return and on an error, over the [View]
    of the state the invariant talks about; the deferred error handler writes
    the resource again, so an error must leave the state [Ready] for it. *)
From S2P Require Import Prelude GoMonad GoStrings GoPath Api Dcp Command Env Cluster Hosts Dest Reconciler.

(** How far a data movement is: not started, running, finished. *)
Definition rank (state : string) : nat :=
  if String.eqb state DataMovementConditionTypeFinished then 2
  else if String.eqb state DataMovementConditionTypeRunning then 1 else 0.

Lemma rank_le_2 state : rank state ≤ rank DataMovementConditionTypeFinished.
Proof. unfold rank. cbn. destruct (String.eqb _ _); [lia|]. destruct (String.eqb _ _); lia. Qed.

Lemma rank_le_1 state :
  state ≠ DataMovementConditionTypeFinished → rank state ≤ rank DataMovementConditionTypeRunning.
Proof.
  intros Hnf. unfold rank at 1. destruct (String.eqb_spec state DataMovementConditionTypeFinished); [done|].
  cbn. destruct (String.eqb _ _); lia.
Qed.

Definition rank_of (dm : NnfDataMovement) : nat := rank (state_of dm).

(** A running data movement has a start time. *)
Definition start_recorded (dm : NnfDataMovement) : Prop :=
  state_of dm = DataMovementConditionTypeRunning → IsZero (StartTime (dm_Status dm)) = false.

(** What the invariant sees of the state. *)
Record View := {
  v_store : DMStore;
  v_contexts : gmap string DataMovementContext;
  v_routines : list Routine
}.

Section Invariant.
Context (WatchNamespace : string).

(** A running command: its entry is in the map, and its resource is running and protected. *)
Record routine_ok (v : View) (r : Routine) : Prop := {
  rt_namespace : fst (r_req r) = WatchNamespace;
  rt_key : dm_key (r_dm r) = r_req r;
  rt_entry : v_contexts v !! snd (r_req r) = Some {| Ctx := r_ctx r; Result := None |};
  rt_command : CommandStatus (dm_Status (r_dm r)) ≠ None;
  rt_live : ∃ dm, live (v_store v) !! r_req r = Some dm
                  ∧ state_of dm = DataMovementConditionTypeRunning
                  ∧ ContainsFinalizer (dm_Meta dm) finalizer = true
}.

Record inv (v : View) : Prop := {
  inv_store : store_ok (v_store v);
  inv_started dm : dm ∈ history (v_store v) → fst (dm_key dm) = WatchNamespace → start_recorded dm;
  inv_routine r : r ∈ v_routines v → routine_ok v r;
  inv_nodup : NoDup (r_req <$> v_routines v);
  inv_entry name c : v_contexts v !! name = Some c → Result c = None →
    (WatchNamespace, name) ∈ r_req <$> v_routines v;
  inv_result name c st : v_contexts v !! name = Some c → Result c = Some st →
    State st = DataMovementConditionTypeFinished
}.

(** No command runs for the request. *)
Definition idle (req : NamespacedName) (v : View) : Prop := req ∉ r_req <$> v_routines v.

(** No resource goes back. *)
Definition grows (st st' : DMStore) : Prop :=
  ∀ k dm', live st' !! k = Some dm' → fst k = WatchNamespace →
    ∃ dm, live st !! k = Some dm ∧ rank_of dm ≤ rank_of dm'.

Lemma grows_refl st : grows st st.
Proof. intros k dm H _. by exists dm. Qed.

Lemma grows_trans st1 st2 st3 : grows st1 st2 → grows st2 st3 → grows st1 st3.
Proof.
  intros H12 H23 k dm3 H3 Hk. destruct (H23 _ _ H3 Hk) as (dm2 & H2 & Hr).
  destruct (H12 _ _ H2 Hk) as (dm1 & H1 & Hr'). exists dm1. split; [done|lia].
Qed.

(** When nothing can be running. *)
Lemma idle_if v req old :
  inv v → live (v_store v) !! req = Some old →
  state_of old ≠ DataMovementConditionTypeRunning
  ∨ ContainsFinalizer (dm_Meta old) finalizer = false
  ∨ (v_contexts v !! snd req) ≫= Result ≠ None ∨ v_contexts v !! snd req = None →
  idle req v.
Proof.
  intros Hinv Hl H (r & -> & Hr)%list_elem_of_fmap. destruct (inv_routine _ Hinv _ Hr) as [_ _ He _ (dm & Hdm & Hs & Hf)].
  rewrite Hl in Hdm. injection Hdm as ->. rewrite He in H.
  destruct H as [H|[H|[H|H]]]; [by apply H|congruence|by apply H|done].
Qed.

Lemma in_routines v req :
  ¬ idle req v → ∃ r, r ∈ v_routines v ∧ r_req r = req.
Proof.
  unfold idle. intros H. destruct (decide (req ∈ r_req <$> v_routines v)) as [Hin|]; [|done].
  apply list_elem_of_fmap in Hin as (r & -> & Hr). eauto.
Qed.

(** * Storing a version *)

Definition put_view (new : NnfDataMovement) (v : View) : View :=
  {| v_store := put new (v_store v); v_contexts := v_contexts v; v_routines := v_routines v |}.

Lemma next_version_same st cur body new :
  next_version st cur body new →
  dm_Status new = dm_Status body ∧ Finalizers (dm_Meta new) = Finalizers (dm_Meta body)
  ∧ dm_key new = dm_key body.
Proof. intros [(r & _ & ->)|[-> ->]]; done. Qed.

Lemma gone_no_finalizer dm f : ContainsFinalizer (dm_Meta dm) f = true → gone dm = false.
Proof.
  unfold gone, ContainsFinalizer. intros H%bool_decide_eq_true. destruct (Finalizers (dm_Meta dm)).
  - by apply elem_of_nil in H.
  - by rewrite andb_false_r.
Qed.

Lemma put_live_other st new k :
  k ≠ dm_key new → live (put new st) !! k = live st !! k.
Proof. intros Hk. cbn. destruct (gone new); [by rewrite lookup_delete_ne|by rewrite lookup_insert_ne]. Qed.

Lemma put_live_self st new :
  gone new = false → live (put new st) !! dm_key new = Some new.
Proof. intros H. cbn. rewrite H. apply lookup_insert_eq. Qed.

Lemma put_live_inv st new k dm :
  live (put new st) !! k = Some dm → (k = dm_key new ∧ dm = new) ∨ live st !! k = Some dm.
Proof.
  cbn. destruct (gone new).
  - rewrite lookup_delete_Some. tauto.
  - rewrite lookup_insert_Some. intros [[<- <-]|[_ H]]; [by left|by right].
Qed.

(** A version that keeps what running commands need keeps the invariant. *)
Lemma put_inv v new :
  inv v → new ∈ history (v_store v) ∨ (counter (v_store v) < rv new)%N →
  (fst (dm_key new) = WatchNamespace → start_recorded new) →
  (¬ idle (dm_key new) v → state_of new = DataMovementConditionTypeRunning
                         ∧ ContainsFinalizer (dm_Meta new) finalizer = true) →
  inv (put_view new v).
Proof.
  intros Hinv Hfresh Hs Hr. pose proof (inv_store _ Hinv) as Hok.
  constructor; cbn [put_view v_store v_contexts v_routines].
  - by apply put_ok.
  - intros dm. change (history (put new (v_store v))) with (new :: history (v_store v)).
    rewrite elem_of_cons. intros [->|H]; [done|by apply (inv_started _ Hinv)].
  - intros r Hin. destruct (inv_routine _ Hinv _ Hin) as [H1 H2 H3 Hcmd (dm & H4 & H5 & H6)].
    constructor; [done..|]. cbn [put_view v_store]. destruct (decide (r_req r = dm_key new)) as [Heq|Hne].
    + destruct Hr as [Hrun Hf]; [unfold idle; rewrite <- Heq; intros Hnot; apply Hnot; by apply list_elem_of_fmap_2|].
      exists new. rewrite Heq. split; [apply put_live_self; by eapply gone_no_finalizer|done].
    + exists dm. by rewrite put_live_other by done.
  - apply (inv_nodup _ Hinv).
  - apply (inv_entry _ Hinv).
  - apply (inv_result _ Hinv).
Qed.

(** The same for an update of the current version. *)
Lemma put_update_inv v cur body new :
  inv v → live (v_store v) !! dm_key body = Some cur →
  next_version (v_store v) cur body new →
  (fst (dm_key body) = WatchNamespace → start_recorded body) →
  (¬ idle (dm_key body) v → state_of body = DataMovementConditionTypeRunning
                         ∧ ContainsFinalizer (dm_Meta body) finalizer = true) →
  inv (put_view new v).
Proof.
  intros Hinv Hl Hn Hs Hr. destruct (next_version_same _ _ _ _ Hn) as (Hst & Hfin & Hkey).
  unfold start_recorded, state_of, ContainsFinalizer in *.
  apply put_inv; [done| | |]; unfold start_recorded, state_of, ContainsFinalizer; rewrite ?Hkey, ?Hst, ?Hfin; [|done..].
  eapply next_version_fresh; [by eapply live_history; [apply (inv_store _ Hinv)|]|done].
Qed.

Lemma put_grows st cur body new :
  live st !! dm_key body = Some cur → next_version st cur body new → rank_of cur ≤ rank_of body →
  grows st (put new st).
Proof.
  intros Hl Hn Hr k dm' Hk _. destruct (next_version_same _ _ _ _ Hn) as (Hst & _ & Hkey).
  apply put_live_inv in Hk as [[-> ->]|Hk]; [|by exists dm'].
  exists cur. rewrite Hkey. split; [done|]. unfold rank_of, state_of in *. by rewrite Hst.
Qed.
End Invariant.

Lemma name_of_req req dm : dm_key dm = req → name_of dm = snd req.
Proof. by intros <-. Qed.

(** * The body of Reconcile *)

Section Body.
Context {W : Type} {kube : Kube W} {os : OS W} {os_laws : OSLaws W} {laws : KubeLaws W}.
Context (WatchNamespace : string) (v0 : View) (req : NamespacedName)
  (Hreq : fst req = WatchNamespace).

Definition view (s : Sys W) : View :=
  {| v_store := dms (world s); v_contexts := contexts s; v_routines := routines s |}.

(** The invariant holds and, since [v0], nothing went back or was forgotten, and only the entry
    of the request was touched. *)
Record ok (v : View) : Prop := {
  ok_inv : inv WatchNamespace v;
  ok_grows : grows WatchNamespace (v_store v0) (v_store v);
  ok_history dm : dm ∈ history (v_store v0) → dm ∈ history (v_store v);
  ok_others n : n ≠ snd req → v_contexts v !! n = v_contexts v0 !! n
}.

(** [dm] comes from the stored version [old] of the request. *)
Record based (v : View) (old dm : NnfDataMovement) : Prop := {
  based_stored : old ∈ history (v_store v);
  based_old : dm_key old = req;
  based_key : dm_key dm = req;
  based_rv : rv dm = rv old
}.

(** [dm] may be written to the status: if it is based on the current version, nothing runs for
    it, and it is not behind that version. *)
Record Ready (old : NnfDataMovement) (v : View) (dm : NnfDataMovement) : Prop := {
  ready_ok : ok v;
  ready_based : based v old dm;
  ready_idle : live (v_store v) !! req = Some old → idle req v;
  ready_rank : rank_of old ≤ rank_of dm;
  ready_started : start_recorded dm
}.

Definition Recoverable (v : View) (dm : NnfDataMovement) : Prop := ∃ old, Ready old v dm.

Definition post {A} (Q : A → View → NnfDataMovement → Prop)
    (r : outcome A * (Sys W * NnfDataMovement)) : Prop :=
  match r with
  | (Ret a, (s, dm)) => Q a (view s) dm
  | (Fail _, (s, dm)) => Recoverable (view s) dm
  | (Panic _, (s, _)) => ok (view s)
  end.

Lemma post_bind {A B} (R : A → View → NnfDataMovement → Prop) Q (m : Body (W:=W) A) (f : A → Body (W:=W) B) sd :
  post R (m sd) → (∀ a s dm, R a (view s) dm → post Q (f a (s, dm))) → post Q ((m ≫= f) sd).
Proof. intros Hm Hf. unfold mbind, M_bind. destruct (m sd) as [[a|e|p] [s dm]]; [by apply Hf|done..]. Qed.

Lemma post_weaken {A} (R Q : A → View → NnfDataMovement → Prop) r :
  post R r → (∀ a v dm, R a v dm → Q a v dm) → post Q r.
Proof. destruct r as [[a|e|p] [s dm]]; cbn; auto. Qed.

Lemma post_map_err {A} (Q : A → View → NnfDataMovement → Prop) f (m : Body (W:=W) A) sd :
  post Q (m sd) → post Q (map_err f m sd).
Proof. unfold map_err. by destruct (m sd) as [[a|e|p] [s dm]]. Qed.

(** Reading the variables of the body. *)
Lemma bind_get_dm {B} (f : NnfDataMovement → Body (W:=W) B) s dm : (get_dm ≫= f) (s, dm) = f dm (s, dm).
Proof. done. Qed.
Lemma bind_put_dm {B} d (f : unit → Body (W:=W) B) s dm : (put_dm d ≫= f) (s, dm) = f tt (s, d).
Proof. done. Qed.
Lemma bind_gets {A B} (g : Sys W → A) (f : A → Body (W:=W) B) s dm :
  (gets g ≫= f) (s, dm) = f (g s) (s, dm).
Proof. done. Qed.
Lemma bind_modify {B} g (f : unit → Body (W:=W) B) s dm : (modify g ≫= f) (s, dm) = f tt (g s, dm).
Proof. done. Qed.

(** Calls that do not touch the resources keep the view. *)
Lemma post_io {A} (m : M W A) old s dm :
  preserves dms m → Ready old (view s) dm →
  post (λ _ v dm', v = view s ∧ dm' = dm) (io m (s, dm)).
Proof.
  intros Hm Hr. unfold io. cbn [fst snd].
  assert (view (set_world (snd (m (world s))) s) = view s) as Hv by (unfold view; cbn; by rewrite Hm).
  destruct (fst (m (world s))) as [a|e|p]; cbn [post]; rewrite Hv; [done|by exists old|by apply Hr].
Qed.

(** * Updates *)

Lemma based_put new v old dm : based v old dm → based (put_view new v) old dm.
Proof. intros [H1 H2 H3 H4]. constructor; [by right|done..]. Qed.

Lemma view_set_world w' s st' :
  dms w' = st' → view (set_world w' s) = {| v_store := st'; v_contexts := contexts s; v_routines := routines s |}.
Proof. by intros <-. Qed.

(** The effect of an update of [dm], which [change] turns into the stored version. *)
Lemma update_effect change update s old dm :
  (∀ dm w, updated change (dms w) dm (fst (update dm w)) (dms (snd (update dm w)))) →
  (∀ cur dm, dm_key (change cur dm) = dm_key cur) →
  ok (view s) → based (view s) old dm →
  let r := update_in_place update (s, dm) in
  let s' := fst (snd r) in
  (fst r ≠ Ret tt ∧ (∀ p, fst r ≠ Panic p) ∧ snd (snd r) = dm ∧ view s' = view s)
  ∨ ∃ new, live (v_store (view s)) !! req = Some old
      ∧ next_version (v_store (view s)) old (change old dm) new ∧ view s' = put_view new (view s)
      ∧ ((fst r = Ret tt ∧ snd (snd r) = new)
         ∨ (fst r ≠ Ret tt ∧ (∀ p, fst r ≠ Panic p) ∧ snd (snd r) = dm)).
Proof.
  intros Hup Hkey [Hinv _ _ _] Hb. unfold update_in_place. cbn [fst snd].
  specialize (Hup dm (world s)). destruct (update dm (world s)) as [o w'] eqn:E. cbn [fst snd] in *.
  assert (∀ cur, live (dms (world s)) !! dm_key dm = Some cur → rv dm = rv cur → cur = old) as Hold.
  { intros cur Hl Hr. destruct Hb as [H1 H2 H3 H4].
    eapply (read_is_live (dms (world s))); [apply (inv_store _ _ Hinv)|exact H1| |exact H4|done|done].
    by rewrite H3, H2. }
  pose proof (based_key _ _ _ Hb) as Hk.
  inversion Hup as [cur new Hl Hr Hn Ho Hs|e Ho Hs|e cur new Hl Hr He Hn Ho Hs]; subst o.
  - pose proof (Hold _ Hl Hr) as ->. right. exists new. cbn [fst snd].
    split; [by rewrite <- Hk|]. split; [done|]. split; [|by left]. unfold view, put_view. cbn. by rewrite <- Hs.
  - left. cbn [fst snd]. split_and!; [done..|]. unfold view. cbn. by rewrite <- Hs.
  - pose proof (Hold _ Hl Hr) as ->. right. exists new. cbn [fst snd].
    split; [by rewrite <- Hk|]. split; [done|]. split; [unfold view, put_view; cbn; by rewrite <- Hs|by right].
Qed.

(** Storing a version based on the current one, with nothing running. *)
Lemma put_ready v old dm body new :
  Ready old v dm → live (v_store v) !! req = Some old → dm_key body = req →
  next_version (v_store v) old body new → start_recorded body → rank_of old ≤ rank_of body →
  ok (put_view new v) ∧ Ready old (put_view new v) dm
  ∧ Ready new (put_view new v) new.
Proof.
  intros Hr Hl Hk Hn Hs Hrank. destruct (ready_ok _ _ _ Hr) as [Hinv Hg Hh Ho].
  pose proof (ready_idle _ _ _ Hr Hl) as Hidle.
  pose proof (based_old _ _ _ (ready_based _ _ _ Hr)) as Hko.
  assert (ok (put_view new v)) as Hok.
  { constructor; [| |intros d Hd; right; by apply Hh|done].
    - eapply put_update_inv; [done|by rewrite Hk|done|done|]. rewrite Hk. done.
    - eapply grows_trans; [exact Hg|]. eapply put_grows; [by rewrite Hk|done|done]. }
  destruct (next_version_same _ _ _ _ Hn) as (Hst & _ & Hkn).
  split; [done|]. split.
  - constructor; [done|apply based_put, Hr|done|by eapply ready_rank|by eapply ready_started].
  - constructor; [done| |done|done|].
    + constructor; [by left|by rewrite Hkn|by rewrite Hkn|done].
    + unfold start_recorded, state_of in *. by rewrite Hst.
Qed.

(** [r.Status().Update] *)
Lemma post_update_status old s dm :
  Ready old (view s) dm →
  post (λ _ v new, Ready new v new ∧ idle req v ∧ dm_Status new = dm_Status dm
                   ∧ v = put_view new (view s)
                   ∧ Finalizers (dm_Meta new) = Finalizers (dm_Meta old)
                   ∧ live (v_store (view s)) !! req = Some old)
    (update_status (s, dm)).
Proof.
  intros Hr. destruct (update_effect status_update updateDMStatus s old dm) as
    [(Hne & Hnp & Hdm & Hv)|(new & Hl & Hn & Hv & Hres)];
    [apply updateDMStatus_law|done|apply Hr|apply Hr| |].
  - fold update_status in *. destruct (update_status (s, dm)) as [[[]|e|p] [s' dm']]; cbn in *; [done| |by destruct (Hnp p)].
    subst dm'. exists old. by rewrite Hv.
  - fold update_status in *.
    destruct (put_ready (view s) old dm (status_update old dm) new) as (Hok & Hr1 & Hr2);
      [done|done|exact (based_old _ _ _ (ready_based _ _ _ Hr))|done|exact (ready_started _ _ _ Hr)|exact (ready_rank _ _ _ Hr)|].
    destruct (next_version_same _ _ _ _ Hn) as (Hst & Hfin & Hkey).
    destruct (update_status (s, dm)) as [[[]|e|p] [s' dm']]; cbn [fst snd] in *.
    + destruct Hres as [[_ ->]|[? _]]; [|done]. cbn [post]. rewrite Hv.
      split_and!; [done|by apply (ready_idle _ _ _ Hr)|done..].
    + destruct Hres as [[? _]|(_ & _ & ->)]; [done|]. cbn [post]. rewrite Hv. by exists old.
    + destruct Hres as [[? _]|(_ & Hnp & _)]; [done|by destruct (Hnp p)].
Qed.

(** [r.Update] of the finalizers *)
Lemma post_update_main old s dm :
  Ready old (view s) dm → post (λ _ v _, ok v) (update_main (s, dm)).
Proof.
  intros Hr. destruct (update_effect main_update updateDM s old dm) as
    [(Hne & Hnp & Hdm & Hv)|(new & Hl & Hn & Hv & Hres)];
    [apply updateDM_law|done|apply Hr|apply Hr| |].
  - fold update_main in *. destruct (update_main (s, dm)) as [[[]|e|p] [s' dm']]; cbn in *; [done| |by destruct (Hnp p)].
    subst dm'. exists old. by rewrite Hv.
  - fold update_main in *.
    destruct (put_ready (view s) old dm (main_update old dm) new) as (Hok & Hr1 & Hr2); [done|done|exact (based_old _ _ _ (ready_based _ _ _ Hr))|done| |done|].
    { change (start_recorded old). destruct Hr as [[Hinv _ _ _] [Hin Hko _ _] _ _ _].
      apply (inv_started WatchNamespace (view s) Hinv); [done|by rewrite Hko]. }
    destruct (update_main (s, dm)) as [[[]|e|p] [s' dm']]; cbn [fst snd] in *.
    + cbn [post]. by rewrite Hv.
    + destruct Hres as [[? _]|(_ & _ & ->)]; [done|]. cbn [post]. rewrite Hv. by exists old.
    + destruct Hres as [[? _]|(_ & Hnp & _)]; [done|by destruct (Hnp p)].
Qed.
(** * The branches *)

(** [dm] is as it was read. *)
Definition Read (v : View) (dm : NnfDataMovement) : Prop := ok v ∧ based v dm dm.

Lemma Read_started v dm : Read v dm → start_recorded dm.
Proof.
  intros [[Hinv _ _ _] [Hin Hk _ _]]. apply (inv_started WatchNamespace v Hinv); [done|by rewrite Hk].
Qed.

Lemma Read_Ready v dm :
  Read v dm → (live (v_store v) !! req = Some dm → idle req v) → Ready dm v dm.
Proof. intros Hr Hi. constructor; [apply Hr|apply Hr|done|done|by eapply Read_started]. Qed.

Lemma Ready_status v old dm st :
  Ready old v dm → rank_of old ≤ rank (State st) →
  (State st = DataMovementConditionTypeRunning → IsZero (StartTime st) = false) →
  Ready old v (set_status st dm).
Proof. intros [H1 [H2 H3 H4 H5] H6 _ _] Hr Hs. constructor; [done|by constructor|done..]. Qed.

Lemma now_run s dm : ∃ now s', io nowMicro (s, dm) = (Ret now, (s', dm)) ∧ (0 < now)%Z ∧ view s' = view s.
Proof.
  destruct (nowMicro_ok (world s)) as (t & w' & E & Ht). exists t, (set_world w' s).
  unfold io. cbn [fst snd]. rewrite E. split_and!; [done..|]. unfold view. cbn.
  pose proof (nowMicro_frame (world s)) as Hf. rewrite E in Hf. cbn in Hf. by rewrite Hf.
Qed.

Lemma post_cancel s dm :
  Read (view s) dm →
  post (λ _ v dm', (v = view s ∧ dm' = dm) ∨ Ready dm' v dm') (cancel (s, dm)).
Proof.
  intros Hr. unfold cancel. rewrite bind_get_dm.
  destruct (IsZero (StartTime (dm_Status dm)) && _) eqn:Hz.
  - destruct (now_run s dm) as (now & s' & En & Hnow & Hv). rewrite (bind_Ret _ _ _ _ _ En), bind_put_dm.
    apply andb_prop in Hz as [Hz _].
    assert (Ready dm (view s') dm) as Hrd.
    { rewrite Hv. apply Read_Ready; [done|]. intros Hl. eapply idle_if; [apply Hr|done|left].
      intros Hrun. apply (Read_started _ _ Hr) in Hrun. congruence. }
    eapply post_weaken; [eapply post_update_status|by intros _ v d (H & _); right].
    apply Ready_status; [done|apply rank_le_2|done].
  - rewrite bind_gets. destruct (contexts s !! name_of dm) as [c|]; [|by left].
    destruct (Result c); by left.
Qed.

(** * Forgetting a finished operation *)

Lemma ok_delete_ctx (s : Sys W) name :
  ok (view s) → name = snd req → (contexts s !! name ≫= Result) ≠ None → ok (view (delete_ctx name s)).
Proof.
  intros [Hinv Hg Hh Ho] -> Hname. constructor; [|exact Hg|exact Hh|].
  2: { intros n Hn. cbn. rewrite lookup_delete_ne by done. by apply Ho. }
  destruct Hinv as [H1 H2 H3 H4 H5 H6].
  constructor; cbn [view delete_ctx set_contexts v_store v_contexts v_routines world contexts routines];
    [done|done| |done| |].
  - intros r Hr. destruct (H3 r Hr) as [R1 R2 R3 R4 R5]. constructor; [done|done| |done|done].
    cbn. rewrite lookup_delete_ne; [done|]. intros Heq. apply Hname. cbn in R3. by rewrite Heq, R3.
  - intros n c [_ Hc]%lookup_delete_Some. by apply H5.
  - intros n c st [_ Hc]%lookup_delete_Some. by eapply H6.
Qed.

Lemma Ready_delete_ctx old (s : Sys W) dm name :
  Ready old (view s) dm → name = snd req → (contexts s !! name ≫= Result) ≠ None →
  Ready old (view (delete_ctx name s)) dm.
Proof.
  intros [H1 [H2 H3 H4 H5] H6 H7 H8] Hn Hname. constructor; [by apply ok_delete_ctx|by constructor|done..].
Qed.

Lemma post_remove_finalizer old s dm :
  Ready old (view s) dm →
  post (λ _ v _, ok v)
    ((if ContainsFinalizer (dm_Meta dm) finalizer then
        _ ← put_dm (set_meta (RemoveFinalizer finalizer (dm_Meta dm)) dm); update_main
      else mret tt : Body (W:=W) unit) (s, dm)).
Proof.
  intros Hr. destruct (ContainsFinalizer (dm_Meta dm) finalizer); [|apply Hr].
  rewrite bind_put_dm. apply post_update_main with old. destruct Hr as [H1 [H2 H3 H4 H5] H6 H7 H8].
  constructor; [done|by constructor|done..].
Qed.

Lemma post_deletion s dm :
  Read (view s) dm → post (λ _ v _, ok v) (reconcile_deletion (s, dm)).
Proof.
  intros Hr. unfold reconcile_deletion. eapply post_bind; [by apply post_cancel|].
  intros [] s' dm' Hc. rewrite bind_get_dm, bind_gets.
  assert (dm_key dm' = req) as Hk'.
  { destruct Hc as [[_ ->]|Hc]; [apply Hr|exact (based_key _ _ _ (ready_based _ _ _ Hc))]. }
  assert (ok (view s') ∧ ((contexts s' !! name_of dm' = None ∨ (contexts s' !! name_of dm' ≫= Result) ≠ None) →
            Ready dm' (view s') dm')) as [Hok Hrd].
  { destruct Hc as [[Hv ->]|Hc]; [|by split; [apply Hc|]]. rewrite <- Hv in Hr. split; [apply Hr|].
    intros Hn. apply Read_Ready; [done|]. intros Hl. eapply idle_if; [apply Hr|done|].
    rewrite (name_of_req req dm) in Hn by apply Hr. cbn. tauto. }
  destruct (contexts s' !! name_of dm') as [c|] eqn:Ec.
  - destruct (Result c) as [st|] eqn:Er; [|exact Hok].
    rewrite bind_modify. apply post_remove_finalizer with dm'.
    apply Ready_delete_ctx; [apply Hrd; right; cbn; by rewrite Er|apply name_of_req, Hk'|]. rewrite Ec. cbn. by rewrite Er.
  - apply post_remove_finalizer with dm'. apply Hrd. by left.
Qed.

Lemma post_add_finalizer s dm :
  Read (view s) dm → ContainsFinalizer (dm_Meta dm) finalizer = false →
  post (λ _ v _, ok v) (add_finalizer (s, dm)).
Proof.
  intros Hr Hf. unfold add_finalizer. rewrite bind_get_dm, bind_put_dm.
  apply post_update_main with dm.
  destruct (Read_Ready _ _ Hr) as [H1 [H2 H3 H4 H5] H6 H7 H8].
  { intros Hl. eapply idle_if; [apply Hr|done|]. right. by left. }
  unfold AddFinalizer. rewrite Hf. constructor; [done|by constructor|done..].
Qed.

Lemma post_write_result s dm result :
  Read (view s) dm → (contexts s !! name_of dm ≫= Result) = Some result →
  post (λ _ v _, ok v) (write_result result (s, dm)).
Proof.
  intros Hr Hres. unfold write_result. rewrite bind_get_dm, bind_put_dm.
  assert (name_of dm = snd req) as Hname by (apply name_of_req, Hr).
  assert (State result = DataMovementConditionTypeFinished) as Hfin.
  { destruct (contexts s !! name_of dm) as [c|] eqn:E; [|done]. cbn in Hres.
    eapply (inv_result WatchNamespace (view s)); [apply Hr|exact E|exact Hres]. }
  eapply post_bind; [eapply post_update_status|].
  - apply Ready_status; [apply Read_Ready; [done|]| |].
    + intros Hl. eapply idle_if; [apply Hr|done|]. right. right. left. cbn. by rewrite <- Hname, Hres.
    + rewrite Hfin. apply rank_le_2.
    + by rewrite Hfin.
  - intros [] s' new (Hrd & _ & _ & Hv & _). rewrite bind_get_dm. cbn [post modify fst snd].
    apply ok_delete_ctx; [apply Hrd|apply name_of_req, (based_key _ _ _ (ready_based _ _ _ Hrd))|].
    assert (name_of new = name_of dm) as -> by (rewrite Hname; apply name_of_req, (based_key _ _ _ (ready_based _ _ _ Hrd))).
    apply (f_equal v_contexts) in Hv. cbn in Hv. by rewrite Hv, Hres.
Qed.
(** * Starting a command *)

Lemma post_io_err {A} (m : M W A) f old s dm :
  preserves dms m → Ready old (view s) dm →
  post (λ _ v dm', v = view s ∧ dm' = dm) (map_err f (io m) (s, dm)).
Proof. intros Hm Hr. apply post_map_err. by apply post_io with old. Qed.

(** One call of [prepare_command]. *)
Ltac prepare_step old := eapply post_bind;
  [ first [ apply post_io_err with old | apply post_io with old ];
    [ solve [auto with go_frame] | assumption ]
  | let a := fresh "a" in let s1 := fresh "s" in let Hv := fresh "Hv" in
    intros a s1 ? [Hv ->]; match goal with H : Ready old _ _ |- _ => rewrite <- Hv in H end ].

Lemma Ready_same old v dm dm' :
  Ready old v dm → same_but_spec dm dm' → Ready old v dm'.
Proof.
  intros [H1 [H2 H3 H4 H5] H6 H7 H8] [Hm Hs]. unfold rank_of, start_recorded, state_of, dm_key, rv in *.
  constructor; [done|constructor; unfold dm_key, rv; by rewrite ?Hm|done|..];
    unfold rank_of, start_recorded, state_of; by rewrite Hs.
Qed.

Lemma post_prepare_command old s dm :
  Ready old (view s) dm →
  post (λ _ v dm', v = view s ∧ Ready old v dm') (prepare_command (s, dm)).
Proof.
  intros Hr. unfold prepare_command. rewrite bind_get_dm.
  do 5 prepare_step old.
  assert (view s4 = view s) as Hst by (by rewrite Hv3, Hv2, Hv1, Hv0, Hv).
  eapply post_bind with (λ r v dm', v = view s4 ∧ same_but_spec dm (fst r)).
  { pose proof (post_io (PrepareDestination a dm a2) old s4 dm ltac:(auto with go_frame) Hr) as H.
    pose proof (PrepareDestination_same a dm a2 (world s4)) as Hsame.
    unfold io in *. cbn [fst snd] in *. destruct (PrepareDestination a dm a2 (world s4)) as [[r|e|p] w'];
      cbn [post fst snd] in *; [|done..]. split; [apply H|by eapply Hsame]. }
  intros [dm' err] s5 dm5 [Hv5 Hsame]. rewrite bind_put_dm. cbn [fst snd] in *.
  assert (Ready old (view s5) dm') as Hr5 by (rewrite Hv5; by eapply Ready_same).
  eapply post_bind with (λ _ v d, v = view s5 ∧ d = dm').
  { destruct err; [by exists old|done]. }
  intros [] s6 d [Hv6 ->]. rewrite <- Hv6 in Hr5.
  eapply post_bind with (λ _ v d, v = view s6 ∧ d = dm').
  { apply post_map_err. unfold lift_outcome.
    destruct (BuildDMCommand a a2 true dm'); cbn; [done|by exists old|apply Hr5]. }
  intros args s7 d [Hv7 ->]. cbn. rewrite Hv7, Hv6, Hv5. rewrite Hv6, Hv5 in Hr5. by rewrite Hst in *.
Qed.
Lemma post_attempt {A} (Q : A → View → NnfDataMovement → Prop) (m : Body (W:=W) A) sd :
  post Q (m sd) →
  post (λ r v dm, match r with inr a => Q a v dm | inl _ => Recoverable v dm end) (attempt m sd).
Proof. unfold attempt. by destruct (m sd) as [[a|e|p] [s dm]]. Qed.

(** A started command and its entry. *)
Lemma ok_launch v r dm :
  ok v → idle req v → r_req r = req → dm_key (r_dm r) = req →
  CommandStatus (dm_Status (r_dm r)) ≠ None →
  live (v_store v) !! req = Some dm → state_of dm = DataMovementConditionTypeRunning →
  ContainsFinalizer (dm_Meta dm) finalizer = true →
  ok {| v_store := v_store v;
        v_contexts := <[snd req := {| Ctx := r_ctx r; Result := None |}]> (v_contexts v);
        v_routines := r :: v_routines v |}.
Proof.
  intros [Hinv Hg Hh Ho] Hidle Hr Hkey Hcmd Hl Hrun Hfin. constructor; [|exact Hg|exact Hh|].
  2: { intros n Hn. cbn. rewrite lookup_insert_ne by done. by apply Ho. }
  destruct Hinv as [H1 H2 H3 H4 H5 H6].
  constructor; cbn [v_store v_contexts v_routines]; [done|done| | | |].
  - intros r' [->|Hr']%elem_of_cons.
    + constructor; rewrite ?Hr; [done|done| |done|by exists dm]. cbn. by rewrite lookup_insert_eq.
    + destruct (H3 r' Hr') as [R1 R2 R3 R4 R5]. constructor; [done|done| |done|done]. cbn.
      rewrite lookup_insert_ne; [done|]. intros Heq. apply Hidle. apply list_elem_of_fmap. exists r'.
      split; [|done]. destruct req, (r_req r'); cbn in *. congruence.
  - rewrite fmap_cons, Hr. by constructor.
  - intros n c. rewrite fmap_cons, elem_of_cons, Hr. rewrite lookup_insert_Some.
    intros [[<- _]|[_ Hc]] Hres; [left; by destruct req; cbn in *; subst|right; by eapply H5].
  - intros n c st. rewrite lookup_insert_Some. intros [[_ <-]|[_ Hc]] Hres; [done|by eapply H6].
Qed.

Lemma post_launch s new profile hostfile id cmdStatus :
  ok (view s) → idle req (view s) → dm_key new = req → CommandStatus (dm_Status new) ≠ None →
  live (v_store (view s)) !! req = Some new → state_of new = DataMovementConditionTypeRunning →
  ContainsFinalizer (dm_Meta new) finalizer = true →
  post (λ _ v _, ok v)
    (launch req profile hostfile id cmdStatus
       (store_ctx (name_of new) {| Ctx := id; Result := None |} s, new)).
Proof.
  intros Hok Hidle Hk Hcmd Hl Hrun Hfin. unfold launch. rewrite bind_get_dm, (name_of_req req new Hk).
  set (s1 := store_ctx _ _ _).
  assert (∃ t s2, (if ProgressCollectionEnabled (progressCollectInterval profile) then io nowMicro
                   else mret 0%Z : Body (W:=W) Z) (s1, new) = (Ret t, (s2, new)) ∧ view s2 = view s1)
    as (t & s2 & E & Hv).
  { destruct (ProgressCollectionEnabled _); [|by exists 0%Z, s1].
    destruct (now_run s1 new) as (t & s2 & ? & _ & ?). by exists t, s2. }
  rewrite (bind_Ret _ _ _ _ _ E). cbn [post modify fst snd].
  change (view (set_routines ?r s2)) with
    {| v_store := v_store (view s2); v_contexts := v_contexts (view s2); v_routines := r |}.
  change (routines s2) with (v_routines (view s2)). rewrite Hv.
  by apply (ok_launch (view s) {| r_req := req; r_dm := new; r_profile := profile;
    r_hostfile := hostfile; r_ctx := id; r_cmdStatus := cmdStatus; r_parseBuf := "";
    r_combinedOutBuf := ""; r_progressStart := t |} new).
Qed.

Lemma post_start_command old s dm profile hostfile args :
  Ready old (view s) dm → state_of old ≠ DataMovementConditionTypeFinished →
  ContainsFinalizer (dm_Meta old) finalizer = true →
  post (λ _ v _, ok v) (start_command req profile hostfile args (s, dm)).
Proof.
  intros Hr Hnf Hfin. unfold start_command. rewrite bind_gets, bind_modify.
  destruct (now_run (bump_ctx s) dm) as (now & s1 & En & Hnow & Hv1).
  rewrite (bind_Ret _ _ _ _ _ En), bind_get_dm, bind_put_dm.
  assert (Ready old (view s1) (started now (command_status args) dm)) as Hr1.
  { rewrite Hv1. apply Ready_status; [done| |].
    - by apply rank_le_1.
    - intros _. cbn. by destruct (Z.eqb_spec now 0); [lia|]. }
  eapply post_bind; [by eapply post_attempt, post_update_status|].
  intros [e|[]] s2 new; cbn beta iota.
  - intros Hrec. rewrite bind_modify. exact Hrec.
  - intros (Hrd & Hidle & Hst & Hv2 & Hf2 & Hl). rewrite bind_get_dm, bind_modify.
    assert (ContainsFinalizer (dm_Meta new) finalizer = true) as Hfn.
    { unfold ContainsFinalizer in *. by rewrite Hf2. }
    pose proof (based_key _ _ _ (ready_based _ _ _ Hrd)) as Hk.
    apply post_launch; [apply Hrd|done|done|by rewrite Hst| | |done].
    + rewrite Hv2, <- Hk. apply put_live_self. by eapply gone_no_finalizer.
    + unfold state_of. by rewrite Hst.
Qed.

Lemma post_start old s dm :
  Ready old (view s) dm → state_of old ≠ DataMovementConditionTypeFinished →
  ContainsFinalizer (dm_Meta old) finalizer = true →
  post (λ _ v _, ok v) (start req (s, dm)).
Proof.
  intros Hr Hnf Hfin. unfold start. eapply post_bind; [by apply post_prepare_command|].
  intros p s' dm' [_ Hr']. by apply post_start_command with old.
Qed.

Lemma post_active s dm :
  Read (view s) dm → ContainsFinalizer (dm_Meta dm) finalizer = true →
  IsZero (DeletionTimestamp (dm_Meta dm)) = true →
  (contexts s !! name_of dm ≫= Result) = None →
  post (λ _ v _, ok v)
    (reconcile_active req (bool_decide (is_Some (contexts s !! name_of dm))) (s, dm)).
Proof.
  intros Hr Hfin Hdel Hres. unfold reconcile_active. rewrite bind_get_dm.
  destruct (String.eqb_spec (state_of dm) DataMovementConditionTypeFinished) as [|Hnf]; [apply Hr|].
  destruct (Cancel (dm_Spec dm)).
  { apply post_map_err. eapply post_weaken; [by apply post_cancel|].
    intros _ v d [[-> _]|H]; [apply Hr|apply H]. }
  destruct (String.eqb_spec (state_of dm) DataMovementConditionTypeRunning) as [Hrun|Hnr].
  - case_bool_decide as Hc; [apply Hr|]. rewrite bind_put_dm. apply post_start with dm; [|done|done].
    apply Ready_status; [apply Read_Ready; [done|]| |].
    + intros Hl. eapply idle_if; [apply Hr|done|]. right. right. right.
      rewrite (name_of_req req dm) in Hc by apply Hr. by apply eq_None_not_Some.
    + done.
    + intros _. by apply (Read_started _ _ Hr).
  - apply post_start with dm; [|done|done]. apply Read_Ready; [done|]. intros Hl.
    eapply idle_if; [apply Hr|done|by left].
Qed.

Lemma post_body s dm : Read (view s) dm → post (λ _ v _, ok v) (reconcile_body req (s, dm)).
Proof.
  intros Hr. unfold reconcile_body. rewrite bind_get_dm.
  destruct (IsZero (DeletionTimestamp (dm_Meta dm))) eqn:Hd; cbn [negb]; [|by apply post_deletion].
  destruct (ContainsFinalizer (dm_Meta dm) finalizer) eqn:Hf; cbn [negb]; [|by apply post_add_finalizer].
  rewrite bind_gets. destruct (contexts s !! name_of dm ≫= Result) as [result|] eqn:Hres.
  - by apply post_write_result.
  - by apply post_active.
Qed.

(** * Reconcile *)

Lemma record_error_rank err dm :
  rank_of dm ≤ rank (State (dm_Status (record_error err dm))).
Proof.
  unfold record_error, rank_of, state_of. destruct err as [| | | |info]; cbn; try done.
  case_bool_decide; [done|apply rank_le_2].
Qed.

Lemma record_error_started err dm :
  start_recorded dm → start_recorded (record_error err dm).
Proof.
  unfold record_error, start_recorded, state_of. destruct err as [| | | |info]; cbn; try done.
  by case_bool_decide.
Qed.

Lemma Ready_record old v dm err : Ready old v dm → Ready old v (record_error err dm).
Proof.
  intros Hr. apply (Ready_status v old dm (dm_Status (record_error err dm)) Hr).
  - pose proof (record_error_rank err dm). pose proof (ready_rank _ _ _ Hr). lia.
  - intros Hs. by apply (record_error_started err dm (ready_started _ _ _ Hr)).
Qed.

Lemma with_deferred_ok s dm :
  Read (view s) dm → ok (view (snd (with_deferred (reconcile_body req) dm s))).
Proof.
  intros Hr. pose proof (post_body s dm Hr) as Hp. unfold with_deferred.
  destruct (reconcile_body req (s, dm)) as [[[]|e|p] [s' dm']]; cbn [post] in Hp; [done| |done].
  destruct Hp as [old Hrec]. apply (Ready_record _ _ _ e) in Hrec.
  pose proof (post_update_status old s' (record_error e dm') Hrec) as Hu.
  unfold update_status, update_in_place in Hu. cbn [fst snd] in Hu.
  destruct (fst (updateDMStatus _ _)); cbn [post snd] in *; [apply Hu|destruct Hu as [o Ho]; apply Ho|done].
Qed.

Lemma Reconcile_ok s : ok (view s) → ok (view (snd (Reconcile req s))).
Proof.
  intros Hok. unfold Reconcile, attempt, on_world, mbind, M_bind.
  pose proof (getDM_law req (world s)) as [Hf Hg]. destruct (getDM req (world s)) as [o w'].
  cbn [fst snd] in *.
  assert (view (set_world w' s) = view s) as Hv by (unfold view; cbn; by rewrite Hf).
  destruct o as [dm|e|p]; [|destruct (IgnoreNotFound e); cbn; by rewrite Hv|done].
  apply with_deferred_ok. rewrite Hv. split; [done|]. destruct Hg as [Hh Hk]. by constructor.
Qed.
End Body.

Lemma ok_refl WatchNamespace v req : inv WatchNamespace v → ok WatchNamespace v req v.
Proof. intros Hinv. constructor; [done|apply grows_refl|done|done]. Qed.
