(* ===== verification/ReconcilerProps.v ===== *)
(** What the data movement reconciler guarantees: the invariant holds in every
    reachable state, data movements only move forward, and the status a command
    leaves behind is not lost. *)
From S2P Require Import Prelude GoMonad GoStrings GoPath Api Dcp Command Env Cluster Hosts Dest Reconciler ReconcilerInv.

Section Steps.
Context {W : Type} {kube : Kube W} {os : OS W} {os_laws : OSLaws W} {laws : KubeLaws W}.
Context (WatchNamespace : string).

(** * The goroutine *)

(** What identifies a goroutine does not change. *)
Definition same_routine (r r' : Routine) : Prop :=
  r_req r' = r_req r ∧ r_dm r' = r_dm r ∧ r_ctx r' = r_ctx r
  ∧ r_hostfile r' = r_hostfile r ∧ r_profile r' = r_profile r.

Lemma parse_lines_run start lines c w :
  ∃ p w', parse_lines start lines c w = (Ret p, w') ∧ dms w' = dms w.
Proof.
  revert c w. induction lines as [|line lines IH]; intros c w; cbn [parse_lines]; [by eexists _, _|].
  destruct (parse_line line c) as [c' []]; [|by eexists _, _].
  destruct (nowMicro_ok w) as (t & w1 & E & _). rewrite (bind_Ret _ _ _ _ _ E).
  destruct (IH (set_last_message line t (t - start) c') w1) as (p & w2 & -> & Hd). exists p, w2.
  split; [done|]. rewrite Hd. by apply (preserves_eq dms _ _ _ _ nowMicro_frame E).
Qed.

(** A progress update changes the command status of the current version, or nothing. *)
Definition progress_written (st : DMStore) (k : NamespacedName) (st' : DMStore) : Prop :=
  st' = st ∨ ∃ old c new, live st !! k = Some old
    ∧ next_version st old (set_status (set_command_status c (dm_Status old)) old) new
    ∧ st' = put new st.

Lemma progress_update_run k c w :
  store_ok (dms w) →
  ∃ w', (read ← attempt (getDM k);
         match read with
         | inl _ => mret tt
         | inr dm => _ ← attempt (updateDMStatus (set_status (set_command_status c (dm_Status dm)) dm));
                     mret tt
         end : M W unit) w = (Ret tt, w')
        ∧ progress_written (dms w) k (dms w').
Proof.
  intros Hst. unfold mbind, M_bind, attempt. destruct (getDM_law k w) as [Hf Hg].
  destruct (getDM k w) as [[dm|e|p] w1]; cbn [fst snd] in *; [|by exists w1; split; [|left]|done].
  destruct Hg as [Hh Hk]. set (dm' := set_status _ dm).
  pose proof (updateDMStatus_law dm' w1) as Hu. rewrite Hf in Hu.
  destruct (updateDMStatus dm' w1) as [o w2]. cbn [fst snd] in Hu.
  assert (∀ cur, live (dms w) !! dm_key dm' = Some cur → rv dm' = rv cur → cur = dm) as Hcur.
  { intros cur Hl Hr. by eapply (read_is_live (dms w)). }
  assert (dm_key dm' = k) as Hk' by done.
  inversion Hu as [cur new Hl Hr Hn Ho Hs|e Ho Hs|e cur new Hl Hr He Hn Ho Hs]; subst o;
    exists w2; (split; [done|]).
  - right. pose proof (Hcur _ Hl Hr) as ->. rewrite Hk' in Hl. by exists dm, c, new.
  - by left.
  - right. pose proof (Hcur _ Hl Hr) as ->. rewrite Hk' in Hl. by exists dm, c, new.
Qed.

Lemma progress_run r w :
  store_ok (dms w) →
  ∃ r' w', parseAndUpdateProgress r w = (Ret r', w') ∧ same_routine r r'
           ∧ r_combinedOutBuf r' = r_combinedOutBuf r ∧ progress_written (dms w) (r_req r) (dms w').
Proof.
  intros Hst. unfold parseAndUpdateProgress.
  destruct (parse_lines_run (r_progressStart r) (buffered_lines (r_parseBuf r)) (r_cmdStatus r) w)
    as ([c [unread|]] & w1 & E & Hd); rewrite (bind_Ret _ _ _ _ _ E); cbn [fst snd].
  - eexists _, w1. split_and!; [done|done|done|by left].
  - rewrite <- Hd in Hst. destruct (progress_update_run (r_req r) (Some c) w1 Hst) as (w2 & E2 & Hw).
    rewrite <- Hd. unfold mbind, M_bind in E2 |- *.
    destruct (attempt (getDM (r_req r)) w1) as [[read|e|p] w3]; [|done..].
    destruct read as [e|dm]; rewrite E2; cbn; by eexists _, w2.
Qed.

Lemma progress_inv v k st' :
  inv WatchNamespace v → progress_written (v_store v) k st' →
  inv WatchNamespace {| v_store := st'; v_contexts := v_contexts v; v_routines := v_routines v |}
  ∧ grows WatchNamespace (v_store v) st'.
Proof.
  intros Hinv [->|(old & c & new & Hl & Hn & ->)].
  - split; [by destruct v|apply grows_refl].
  - pose proof (inv_store _ _ Hinv) as Hst. pose proof (live_key _ Hst _ _ Hl) as Hk.
    rewrite <- Hk in Hl. set (body := set_status _ old) in Hn.
    split; [|exact (put_grows _ _ _ body _ Hl Hn (le_n _))].
    apply (put_update_inv _ v old body new Hinv Hl Hn).
    + intros Hns. apply (inv_started _ _ Hinv old); [by eapply live_history|done].
    + intros (r & Hr & Hreq)%in_routines. destruct (inv_routine _ _ Hinv _ Hr) as [_ _ _ _ (dm & Hdm & Hs & Hf)].
      rewrite Hreq in Hdm. change (dm_key _) with (dm_key old) in Hdm. rewrite Hl in Hdm.
      by injection Hdm as <-.
Qed.

(** * Replacing and removing goroutines *)

Lemma inv_same_routine v rs1 r r' rs2 :
  inv WatchNamespace v → v_routines v = rs1 ++ r :: rs2 → same_routine r r' →
  inv WatchNamespace {| v_store := v_store v; v_contexts := v_contexts v; v_routines := rs1 ++ r' :: rs2 |}.
Proof.
  intros [H1 H2 H3 H4 H5 H6] Hrs (Hreq & Hdm & Hctx & _). rewrite Hrs in *.
  assert (r_req <$> rs1 ++ r' :: rs2 = r_req <$> rs1 ++ r :: rs2) as Hf.
  { by rewrite !fmap_app, !fmap_cons, Hreq. }
  constructor; cbn [v_store v_contexts v_routines]; rewrite ?Hf; [done|done| |done|done|done].
  intros x Hx. assert (x = r' ∨ x ∈ rs1 ++ r :: rs2) as [->|Hx'].
  { rewrite !elem_of_app, !elem_of_cons in *. tauto. }
  - destruct (H3 r) as [R1 R2 R3 R4 R5]; [rewrite elem_of_app, elem_of_cons; tauto|].
    constructor; cbn; by rewrite ?Hreq, ?Hdm, ?Hctx.
  - by destruct (H3 x Hx').
Qed.

(** The end of a command: its entry gets a finished status. *)
Lemma inv_finish v rs1 r rs2 st :
  inv WatchNamespace v → v_routines v = rs1 ++ r :: rs2 →
  State st = DataMovementConditionTypeFinished →
  inv WatchNamespace
    {| v_store := v_store v;
       v_contexts := <[snd (r_req r) := {| Ctx := r_ctx r; Result := Some st |}]> (v_contexts v);
       v_routines := rs1 ++ rs2 |}.
Proof.
  intros [H1 H2 H3 H4 H5 H6] Hrs Hst. rewrite Hrs in *.
  assert (r ∈ rs1 ++ r :: rs2) as Hr by (rewrite elem_of_app, elem_of_cons; tauto).
  rewrite fmap_app, fmap_cons in H4. apply NoDup_app in H4 as (N1 & N2 & [N3 N4]%NoDup_cons).
  assert (r_req r ∉ r_req <$> rs1 ++ rs2) as Hnot.
  { rewrite fmap_app, elem_of_app. intros [Hin|Hin]; [|done]. by apply (N2 _ Hin); left. }
  constructor; cbn [v_store v_contexts v_routines]; [done|done| | | |].
  - intros x Hx. destruct (H3 x) as [R1 R2 R3 R4 R5].
    { rewrite elem_of_app, elem_of_cons. apply elem_of_app in Hx. tauto. }
    constructor; [done|done| |done|done]. cbn. rewrite lookup_insert_ne; [done|]. intros Heq.
    apply Hnot. apply list_elem_of_fmap. exists x. split; [|done].
    pose proof (rt_namespace _ _ _ (H3 r Hr)). destruct (r_req r), (r_req x); cbn in *; congruence.
  - rewrite fmap_app. apply NoDup_app. split; [done|]. split; [|done].
    intros k Hk Hk'. by apply (N2 k Hk); right.
  - intros n c. rewrite lookup_insert_Some. intros [[_ <-]|[Hne Hc]]; [done|]. intros Hres.
    specialize (H5 n c Hc Hres). rewrite fmap_app, fmap_cons in H5. rewrite fmap_app.
    apply elem_of_app in H5 as [H5|[Heq|H5]%elem_of_cons]; rewrite elem_of_app; [by left| |by right].
    exfalso. apply Hne. by rewrite <- Heq.
  - intros n c st'. rewrite lookup_insert_Some. intros [[_ <-]|[_ Hc]]; [by intros [= <-]|by eapply H6].
Qed.

Lemma inv_restart s : inv WatchNamespace (view s) → inv WatchNamespace (view (restart s)).
Proof.
  intros [H1 H2 H3 H4 H5 H6]. constructor; cbn; [done|done| |constructor| |].
  - by intros r ?%elem_of_nil.
  - intros n c. by rewrite lookup_empty.
  - intros n c st. by rewrite lookup_empty.
Qed.
Lemma on_world_run {A} (m : M W A) (s : Sys W) o w' :
  m (world s) = (o, w') → on_world m s = (o, set_world w' s).
Proof. unfold on_world. by intros ->. Qed.

(** A goroutine ends with the status of [final_status] in its entry. *)
Lemma finish_run r err s :
  store_ok (dms (world s)) →
  ∃ r' now w', same_routine r r' ∧ r_combinedOutBuf r' = r_combinedOutBuf r
    ∧ progress_written (dms (world s)) (r_req r) (dms w') ∧
    let st := final_status (bool_decide (r_ctx r ∈ cancelled s)) err now r' in
    finish r err s =
      match CommandStatus st with
      | None => (Panic "nil pointer dereference", set_world w' s)
      | Some _ => store_result (r_dm r) (set_command_status (Some (r_cmdStatus r')) st) (set_world w' s)
      end.
Proof.
  intros Hst. unfold finish.
  assert (∃ r' w1, (if ProgressCollectionEnabled (progressCollectInterval (r_profile r))
                    then on_world (parseAndUpdateProgress r) else mret r) s = (Ret r', set_world w1 s)
                   ∧ same_routine r r' ∧ r_combinedOutBuf r' = r_combinedOutBuf r
                   ∧ progress_written (dms (world s)) (r_req r) (dms w1))
    as (r' & w1 & E1 & Hsame & Hout & Hw1).
  { destruct (ProgressCollectionEnabled _).
    - destruct (progress_run r (world s) Hst) as (r' & w1 & E & H1 & H2 & H3). exists r', w1.
      split; [by apply on_world_run|done].
    - exists r, (world s). split_and!; [by destruct s|done|done|by left]. }
  destruct (nowMicro_ok w1) as (now & w2 & E2 & _).
  destruct (attempt_returns (removeAll (Dir (r_hostfile r'))) w2 (removeAll_ok _)) as (rm & w3 & E3 & _).
  exists r', now, w3. split; [done|]. split; [done|]. split.
  { rewrite (preserves_eq dms _ _ _ _ (preserves_attempt _ _ (removeAll_frame _)) E3).
    by rewrite (preserves_eq dms _ _ _ _ nowMicro_frame E2). }
  destruct Hsame as (Hreq & Hdm & Hctx & _). cbv zeta.
  rewrite (bind_Ret _ _ _ _ _ E1), (bind_Ret _ _ _ _ _ (on_world_run _ (set_world w1 s) _ _ E2)).
  rewrite Hctx. erewrite bind_Ret by done.
  erewrite bind_Ret by (apply (on_world_run _ (set_world w2 s) _ _ E3)).
  change (cancelled (set_world w2 (set_world w1 s))) with (cancelled s).
  set (st := final_status _ _ _ _). rewrite <- Hdm. by destruct (CommandStatus st).
Qed.

Lemma final_status_state c err now r : State (final_status c err now r) = DataMovementConditionTypeFinished.
Proof.
  unfold final_status. destruct c; [done|]. destruct err as [e|]; [done|]. by destruct (_ || _).
Qed.

Lemma finish_ok s rs1 r rs2 err :
  inv WatchNamespace (view s) → routines s = rs1 ++ r :: rs2 →
  let s' := settle (finish r err (set_routines (rs1 ++ rs2) s)) in
  inv WatchNamespace (view s') ∧ grows WatchNamespace (dms (world s)) (dms (world s')).
Proof.
  intros Hinv Hrs. cbv zeta. set (s0 := set_routines (rs1 ++ rs2) s).
  destruct (finish_run r err s0 (inv_store _ _ Hinv)) as (r' & now & w' & Hsame & _ & Hw & Hfin).
  cbv zeta in Hfin. rewrite Hfin. clear Hfin. set (st := final_status _ err now r').
  destruct (progress_inv (view s) (r_req r) (dms w') Hinv Hw) as [Hinv' Hg].
  destruct (CommandStatus st) as [c|].
  - unfold settle, store_result. cbn [fst snd].
    assert (r ∈ routines s) as Hr by (rewrite Hrs, elem_of_app, elem_of_cons; tauto).
    destruct (inv_routine _ _ Hinv r Hr) as [R1 R2 R3 _ _].
    assert (name_of (r_dm r) = snd (r_req r)) as Hname by (by rewrite <- R2).
    rewrite Hname. change (contexts (set_world w' s0)) with (v_contexts (view s)). rewrite R3. cbn [Ctx].
    split; [|exact Hg].
    apply (inv_finish _ rs1 r rs2 (set_command_status (Some (r_cmdStatus r')) st) Hinv' Hrs).
    apply final_status_state.
  - split; [|exact Hg]. change (view (settle _)) with (view (restart (set_world w' s))).
    by apply inv_restart.
Qed.

(** * Every step keeps the invariant *)

Lemma others_inv v st' :
  inv WatchNamespace v → others WatchNamespace (v_store v) st' →
  inv WatchNamespace {| v_store := st'; v_contexts := v_contexts v; v_routines := v_routines v |}.
Proof.
  intros Hinv Ho. pose proof (inv_store _ _ Hinv) as Hst.
  destruct Ho as [|new Hl Hrv Hs|cur new Hl Hrv Hs Hf Hd]; [by destruct v| |].
  - apply (put_inv _ v new Hinv); [by right| |].
    + intros _ Hrun. unfold state_of in Hrun. by rewrite Hs in Hrun.
    + intros (r & Hr & Hreq)%in_routines. destruct (inv_routine _ _ Hinv _ Hr) as [_ _ _ _ (dm & Hdm & _)].
      rewrite Hreq in Hdm. congruence.
  - pose proof (live_key _ Hst _ _ Hl) as Hk.
    assert (fst (dm_key new) = WatchNamespace → dm_Status new = dm_Status cur) as Hs'.
    { rewrite <- Hk. apply Hs. }
    apply (put_inv _ v new Hinv); [by right| |].
    + intros Hns. specialize (Hs' Hns). unfold start_recorded, state_of. rewrite Hs'.
      apply (inv_started _ _ Hinv cur); [by eapply live_history|by rewrite Hk].
    + intros (r & Hr & Hreq)%in_routines.
      destruct (inv_routine _ _ Hinv _ Hr) as [R1 _ _ _ (dm & Hdm & Hrun & Hfin)].
      rewrite Hreq in *. assert (dm = cur) as -> by congruence.
      unfold state_of in *. by rewrite (Hs' R1), Hf.
Qed.

Lemma step_inv s s' :
  inv WatchNamespace (view s) → step WatchNamespace s s' →
  inv WatchNamespace (view s') ∧
  (grows WatchNamespace (dms (world s)) (dms (world s'))
   ∨ others WatchNamespace (dms (world s)) (dms (world s'))).
Proof.
  intros Hinv Hstep.
  destruct Hstep as [req Hreq|rs1 r rs2 text Hrs|rs1 r rs2 r' w' Hrs _ E|rs1 r rs2 err Hrs|k ks _| |w' Ho].
  - destruct (Reconcile_ok WatchNamespace (view s) req Hreq s) as [Hi Hg _ _].
    { by apply ok_refl. }
    unfold settle. destruct (Reconcile req s) as [[a|e|p] s']; cbn [fst snd] in *; [by auto..|].
    split; [by apply inv_restart|by left].
  - split; [by eapply (inv_same_routine (view s))|left; apply grows_refl].
  - destruct (progress_run r (world s) (inv_store _ _ Hinv)) as (r1 & w1 & E1 & Hsame & _ & Hw).
    rewrite E in E1. injection E1 as <- <-.
    destruct (progress_inv (view s) (r_req r) (dms w') Hinv Hw) as [Hinv' Hg].
    split; [|by left]. by apply (inv_same_routine _ rs1 r r' rs2 Hinv').
  - destruct (finish_ok s rs1 r rs2 err Hinv Hrs) as [H1 H2]. auto.
  - split; [exact Hinv|left; apply grows_refl].
  - split; [by apply inv_restart|left; apply grows_refl].
  - split; [by apply (others_inv (view s))|by right].
Qed.

Lemma reachable_inv s : reachable WatchNamespace s → inv WatchNamespace (view s).
Proof.
  induction 1 as [s (Hst & Hc & Hr & Hs)|s s' _ IH Hstep]; [|by apply (step_inv s s')].
  constructor; cbn; rewrite ?Hc, ?Hr; [done| | |constructor| |].
  - intros dm Hin _ Hrun. by apply Hs.
  - by intros r ?%elem_of_nil.
  - intros n c. by rewrite lookup_empty.
  - intros n c st. by rewrite lookup_empty.
Qed.

(** A resource that is there before and after a step does not go back. *)
Lemma step_forward s s' k dm dm' :
  inv WatchNamespace (view s) → step WatchNamespace s s' → fst k = WatchNamespace →
  live (dms (world s)) !! k = Some dm → live (dms (world s')) !! k = Some dm' →
  rank (state_of dm) ≤ rank (state_of dm').
Proof.
  intros Hinv Hstep Hk Hl Hl'. destruct (step_inv s s' Hinv Hstep) as [_ [Hg|Ho]].
  - destruct (Hg k dm' Hl' Hk) as (d & Hd & Hr). rewrite Hl in Hd. by injection Hd as ->.
  - pose proof (inv_store _ _ Hinv) as Hst. cbn in Hst.
    destruct Ho as [|new Hn _ _|cur new Hn _ Hs _ _].
    + rewrite Hl in Hl'. by injection Hl' as ->.
    + apply put_live_inv in Hl' as [[-> ->]|Hl']; [congruence|]. rewrite Hl in Hl'. by injection Hl' as ->.
    + apply put_live_inv in Hl' as [[-> ->]|Hl']; [|rewrite Hl in Hl'; by injection Hl' as ->].
      rewrite Hl in Hn. injection Hn as ->. unfold state_of. rewrite Hs; [done|].
      by rewrite <- (live_key _ Hst _ _ Hl) in Hk.
Qed.

(** * Properties *)

(** C1.  In every reachable state, whatever the interleaving of reconciliations, stale reads, lost
    answers, restarts and changes by others: no data movement has two commands running, and every
    running command has its entry without a result in the map of active operations and a resource
    that is Running and still carries the finalizer, so it cannot disappear under the command. *)
Theorem running_commands_tracked s :
  reachable WatchNamespace s →
  NoDup (r_req <$> routines s) ∧
  ∀ r, r ∈ routines s →
    contexts s !! snd (r_req r) = Some {| Ctx := r_ctx r; Result := None |} ∧
    ∃ dm, live (dms (world s)) !! r_req r = Some dm
          ∧ state_of dm = DataMovementConditionTypeRunning
          ∧ ContainsFinalizer (dm_Meta dm) finalizer = true.
Proof.
  intros Hinv%reachable_inv. split; [apply (inv_nodup _ _ Hinv)|].
  intros r Hr. destruct (inv_routine _ _ Hinv r Hr) as [_ _ H3 _ H4]. auto.
Qed.

(** C5.  No step takes a data movement back: from not started to Running to Finished, each resource
    of the watched namespace only moves forward. *)
Theorem data_movement_moves_forward s s' k dm dm' :
  reachable WatchNamespace s → step WatchNamespace s s' → fst k = WatchNamespace →
  live (dms (world s)) !! k = Some dm → live (dms (world s')) !! k = Some dm' →
  rank (state_of dm) ≤ rank (state_of dm').
Proof. intros Hinv%reachable_inv. by apply step_forward. Qed.

(** Every entry of the map of active operations without a result belongs to a running command
    (so a deletion that waits for it waits for a command that exists), and a stored result is
    always a Finished status. *)
Theorem entries_accounted s name c :
  reachable WatchNamespace s → contexts s !! name = Some c →
  match Result c with
  | None => ∃ r, r ∈ routines s ∧ r_req r = (WatchNamespace, name) ∧ r_ctx r = Ctx c
  | Some st => State st = DataMovementConditionTypeFinished
  end.
Proof.
  intros Hinv%reachable_inv Hc. destruct (Result c) as [st|] eqn:Er; [by eapply (inv_result _ _ Hinv)|].
  pose proof (inv_entry _ _ Hinv name c Hc Er) as (r & Hreq & Hr)%list_elem_of_fmap.
  exists r. split_and!; [done|done|]. destruct (inv_routine _ _ Hinv r Hr) as [_ _ R3 _ _].
  rewrite <- Hreq in R3. cbn in R3. rewrite Hc in R3. by injection R3 as ->.
Qed.
End Steps.
