(* ===== verification/ReconcilerOps.v ===== *)
(** What single calls of the data movement reconciler do: results that are
    kept until written, cancellation, the end of a command, and errors. *)
From S2P Require Import Prelude GoMonad GoStrings GoPath Api Dcp Command Env Cluster Hosts Dest Reconciler ReconcilerInv ReconcilerProps.

Section Ops.
Context {W : Type} {kube : Kube W} {os : OS W} {os_laws : OSLaws W} {laws : KubeLaws W}.
Context (WatchNamespace : string).

(** * Pieces of the body that leave the map of operations alone *)

Definition body_contexts (sd : Sys W * NnfDataMovement) : gmap string DataMovementContext :=
  contexts (fst sd).

Lemma io_contexts {A} (m : M W A) : preserves body_contexts (io m).
Proof. done. Qed.

Lemma update_contexts u : preserves body_contexts (update_in_place u).
Proof. intros [s dm]. unfold update_in_place. cbn. by destruct (fst (u dm (world s))). Qed.

Lemma put_dm_contexts d : preserves body_contexts (put_dm d).
Proof. done. Qed.

Lemma get_dm_contexts : preserves body_contexts get_dm.
Proof. done. Qed.

Lemma gets_contexts {A} (f : Sys W → A) : preserves body_contexts (gets f).
Proof. done. Qed.

Lemma cancel_ctx_contexts id : preserves body_contexts (modify (cancel_ctx id)).
Proof. done. Qed.

Hint Resolve io_contexts update_contexts put_dm_contexts get_dm_contexts gets_contexts
  cancel_ctx_contexts : go_frame.

Lemma cancel_contexts : preserves body_contexts cancel.
Proof. unfold cancel, update_status. walk idtac. Qed.

Lemma add_finalizer_contexts : preserves body_contexts add_finalizer.
Proof. unfold add_finalizer, update_main. walk idtac. Qed.

Lemma with_deferred_contexts body dm s :
  contexts (snd (with_deferred body dm s)) = contexts (fst (snd (body (s, dm)))).
Proof.
  unfold with_deferred. destruct (body (s, dm)) as [[[]|e|p] [s' dm']]; [done| |done].
  by destruct (fst (updateDMStatus _ _)).
Qed.

(** [Reconcile] after its read. *)
Lemma Reconcile_read req s dm w' :
  getDM req (world s) = (Ret dm, w') →
  Reconcile req s = with_deferred (reconcile_body req) dm (set_world w' s).
Proof.
  intros E. unfold Reconcile, attempt, on_world, mbind, M_bind. by rewrite E.
Qed.

(** Where the body goes for a resource with a stored result. *)
Lemma body_with_result req s dm st :
  contexts s !! name_of dm ≫= Result = Some st →
  reconcile_body req (s, dm)
  = (if negb (IsZero (DeletionTimestamp (dm_Meta dm))) then reconcile_deletion
     else if negb (ContainsFinalizer (dm_Meta dm) finalizer) then add_finalizer
     else write_result st) (s, dm).
Proof.
  intros H. unfold reconcile_body. rewrite bind_get_dm.
  destruct (negb _); [done|]. destruct (negb _); [done|]. rewrite bind_gets, H. done.
Qed.

(** Writing a result: the entry stays, or a version with the status is stored. *)
Lemma write_result_effect v0 req s dm st :
  fst req = WatchNamespace → Read WatchNamespace v0 req (view s) dm →
  contexts s !! name_of dm ≫= Result = Some st →
  let r := write_result st (s, dm) in
  contexts (fst (snd r)) = contexts s
  ∨ ∃ new, new ∈ history (dms (world (fst (snd r)))) ∧ dm_key new = req ∧ dm_Status new = st.
Proof.
  intros Hreq Hr Hres r. assert (name_of dm = snd req) as Hname.
  { apply name_of_req. exact (based_key _ _ _ _ (proj2 Hr)). }
  unfold r, write_result. rewrite bind_get_dm, bind_put_dm.
  assert (Ready WatchNamespace v0 req dm (view s) (set_status st dm)) as Hrd.
  { apply Ready_status; [apply Read_Ready; [done|done|]| |].
    - intros Hl. eapply idle_if; [apply Hr|done|]. right. right. left. cbn. by rewrite <- Hname, Hres.
    - assert (State st = DataMovementConditionTypeFinished) as ->; [|apply rank_le_2].
      destruct (contexts s !! name_of dm) as [c|] eqn:E; [|done].
      eapply (inv_result WatchNamespace (view s)); [apply Hr|exact E|exact Hres].
    - intros Hrun. destruct (contexts s !! name_of dm) as [c|] eqn:E; [|done].
      assert (State st = DataMovementConditionTypeFinished) as Hf;
        [eapply (inv_result WatchNamespace (view s)); [apply Hr|exact E|exact Hres]|].
      rewrite Hf in Hrun. done. }
  pose proof (post_update_status WatchNamespace v0 req dm s _ Hrd) as Hp.
  pose proof (update_contexts updateDMStatus (s, set_status st dm)) as Hc. fold update_status in Hc.
  unfold mbind, M_bind.
  destruct (update_status (s, set_status st dm)) as [[[]|e|p] [s' new]]; [|by left..].
  right. cbn [post] in Hp. destruct Hp as (Hnew & _ & Hst & Hv & _). exists new.
  split_and!; [|exact (based_key _ _ _ _ (ready_based _ _ _ _ _ _ Hnew))|by rewrite Hst].
  assert (new ∈ history (v_store (view s'))) as Hin by (rewrite Hv; by left). exact Hin.
Qed.

(** C4.  The status a finished command left is not lost: after any reconciliation, of this or of
    another data movement, its entry is still in the map, or a version of the resource with exactly
    that status has been stored, or the resource was seen to be marked for deletion. *)
Theorem result_kept_until_written req s o s' name c st :
  reachable WatchNamespace s → fst req = WatchNamespace →
  contexts s !! name = Some c → Result c = Some st →
  Reconcile req s = (o, s') →
  contexts s' !! name = Some c ∨
  ∃ dm, dm ∈ history (dms (world s')) ∧ dm_key dm = (WatchNamespace, name) ∧
        (dm_Status dm = st ∨ IsZero (DeletionTimestamp (dm_Meta dm)) = false).
Proof.
  intros Hinv%reachable_inv Hreq Hc Hst E.
  destruct (Reconcile_ok WatchNamespace (view s) req Hreq s) as [_ _ Hh Ho]; [by apply ok_refl|].
  rewrite E in Hh, Ho. cbn [snd] in Hh, Ho.
  destruct (decide (name = snd req)) as [->|Hne]; [|left; rewrite <- Hc; by apply Ho].
  unfold Reconcile, attempt, on_world in E. destruct (getDM_law req (world s)) as [Hf Hg].
  unfold mbind, M_bind in E. destruct (getDM req (world s)) as [[dm|e|p] w']; cbn [fst snd] in *;
    [|left; destruct (IgnoreNotFound e); by injection E as _ <-|done].
  destruct Hg as [Hin Hk]. set (s1 := set_world w' s) in E.
  assert (view s1 = view s) as Hv by (unfold view; cbn; by rewrite Hf).
  assert (Read WatchNamespace (view s) req (view s1) dm) as Hr.
  { rewrite Hv. split; [by apply ok_refl|by constructor]. }
  assert (contexts s1 !! name_of dm ≫= Result = Some st) as Hres.
  { change (contexts s1) with (contexts s). by rewrite (name_of_req req dm Hk), Hc. }
  assert (contexts s' = contexts (fst (snd (reconcile_body req (s1, dm))))) as Hcs.
  { rewrite <- with_deferred_contexts, E. done. }
  assert ((WatchNamespace, snd req) = req) as -> by (destruct req; cbn in *; congruence).
  rewrite (body_with_result _ _ _ _ Hres) in Hcs.
  destruct (IsZero (DeletionTimestamp (dm_Meta dm))) eqn:Hz; cbn [negb] in Hcs.
  2: { right. exists dm. split_and!; [by apply Hh|done|by right]. }
  destruct (ContainsFinalizer (dm_Meta dm) finalizer) eqn:Hfin; cbn [negb] in Hcs.
  2: { left. rewrite Hcs. pose proof (add_finalizer_contexts (s1, dm)) as H. unfold body_contexts in H. by rewrite H. }
  destruct (write_result_effect (view s) req s1 dm st Hreq Hr Hres) as [H|(new & Hn & Hkn & Hs)].
  { left. by rewrite Hcs, H. }
  right. exists new. split_and!; [|done|by left].
  (* the version written stays in the history *)
  assert (∀ d, d ∈ history (dms (world (fst (snd (reconcile_body req (s1, dm)))))) →
               d ∈ history (dms (world s'))) as Hmono; [|apply Hmono].
  { intros d Hd. unfold with_deferred in E.
    destruct (reconcile_body req (s1, dm)) as [[[]|e|p] [s2 dm2]]; cbn [fst snd] in *;
      [by injection E as _ <-| |by injection E as _ <-].
    pose proof (updateDMStatus_law (record_error e dm2) (world s2)) as Hu.
    assert (∀ o' st', updated status_update (dms (world s2)) (record_error e dm2) o' st' → d ∈ history st') as Hall.
    { intros o' st' [cur x _ _ _|e'|e' cur x _ _ _ _]; [by right|done|by right]. }
    apply Hall in Hu. destruct (fst (updateDMStatus _ _)); by injection E as _ <-. }
  rewrite (body_with_result _ _ _ _ Hres), Hz, Hfin. exact Hn.
Qed.
(** * Cancellation *)

(** The entry of a running command, found through its resource. *)
Lemma running_entry s r dm w' :
  inv WatchNamespace (view s) → r ∈ routines s → getDM (r_req r) (world s) = (Ret dm, w') →
  contexts s !! name_of dm = Some {| Ctx := r_ctx r; Result := None |}.
Proof.
  intros Hinv Hr E. destruct (getDM_law (r_req r) (world s)) as [_ Hg]. rewrite E in Hg. destruct Hg as [_ Hk].
  rewrite (name_of_req _ _ Hk). by destruct (inv_routine _ _ Hinv r Hr).
Qed.

Lemma reconcile_active_cancel req tracked s dm :
  state_of dm ≠ DataMovementConditionTypeFinished → Cancel (dm_Spec dm) = true →
  reconcile_active req tracked (s, dm) = map_err cancel_failed cancel (s, dm).
Proof.
  intros Hnf%String.eqb_neq Hc. unfold reconcile_active, mbind, M_bind, get_dm. cbn [snd].
  by rewrite Hnf, Hc.
Qed.

(** C7.  A request to cancel, or the deletion of a data movement that has started, signals the
    running command and nothing else: the reconciliation succeeds without any write, so the finalizer stays
    until the command has ended. *)
Theorem Reconcile_cancels_running s r dm w' :
  reachable WatchNamespace s → r ∈ routines s → getDM (r_req r) (world s) = (Ret dm, w') →
  (IsZero (DeletionTimestamp (dm_Meta dm)) = true ∧ ContainsFinalizer (dm_Meta dm) finalizer = true
   ∧ state_of dm ≠ DataMovementConditionTypeFinished ∧ Cancel (dm_Spec dm) = true)
  ∨ (IsZero (DeletionTimestamp (dm_Meta dm)) = false ∧ IsZero (StartTime (dm_Status dm)) = false) →
  Reconcile (r_req r) s = (Ret tt, cancel_ctx (r_ctx r) (set_world w' s)).
Proof.
  intros Hinv%reachable_inv Hr E Hcase. rewrite (Reconcile_read _ _ _ _ E). unfold with_deferred.
  set (s1 := set_world w' s).
  assert (contexts s1 !! name_of dm = Some {| Ctx := r_ctx r; Result := None |}) as He
    by exact (running_entry s r dm w' Hinv Hr E).
  assert (negb (IsZero (DeletionTimestamp (dm_Meta dm))) && IsZero (StartTime (dm_Status dm)) = false →
          cancel (s1, dm) = (Ret tt, (cancel_ctx (r_ctx r) s1, dm))) as Hcancel.
  { intros Hz. unfold cancel. rewrite bind_get_dm, andb_comm, Hz, bind_gets, He. done. }
  unfold reconcile_body. rewrite bind_get_dm. destruct Hcase as [(Hz & Hf & Hnf & Hc)|(Hz & Ht)].
  - rewrite Hz, Hf in *. cbn [negb]. rewrite bind_gets.
    assert (contexts s1 !! name_of dm ≫= Result = None) as -> by (by rewrite He).
    rewrite reconcile_active_cancel by done. unfold map_err. by rewrite Hcancel.
  - rewrite Hz in *. cbn [negb]. unfold reconcile_deletion.
    rewrite (bind_Ret _ _ _ _ _ (Hcancel ltac:(by rewrite Ht))), bind_get_dm, bind_gets.
    change (contexts (cancel_ctx (r_ctx r) s1)) with (contexts s1). by rewrite He.
Qed.






(** * The end of a command *)

Lemma final_status_command c err now r :
  CommandStatus (final_status c err now r) = CommandStatus (dm_Status (r_dm r)).
Proof. unfold final_status. destruct c; [done|]. destruct err; [done|]. by destruct (_ || _). Qed.

(** C6.  When a command ends, its goroutine never panics: it leaves a status in its entry of the
    map and sends one event.  The status is Finished, with an end time and the latest command
    status; it is Cancelled if the context was cancelled (whatever the exit status), otherwise
    Failed with the error and the trimmed output as message and a fatal resource error if the
    command failed, and Success if not, where the trimmed output is the message only if the
    profile or the user asks for it. *)
Theorem finish_leaves_result s rs1 r rs2 err :
  reachable WatchNamespace s → routines s = rs1 ++ r :: rs2 →
  let r0 := finish r err (set_routines (rs1 ++ rs2) s) in
  let output := TrimDcpProgressFromOutput (r_combinedOutBuf r) in
  let store := p_StoreStdout (p_Data (r_profile r))
               || match UserConfig (dm_Spec (r_dm r)) with Some uc => StoreStdout uc | None => false end in
  fst r0 = Ret tt ∧
  completions (snd r0) = completions s ++ [r_req r] ∧ routines (snd r0) = rs1 ++ rs2 ∧
  ∃ st now c,
    contexts (snd r0) = <[snd (r_req r) := {| Ctx := r_ctx r; Result := Some st |}]> (contexts s) ∧
    State st = DataMovementConditionTypeFinished ∧ EndTime st = Some now ∧ CommandStatus st = Some c ∧
    if bool_decide (r_ctx r ∈ cancelled s) then
      Status st = DataMovementConditionReasonCancelled ∧ Message st = Message (dm_Status (r_dm r))
    else match err with
         | Some e => Status st = DataMovementConditionReasonFailed
                     ∧ Message st = Error e +:+ ": " +:+ output
                     ∧ ∃ info, ResourceError st = Some info ∧ Severity info = SeverityFatal
         | None => Status st = DataMovementConditionReasonSuccess
                   ∧ Message st = if store then output else Message (dm_Status (r_dm r))
         end.
Proof.
  intros Hinv%reachable_inv Hrs. cbv zeta.
  assert (r ∈ routines s) as Hr by (rewrite Hrs, elem_of_app, elem_of_cons; tauto).
  destruct (inv_routine _ _ Hinv r Hr) as [_ Hk He Hcmd _]. cbn [view v_contexts] in He.
  destruct (finish_run r err (set_routines (rs1 ++ rs2) s) (inv_store _ _ Hinv))
    as (r' & now & w' & (_ & Hdm & _ & _ & Hprof) & Hout & _ & Hfin).
  cbv zeta in Hfin. rewrite Hfin, final_status_command, Hdm.
  destruct (CommandStatus (dm_Status (r_dm r))) as [c0|] eqn:Ec; [|done].
  unfold store_result. rewrite (name_of_req _ _ Hk), Hk.
  change (contexts (set_world w' (set_routines (rs1 ++ rs2) s))) with (contexts s). rewrite He.
  change (cancelled (set_routines (rs1 ++ rs2) s)) with (cancelled s).
  cbn [fst snd]. split_and!; [done|done|done|].
  eexists _, now, (r_cmdStatus r'). split; [done|].
  split; [apply final_status_state|]. rewrite <- Hout, <- Hprof, <- Hdm. unfold final_status.
  destruct (bool_decide (r_ctx r ∈ cancelled s)); [done|].
  destruct err as [e|]; [|by destruct (_ || _)].
  split_and!; try done. by eexists.
Qed.
(** * Errors *)

(** A resource error the deferred handler takes for the end of the data movement. *)
Definition is_final (e : error) : Prop := ∃ info, e = ResourceErr info ∧ Severity info ≠ SeverityMinor.

Lemma major_error_final msg err : is_final (major_error msg err).
Proof.
  eexists. split; [done|]. unfold WithMajor. set (i := WithError err _). by destruct (Severity i) eqn:E; cbn; rewrite ?E.
Qed.

Lemma io_fails {A} P (m : M W A) : fails_with P m → fails_with P (io m).
Proof.
  intros Hm [s dm] e [s' dm']. unfold io. cbn [fst snd]. destruct (m (world s)) as [o w'] eqn:E. cbn [fst snd].
  intros [= -> _ _]. by eapply Hm.
Qed.

Lemma io_returns {A} R (m : M W A) : returns R m → returns R (io m).
Proof.
  intros Hm [s dm] a [s' dm']. unfold io. cbn [fst snd]. destruct (m (world s)) as [o w'] eqn:E. cbn [fst snd].
  intros [= -> _ _]. by eapply Hm.
Qed.

Lemma PeekMpiHostfile_fails P hostfile : fails_with P (PeekMpiHostfile hostfile).
Proof.
  unfold PeekMpiHostfile. eapply fails_bind; [apply fails_attempt|apply returns_any|].
  intros [e|text] _; [apply fails_ret|]. by destruct (cut nl text) as [[? ?]|].
Qed.

Lemma prepare_command_error : fails_with is_final prepare_command.
Proof.
  unfold prepare_command. eapply fails_bind; [done|apply returns_any|intros dm _].
  do 4 (eapply fails_bind; [apply fails_map_err, major_error_final|apply returns_any|intros ? _]).
  eapply fails_bind; [apply io_fails, PeekMpiHostfile_fails|apply returns_any|intros ? _].
  destruct (PrepareDestination_error a dm a2) as [Hret Hfail].
  eapply fails_bind; [|apply io_returns, Hret|intros prepared Hp].
  { apply io_fails. intros w e w' E. by destruct (Hfail w e w'). }
  eapply fails_bind; [done|apply returns_any|intros ? _].
  eapply fails_bind; [|apply returns_any|intros ? _].
  { destruct (snd prepared) as [err|] eqn:Es; [|apply fails_ret]. intros w e w' [= <- _].
    destruct (Hp err Es) as (info & -> & Hs). exists info. by rewrite Hs. }
  eapply fails_bind; [apply fails_map_err, major_error_final|apply returns_any|intros ? _]. apply fails_ret.
Qed.

Definition body_view (sd : Sys W * NnfDataMovement) : View := view (fst sd).

Lemma io_view {A} (m : M W A) : preserves dms m → preserves body_view (io m).
Proof. intros Hm [s dm]. unfold body_view, view. cbn. by rewrite Hm. Qed.

Lemma put_dm_view d : preserves body_view (put_dm d).
Proof. done. Qed.

Lemma get_dm_view : preserves body_view get_dm.
Proof. done. Qed.

Lemma prepare_command_view : preserves body_view prepare_command.
Proof.
  unfold prepare_command.
  walk ltac:(first [apply put_dm_view | apply get_dm_view | apply io_view; auto with go_frame]).
Qed.

(** C8.  Every failure while a command is prepared (the profile, the nodes, the workers, the
    hostfile, the destination) ends the data movement, also when the cause is a passing one: the
    error is a resource error above minor severity, and once the status update is accepted the
    stored resource is Finished and Invalid with the text of the error as its message, and no
    command was started. *)
Theorem preparation_failure_ends req s dm e s1 dm1 new w2 :
  reachable WatchNamespace s →
  prepare_command (s, dm) = (Fail e, (s1, dm1)) →
  updateDMStatus (record_error e dm1) (world s1) = (Ret new, w2) →
  with_deferred (start req) dm s = (Fail e, set_world w2 s1) ∧
  dms w2 = put new (dms (world s)) ∧ dm_key new = dm_key dm1 ∧
  state_of new = DataMovementConditionTypeFinished ∧
  Status (dm_Status new) = DataMovementConditionReasonInvalid ∧
  Message (dm_Status new) = Error e ∧ routines s1 = routines s ∧ contexts s1 = contexts s.
Proof.
  intros Hinv%reachable_inv Ep Eu. destruct (prepare_command_error _ _ _ Ep) as (info & -> & Hsev).
  pose proof (preserves_eq _ _ _ _ _ prepare_command_view Ep) as Hv. unfold body_view, view in Hv. cbn [fst] in Hv.
  injection Hv as Hd Hc Hr.
  pose proof (updateDMStatus_law (record_error (ResourceErr info) dm1) (world s1)) as Hu.
  rewrite Eu in Hu. cbn [fst snd] in Hu. inversion Hu as [cur new' Hl _ Hn Ho Hs| |]; subst new'.
  destruct (next_version_same _ _ _ _ Hn) as (Hst & _ & Hk).
  assert (dm_key cur = dm_key dm1) as Hkc.
  { rewrite Hd in Hl. by apply (live_key _ (inv_store _ _ Hinv)) in Hl. }
  assert (dm_Status new = dm_Status (record_error (ResourceErr info) dm1)) as Hst' by done.
  unfold state_of. rewrite Hst'. unfold record_error. cbn [dm_Status set_status].
  rewrite bool_decide_eq_false_2 by done. split_and!; try done.
  - unfold with_deferred, start. unfold mbind, M_bind. rewrite Ep. by rewrite Eu.
  - by rewrite <- Hd.
  - by rewrite Hk.
Qed.
End Ops.
