(* ===== verification/Scenarios.v ===== *)
(** Runs of the data movement reconciler on the simulated cluster: the
    witnesses of its theorems, and the behaviours the code does not intend. *)
From S2P Require Import Prelude GoMonad GoStrings GoPath Api Dcp Command Env Cluster Sim Hosts Dest Reconciler ReconcilerInv ReconcilerProps ReconcilerOps.

(** * A rabbit with one data movement *)

Definition rabbit : string := "rabbit-1".
Definition key1 : NamespacedName := (rabbit, "dm-1").

Definition node_ref : ObjectReference :=
  {| Kind := "NnfNodeStorage"; RefName := "store"; RefNamespace := rabbit |}.

Definition rabbit_dm (cancel : bool) (deleted : option Z) (finalizers : list string) : NnfDataMovement :=
  {| dm_Meta := {| Name := "dm-1"; Namespace := rabbit; GenerateName := ""; Labels := ∅;
                   Finalizers := finalizers; DeletionTimestamp := deleted; ResourceVersion := 1 |};
     dm_Spec := {| Source := Some {| Path := "/mnt/nnf/src"; StorageReference := node_ref |};
                   Destination := Some {| Path := "/lus/dest/"; StorageReference := no_reference |};
                   UserId := 1000; GroupId := 2000; Cancel := cancel;
                   ProfileReference := {| Kind := "NnfDataMovementProfile"; RefName := "default";
                                          RefNamespace := "nnf-system" |};
                   UserConfig := None |};
     dm_Status := empty_Status |}.

Definition stat_of (path : string) : string :=
  buildStatOrMkdirCommand 0 1000 2000 default_stat_command default_setpriv_command
    "/tmp/dm-1/hostfile" path.

Definition rabbit_world (dm : NnfDataMovement) (faults : list fault) (reads : list nat) : Sim :=
  {| sim_store := {| live := {[ key1 := dm ]}; history := [dm]; counter := 1 |};
     sim_profiles := {[ ("nnf-system", "default") := default_profile ]};
     sim_storages := ∅;
     sim_nodeStorages := {[ (rabbit, "store") := {| ns_FileSystemType := "raw" |} ]};
     sim_pods := []; sim_files := ∅;
     sim_commands := {[ stat_of "/mnt/nnf/src" := "directory" +:+ nl;
                        stat_of "/lus/dest/" := "directory" +:+ nl;
                        stat_of "/lus/dest" := "directory" +:+ nl ]};
     sim_clock := 100; sim_faults := faults; sim_reads := reads |}.

Definition boot (w : Sim) : Sys Sim :=
  {| world := w; contexts := ∅; routines := []; cancelled := ∅; next_ctx := 0; completions := [] |}.

Definition reconcile (s : Sys Sim) : Sys Sim := settle (Reconcile key1 s).

(** The first goroutine writes, reads its output, or ends. *)
Definition outputs (text : string) (s : Sys Sim) : Sys Sim :=
  match routines s with
  | r :: rs => set_routines (add_output text r :: rs) s
  | [] => s
  end.
Definition polls (s : Sys Sim) : Sys Sim :=
  match routines s with
  | r :: rs =>
      match parseAndUpdateProgress r (world s) with
      | (Ret r', w') => set_routines (r' :: rs) (set_world w' s)
      | (_, w') => s
      end
  | [] => s
  end.
Definition ends (err : option error) (s : Sys Sim) : Sys Sim :=
  match routines s with
  | r :: rs => settle (finish r err (set_routines rs s))
  | [] => s
  end.

Definition status_in (s : Sys Sim) : option NnfDataMovementStatus :=
  dm_Status <$> live (sim_store (world s)) !! key1.

(** * Reachable states *)

Lemma boot_initial dm faults reads :
  dm_key dm = key1 → rv dm = 1%N → dm_Status dm = empty_Status → initial (boot (rabbit_world dm faults reads)).
Proof.
  intros Hk Hr Hs. split; [|split; [done|split; [done|]]].
  - constructor; cbn.
    + intros k d [<- <-]%lookup_singleton_Some. done.
    + intros k d [<- <-]%lookup_singleton_Some. by left.
    + intros d d' ->%list_elem_of_singleton ->%list_elem_of_singleton. done.
    + intros d ->%list_elem_of_singleton. by rewrite Hr.
  - cbn. intros d ->%list_elem_of_singleton. unfold state_of. by rewrite Hs.
Qed.

Lemma reachable_boot dm faults reads :
  dm_key dm = key1 → rv dm = 1%N → dm_Status dm = empty_Status →
  reachable rabbit (boot (rabbit_world dm faults reads)).
Proof. intros. by apply reach_initial, boot_initial. Qed.

Lemma reachable_reconcile s : reachable rabbit s → reachable rabbit (reconcile s).
Proof. intros H. eapply reach_step; [exact H|by apply step_reconcile]. Qed.

Lemma reachable_outputs text s : reachable rabbit s → reachable rabbit (outputs text s).
Proof.
  intros H. unfold outputs. destruct (routines s) as [|r rs] eqn:E; [done|].
  eapply reach_step; [exact H|]. by apply (step_output _ _ [] r rs).
Qed.

Lemma reachable_ends err s : reachable rabbit s → reachable rabbit (ends err s).
Proof.
  intros H. unfold ends. destruct (routines s) as [|r rs] eqn:E; [done|].
  eapply reach_step; [exact H|]. by apply (step_finish _ _ [] r rs).
Qed.

(** A plain run: the finalizer is added, the command starts. *)
Definition fresh_dm : NnfDataMovement := rabbit_dm false None [].
Definition running : Sys Sim := reconcile (reconcile (boot (rabbit_world fresh_dm [] []))).
Definition finished : Sys Sim := ends None (outputs ("Copied 1 GiB (100%)" +:+ nl) running).

Lemma reachable_running : reachable rabbit running.
Proof. by repeat apply reachable_reconcile; apply reachable_boot. Qed.

Lemma reachable_finished : reachable rabbit finished.
Proof. apply reachable_ends, reachable_outputs, reachable_running. Qed.

Definition the_routine (s : Sys Sim) : Routine :=
  match routines s with
  | r :: _ => r
  | [] => {| r_req := ("", ""); r_dm := fresh_dm; r_profile := default_profile; r_hostfile := "";
             r_ctx := 0; r_cmdStatus := empty_CommandStatus; r_parseBuf := ""; r_combinedOutBuf := "";
             r_progressStart := 0 |}
  end.

Lemma running_routines : routines running = [the_routine running].
Proof. vm_compute. reflexivity. Qed.

Example plain_run :
  option_map (λ st, (State st, Status st, Message st)) (status_in (reconcile finished))
  = Some ("Finished", "Success", "") ∧ contexts (reconcile finished) = ∅.
Proof. split; vm_compute; reflexivity. Qed.

Example started_command :
  option_map Command (CommandStatus (dm_Status (r_dm (the_routine running)))) = Some
    "/bin/bash -c ulimit -n 2048 && mpirun --mca orte_tmpdir_base /tmp/dm-1 --allow-run-as-root --hostfile /tmp/dm-1/hostfile dcp --progress 1 --uid 1000 --gid 2000 /mnt/nnf/src /lus/dest/".
Proof. vm_compute. reflexivity. Qed.

(** * Witnesses *)

Lemma running_commands_tracked_witness :
  contexts running !! "dm-1" = Some {| Ctx := 0; Result := None |}.
Proof.
  destruct (running_commands_tracked rabbit running reachable_running) as [_ H].
  destruct (H (the_routine running)) as [Hc _].
  - rewrite running_routines. apply list_elem_of_here.
  - exact Hc.
Defined.

(** The version of the resource in the store. *)
Definition current (s : Sys Sim) : NnfDataMovement :=
  default fresh_dm (live (sim_store (world s)) !! key1).

Lemma data_movement_moves_forward_witness :
  rank "Running" ≤ rank "Finished".
Proof.
  apply (data_movement_moves_forward rabbit finished (reconcile finished) key1
           (current finished) (current (reconcile finished))).
  - exact reachable_finished.
  - by apply step_reconcile.
  - reflexivity.
  - vm_compute. reflexivity.
  - vm_compute. reflexivity.
Defined.

Definition entry_in (s : Sys Sim) : DataMovementContext :=
  default {| Ctx := 0; Result := None |} (contexts s !! "dm-1").

Lemma entries_accounted_witness :
  option_map State (Result (entry_in finished)) = Some "Finished".
Proof.
  pose proof (entries_accounted rabbit finished "dm-1" (entry_in finished) reachable_finished) as H.
  destruct (Result (entry_in finished)) as [st|] eqn:E; [|vm_compute in E; discriminate E].
  cbn. rewrite H; [reflexivity|]. vm_compute. reflexivity.
Defined.

Definition result_in (s : Sys Sim) : NnfDataMovementStatus := default empty_Status (Result (entry_in s)).

Lemma result_kept_until_written_witness :
  contexts (snd (Reconcile key1 finished)) !! "dm-1" = Some (entry_in finished) ∨
  ∃ dm, dm ∈ history (dms (world (snd (Reconcile key1 finished)))) ∧ dm_key dm = (rabbit, "dm-1") ∧
        (dm_Status dm = result_in finished ∨ IsZero (DeletionTimestamp (dm_Meta dm)) = false).
Proof.
  apply (result_kept_until_written rabbit key1 finished (Ret tt) (snd (Reconcile key1 finished)) "dm-1"
           (entry_in finished) (result_in finished)).
  - exact reachable_finished.
  - reflexivity.
  - apply some_default. vm_compute. reflexivity.
  - apply some_default. vm_compute. reflexivity.
  - apply pair_of_fst. vm_compute. reflexivity.
Defined.

(** The user asks to cancel while the command runs. *)
Definition with_cancel (dm : NnfDataMovement) : NnfDataMovement :=
  set_rv 4 {| dm_Meta := dm_Meta dm; dm_Status := dm_Status dm;
     dm_Spec := {| Source := Source (dm_Spec dm); Destination := Destination (dm_Spec dm);
                   UserId := UserId (dm_Spec dm); GroupId := GroupId (dm_Spec dm); Cancel := true;
                   ProfileReference := ProfileReference (dm_Spec dm);
                   UserConfig := UserConfig (dm_Spec dm) |} |}.

Definition cancelling : Sys Sim :=
  set_world (sim_set_store (put (with_cancel (current running)) (sim_store (world running))) (world running))
    running.

Lemma reachable_cancelling : reachable rabbit cancelling.
Proof.
  eapply reach_step; [exact reachable_running|]. apply step_others.
  apply (others_change _ _ (current running) (with_cancel (current running))); vm_compute; reflexivity.
Qed.

Lemma cancelling_routines : routines cancelling = [the_routine running].
Proof. vm_compute. reflexivity. Qed.

(** What a read of the resource returns *)
Definition read_dm (k : NamespacedName) (w : Sim) : NnfDataMovement :=
  match fst (getDM k w) with Ret dm => dm | _ => fresh_dm end.

Lemma read_ok k (w : Sim) :
  match fst (getDM k w) with Ret _ => true | _ => false end = true → getDM k w = (Ret (read_dm k w), snd (getDM k w)).
Proof. unfold read_dm. by destruct (getDM k w) as [[dm|e|p] w']. Qed.

Lemma Reconcile_cancels_running_witness :
  Reconcile (r_req (the_routine running)) cancelling
  = (Ret tt, cancel_ctx (r_ctx (the_routine running)) (set_world (snd (getDM (r_req (the_routine running)) (world cancelling))) cancelling)).
Proof.
  apply (Reconcile_cancels_running rabbit cancelling (the_routine running)
           (read_dm (r_req (the_routine running)) (world cancelling))
           (snd (getDM (r_req (the_routine running)) (world cancelling)))).
  - exact reachable_cancelling.
  - rewrite cancelling_routines. apply list_elem_of_here.
  - apply read_ok. vm_compute. reflexivity.
  - left. split_and!; vm_compute; (reflexivity || discriminate).
Defined.



(** Once it is being deleted it is Finished. *)
Example cancelled_and_deleted :
  (λ dm, (state_of dm, Status (dm_Status dm)))
    <$> head (List.filter (λ dm, String.eqb (state_of dm) DataMovementConditionTypeFinished)
         (history (dms (world (reconcile (boot (rabbit_world (rabbit_dm true (Some 5%Z) [finalizer]) [] [])))))))
  = Some (DataMovementConditionTypeFinished, DataMovementConditionReasonCancelled).
Proof. vm_compute. reflexivity. Qed.

Lemma finish_leaves_result_witness :
  ∃ st, contexts (ends None running) !! "dm-1" = Some {| Ctx := 0; Result := Some st |}
        ∧ Status st = "Success".
Proof.
  destruct (finish_leaves_result rabbit running [] (the_routine running) [] None) as
    (_ & _ & _ & st & now & c & Hc & _ & _ & _ & H).
  - exact reachable_running.
  - exact running_routines.
  - exists st. split.
    + unfold ends. rewrite running_routines. unfold settle.
      assert (fst (finish (the_routine running) None (set_routines [] running)) = Ret tt) as ->
        by (vm_compute; reflexivity).
      cbn [app] in Hc. rewrite Hc. vm_compute. reflexivity.
    + vm_compute in H. exact (proj1 H).
Defined.

(** No profile of the name asked for. *)
Definition no_profile : Sys Sim :=
  boot {| sim_store := sim_store (rabbit_world (rabbit_dm false None [finalizer]) [] []);
          sim_profiles := ∅; sim_storages := ∅; sim_nodeStorages := ∅; sim_pods := []; sim_files := ∅;
          sim_commands := ∅; sim_clock := 1; sim_faults := []; sim_reads := [] |}.

Definition not_found_error : error :=
  major_error "could not get profile for data movement" (StatusError NotFound "not found").

Definition recorded : NnfDataMovement := record_error not_found_error (rabbit_dm false None [finalizer]).

Lemma preparation_failure_ends_witness :
  state_of (set_rv 2 recorded) = "Finished" ∧ Status (dm_Status (set_rv 2 recorded)) = "Invalid".
Proof.
  destruct (preparation_failure_ends rabbit key1 no_profile (rabbit_dm false None [finalizer])
              not_found_error no_profile (rabbit_dm false None [finalizer]) (set_rv 2 recorded)
              (snd (updateDMStatus recorded (world no_profile)))) as (_ & _ & _ & H1 & H2 & _).
  - apply reach_initial. exact (boot_initial (rabbit_dm false None [finalizer]) [] [] eq_refl eq_refl eq_refl).
  - vm_compute. reflexivity.
  - vm_compute. reflexivity.
  - split; [exact H1|exact H2].
Defined.

(** * Behaviours the code does not intend *)

(** A passing error is never cleared: when the first status update of a start is refused, the
    error is recorded; the data movement is started again, succeeds, and ends as Finished and Success
    with the old resource error and the old message still in its status, counted as a restart. *)
Theorem passing_error_survives_success :
  let s := reconcile (ends None (reconcile (reconcile (reconcile
             (boot (rabbit_world fresh_dm [Accepted; Refused] [])))))) in
  option_map (λ st, (State st, Status st, Message st, bool_decide (is_Some (ResourceError st)), Restarts st))
    (status_in s)
  = Some ("Finished", "Success", "server is unavailable", true, 1%Z).
Proof. vm_compute. reflexivity. Qed.

Definition progress_in (s : Sys Sim) : option Z := ProgressPercentage (r_cmdStatus (the_routine s)).

(** A progress line that is read in two parts is lost: what is behind the last newline when the
    output is polled is dropped, and the rest of the line no longer matches.  Polled after the whole
    line, the same output gives the progress. *)
Theorem split_progress_line_lost :
  progress_in (polls (outputs ("% 5 GiB/s (50%)" +:+ nl) (polls (outputs "Copied 5" running)))) = None ∧
  progress_in (polls (outputs ("% 5 GiB/s (50%)" +:+ nl) (outputs "Copied 5" running))) = Some 50%Z.
Proof. split; vm_compute; reflexivity. Qed.

(** * Stale reads *)

(** A second reconciliation that reads the version before the start does not start a second command. *)
Example stale_read_conflicts :
  let s := boot (rabbit_world fresh_dm [] [0; 0; 1]) in
  let s' := reconcile (reconcile (reconcile s)) in
  length (routines s') = 1 ∧
  match fst (Reconcile key1 (reconcile (reconcile s))) with Fail e => IsConflict e = true | _ => False end.
Proof. split; vm_compute; reflexivity. Qed.
