(* ===== verification/Lifecycle.v ===== *)
(** What a data movement promises to those who watch it, as an abstract machine,
    and the proof that the reconciler implements it.

    The machine knows one data movement: how far it has come and which command
    runs for it.  A command runs only for a data movement that is Running; a
    resource goes away only when no command runs; what is over stays over. *)
From S2P Require Import Prelude GoMonad GoStrings Api Command Env Cluster Sim Reconciler ReconcilerInv ReconcilerProps Scenarios.

(** * The abstract machine *)

Inductive phase := Absent | Pending | Started | Over.

#[global] Instance phase_eq_dec : EqDecision phase.
Proof. solve_decision. Defined.

Record life := { l_phase : phase; l_command : option N }.

Definition quiet (p : phase) : life := {| l_phase := p; l_command := None |}.
Definition busy (id : N) : life := {| l_phase := Started; l_command := Some id |}.

(** The only changes of a data movement.  [life_claimed] is a start whose command was not launched: the
    resource says Running, the answer to the write was lost; [life_resumed] starts the command of a
    data movement that is Running without one, for instance after a restart. *)
Inductive life_step : life → life → Prop :=
| life_created : life_step (quiet Absent) (quiet Pending)
| life_started id : life_step (quiet Pending) (busy id)
| life_claimed : life_step (quiet Pending) (quiet Started)
| life_resumed id : life_step (quiet Started) (busy id)
| life_exited id : life_step (busy id) (quiet Started)
| life_refused : life_step (quiet Pending) (quiet Over)
| life_ended : life_step (quiet Started) (quiet Over)
| life_removed p : p ≠ Absent → life_step (quiet p) (quiet Absent).

(** One step of the implementation is one step of the machine, or none. *)
Definition follows (l l' : life) : Prop := l' = l ∨ life_step l l'.

(** [x] and then the states of [xs], each from the one before it. *)
Fixpoint chain {A} (R : A → A → Prop) (x : A) (xs : list A) : Prop :=
  match xs with [] => True | y :: ys => R x y ∧ chain R y ys end.

Definition phase_rank (p : phase) : nat :=
  match p with Absent => 0 | Pending => 0 | Started => 1 | Over => 2 end.

(** In the machine a command runs only while the data movement is Started. *)
Definition sound (l : life) : Prop := l_command l ≠ None → l_phase l = Started.

(** From a state without a command: the resource goes away or is new, or it moves forward. *)
Lemma follows_quiet p l' :
  sound l' →
  l_phase l' = Absent ∨ (p = Absent ∧ l_phase l' = Pending)
  ∨ (p ≠ Absent ∧ l_phase l' ≠ Absent ∧ phase_rank p ≤ phase_rank (l_phase l')) →
  follows (quiet p) l'.
Proof.
  destruct l' as [p' [id|]]; intros Hs Hcase; cbn in Hcase.
  - rewrite (Hs ltac:(done) : p' = Started) in *. destruct Hcase as [?|[[? ?]|(H1 & _ & H3)]]; [done..|].
    right. destruct p; cbn in H3; [done|apply life_started|apply life_resumed|lia].
  - destruct Hcase as [->|[[-> ->]|(H1 & H2 & H3)]]; [|right; apply life_created|].
    + destruct (decide (p = Absent)) as [->|]; [by left|right; by apply life_removed].
    + destruct p, p'; cbn in H3; try done; try lia; try (by left); right; constructor.
Qed.

(** What is over stays over as long as the resource exists. *)
Lemma over_stays_over l ls :
  chain follows l ls → l = quiet Over → Absent ∉ l_phase <$> ls → Forall (λ l', l' = quiet Over) ls.
Proof.
  induction ls as [|l1 ls IH] in l |- *; [by constructor|]. intros [Hf Hc] -> Hn.
  rewrite fmap_cons, not_elem_of_cons in Hn. destruct Hn as [Hn1 Hn2].
  assert (l1 = quiet Over) as -> by (destruct Hf as [->|Hstep]; [done|]; inversion Hstep; by subst).
  constructor; [done|by eapply IH].
Qed.

(** * The reconciler *)

Section Refinement.
Context {W : Type} {kube : Kube W} {os : OS W} {os_laws : OSLaws W} {laws : KubeLaws W}.
Context (WatchNamespace : string).

Definition phase_of (dm : option NnfDataMovement) : phase :=
  match dm with
  | None => Absent
  | Some dm => match rank_of dm with 0 => Pending | 1 => Started | _ => Over end
  end.

(** The command that runs for a data movement. *)
Definition command_of (k : NamespacedName) (rs : list Routine) : option N :=
  (λ ir, r_ctx (snd ir)) <$> list_find (λ r, r_req r = k) rs.

(** The data movement [k] in a state of the process and the cluster. *)
Definition life_of (k : NamespacedName) (s : Sys W) : life :=
  {| l_phase := phase_of (live (dms (world s)) !! k); l_command := command_of k (routines s) |}.

Lemma phase_of_rank dm : phase_rank (phase_of (Some dm)) = rank_of dm.
Proof. cbn. unfold rank_of, rank. destruct (String.eqb _ _); [done|]. by destruct (String.eqb _ _). Qed.

Lemma phase_of_present dm : phase_of (Some dm) ≠ Absent.
Proof. cbn. unfold rank_of, rank. destruct (String.eqb _ _); [done|]. by destruct (String.eqb _ _). Qed.

Lemma life_sound k s : inv WatchNamespace (view s) → sound (life_of k s).
Proof.
  intros Hinv Hc. unfold life_of, command_of in *. cbn in *.
  destruct (list_find _ (routines s)) as [[i r]|] eqn:E; [|done]. apply list_find_Some in E as (Hi & <- & _).
  destruct (inv_routine _ _ Hinv r) as [_ _ _ _ (dm & Hl & Hs & _)]; [by eapply list_elem_of_lookup_2|].
  cbn in Hl. rewrite Hl. cbn. unfold rank_of. by rewrite Hs.
Qed.

(** ** The command of a data movement *)

Lemma command_of_elem k rs id :
  NoDup (r_req <$> rs) → command_of k rs = Some id ↔ ∃ r, r ∈ rs ∧ r_req r = k ∧ r_ctx r = id.
Proof.
  intros Hnd. unfold command_of. rewrite fmap_Some. split.
  - intros ([i r] & (Hi & Hr & _)%list_find_Some & ->). exists r. split; [by eapply list_elem_of_lookup_2|done].
  - intros (r & Hr & Hk & <-). destruct (list_find_elem_of (λ r, r_req r = k) rs r Hr Hk) as [[i r'] Hf].
    exists (i, r'). split; [done|]. apply list_find_Some in Hf as (Hi & Hk' & _).
    apply list_elem_of_lookup in Hr as [j Hj]. assert (i = j) as ->.
    { eapply (NoDup_lookup _ i j k Hnd); rewrite list_lookup_fmap; [by rewrite Hi, <- Hk'|by rewrite Hj, <- Hk]. }
    rewrite Hi in Hj. by injection Hj as ->.
Qed.

(** Fewer goroutines: the command goes on or is gone. *)
Lemma command_of_fewer k rs rs' id :
  NoDup (r_req <$> rs) → (∀ r, r ∈ rs' → r ∈ rs) → command_of k rs = Some id →
  command_of k rs' = Some id ∨ command_of k rs' = None.
Proof.
  intros Hnd Hsub Hid. destruct (command_of k rs') as [id'|] eqn:E; [left|by right].
  rewrite <- Hid. symmetry. apply command_of_elem; [done|]. unfold command_of in E.
  apply fmap_Some in E as ([i r] & (Hi & Hr & _)%list_find_Some & ->). exists r.
  split; [by eapply Hsub, list_elem_of_lookup_2|done].
Qed.

Lemma command_of_replace k rs1 r r' rs2 :
  r_req r' = r_req r → r_ctx r' = r_ctx r → command_of k (rs1 ++ r' :: rs2) = command_of k (rs1 ++ r :: rs2).
Proof.
  intros Hreq Hctx. unfold command_of. induction rs1 as [|x rs1 IH]; cbn.
  - rewrite Hreq. destruct (decide (r_req r = k)); cbn; [by rewrite Hctx|]. by destruct (list_find _ rs2) as [[]|].
  - destruct (decide (r_req x = k)); [done|]. destruct (list_find _ (rs1 ++ r' :: rs2)) as [[]|],
      (list_find _ (rs1 ++ r :: rs2)) as [[]|]; cbn in *; congruence.
Qed.

Lemma command_phase k v id :
  inv WatchNamespace v → command_of k (v_routines v) = Some id → phase_of (live (v_store v) !! k) = Started.
Proof.
  intros Hinv (r & Hr & <- & _)%(command_of_elem _ _ _ (inv_nodup _ _ Hinv)).
  destruct (inv_routine _ _ Hinv r Hr) as [_ _ _ _ (dm & Hl & Hs & _)]. rewrite Hl. cbn. unfold rank_of. by rewrite Hs.
Qed.

(** ** The goroutines a reconciliation leaves *)

Definition body_routines (sd : Sys W * NnfDataMovement) : list Routine := routines (fst sd).

(** All goroutines stay; one may be added, for the request. *)
Definition launches {A} (req : NamespacedName) (m : Body (W:=W) A) : Prop :=
  ∀ sd, let rs := body_routines (snd (m sd)) in
        rs = body_routines sd ∨ ∃ r, rs = r :: body_routines sd ∧ r_req r = req.

Lemma launches_none {A} req (m : Body (W:=W) A) : preserves body_routines m → launches req m.
Proof. intros Hm sd. left. apply Hm. Qed.

Lemma launches_bind {A B} req (m : Body (W:=W) A) (f : A → Body (W:=W) B) :
  preserves body_routines m → (∀ a, launches req (f a)) → launches req (m ≫= f).
Proof.
  intros Hm Hf sd. specialize (Hm sd). unfold mbind, M_bind. destruct (m sd) as [[a|e|p] sd1]; cbn in *.
  - rewrite <- Hm. apply Hf.
  - by left.
  - by left.
Qed.

Lemma io_routines {A} (m : M W A) : preserves body_routines (io m).
Proof. done. Qed.
Lemma update_routines u : preserves body_routines (update_in_place u).
Proof. intros [s dm]. unfold update_in_place. cbn. by destruct (fst (u dm (world s))). Qed.
Lemma put_dm_routines d : preserves body_routines (put_dm d).
Proof. done. Qed.
Lemma get_dm_routines : preserves body_routines get_dm.
Proof. done. Qed.
Lemma gets_routines {A} (f : Sys W → A) : preserves body_routines (gets f).
Proof. done. Qed.
Lemma modify_routines f : (∀ s, routines (f s) = routines s) → preserves body_routines (modify f).
Proof. intros Hf [s dm]. apply Hf. Qed.

Hint Resolve io_routines update_routines put_dm_routines get_dm_routines gets_routines : go_frame.

Ltac walk_routines := walk ltac:(by apply modify_routines).

Lemma start_launches req : launches req (start req).
Proof.
  unfold start. apply launches_bind; [unfold prepare_command; walk_routines|]. intros [[profile hostfile] args].
  unfold start_command, update_status. cbn [fst snd].
  repeat (apply launches_bind; [walk_routines|intros ?]). case_match; [apply launches_none; walk_routines|].
  unfold launch. repeat (apply launches_bind; [walk_routines|intros ?]). intros [s dm]. right. by eexists.
Qed.

Lemma reconcile_body_launches req : launches req (reconcile_body req).
Proof.
  unfold reconcile_body. apply launches_bind; [walk_routines|intros dm].
  case_match; [apply launches_none; unfold reconcile_deletion, cancel, update_main, update_status; walk_routines|].
  case_match; [apply launches_none; unfold add_finalizer, update_main; walk_routines|].
  apply launches_bind; [walk_routines|intros stored].
  case_match; [apply launches_none; unfold write_result, update_status; walk_routines|].
  unfold reconcile_active. apply launches_bind; [walk_routines|intros dm'].
  repeat case_match; try (apply launches_none; unfold cancel, update_status; walk_routines; fail).
  - apply launches_bind; [walk_routines|intros _]. apply start_launches.
  - apply start_launches.
Qed.

Lemma Reconcile_routines req s :
  let rs := routines (snd (Reconcile req s)) in
  rs = routines s ∨ ∃ r, rs = r :: routines s ∧ r_req r = req.
Proof.
  unfold Reconcile, attempt, on_world, mbind, M_bind. destruct (getDM req (world s)) as [[dm|e|p] w']; cbn [fst snd].
  - pose proof (reconcile_body_launches req (set_world w' s, dm)) as H. unfold with_deferred.
    destruct (reconcile_body req _) as [[[]|e|p] [s' dm']]; [exact H| |exact H].
    by destruct (fst (updateDMStatus _ _)).
  - left. by destruct (IgnoreNotFound e).
  - by left.
Qed.

(** ** The simulation *)

(** A command that runs goes on, or it ends and leaves the data movement Started. *)
Lemma command_step s s' k id :
  inv WatchNamespace (view s) → step WatchNamespace s s' → command_of k (routines s) = Some id →
  phase_of (live (dms (world s')) !! k) = Started
  ∧ (command_of k (routines s') = Some id ∨ command_of k (routines s') = None).
Proof.
  intros Hinv Hstep Hid. pose proof (step_inv WatchNamespace s s' Hinv Hstep) as [Hinv' _].
  assert (command_of k (routines s') = Some id → phase_of (live (dms (world s')) !! k) = Started) as Hgo
    by (apply (command_phase k (view s') id Hinv')).
  pose proof (inv_nodup _ _ Hinv) as Hnd. cbn in Hnd.
  destruct Hstep as [req Hreq|rs1 r rs2 text Hrs|rs1 r rs2 r' w' Hrs _ E|rs1 r rs2 err Hrs|k' ks _| |w' Ho].
  - destruct (Reconcile_ok WatchNamespace (view s) req Hreq s (ok_refl _ _ _ Hinv)) as [Hi _ _ _].
    assert (command_of k (routines (snd (Reconcile req s))) = Some id) as Hid1.
    { apply command_of_elem; [apply (inv_nodup _ _ Hi)|]. apply command_of_elem in Hid as (r & Hr & H); [|done].
      exists r. split; [|done]. destruct (Reconcile_routines req s) as [->|(r' & -> & _)]; [done|by right]. }
    pose proof (command_phase k _ id Hi Hid1) as Hph. unfold settle in *.
    destruct (fst (Reconcile req s)); split; auto.
  - rewrite Hrs in Hid. rewrite <- (command_of_replace k rs1 r (add_output text r)) in Hid by done. auto.
  - destruct (progress_run r (world s) (inv_store _ _ Hinv)) as (r1 & w1 & E1 & (Hr1 & _ & Hr2 & _) & _).
    rewrite E in E1. injection E1 as <- <-. rewrite Hrs in Hid.
    rewrite <- (command_of_replace k rs1 r r') in Hid by done. auto.
  - destruct (finish_run r err (set_routines (rs1 ++ rs2) s) (inv_store _ _ Hinv))
      as (r' & now & w' & _ & _ & Hw & Hfin). cbv zeta in Hfin.
    destruct (progress_inv WatchNamespace (view s) (r_req r) (dms w') Hinv Hw) as [Hinv1 _].
    pose proof (command_phase k _ id Hinv1 Hid) as Hph. cbn in Hph. clear Hgo Hinv'. rewrite Hfin.
    destruct (CommandStatus _); unfold settle, store_result; cbn; [|by auto].
    assert (∀ rs0, rs0 = rs1 ++ rs2 → command_of k rs0 = Some id ∨ command_of k rs0 = None) as Hc.
    { intros rs0 ->. apply (command_of_fewer k (routines s)); [done| |done]. intros x. rewrite Hrs. set_solver. }
    split; [by case_match|apply Hc; by case_match].
  - auto.
  - split; [by apply (command_phase k (view s) id)|by right].
  - auto.
Qed.

(** Each step of the reconciler is a step of the abstract machine, or none. *)
Lemma life_simulated s s' k :
  inv WatchNamespace (view s) → step WatchNamespace s s' → fst k = WatchNamespace →
  follows (life_of k s) (life_of k s').
Proof.
  intros Hinv Hstep Hk. destruct (step_inv WatchNamespace s s' Hinv Hstep) as [Hinv' Hcase].
  destruct (command_of k (routines s)) as [id|] eqn:Hid.
  { destruct (command_step s s' k id Hinv Hstep Hid) as [Hph Hc].
    pose proof (command_phase k (view s) id Hinv Hid) as Hph0. cbn in Hph0. unfold life_of. rewrite Hph, Hph0, Hid.
    destruct Hc as [->| ->]; [by left|right; apply life_exited]. }
  unfold life_of at 1. rewrite Hid. apply follows_quiet; [by apply life_sound|]. cbn [l_phase life_of].
  destruct (live (dms (world s')) !! k) as [dm'|] eqn:Hl'; [right|by left].
  assert (∀ dm, live (dms (world s)) !! k = Some dm → rank_of dm ≤ rank_of dm' →
    phase_of (live (dms (world s)) !! k) = Absent ∧ phase_of (Some dm') = Pending
    ∨ (phase_of (live (dms (world s)) !! k) ≠ Absent ∧ phase_of (Some dm') ≠ Absent
       ∧ phase_rank (phase_of (live (dms (world s)) !! k)) ≤ phase_rank (phase_of (Some dm')))) as Hfwd.
  { intros dm -> Hr. right. rewrite !phase_of_rank. split_and!; [apply phase_of_present..|done]. }
  destruct Hcase as [Hg|Ho].
  - destruct (Hg k dm' Hl' Hk) as (dm & Hl & Hr). by apply (Hfwd dm).
  - pose proof (inv_store _ _ Hinv) as Hst. cbn in Hst. destruct Ho as [|new Hn _ Hs|cur new Hn _ Hs _ _].
    + by apply (Hfwd dm').
    + apply put_live_inv in Hl' as [[-> ->]|Hl']; [|by apply (Hfwd dm')]. left. rewrite Hn. cbn. split; [done|].
      unfold rank_of, state_of. by rewrite Hs.
    + apply put_live_inv in Hl' as [[-> ->]|Hl']; [|by apply (Hfwd dm')]. apply (Hfwd cur); [done|].
      unfold rank_of, state_of. rewrite Hs; [done|]. by rewrite <- (live_key _ Hst _ _ Hn) in Hk.
Qed.

(** C2.  The reconciler implements the lifecycle, step by step: in every run of the process and the cluster,
    through restarts, stale reads, lost answers and what others do, each step leaves the phase and the
    command of a data movement of the watched namespace as they are or makes one of the changes of
    [life_step].  So a command is started only for a data movement that is pending or is Running without one,
    never for one that is Finished; while it runs nothing else happens to the data movement but its
    end; and the resource goes away only when no command runs. *)
Theorem reconciler_refines_lifecycle s run k :
  reachable WatchNamespace s → chain (step WatchNamespace) s run → fst k = WatchNamespace →
  chain follows (life_of k s) (map (life_of k) run).
Proof.
  intros Hinv%reachable_inv Hrun Hk. induction run as [|s1 run IH] in s, Hinv, Hrun |- *; [done|].
  destruct Hrun as [Hstep Hrun]. split; [by apply life_simulated|].
  apply IH; [by apply (step_inv WatchNamespace s s1 Hinv Hstep)|done].
Qed.

(** ** What the abstract machine gives *)

(** A run during which the data movement is never absent. *)
Definition step_present (k : NamespacedName) (s s' : Sys W) : Prop :=
  step WatchNamespace s s' ∧ is_Some (live (dms (world s')) !! k).

(** C3.  What is over stays over: once a data movement is Finished, no command ever runs for it again, as
    long as its resource exists, also after restarts of the process. *)
Theorem finished_never_runs_again s s' k dm :
  reachable WatchNamespace s → fst k = WatchNamespace →
  live (dms (world s)) !! k = Some dm → state_of dm = DataMovementConditionTypeFinished →
  rtc (step_present k) s s' →
  life_of k s' = quiet Over.
Proof.
  intros Hinv%reachable_inv Hk Hl Hs Hrun.
  assert (phase_of (live (dms (world s)) !! k) = Over) as Hover.
  { rewrite Hl. cbn. unfold rank_of. by rewrite Hs. }
  induction Hrun as [s|s s1 s2 [Hstep [dm1 Hl1]] _ IH] in dm, Hl, Hs, Hover, Hinv |- *.
  - pose proof (life_sound k s Hinv) as Hsound. unfold life_of, sound, quiet in *. cbn in Hsound. rewrite Hover in *.
    destruct (command_of k (routines s)); [|done]. by specialize (Hsound ltac:(done)).
  - destruct (step_inv WatchNamespace s s1 Hinv Hstep) as [Hinv1 _].
    pose proof (step_forward WatchNamespace s s1 k dm dm1 Hinv Hstep Hk Hl Hl1) as Hr. rewrite Hs in Hr.
    assert (state_of dm1 = DataMovementConditionTypeFinished) as Hs1.
    { unfold rank in Hr. destruct (String.eqb_spec (state_of dm1) DataMovementConditionTypeFinished); [done|].
      cbn in Hr. destruct (String.eqb _ _); lia. }
    apply (IH dm1 Hinv1 Hl1 Hs1). rewrite Hl1. cbn. unfold rank_of. by rewrite Hs1.
Qed.
End Refinement.

(** * A run *)

Lemma step_reconciles s : step rabbit s (reconcile s).
Proof. by apply step_reconcile. Qed.

Lemma step_outputs text (s : Sys Sim) : routines s ≠ [] → step rabbit s (outputs text s).
Proof. unfold outputs. destruct (routines s) as [|r rs] eqn:E; [done|intros _]. by apply (step_output _ _ [] r rs). Qed.

Lemma step_ends err (s : Sys Sim) : routines s ≠ [] → step rabbit s (ends err s).
Proof. unfold ends. destruct (routines s) as [|r rs] eqn:E; [done|intros _]. by apply (step_finish _ _ [] r rs). Qed.

(** A data movement is started, its command writes and ends, and its result is written. *)
Definition accepted : Sys Sim := reconcile (boot (rabbit_world fresh_dm [] [])).
Definition copied : Sys Sim := outputs ("Copied 1 GiB (100%)" +:+ nl) running.
Definition whole_run : list (Sys Sim) := [running; copied; finished; reconcile finished].

Lemma whole_run_steps : chain (step rabbit) accepted whole_run.
Proof.
  assert (∀ s : Sys Sim, length (routines s) = 1 → routines s ≠ []) as Hone by (intros s H E; by rewrite E in H).
  split; [apply step_reconciles|]. split; [apply step_outputs, Hone; by_vm|].
  split; [apply step_ends, Hone; by_vm|]. split; [apply step_reconciles|exact I].
Qed.

Lemma reachable_accepted : reachable rabbit accepted.
Proof. by apply reachable_reconcile, reachable_boot. Qed.

Lemma reconciler_refines_lifecycle_witness : chain follows (life_of key1 accepted) (map (life_of key1) whole_run).
Proof. exact (reconciler_refines_lifecycle rabbit accepted whole_run key1 reachable_accepted whole_run_steps eq_refl). Defined.

(** Its states in the abstract machine. *)
Example life_run :
  life_of key1 accepted = quiet Pending ∧
  map (life_of key1) whole_run = [busy 0%N; busy 0%N; quiet Started; quiet Over].
Proof. split; vm_compute; reflexivity. Qed.

Lemma reachable_over : reachable rabbit (reconcile finished).
Proof. apply reachable_reconcile, reachable_finished. Qed.

Definition over_dm : NnfDataMovement := default fresh_dm (live (dms (world (reconcile finished))) !! key1).

Lemma over_live : live (dms (world (reconcile finished))) !! key1 = Some over_dm.
Proof. unfold over_dm. apply some_default. vm_compute. reflexivity. Qed.

(** The process is started again. *)
Lemma restart_world {W} (s : Sys W) : world (restart s) = world s.
Proof. reflexivity. Qed.

Lemma finished_never_runs_again_witness : life_of key1 (restart (reconcile finished)) = quiet Over.
Proof.
  apply (finished_never_runs_again rabbit (reconcile finished) (restart (reconcile finished)) key1
    over_dm reachable_over eq_refl over_live).
  - vm_compute. reflexivity.
  - apply rtc_once. split; [apply step_restart|]. rewrite restart_world, over_live.
    exists over_dm. reflexivity.
Defined.
