(* ===== verification/OffloadApi.v ===== *)
(** What the copy offload daemon adds: the resources it reads, its requests and
    responses (daemons/copy-offload/pkg/driver/dmrequest.go and dmresponse.go),
    and the calls it makes outside its own code. *)
From S2P Require Import Prelude GoMonad GoStrings Api Env.

(** * Resources *)

Record Workflow := {
  wf_Name : string;
  wf_Namespace : string;
  wf_UID : string;
  wf_State : string;
  wf_Status : string;
  wf_UserID : Z;
  wf_GroupID : Z
}.

(** [ClientMountDeviceReference]: the reference and the private data *)
Definition DeviceReference : Type := ObjectReference * Z.

#[export] Instance DeviceReference_eq_dec : EqDecision DeviceReference.
Proof. solve_decision. Defined.

Record ClientMountInfo := {
  MountPath : string;
  MountType : string;
  DeviceType : string;
  DeviceRef : option DeviceReference
}.

Record ClientMount := {
  cm_Name : string;
  cm_Namespace : string;
  cm_Labels : option (gmap string string);
  Mounts : list ClientMountInfo
}.

Record LustreFileSystem := {
  lfs_Name : string;
  lfs_Namespace : string;
  MountRoot : string
}.

(** A storage node of the system configuration and the computes it serves. *)
Record StorageNode := { sn_Name : string; ComputesAccess : list string }.

Definition WorkflowNameLabel : string := "dataworkflowservices.github.io/workflow.name".
Definition WorkflowNamespaceLabel : string := "dataworkflowservices.github.io/workflow.namespace".
Definition WorkflowUidLabel : string := "dataworkflowservices.github.io/workflow.uid".
Definition OwnerKindLabel : string := "dataworkflowservices.github.io/owner.kind".
Definition OwnerNameLabel : string := "dataworkflowservices.github.io/owner.name".
Definition OwnerNamespaceLabel : string := "dataworkflowservices.github.io/owner.namespace".
Definition OwnerUidLabel : string := "dataworkflowservices.github.io/owner.uid".
Definition DataMovementInitiatorLabel : string := "dm.cray.hpe.com/initiator".
Definition DataMovementTeardownStateLabel : string := "nnf.cray.hpe.com/teardown_state".
Definition DirectiveIndexLabel : string := "nnf.cray.hpe.com/directive_index".

(** The labels [AddWorkflowLabels], [AddOwnerLabels] and [AddDataMovementTeardownStateLabel] add. *)
Definition workflow_labels (wf : Workflow) (labels : gmap string string) : gmap string string :=
  <[WorkflowUidLabel := wf_UID wf]> (<[WorkflowNamespaceLabel := wf_Namespace wf]>
    (<[WorkflowNameLabel := wf_Name wf]> labels)).
Definition owner_labels (wf : Workflow) (labels : gmap string string) : gmap string string :=
  <[OwnerUidLabel := wf_UID wf]> (<[OwnerNamespaceLabel := wf_Namespace wf]>
    (<[OwnerNameLabel := wf_Name wf]> (<[OwnerKindLabel := "Workflow"]> labels))).

(** * Requests *)

Record DMRequest := {
  ComputeName : string;
  SourcePath : string;
  DestinationPath : string;
  q_Dryrun : bool;
  q_DcpOptions : string;
  q_LogStdout : bool;
  q_StoreStdout : bool;
  q_Slots : Z;
  q_MaxSlots : Z;
  DMProfile : string;
  q_MpirunOptions : string
}.

Record StatusRequest := { RequestName : string; MaxWaitSecs : Z }.

(** [(m *DMRequest) Validator()]: [None] is no error *)
Definition DMRequest_Validator (m : DMRequest) : option error :=
  if String.eqb (ComputeName m) "" then Some (ErrorString "compute name must be supplied")
  else if String.eqb (SourcePath m) "" then Some (ErrorString "source path must be supplied")
  else if String.eqb (DestinationPath m) "" then Some (ErrorString "destination path must be supplied")
  else if (q_Slots m <? -1)%Z
  then Some (ErrorString "slots must be -1 (defer to profile), 0 (disable), or a positive integer")
  else if (q_MaxSlots m <? -1)%Z
  then Some (ErrorString "maxSlots must be -1 (defer to profile), 0 (disable), or a positive integer")
  else None.

Definition StatusRequest_Validator (m : StatusRequest) : option error :=
  if String.eqb (RequestName m) "" then Some (ErrorString "request name must be supplied") else None.

(** * Responses *)

Inductive ResponseState := PENDING | STARTING | RUNNING | COMPLETED | CANCELLING | UNKNOWN_STATE.
Inductive ResponseStatus := INVALID | NOT_FOUND | SUCCESS | FAILED | CANCELLED | UNKNOWN_STATUS.

#[export] Instance ResponseState_eq_dec : EqDecision ResponseState.
Proof. solve_decision. Defined.
#[export] Instance ResponseStatus_eq_dec : EqDecision ResponseStatus.
Proof. solve_decision. Defined.

(** The text of the JSON *)
Definition state_text (s : ResponseState) : string :=
  match s with
  | PENDING => "pending" | STARTING => "starting" | RUNNING => "running"
  | COMPLETED => "completed" | CANCELLING => "cancelling" | UNKNOWN_STATE => "unknown state"
  end.
Definition status_text (s : ResponseStatus) : string :=
  match s with
  | INVALID => "invalid" | NOT_FOUND => "not found" | SUCCESS => "success" | FAILED => "failed"
  | CANCELLED => "cancelled" | UNKNOWN_STATUS => "unknown status"
  end.

Record DataMovementCommandStatus := {
  cs_Command : string;
  Progress : Z;
  cs_ElapsedTime : string;
  cs_LastMessage : string;
  cs_LastMessageTime : string
}.

Record DataMovementStatusResponse := {
  rs_State : ResponseState;
  rs_Status : ResponseStatus;
  rs_Message : string;
  rs_CommandStatus : option DataMovementCommandStatus;
  rs_StartTime : string;
  rs_EndTime : string
}.

(** * Calls outside the code *)

(** The client calls of the driver besides those of [Kube], and how times are printed. *)
Class OffloadKube (W : Type) := {
  getWorkflow : NamespacedName → M W Workflow;
  getStorageNodes : NamespacedName → M W (list StorageNode);
  (** in a namespace ("" is all of them), with labels *)
  listClientMounts : string → list (string * string) → M W (list ClientMount);
  listLustreFileSystems : M W (list LustreFileSystem);
  listProfiles : string → M W (list NnfDataMovementProfile);
  (** the resource as stored, with the name the server made of [GenerateName] *)
  createDM : NnfDataMovement → M W NnfDataMovement;
  (** [t.Local().String()] of microseconds, [d.String()] of microseconds *)
  timeString : Z → string;
  durationString : Z → string
}.
