(* ===== verification/Driver.v ===== *)
(** The driver of the copy offload daemon, daemons/copy-offload/pkg/driver/driver.go.

    [DSys] is the state of the process: the records of the requests in
    progress, the completions not yet reaped, the cancelled contexts and the
    goroutines that run commands.  A goroutine is the [Routine] of the
    reconciler: the code is the same up to the end, [finish_offload]. *)
From S2P Require Import Prelude GoMonad GoStrings GoPath Api Dcp Command Env Hosts Dest Reconciler OffloadApi.

(** [SrvrDataMovementRecord]; the context is an id. *)
Record SrvrDataMovementRecord := { rec_Ctx : N; mockDM : option NnfDataMovement }.

(** The constant part of [Driver]. *)
Record DriverConfig := { Mock : bool; WorkflowName : string; WorkflowNamespace : string }.

Record DSys (W : Type) := {
  d_world : W;
  d_contexts : gmap string SrvrDataMovementRecord;
  d_completions : gset string;
  d_cancelled : gset N;
  d_next : N;
  MockCount : Z;
  d_routines : list Routine;
  (** a goroutine of [ShutdownRequest] is waiting to shut the server down *)
  d_stopping : bool
}.
Arguments d_world {W}.
Arguments d_contexts {W}.
Arguments d_completions {W}.
Arguments d_cancelled {W}.
Arguments d_next {W}.
Arguments MockCount {W}.
Arguments d_routines {W}.
Arguments d_stopping {W}.

(** What [Create] collects for [Drive]. *)
Record DriverRequest := {
  dmProfile : NnfDataMovementProfile;
  nodes : list string;
  hosts : list string;
  mpiHostfile : string;
  RabbitName : string;
  cmdArgs : list string
}.

Definition NewDriver {W} `{OS W} (mock : bool) : outcome DriverConfig :=
  let workflowName := Getenv "DW_WORKFLOW_NAME" in
  let workflowNamespace := Getenv "DW_WORKFLOW_NAMESPACE" in
  if String.eqb workflowName "" || String.eqb workflowNamespace ""
  then Fail (ErrorString "DW_WORKFLOW_NAME and DW_WORKFLOW_NAMESPACE must be set")
  else Ret {| Mock := mock; WorkflowName := workflowName; WorkflowNamespace := workflowNamespace |}.

(** * Keys *)

Definition dmKey (dm : NnfDataMovement) : string :=
  Namespace (dm_Meta dm) +:+ "--" +:+ Name (dm_Meta dm).

(** [split[0], split[1]] *)
Definition dmKeySplit (key : string) : outcome (string * string) :=
  match Split key "--" with
  | ns :: name :: _ => Ret (ns, name)
  | _ => Panic "index out of range"
  end.

(** * Building the resource *)

Definition nameBase : string := "nnf-copy-offload-".
Definition nodeNameBase : string := "nnf-copy-offload-node-".

(** A new resource: its name prefix, namespace, labels, source and destination. *)
Definition new_dm (generateName namespace : string) (labels : gmap string string)
    (source destination : NnfDataMovementSpecSourceDestination) : NnfDataMovement :=
  {| dm_Meta := {| Name := ""; Namespace := namespace; GenerateName := generateName; Labels := labels;
                   Finalizers := []; DeletionTimestamp := None; ResourceVersion := 0 |};
     dm_Spec := {| Source := Some source; Destination := Some destination; UserId := 0; GroupId := 0;
                   Cancel := false; ProfileReference := {| Kind := ""; RefName := ""; RefNamespace := "" |};
                   UserConfig := None |};
     dm_Status := empty_Status |}.

Definition set_Labels (l : gmap string string) (m : ObjectMeta) : ObjectMeta :=
  {| Name := Name m; Namespace := Namespace m; GenerateName := GenerateName m; Labels := l;
     Finalizers := Finalizers m; DeletionTimestamp := DeletionTimestamp m;
     ResourceVersion := ResourceVersion m |}.

Definition set_Name (n : string) (m : ObjectMeta) : ObjectMeta :=
  {| Name := n; Namespace := Namespace m; GenerateName := GenerateName m; Labels := Labels m;
     Finalizers := Finalizers m; DeletionTimestamp := DeletionTimestamp m;
     ResourceVersion := ResourceVersion m |}.

(** The profile, the owner and the user configuration of the spec. *)
Definition set_request (ref : ObjectReference) (uid gid : Z) (uc : option NnfDataMovementConfig)
    (sp : NnfDataMovementSpec) : NnfDataMovementSpec :=
  {| Source := Source sp; Destination := Destination sp; UserId := uid; GroupId := gid;
     Cancel := Cancel sp; ProfileReference := ref; UserConfig := uc |}.

Definition setUserConfig (dmreq : DMRequest) : NnfDataMovementConfig :=
  {| Dryrun := q_Dryrun dmreq; MpirunOptions := q_MpirunOptions dmreq; DcpOptions := q_DcpOptions dmreq;
     LogStdout := q_LogStdout dmreq; StoreStdout := q_StoreStdout dmreq;
     Slots := if (0 <=? q_Slots dmreq)%Z then Some (q_Slots dmreq) else None;
     MaxSlots := if (0 <=? q_MaxSlots dmreq)%Z then Some (q_MaxSlots dmreq) else None |}.

Definition getDirectiveIndexFromClientMount (object : ClientMount) : outcome string :=
  match cm_Labels object with
  | None => Fail (ErrorString ("unable to find labels on compute ClientMount, namespaces="
                               +:+ cm_Namespace object +:+ ", name=" +:+ cm_Name object))
  | Some labels =>
      match labels !! DirectiveIndexLabel with
      | None => Fail (ErrorString ("unable to find directive index label on compute ClientMount, namespace="
                                   +:+ cm_Namespace object +:+ " name=" +:+ cm_Name object))
      | Some dwIndex => Ret dwIndex
      end
  end.

(** * Looking up mounts *)

(** The loop of [findComputeMountInfo] over the mounts of one client mount. *)
Fixpoint compute_mount (sourcePath : string) (clientMount : ClientMount) (mounts : list ClientMountInfo)
    : outcome (option ClientMountInfo) :=
  match mounts with
  | [] => Ret None
  | mount :: mounts' =>
      if HasPrefix sourcePath (MountPath mount) then
        if bool_decide (DeviceRef mount = None) && negb (String.eqb (DeviceType mount) "lustre")
        then Fail (ErrorString ("ClientMount " +:+ cm_Namespace clientMount +:+ "/" +:+ cm_Name clientMount
                     +:+ ": Source path '" +:+ sourcePath +:+ "' does not have device reference"))
        else Ret (Some mount)
      else compute_mount sourcePath clientMount mounts'
  end.

Fixpoint compute_mounts (sourcePath : string) (clientMounts : list ClientMount)
    : outcome (ClientMount * ClientMountInfo) :=
  match clientMounts with
  | [] => Fail (ErrorString ("source path not found in list of client mounts: " +:+ sourcePath))
  | clientMount :: clientMounts' =>
      found ← compute_mount sourcePath clientMount (Mounts clientMount);
      match found with
      | Some mount => Ret (clientMount, mount)
      | None => compute_mounts sourcePath clientMounts'
      end
  end.

(** The loop of [findRabbitRelativeSource]: references are compared, nil ones panic. *)
Fixpoint rabbit_mount (ref : option DeviceReference) (mounts : list ClientMountInfo)
    : outcome (option string) :=
  match mounts with
  | [] => Ret None
  | mount :: mounts' =>
      wanted ← deref ref;
      given ← deref (DeviceRef mount);
      if bool_decide (wanted = given) then Ret (Some (MountPath mount)) else rabbit_mount ref mounts'
  end.

Definition all_mounts (clientMounts : list ClientMount) : list ClientMountInfo :=
  flat_map Mounts clientMounts.

(** The loop of [findDestinationLustreFilesystem]; [dest] ends in a slash. *)
Definition with_slash (path : string) : string := if HasSuffix path "/" then path else path +:+ "/".

Fixpoint lustre_for (dest : string) (lustrefs : list LustreFileSystem) : option LustreFileSystem :=
  match lustrefs with
  | [] => None
  | fs :: lustrefs' =>
      if HasPrefix dest (with_slash (MountRoot fs)) then Some fs else lustre_for dest lustrefs'
  end.

(** The storage node that serves a compute, "" if there is none. *)
Fixpoint rabbit_of (compute : string) (storageNodes : list StorageNode) : string :=
  match storageNodes with
  | [] => ""
  | storageNode :: storageNodes' =>
      if bool_decide (compute ∈ ComputesAccess storageNode) then sn_Name storageNode
      else rabbit_of compute storageNodes'
  end.

Section Requests.
Context {W : Type} {kube : Kube W} {os : OS W} {okube : OffloadKube W}.
Context (drvr : DriverConfig).

Definition workflow_match : list (string * string) :=
  [(WorkflowNameLabel, WorkflowName drvr); (WorkflowNamespaceLabel, WorkflowNamespace drvr)].

Definition findComputeMountInfo (dmreq : DMRequest) : M W (ClientMount * ClientMountInfo) :=
  clientMounts ← listClientMounts (ComputeName dmreq) workflow_match;
  match clientMounts with
  | [] => fail (ErrorString ("no client mounts found for node '" +:+ ComputeName dmreq +:+ "'"))
  | _ => lift_outcome (compute_mounts (SourcePath dmreq) clientMounts)
  end.

Definition findRabbitNameFromCompute (compute : string) : M W string :=
  storageNodes ← map_err (λ err, Errorf_w "failed to retrieve system configuration: " err "")
                   (getStorageNodes ("default", "default"));
  mret (rabbit_of compute storageNodes).

Definition findRabbitRelativeSource (rabbit : string) (dmreq : DMRequest)
    (computeMountInfo : ClientMountInfo) : M W string :=
  clientMounts ← listClientMounts rabbit workflow_match;
  match clientMounts with
  | [] => fail (ErrorString ("no client mounts found for node '" +:+ rabbit +:+ "'"))
  | _ =>
      found ← lift_outcome (rabbit_mount (DeviceRef computeMountInfo) (all_mounts clientMounts));
      match found with
      | Some mountPath => mret (mountPath +:+ TrimPrefix (SourcePath dmreq) (MountPath computeMountInfo))
      | None => fail (ErrorString ("initiator not found in list of client mounts: " +:+ ComputeName dmreq))
      end
  end.

Definition findDestinationLustreFilesystem (dest : string) : M W LustreFileSystem :=
  if negb (IsAbs dest) then fail (ErrorString "destination must be an absolute path")
  else
    lustrefsList ← map_err (λ err, ErrorString ("unable to list LustreFileSystem resources: " +:+ Error err))
                     listLustreFileSystems;
    match lustrefsList with
    | [] => fail (ErrorString "no LustreFileSystem resources found")
    | _ =>
        match lustre_for (with_slash dest) lustrefsList with
        | Some lustrefs => mret lustrefs
        | None => fail (ErrorString ("unable to find a LustreFileSystem resource matching " +:+ dest))
        end
    end.

Definition createNnfDataMovement (rabbit : string) (dmreq : DMRequest)
    (computeMountInfo : ClientMountInfo) (computeClientMount : ClientMount) : M W NnfDataMovement :=
  source ← findRabbitRelativeSource rabbit dmreq computeMountInfo;
  dwIndex ← lift_outcome (getDirectiveIndexFromClientMount computeClientMount);
  lustrefs ← findDestinationLustreFilesystem (DestinationPath dmreq);
  ref ← lift_outcome (deref (DeviceRef computeMountInfo));
  mret (new_dm nameBase DataMovementNamespace
          (<[DirectiveIndexLabel := dwIndex]> {[DataMovementInitiatorLabel := ComputeName dmreq]})
          {| Path := source; StorageReference := fst ref |}
          {| Path := DestinationPath dmreq;
             StorageReference := {| Kind := "LustreFileSystem"; RefName := lfs_Name lustrefs;
                                    RefNamespace := lfs_Namespace lustrefs |} |}).

Definition createNnfNodeDataMovement (rabbit : string) (dmreq : DMRequest)
    (computeMountInfo : ClientMountInfo) : M W NnfDataMovement :=
  source ← findRabbitRelativeSource rabbit dmreq computeMountInfo;
  ref ← lift_outcome (deref (DeviceRef computeMountInfo));
  mret (new_dm nodeNameBase rabbit {[DataMovementInitiatorLabel := ComputeName dmreq]}
          {| Path := source; StorageReference := fst ref |}
          {| Path := DestinationPath dmreq;
             StorageReference := {| Kind := ""; RefName := ""; RefNamespace := "" |} |}).

Definition selectProfile (dmreq : DMRequest) : M W NnfDataMovementProfile :=
  profileName ←
    (if String.eqb (DMProfile dmreq) "" then
       profiles ← listProfiles "nnf-system";
       match map p_Name (List.filter (λ p, Default (p_Data p)) profiles) with
       | [] => fail (ErrorString "unable to find a default NnfDataMovementProfile to use")
       | [name] => mret name
       | names => fail (ErrorString
           ("more than one default NnfDataMovementProfile found; unable to pick one: ["
            +:+ Join names " " +:+ "]"))
       end
     else mret (DMProfile dmreq));
  map_err (λ _, ErrorString ("unable to retrieve NnfDataMovementProfile: " +:+ profileName))
    (getProfile ("nnf-system", profileName)).

(** The resource of a request: its kind, profile, owner, labels and user configuration. *)
Definition build_dm (dmreq : DMRequest) : M W (string * NnfDataMovementProfile * NnfDataMovement) :=
  workflow ← getWorkflow (WorkflowNamespace drvr, WorkflowName drvr);
  if negb (String.eqb (wf_State workflow) "PreRun") || negb (String.eqb (wf_Status workflow) "Completed")
  then fail (ErrorString "workflow must be in 'PreRun' state and 'Completed' status")
  else
    mount ← findComputeMountInfo dmreq;
    rabbit ← findRabbitNameFromCompute (ComputeName dmreq);
    dm ← (if String.eqb (MountType (snd mount)) "lustre"
          then createNnfDataMovement rabbit dmreq (snd mount) (fst mount)
          else if String.eqb (MountType (snd mount)) "gfs2"
          then createNnfNodeDataMovement rabbit dmreq (snd mount)
          else fail (ErrorString "filesystem not supported"));
    profile ← selectProfile dmreq;
    let ref := {| Kind := "NnfDataMovementProfile"; RefName := p_Name profile;
                  RefNamespace := p_Namespace profile |} in
    let labels := <[DataMovementTeardownStateLabel := "PostRun"]>
                    (owner_labels workflow (workflow_labels workflow (Labels (dm_Meta dm)))) in
    mret (rabbit, profile,
          {| dm_Meta := set_Labels labels (dm_Meta dm);
             dm_Spec := set_request ref (wf_UserID workflow) (wf_GroupID workflow)
                          (Some (setUserConfig dmreq)) (dm_Spec dm);
             dm_Status := dm_Status dm |}).

(** The rest of [Create] up to the creation of the resource. *)
Definition create_request (dmreq : DMRequest) : M W (DriverRequest * NnfDataMovement) :=
  built ← build_dm dmreq;
  let '(rabbit, profile, dm) := built in
  nodes ← GetStorageNodeNames dm;
  hosts ← GetCopyOffloadWorkerHostnames nodes (WorkflowName drvr) (WorkflowNamespace drvr) dm;
  mpiHostfile ← CreateMpiHostfile profile hosts dm;
  _ ← PeekMpiHostfile mpiHostfile;
  prepared ← PrepareDestination profile dm mpiHostfile;
  _ ← (match snd prepared with Some err => fail err | None => mret tt end : M W unit);
  cmdArgs ← lift_outcome (BuildDMCommand profile mpiHostfile false (fst prepared));
  dm ← createDM (fst prepared);
  (** [GetCopyOffloadWorkerHostnames] puts the host into the slice of nodes for a local request *)
  let nodes := match nodes with "localhost" :: _ => hosts | _ => nodes end in
  mret ({| dmProfile := profile; nodes := nodes; hosts := hosts; mpiHostfile := mpiHostfile;
           RabbitName := rabbit; cmdArgs := cmdArgs |}, dm).
End Requests.

(** * The state of the process *)

Section State.
Context {W : Type}.

Definition d_set_world (w : W) (s : DSys W) : DSys W :=
  {| d_world := w; d_contexts := d_contexts s; d_completions := d_completions s;
     d_cancelled := d_cancelled s; d_next := d_next s; MockCount := MockCount s;
     d_routines := d_routines s; d_stopping := d_stopping s |}.

Definition d_set_contexts (c : gmap string SrvrDataMovementRecord) (s : DSys W) : DSys W :=
  {| d_world := d_world s; d_contexts := c; d_completions := d_completions s;
     d_cancelled := d_cancelled s; d_next := d_next s; MockCount := MockCount s;
     d_routines := d_routines s; d_stopping := d_stopping s |}.

Definition d_set_completions (c : gset string) (s : DSys W) : DSys W :=
  {| d_world := d_world s; d_contexts := d_contexts s; d_completions := c;
     d_cancelled := d_cancelled s; d_next := d_next s; MockCount := MockCount s;
     d_routines := d_routines s; d_stopping := d_stopping s |}.

Definition d_set_routines (r : list Routine) (s : DSys W) : DSys W :=
  {| d_world := d_world s; d_contexts := d_contexts s; d_completions := d_completions s;
     d_cancelled := d_cancelled s; d_next := d_next s; MockCount := MockCount s; d_routines := r;
     d_stopping := d_stopping s |}.

Definition d_cancel (id : N) (s : DSys W) : DSys W :=
  {| d_world := d_world s; d_contexts := d_contexts s; d_completions := d_completions s;
     d_cancelled := {[id]} ∪ d_cancelled s; d_next := d_next s; MockCount := MockCount s;
     d_routines := d_routines s; d_stopping := d_stopping s |}.

Definition d_bump (s : DSys W) : DSys W :=
  {| d_world := d_world s; d_contexts := d_contexts s; d_completions := d_completions s;
     d_cancelled := d_cancelled s; d_next := d_next s + 1; MockCount := MockCount s;
     d_routines := d_routines s; d_stopping := d_stopping s |}.

Definition d_bump_mock (s : DSys W) : DSys W :=
  {| d_world := d_world s; d_contexts := d_contexts s; d_completions := d_completions s;
     d_cancelled := d_cancelled s; d_next := d_next s; MockCount := MockCount s + 1;
     d_routines := d_routines s; d_stopping := d_stopping s |}.

Definition d_stop (s : DSys W) : DSys W :=
  {| d_world := d_world s; d_contexts := d_contexts s; d_completions := d_completions s;
     d_cancelled := d_cancelled s; d_next := d_next s; MockCount := MockCount s;
     d_routines := d_routines s; d_stopping := true |}.

(** [Server.Shutdown] makes [ListenAndServe] return and [main] with it: the process and its commands end. *)
Definition d_exit (s : DSys W) : DSys W :=
  {| d_world := d_world s; d_contexts := ∅; d_completions := ∅; d_cancelled := ∅; d_next := 0;
     MockCount := 0; d_routines := []; d_stopping := false |}.

Definition D (A : Type) : Type := M (DSys W) A.

Definition d_io {A} (m : M W A) : D A := λ s,
  let r := m (d_world s) in (fst r, d_set_world (snd r) s).
Definition d_gets {A} (f : DSys W → A) : D A := λ s, (Ret (f s), s).
Definition d_modify (f : DSys W → DSys W) : D unit := λ s, (Ret tt, f s).

Definition loadRequestByName (name : string) : D SrvrDataMovementRecord := λ s,
  match d_contexts s !! name with
  | Some record => (Ret record, s)
  | None => (Fail (ErrorString "request not found"), s)
  end.

Definition loadRequest (dm : NnfDataMovement) : D SrvrDataMovementRecord := loadRequestByName (dmKey dm).

Definition deleteRequest (dm : NnfDataMovement) : D unit :=
  d_modify (λ s, d_set_contexts (delete (dmKey dm) (d_contexts s)) s).

Definition notifyCompletion (dm : NnfDataMovement) : D unit :=
  d_modify (λ s, d_set_completions ({[dmKey dm]} ∪ d_completions s) s).

Definition deleteCompletionByName (name : string) : D unit :=
  d_modify (λ s, d_set_completions (d_completions s ∖ {[name]}) s).

(** [slices.Sort] of the keys: insertion by [String.leb] *)
Fixpoint insert_sorted (x : string) (l : list string) : list string :=
  match l with
  | [] => [x]
  | y :: l' => if String.leb x y then x :: l else y :: insert_sorted x l'
  end.
Definition sort_strings (l : list string) : list string := foldr insert_sorted [] l.

Definition ListRequests : D (list string) :=
  d_gets (λ s, sort_strings (fst <$> map_to_list (d_contexts s))).

Definition CancelRequest (name : string) : D unit :=
  r ← attempt (loadRequestByName name);
  match r with
  | inl err =>
      completed ← d_gets (λ s, bool_decide (name ∈ d_completions s));
      if (completed : bool) then mret tt else fail err
  | inr contextRecord => d_modify (d_cancel (rec_Ctx contextRecord))
  end.
End State.

(** * Create and Drive *)

Section Drive.
Context {W : Type} {kube : Kube W} {os : OS W} {okube : OffloadKube W}.
Context (drvr : DriverConfig).

Definition recordRequest (dm : NnfDataMovement) : D (W:=W) unit :=
  id ← d_gets d_next;
  _ ← d_modify d_bump;
  d_modify (λ s, d_set_contexts
    (<[dmKey dm := {| rec_Ctx := id; mockDM := if Mock drvr then Some dm else None |}]> (d_contexts s)) s).

Definition Create (dmreq : DMRequest) : D (W:=W) (string * NnfDataMovement * DriverRequest) :=
  created ← d_io (create_request drvr dmreq);
  _ ← recordRequest (snd created);
  mret (dmKey (snd created), snd created, fst created).

Definition mock_profile : NnfDataMovementProfile :=
  {| p_Name := "mock"; p_Namespace := DataMovementNamespace;
     p_Data := {| Default := false; p_Slots := 0; p_MaxSlots := 0; p_Command := "sleep 300";
                  p_LogStdout := false; p_StoreStdout := false; ProgressIntervalSeconds := 1;
                  CreateDestDir := false; StatCommand := ""; MkdirCommand := ""; SetprivCommand := "" |} |}.

Definition CreateMock (dmreq : DMRequest) : D (W:=W) (string * NnfDataMovement * DriverRequest) :=
  let no_ref := {| Kind := ""; RefName := ""; RefNamespace := "" |} in
  let dm := new_dm nodeNameBase "mock-rabbit-01" {[DataMovementInitiatorLabel := ComputeName dmreq]}
              {| Path := SourcePath dmreq; StorageReference := no_ref |}
              {| Path := DestinationPath dmreq; StorageReference := no_ref |} in
  count ← d_gets MockCount;
  _ ← d_modify d_bump_mock;
  let dm := {| dm_Meta := set_Name (nodeNameBase +:+ itoa count) (dm_Meta dm);
               dm_Spec := set_request no_ref 0 0 (Some (setUserConfig dmreq)) (dm_Spec dm);
               dm_Status := dm_Status dm |} in
  cmdArgs ← lift_outcome (BuildDMCommand mock_profile "" false dm);
  _ ← recordRequest dm;
  mret (dmKey dm, dm, {| dmProfile := mock_profile; nodes := []; hosts := []; mpiHostfile := "";
                         RabbitName := "mock-rabbit-01"; cmdArgs := cmdArgs |}).

(** [retry.RetryOnConflict]: [steps] attempts while the error is a conflict *)
Fixpoint RetryOnConflict {A} (steps : nat) (f : M W A) : M W A := λ w,
  match f w with
  | (Fail e, w') =>
      match steps with
      | S (S _ as left) => if IsConflict e then RetryOnConflict left f w' else (Fail e, w')
      | _ => (Fail e, w')
      end
  | r => r
  end.
Definition DefaultRetry : nat := 5.

(** Get the resource and update its status; a resource that is gone is no error. *)
Definition get_and_update (key : NamespacedName) (change : NnfDataMovement → M W NnfDataMovement)
    : M W unit :=
  r ← attempt (getDM key);
  match r with
  | inl err => match IgnoreNotFound err with None => mret tt | Some e => fail e end
  | inr dm => dm' ← change dm; _ ← updateDMStatus dm'; mret tt
  end.

(** [setStart] *)
Definition setStart (cmdStatus : NnfDataMovementCommandStatus) (dm : NnfDataMovement) : M W NnfDataMovement :=
  now ← nowMicro; mret (started now cmdStatus dm).

(** In mock mode the record holds a pointer to the resource the driver changes. *)
Definition set_mock (dm : NnfDataMovement) : D (W:=W) unit :=
  d_modify (λ s, d_set_contexts
    (alter (λ record, {| rec_Ctx := rec_Ctx record; mockDM := Some dm |}) (dmKey dm) (d_contexts s)) s).

(** [runit]: the goroutine starts *)
Definition runit (req : DriverRequest) (ctxCancel : N) (cmdStatus : NnfDataMovementCommandStatus)
    (dm : NnfDataMovement) : D (W:=W) unit :=
  progressStart ← (if ProgressCollectionEnabled (progressCollectInterval (dmProfile req))
                   then d_io nowMicro else mret 0%Z);
  d_modify (λ s, d_set_routines
    ({| r_req := dm_key dm; r_dm := dm; r_profile := dmProfile req; r_hostfile := mpiHostfile req;
        r_ctx := ctxCancel; r_cmdStatus := cmdStatus; r_parseBuf := ""; r_combinedOutBuf := "";
        r_progressStart := progressStart |} :: d_routines s) s).

Definition driveWithContext (req : DriverRequest) (ctxCancel : N) (dm : NnfDataMovement) : D (W:=W) unit :=
  let cmdStatus := command_status (cmdArgs req) in
  _ ← (if Mock drvr
       then dm' ← d_io (setStart cmdStatus dm); set_mock dm'
       else d_io (RetryOnConflict DefaultRetry (get_and_update (dm_key dm) (setStart cmdStatus))));
  runit req ctxCancel cmdStatus dm.

Definition Drive (req : DriverRequest) (dm : NnfDataMovement) : D (W:=W) unit :=
  contextRecord ← loadRequest dm;
  r ← attempt (driveWithContext req (rec_Ctx contextRecord) dm);
  match r with
  | inr _ => mret tt
  | inl err =>
      _ ← d_io (attempt (removeAll (Dir (mpiHostfile req))));
      _ ← deleteRequest dm;
      _ ← notifyCompletion dm;
      fail err
  end.

Definition DriveMock (req : DriverRequest) (dm : NnfDataMovement) : D (W:=W) unit :=
  contextRecord ← loadRequest dm;
  r ← attempt (driveWithContext req (rec_Ctx contextRecord) dm);
  match r with
  | inr _ => mret tt
  | inl err =>
      _ ← deleteRequest dm;
      _ ← notifyCompletion dm;
      fail err
  end.

(** * The goroutine *)

(** One progress collection; the result is the goroutine and what the collection left in the
    variable [err], which is the one that [cmd.Wait()] is assigned to. *)
Definition offload_progress (r : Routine) (err : option error) : M W (Routine * option error) :=
  p ← parse_lines (r_progressStart r) (buffered_lines (r_parseBuf r)) (r_cmdStatus r);
  match snd p with
  | Some unread => mret (set_cmdStatus (fst p) (Join unread "" +:+ unterminated (r_parseBuf r)) r, err)
  | None =>
      let r' := set_cmdStatus (fst p) "" r in
      if Mock drvr then mret (r', err)
      else
        updated ← attempt (RetryOnConflict DefaultRetry (get_and_update (r_req r)
          (λ dm, mret (set_status (set_command_status (Some (fst p)) (dm_Status dm)) dm))));
        mret (r', match updated with inl e => Some e | inr _ => None end)
  end.

(** In mock mode the resource of the record points to the command status. *)
Definition collect_progress (r : Routine) (err : option error) : D (W:=W) (Routine * option error) :=
  p ← d_io (offload_progress r err);
  _ ← (if Mock drvr then
         d_modify (λ s, d_set_contexts
           (alter (λ record, {| rec_Ctx := rec_Ctx record;
                                mockDM := (λ dm, set_status (set_command_status
                                  (Some (r_cmdStatus (fst p))) (dm_Status dm)) dm) <$> mockDM record |})
              (dmKey (r_dm r)) (d_contexts s)) s)
       else mret tt : D (W:=W) unit);
  mret p.

Definition with_dm (dm : NnfDataMovement) (r : Routine) : Routine :=
  {| r_req := r_req r; r_dm := dm; r_profile := r_profile r; r_hostfile := r_hostfile r;
     r_ctx := r_ctx r; r_cmdStatus := r_cmdStatus r; r_parseBuf := r_parseBuf r;
     r_combinedOutBuf := r_combinedOutBuf r; r_progressStart := r_progressStart r |}.

Definition empty_dm : NnfDataMovement :=
  {| dm_Meta := {| Name := ""; Namespace := ""; GenerateName := ""; Labels := ∅; Finalizers := [];
                   DeletionTimestamp := None; ResourceVersion := 0 |};
     dm_Spec := {| Source := None; Destination := None; UserId := 0; GroupId := 0; Cancel := false;
                   ProfileReference := {| Kind := ""; RefName := ""; RefNamespace := "" |};
                   UserConfig := None |};
     dm_Status := empty_Status |}.

(** Write the final status; [status.CommandStatus] is dereferenced. *)
Definition write_final (r : Routine) (status : NnfDataMovementStatus) : M W unit :=
  RetryOnConflict DefaultRetry (get_and_update (r_req r) (λ dm,
    _ ← lift_outcome (deref (CommandStatus status));
    mret (set_status (set_command_status (Some (r_cmdStatus r)) status) dm))).

(** What follows [cmd.Wait()], which returned [err], for a goroutine off the list. *)
Definition finish_offload (r : Routine) (err : option error) : D (W:=W) unit :=
  p ← (if ProgressCollectionEnabled (progressCollectInterval (r_profile r))
       then collect_progress r err else mret (r, err));
  let '(r, err) := p in
  got ← (if Mock drvr then mret (inr empty_dm) else attempt (d_io (getDM (r_req r))));
  match got with
  | inl _ => mret tt
  | inr dm =>
      now ← d_io nowMicro;
      isCancelled ← d_gets (λ s, bool_decide (r_ctx r ∈ d_cancelled s));
      let status := final_status isCancelled err now (with_dm dm r) in
      _ ← d_io (attempt (removeAll (Dir (r_hostfile r))));
      _ ← (if Mock drvr then mret tt
           else _ ← attempt (d_io (write_final r status)); mret tt : D (W:=W) unit);
      _ ← deleteRequest (r_dm r);
      notifyCompletion (r_dm r)
  end.

(** * Status *)

(** An HTTP code (-1 for none) with the error, or the response. *)
Definition StatusResult : Type := ((Z * error) + DataMovementStatusResponse)%type.

Definition state_map (s : string) : option ResponseState :=
  if String.eqb s "" then Some UNKNOWN_STATE
  else if String.eqb s DataMovementConditionTypeStarting then Some STARTING
  else if String.eqb s DataMovementConditionTypeRunning then Some RUNNING
  else if String.eqb s DataMovementConditionTypeFinished then Some COMPLETED
  else None.

Definition status_map (s : string) : option ResponseStatus :=
  if String.eqb s "" then Some UNKNOWN_STATUS
  else if String.eqb s DataMovementConditionReasonFailed then Some FAILED
  else if String.eqb s DataMovementConditionReasonSuccess then Some SUCCESS
  else if String.eqb s DataMovementConditionReasonInvalid then Some INVALID
  else if String.eqb s DataMovementConditionReasonCancelled then Some CANCELLED
  else None.

Definition response_command (c : option NnfDataMovementCommandStatus) : DataMovementCommandStatus :=
  match c with
  | None => {| cs_Command := ""; Progress := 0; cs_ElapsedTime := ""; cs_LastMessage := "";
               cs_LastMessageTime := "" |}
  | Some c =>
      {| cs_Command := Command c; Progress := default 0%Z (ProgressPercentage c);
         cs_ElapsedTime := if (0 <? ElapsedTime c)%Z
                           then durationString (ElapsedTime c / 1000 * 1000)%Z else "";
         cs_LastMessage := LastMessage c;
         cs_LastMessageTime := if (LastMessageTime c =? 0)%Z then "" else timeString (LastMessageTime c) |}
  end.

Definition time_text (t : option Z) : string :=
  match t with Some z => if (z =? 0)%Z then "" else timeString z | None => "" end.

Definition buildStatusResponse (statreq : StatusRequest) (dm : NnfDataMovement) : D (W:=W) StatusResult :=
  let st := dm_Status dm in
  if IsZero (StartTime st) && negb (String.eqb (Status st) DataMovementConditionReasonInvalid)
  then mret (inr {| rs_State := PENDING; rs_Status := UNKNOWN_STATUS; rs_Message := "";
                    rs_CommandStatus := None; rs_StartTime := ""; rs_EndTime := "" |})
  else
    match state_map (State st) with
    | None => mret (inl (500%Z, ErrorString "failed to decode returned state"))
    | Some state =>
        let state := if bool_decide (state ≠ COMPLETED) && Cancel (dm_Spec dm) then CANCELLING else state in
        match status_map (Status st) with
        | None => mret (inl (500%Z, ErrorString "failed to decode returned status"))
        | Some status =>
            _ ← (if bool_decide (state = COMPLETED) && negb (IsZero (EndTime st))
                 then deleteCompletionByName (RequestName statreq) else mret tt);
            mret (inr {| rs_State := state; rs_Status := status; rs_Message := Message st;
                         rs_CommandStatus := Some (response_command (CommandStatus st));
                         rs_StartTime := time_text (StartTime st); rs_EndTime := time_text (EndTime st) |})
        end
    end.

(** [math.MaxInt64], and the longest wait in nanoseconds *)
Definition maxWaitTimeDuration (maxWaitSecs : Z) : Z :=
  if (maxWaitSecs <? 0)%Z || (int64_max / 1000000000 <? maxWaitSecs)%Z then int64_max
  else to_int64 (maxWaitSecs * 1000000000).

Definition not_found (msg : string) (name : string) : D (W:=W) StatusResult :=
  _ ← deleteCompletionByName name;
  mret (inl (404%Z, ErrorString msg)).

(** [wait] is what happens in the process while the request waits, at most for the duration it
    is given. *)
Definition GetRequest (wait : Z → D (W:=W) unit) (statreq : StatusRequest) : D (W:=W) StatusResult :=
  key ← lift_outcome (dmKeySplit (RequestName statreq));
  got ← attempt (d_io (getDM key));
  match got with
  | inl err =>
      if IsNotFound err then not_found "request not found" (RequestName statreq)
      else mret (inl (500%Z, err))
  | inr dm =>
      if negb (String.eqb (default "" (Labels (dm_Meta dm) !! WorkflowNameLabel)) (WorkflowName drvr))
         || negb (String.eqb (default "" (Labels (dm_Meta dm) !! WorkflowNamespaceLabel)) (WorkflowNamespace drvr))
      then mret (inl (400%Z, ErrorString "request does not belong to workflow"))
      else if IsZero (EndTime (dm_Status dm)) && negb (MaxWaitSecs statreq =? 0)%Z then
        _ ← wait (maxWaitTimeDuration (MaxWaitSecs statreq));
        got ← attempt (d_io (getDM key));
        match got with
        | inl err =>
            if IsNotFound err
            then not_found "request not found after waiting for completion" (RequestName statreq)
            else mret (inl (500%Z, err))
        | inr dm => buildStatusResponse statreq dm
        end
      else buildStatusResponse statreq dm
  end.

Definition set_StartTime (t : string) (r : DataMovementStatusResponse) : DataMovementStatusResponse :=
  {| rs_State := rs_State r; rs_Status := rs_Status r; rs_Message := rs_Message r;
     rs_CommandStatus := rs_CommandStatus r; rs_StartTime := t; rs_EndTime := rs_EndTime r |}.

(** The response is written to before its error is looked at: without one it is nil. *)
Definition GetRequestMock (statreq : StatusRequest) : D (W:=W) StatusResult :=
  got ← attempt (loadRequestByName (RequestName statreq));
  match got with
  | inl _ => mret (inl (404%Z, ErrorString "request not found"))
  | inr contextRecord =>
      dm ← lift_outcome (deref (mockDM contextRecord));
      r ← buildStatusResponse statreq dm;
      match r with
      | inl _ => lift_outcome (Panic "nil pointer dereference")
      | inr response => mret (inr (set_StartTime "2025-04-01 11:46:36.535519 -0500 CDT" response))
      end
  end.
End Drive.
