(* ===== verification/Server.v ===== *)
(** The HTTP server of the copy offload daemon,
    daemons/copy-offload/pkg/server/server.go.

    A request is what the handlers read of it; decoding the URL and the JSON
    body is done by the standard library and checking a token by the JWT
    library, whose answers are part of the request and of the context.  A
    response is a status code and a text. *)
From S2P Require Import Prelude GoMonad GoStrings GoPath Api Env Hosts Dest Reconciler OffloadApi Driver.

Record Request := {
  Method : string;
  Authorization : string;
  AcceptsVersion : string;
  (** [url.Parse]: the path and the query parameters *)
  URL : outcome (string * list (string * string));
  (** [json.NewDecoder(req.Body).Decode] *)
  Body : outcome DMRequest
}.

Inductive payload :=
| Text (msg : string)
| StatusResponse (r : DataMovementStatusResponse).

Record Response := { Code : Z; Payload : payload }.

Definition http_error (msg : string) (code : Z) : Response := {| Code := code; Payload := Text (msg +:+ nl) |}.
Definition http_ok (msg : string) : Response := {| Code := 200; Payload := Text msg |}.

Record UserHttp := {
  u_Mock : bool;
  KeyBytes : string
}.

(** [params.Get]: the first value, "" without one *)
Fixpoint param_get (name : string) (params : list (string * string)) : string :=
  match params with
  | [] => ""
  | (k, v) :: params' => if String.eqb k name then v else param_get name params'
  end.
Definition param_del (name : string) (params : list (string * string)) : list (string * string) :=
  List.filter (λ kv, negb (String.eqb (fst kv) name)) params.

Section Server.
Context {W : Type} {kube : Kube W} {os : OS W} {okube : OffloadKube W}.
Context (user : UserHttp) (drvr : DriverConfig).
(** [jwt.Parse] of a token with a key function: it is given the algorithm the token claims and returns
    the key or an error; the result is the error of the parse or whether the token is valid. *)
Context (jwtParse : (string → error + string) → string → error + bool).
(** [url.Values.Encode] of the parameters that are left *)
Context (encode : list (string * string) → string).

(** The key function: the key of the server, for the one algorithm it expects. *)
Definition token_key (alg : string) : error + string :=
  if negb (String.eqb alg "HS256") then inl (ErrorString "unexpected signing method")
  else inr (KeyBytes user).

Definition verifyToken (tokenString : string) : option error :=
  match jwtParse token_key tokenString with
  | inl err => Some (Errorf_w "token parse failed: " err "")
  | inr valid => if valid then None else Some (ErrorString "invalid token")
  end.

(** The API version, or the error written. *)
Definition validateMessage (req : Request) : Response + string :=
  let authorized :=
    if String.eqb (KeyBytes user) "" then None
    else if String.eqb (Authorization req) "" then Some (http_error "unauthorized" 401)
    else
      let tokenString := TrimSpace (Replace1 (Authorization req) "Bearer" "") in
      match verifyToken tokenString with
      | Some err => Some (http_error (Error err) 401)
      | None => None
      end in
  match authorized with
  | Some response => inl response
  | None =>
      if negb (String.eqb (AcceptsVersion req) "1.0")
      then inl (http_error "Valid versions: 1.0" 406)
      else inr (AcceptsVersion req)
  end.

(** The start of every handler: the method, then the message. *)
Definition guarded (method : string) (req : Request) (handler : D (W:=W) Response) : D (W:=W) Response :=
  if negb (String.eqb (Method req) method) then mret (http_error "method not supported" 501)
  else match validateMessage req with
       | inl response => mret response
       | inr _ => handler
       end.

Definition Hello (req : Request) : D (W:=W) Response :=
  guarded "GET" req (mret (http_ok ("hello back at ya" +:+ nl))).

(** [GetRequest]; [wait] as for the driver *)
Definition GetRequest_handler (wait : Z → D (W:=W) unit) (req : Request) : D (W:=W) Response :=
  guarded "GET" req
    (match URL req with
     | Ret (path, params) =>
         match Atoi (param_get "maxWaitSecs" params) with
         | Ret maxWaitSecs =>
             let statreq := {| RequestName := Base path; MaxWaitSecs := maxWaitSecs |} in
             let rest := encode (param_del "maxWaitSecs" params) in
             if negb (String.eqb rest "")
             then mret (http_error ("unexpected query parameters: " +:+ rest) 400)
             else
               match StatusRequest_Validator statreq with
               | Some err => mret (http_error (Error err) 400)
               | None =>
                   r ← (if u_Mock user then GetRequestMock statreq
                        else GetRequest drvr wait statreq);
                   match r with
                   | inl (code, err) =>
                       if (0 <? code)%Z then mret (http_error (Error err) code)
                       else mret (http_error ("unable to get request: " +:+ Error err +:+ nl) 500)
                   | inr response => mret {| Code := 200; Payload := StatusResponse response |}
                   end
               end
         | Fail err => mret (http_error ("unable to parse maxWaitSecs: " +:+ Error err) 400)
         | Panic p => lift_outcome (Panic p)
         end
     | Fail err => mret (http_error ("unable to parse URL query parameters: " +:+ Error err) 400)
     | Panic p => lift_outcome (Panic p)
     end).

Definition GetActiveRequests : D (W:=W) (list string) := ListRequests.

Definition ListRequests_handler (req : Request) : D (W:=W) Response :=
  guarded "GET" req
    (items ← attempt GetActiveRequests;
     match items with
     | inl err => mret (http_error ("unable to list requests: " +:+ Error err +:+ nl) 500)
     | inr [] => mret (http_ok "")
     | inr items => mret (http_ok (Join items "," +:+ nl))
     end).

Definition CancelRequest_handler (req : Request) : D (W:=W) Response :=
  guarded "DELETE" req
    (match URL req with
     | Ret (path, _) =>
         r ← attempt (CancelRequest (Base path));
         match r with
         | inl err => mret (http_error ("unable to cancel request: " +:+ Error err) 404)
         | inr _ => mret (http_ok "")
         end
     | Fail err => mret (http_error ("unable to parse URL: " +:+ Error err) 400)
     | Panic p => lift_outcome (Panic p)
     end).

(** Create the request and drive it. *)
Definition create_and_drive (dmreq : DMRequest) : D (W:=W) string :=
  created ← (if u_Mock user then CreateMock drvr dmreq else Create drvr dmreq);
  let '(key, dm, request) := created in
  _ ← (if u_Mock user then DriveMock drvr request dm else Drive drvr request dm);
  mret key.

Definition TrialRequest (req : Request) : D (W:=W) Response :=
  guarded "POST" req
    (match Body req with
     | Ret dmreq =>
         match DMRequest_Validator dmreq with
         | Some err => mret (http_error (Error err) 400)
         | None =>
             r ← attempt (create_and_drive dmreq);
             match r with
             | inl err => mret (http_error (Error err +:+ nl) 500)
             | inr key => mret (http_ok ("name=" +:+ key +:+ nl))
             end
         end
     | Fail err => mret (http_error ("unable to decode data movement request body: " +:+ Error err) 400)
     | Panic p => lift_outcome (Panic p)
     end).

(** The goroutine that sleeps for a second and shuts the server down is started before the answer. *)
Definition ShutdownRequest (req : Request) : D (W:=W) Response :=
  guarded "POST" req
    (items ← attempt GetActiveRequests;
     match items with
     | inl err => mret (http_error ("unable to list requests: " +:+ Error err +:+ nl) 500)
     | inr [] =>
         _ ← d_modify d_stop;
         mret (http_ok ("Server shutting down" +:+ nl))
     | inr _ => mret (http_error "unable to shutdown server: requests in progress" 409)
     end).
End Server.
