(* ===== verification/Wait.v ===== *)
(** Waiting for the completion of a copy offload request:
    [waitForCompletionOrTimeout], [notifyCompletion] and
    [deleteCompletionByName] of daemons/copy-offload/pkg/driver/driver.go as
    threads that share a mutex, a condition variable and the map of completions.

    A thread is a program counter in its function; a step runs one of its
    statements.  [cond.Wait()] puts the thread on the list of the condition
    variable before it releases the mutex, so the two are one step here; the
    thread is woken by a broadcast and then takes the mutex again. *)
From S2P Require Import Prelude.

(** The goroutine of [waitForCompletionOrTimeout]. *)
Inductive waiter_pc :=
| WLock       (** at [cond.L.Lock()], or woken inside [cond.Wait()] *)
| WTest       (** the test of the loop, with the mutex *)
| WWait       (** at [cond.Wait()], with the mutex *)
| WAsleep     (** on the list of the condition variable *)
| WUnlock     (** at [cond.L.Unlock()] behind the loop *)
| WSend       (** at [complete <- struct{}{}] *)
| WDone.

(** The caller: the [select], the broadcast after a timeout, the return. *)
Inductive caller_pc := CSelect | CBroadcast | CReturned.

(** The two parts of a wait and the variables they share. *)
Record Waiting := {
  wt_Name : string;
  wt_pc : waiter_pc;
  wt_caller : caller_pc;
  wt_timeout : bool;
  wt_complete : bool
}.

(** [notifyCompletion]: lock, record, unlock, broadcast. *)
Inductive notify_pc := NLock | NRecord | NUnlock | NBroadcast | NDone.

(** [deleteCompletionByName]: lock, delete, unlock. *)
Inductive delete_pc := DLock | DDelete | DUnlock | DDone.

Inductive thread :=
| Wait (w : Waiting)
| Notify (name : string) (pc : notify_pc)
| Delete (name : string) (pc : delete_pc).

Record Shared := {
  mutex : option nat;
  recorded : gset string;
  threads : list thread
}.

Definition new_wait (name : string) : Waiting :=
  {| wt_Name := name; wt_pc := WLock; wt_caller := CSelect; wt_timeout := false; wt_complete := false |}.

Definition at_pc (pc : waiter_pc) (w : Waiting) : Waiting :=
  {| wt_Name := wt_Name w; wt_pc := pc; wt_caller := wt_caller w; wt_timeout := wt_timeout w;
     wt_complete := wt_complete w |}.

Definition sent (w : Waiting) : Waiting :=
  {| wt_Name := wt_Name w; wt_pc := WDone; wt_caller := wt_caller w; wt_timeout := wt_timeout w;
     wt_complete := true |}.

Definition caller_at (pc : caller_pc) (timeout : bool) (w : Waiting) : Waiting :=
  {| wt_Name := wt_Name w; wt_pc := wt_pc w; wt_caller := pc; wt_timeout := timeout;
     wt_complete := wt_complete w |}.

(** [cond.Broadcast()] *)
Definition wake (t : thread) : thread :=
  match t with
  | Wait w => match wt_pc w with WAsleep => Wait (at_pc WLock w) | _ => t end
  | _ => t
  end.

(** What a statement of thread [i] does to the thread, the mutex and the
    completions, and whether it broadcasts. *)
Inductive runs (i : nat) (m : option nat) (c : gset string)
  : thread → thread → option nat → gset string → bool → Prop :=
| r_lock w : m = None → wt_pc w = WLock → runs i m c (Wait w) (Wait (at_pc WTest w)) (Some i) c false
| r_found w : wt_pc w = WTest → wt_Name w ∈ c ∨ wt_timeout w = true →
    runs i m c (Wait w) (Wait (at_pc WUnlock w)) m c false
| r_again w : wt_pc w = WTest → wt_Name w ∉ c → wt_timeout w = false →
    runs i m c (Wait w) (Wait (at_pc WWait w)) m c false
| r_wait w : wt_pc w = WWait → runs i m c (Wait w) (Wait (at_pc WAsleep w)) None c false
| r_unlock w : wt_pc w = WUnlock → runs i m c (Wait w) (Wait (at_pc WSend w)) None c false
| r_send w : wt_pc w = WSend → runs i m c (Wait w) (Wait (sent w)) m c false
| r_complete w : wt_caller w = CSelect → wt_complete w = true →
    runs i m c (Wait w) (Wait (caller_at CReturned (wt_timeout w) w)) m c false
| r_timeout w : wt_caller w = CSelect → runs i m c (Wait w) (Wait (caller_at CBroadcast true w)) m c false
| r_timeout_broadcast w : wt_caller w = CBroadcast →
    runs i m c (Wait w) (Wait (caller_at CReturned (wt_timeout w) w)) m c true
| r_n_lock name : m = None → runs i m c (Notify name NLock) (Notify name NRecord) (Some i) c false
| r_n_record name : runs i m c (Notify name NRecord) (Notify name NUnlock) m ({[name]} ∪ c) false
| r_n_unlock name : runs i m c (Notify name NUnlock) (Notify name NBroadcast) None c false
| r_n_broadcast name : runs i m c (Notify name NBroadcast) (Notify name NDone) m c true
| r_d_lock name : m = None → runs i m c (Delete name DLock) (Delete name DDelete) (Some i) c false
| r_d_delete name : runs i m c (Delete name DDelete) (Delete name DUnlock) m (c ∖ {[name]}) false
| r_d_unlock name : runs i m c (Delete name DUnlock) (Delete name DDone) None c false.

(** A call that starts *)
Definition starting (t : thread) : Prop :=
  match t with
  | Wait w => w = new_wait (wt_Name w)
  | Notify _ pc => pc = NLock
  | Delete _ pc => pc = DLock
  end.

Inductive wait_step (s : Shared) : Shared → Prop :=
| ws_call t : starting t →
    wait_step s {| mutex := mutex s; recorded := recorded s; threads := threads s ++ [t] |}
| ws_run i t t' m c (broadcast : bool) :
    threads s !! i = Some t → runs i (mutex s) (recorded s) t t' m c broadcast →
    wait_step s {| mutex := m; recorded := c;
                   threads := let ts := <[i := t']> (threads s) in if broadcast then wake <$> ts else ts |}.

Inductive wait_reachable : Shared → Prop :=
| wr_start : wait_reachable {| mutex := None; recorded := ∅; threads := [] |}
| wr_step s s' : wait_reachable s → wait_step s s' → wait_reachable s'.

(** * The invariant *)

(** The thread is between [Lock] and [Unlock]. *)
Definition holds (t : thread) : bool :=
  match t with
  | Wait w => match wt_pc w with WTest | WWait | WUnlock => true | _ => false end
  | Notify _ pc => match pc with NRecord | NUnlock => true | _ => false end
  | Delete _ pc => match pc with DDelete | DUnlock => true | _ => false end
  end.

(** A notification that has recorded its completion and has still to broadcast. *)
Definition broadcasting (t : thread) : bool :=
  match t with Notify _ (NUnlock | NBroadcast) => true | _ => false end.

Definition has_recorded (name : string) (t : thread) : bool :=
  match t with
  | Notify n (NUnlock | NBroadcast | NDone) => String.eqb n name
  | _ => false
  end.

(** The waiter is past a test that found the completion. *)
Definition past_test (w : Waiting) : bool :=
  match wt_pc w with WUnlock | WSend | WDone => true | _ => false end.

(** Some call has recorded the completion of [name]. *)
Definition ever_recorded (ts : list thread) (name : string) : Prop :=
  ∃ j t, ts !! j = Some t ∧ has_recorded name t = true.

(** What holds of a wait: it goes to sleep only while its completion is not recorded, it leaves the
    loop only for a recorded completion or a timeout, and its caller returns only after that. *)
Definition waiting_ok (c : gset string) (ts : list thread) (w : Waiting) : Prop :=
  (wt_pc w = WWait → wt_Name w ∉ c) ∧
  (past_test w = true → wt_timeout w = false → ever_recorded ts (wt_Name w)) ∧
  (wt_complete w = true → past_test w = true) ∧
  (wt_caller w = CReturned → wt_timeout w = false → wt_complete w = true) ∧
  (wt_caller w = CBroadcast → wt_timeout w = true).

Record wait_inv (s : Shared) : Prop := {
  inv_bound i : mutex s = Some i → is_Some (threads s !! i);
  inv_mutex i t : threads s !! i = Some t → holds t = true ↔ mutex s = Some i;
  inv_recorded name : name ∈ recorded s → ever_recorded (threads s) name;
  inv_waiting i w : threads s !! i = Some (Wait w) → waiting_ok (recorded s) (threads s) w
}.

(** Whoever sleeps although its completion is recorded has a broadcast coming. *)
Definition wakeful (s : Shared) : Prop :=
  ∀ i w, threads s !! i = Some (Wait w) → wt_pc w = WAsleep → wt_Name w ∈ recorded s →
    ∃ j t, threads s !! j = Some t ∧ broadcasting t = true.

(** ** Waking *)

Lemma wake_holds t : holds (wake t) = holds t.
Proof. destruct t as [w| |]; [|done..]. unfold wake, holds. by destruct (wt_pc w) eqn:E; cbn; rewrite ?E. Qed.

Lemma wake_recorded name t : has_recorded name (wake t) = has_recorded name t.
Proof. destruct t as [w| |]; [|done..]. cbn. by destruct (wt_pc w). Qed.

Lemma wake_Wait t w :
  wake t = Wait w → ∃ w0, t = Wait w0 ∧ (w = w0 ∨ (wt_pc w0 = WAsleep ∧ w = at_pc WLock w0)) ∧ wt_pc w ≠ WAsleep.
Proof.
  destruct t as [w0| |]; [|done..]. cbn. destruct (wt_pc w0) eqn:E; intros [= <-]; exists w0;
    (split; [done|split; [auto|by rewrite ?E]]).
Qed.

Lemma wake_ever ts name : ever_recorded (wake <$> ts) name ↔ ever_recorded ts name.
Proof.
  unfold ever_recorded. split; intros (j & t & Hj & Ht).
  - rewrite list_lookup_fmap in Hj. apply fmap_Some in Hj as (t0 & Hj & ->). rewrite wake_recorded in Ht.
    by exists j, t0.
  - exists j, (wake t). rewrite list_lookup_fmap, Hj, wake_recorded. done.
Qed.

Lemma wake_inv s :
  wait_inv s → wait_inv {| mutex := mutex s; recorded := recorded s; threads := wake <$> threads s |}.
Proof.
  intros [Hb Hm Hr Hw]. constructor; cbn.
  - intros i Hi. rewrite list_lookup_fmap. apply fmap_is_Some. by apply Hb.
  - intros i t Hi. rewrite list_lookup_fmap in Hi. apply fmap_Some in Hi as (t0 & Hi & ->).
    rewrite wake_holds. by apply Hm.
  - intros name Hn. apply wake_ever. by apply Hr.
  - intros i w Hi. rewrite list_lookup_fmap in Hi. apply fmap_Some in Hi as (t0 & Hi & Ht).
    symmetry in Ht. apply wake_Wait in Ht as (w0 & -> & Hcase & Hne). specialize (Hw _ _ Hi).
    unfold waiting_ok in *. rewrite wake_ever. destruct Hcase as [->|[Hs ->]]; [done|].
    unfold past_test in *. rewrite Hs in Hw. cbn. destruct Hw as (_ & _ & H3 & H45).
    split; [done|split; [done|split; [by intros ?%H3|done]]].
Qed.

Lemma wake_wakeful s c : wakeful {| mutex := mutex s; recorded := c; threads := wake <$> threads s |}.
Proof.
  intros i w Hi Hp _. cbn in Hi. rewrite list_lookup_fmap in Hi. apply fmap_Some in Hi as (t & _ & Ht).
  symmetry in Ht. by apply wake_Wait in Ht as (w0 & _ & _ & Hne).
Qed.

(** ** Running a statement *)

Lemma runs_mutex i m c t t' m' c' b :
  runs i m c t t' m' c' b → (holds t = true ↔ m = Some i) →
  (holds t' = true ↔ m' = Some i) ∧ (∀ j, j ≠ i → m' = Some j ↔ m = Some j).
Proof.
  intros Hrun. destruct Hrun as [w ? E|w E|w E|w E|w E|w E|w|w|w| | | | | | |]; cbn;
    rewrite ?E; try (destruct (wt_pc w)); split; intros; intuition congruence.
Qed.

(** The completions change under the mutex; what is recorded stays known. *)
Lemma runs_recorded i m c t t' m' c' b :
  runs i m c t t' m' c' b →
  (c' = c ∨ holds t = true) ∧
  (∀ name, has_recorded name t = true → has_recorded name t' = true) ∧
  (∀ name, name ∈ c' → name ∈ c ∨ has_recorded name t' = true).
Proof.
  intros Hrun. destruct Hrun; cbn; split_and!; auto; try done.
  - intros n [->%elem_of_singleton|?]%elem_of_union; [right; by apply String.eqb_eq|by left].
  - intros n [? _]%elem_of_difference. by left.
Qed.

Lemma ever_recorded_insert ts i t t' name :
  ts !! i = Some t → (has_recorded name t = true → has_recorded name t' = true) →
  ever_recorded ts name → ever_recorded (<[i := t']> ts) name.
Proof.
  intros Hi Hmono (j & u & Hj & Hu). destruct (decide (j = i)) as [->|Hne].
  - exists i, t'. rewrite list_lookup_insert_eq by (by eapply lookup_lt_Some). split; [done|].
    apply Hmono. congruence.
  - exists j, u. by rewrite list_lookup_insert_ne.
Qed.

Lemma runs_waiting i m c w t' m' c' b ts ts' :
  runs i m c (Wait w) t' m' c' b → waiting_ok c ts w →
  (wt_Name w ∈ c → ever_recorded ts (wt_Name w)) →
  (ever_recorded ts (wt_Name w) → ever_recorded ts' (wt_Name w)) →
  ∃ w', t' = Wait w' ∧ c' = c ∧ waiting_ok c ts' w'.
Proof.
  intros Hrun (H1 & H2 & H3 & H4 & H5) Hrec Hmono. unfold waiting_ok, past_test in *. inversion Hrun; subst;
    eexists; (split; [done|split; [done|]]); destruct w as [n pc cl to co]; cbn in *; subst;
    split_and!; intros; try done; intuition congruence.
Qed.

Lemma runs_inv s i t t' m c b :
  wait_inv s → threads s !! i = Some t → runs i (mutex s) (recorded s) t t' m c b →
  wait_inv {| mutex := m; recorded := c; threads := <[i := t']> (threads s) |}.
Proof.
  intros [Hb Hm Hr Hw] Hi Hrun. pose proof (lookup_lt_Some _ _ _ Hi) as Hlt.
  destruct (runs_mutex _ _ _ _ _ _ _ _ Hrun (Hm _ _ Hi)) as [Hm1 Hm2].
  destruct (runs_recorded _ _ _ _ _ _ _ _ Hrun) as (Hc & Hmono & Hnew).
  assert (∀ name, ever_recorded (threads s) name → ever_recorded (<[i := t']> (threads s)) name) as Hever
    by (intros name; apply (ever_recorded_insert _ _ t); auto).
  constructor; cbn.
  - intros j Hj. apply lookup_lt_is_Some. rewrite length_insert. destruct (decide (j = i)) as [->|Hne]; [done|].
    apply lookup_lt_is_Some, Hb. by apply Hm2.
  - intros j u Hj. destruct (decide (j = i)) as [->|Hne].
    + rewrite list_lookup_insert_eq in Hj by done. injection Hj as <-. done.
    + rewrite list_lookup_insert_ne in Hj by done. rewrite Hm2 by done. by apply Hm.
  - intros name [Hn|Hn]%Hnew; [by apply Hever, Hr|].
    exists i, t'. by rewrite list_lookup_insert_eq.
  - intros j w Hj. destruct (decide (j = i)) as [->|Hne].
    + rewrite list_lookup_insert_eq in Hj by done. injection Hj as ->.
      destruct t as [w0| |]; [|by inversion Hrun..].
      by destruct (runs_waiting _ _ _ _ _ _ _ _ (threads s) (<[i := Wait w]> (threads s)) Hrun
        (Hw _ _ Hi) (Hr _) (Hever _)) as (w' & [= <-] & -> & Hok).
    + rewrite list_lookup_insert_ne in Hj by done. destruct (Hw _ _ Hj) as (H1 & H2 & H34).
      split; [|split; [|done]].
      * intros Hp. destruct Hc as [->|Hh]; [by apply H1|]. exfalso.
        apply (Hm _ _ Hi) in Hh. assert (holds (Wait w) = true) as Hw' by (cbn; by rewrite Hp).
        apply (Hm _ _ Hj) in Hw'. congruence.
      * intros ? ?. by apply Hever, H2.
Qed.

(** Without a broadcast nobody who is needed goes away. *)
Lemma runs_wakeful s i t t' m c :
  wait_inv s → wakeful s → threads s !! i = Some t → runs i (mutex s) (recorded s) t t' m c false →
  wakeful {| mutex := m; recorded := c; threads := <[i := t']> (threads s) |}.
Proof.
  intros Hinv Hwake Hi Hrun j w Hj Hp Hn. cbn in *. pose proof (lookup_lt_Some _ _ _ Hi) as Hlt.
  assert (broadcasting t = true → broadcasting t' = true) as Hkeep by (by inversion Hrun).
  assert (∀ k w0, threads s !! k = Some (Wait w0) → wt_pc w0 = WAsleep → wt_Name w0 ∈ recorded s →
    ∃ j t, <[i := t']> (threads s) !! j = Some t ∧ broadcasting t = true) as Hold.
  { intros k w0 Hk Hs Hn0. destruct (Hwake k w0 Hk Hs Hn0) as (l & u & Hl & Hu).
    destruct (decide (l = i)) as [->|Hne].
    - exists i, t'. rewrite list_lookup_insert_eq by done. split; [done|]. apply Hkeep. congruence.
    - exists l, u. by rewrite list_lookup_insert_ne. }
  destruct (decide (j = i)) as [->|Hne].
  - rewrite list_lookup_insert_eq in Hj by done. injection Hj as ->. inversion Hrun; subst; cbn in *; try done.
    + destruct (inv_waiting s Hinv i w0 Hi) as [Hno _]. by destruct Hno.
    + by apply (Hold i w0).
    + by apply (Hold i w0).
  - rewrite list_lookup_insert_ne in Hj by done.
    destruct (runs_recorded _ _ _ _ _ _ _ _ Hrun) as (_ & _ & Hnew).
    inversion Hrun; subst; try (by apply (Hold j w)).
    + exists i, (Notify name NUnlock). by rewrite list_lookup_insert_eq.
    + apply elem_of_difference in Hn as [Hn _]. by apply (Hold j w).
Qed.

(** ** Every reachable state *)

Lemma call_inv s t : wait_inv s → starting t →
  wait_inv {| mutex := mutex s; recorded := recorded s; threads := threads s ++ [t] |}.
Proof.
  intros [Hb Hm Hr Hw] Hs.
  assert (∀ name, ever_recorded (threads s) name → ever_recorded (threads s ++ [t]) name) as Hever.
  { intros name (j & u & Hj & Hu). exists j, u. split; [|done]. by apply lookup_app_l_Some. }
  assert (holds t = false) as Ht.
  { destruct t as [w|? pc|? pc]; cbn in Hs; [by rewrite Hs|by subst|by subst]. }
  constructor; cbn.
  - intros i [u Hu]%Hb. exists u. by apply lookup_app_l_Some.
  - intros i u [Hu|[Hlen [_ <-]%list_lookup_singleton_Some]]%lookup_app_Some; [by apply Hm|].
    rewrite Ht. split; [done|]. intros [u Hu]%Hb. apply lookup_lt_Some in Hu. lia.
  - intros name Hn. by apply Hever, Hr.
  - intros i w [Hu|[_ Hu]]%lookup_app_Some.
    + destruct (Hw _ _ Hu) as (H1 & H2 & H34). split; [done|split; [|done]]. intros ? ?. by apply Hever, H2.
    + apply list_lookup_singleton_Some in Hu as [_ ->]. cbn in Hs. rewrite Hs. split_and!; done.
Qed.

Lemma wait_reachable_inv s : wait_reachable s → wait_inv s ∧ wakeful s.
Proof.
  induction 1 as [|s s' _ [Hinv Hwake] Hstep].
  - split; [constructor; cbn; try done; set_solver|done].
  - destruct Hstep as [t Hs|i t t' m c [] Hi Hrun].
    + split; [by apply call_inv|]. intros i w [Hu|[_ Hu]]%lookup_app_Some Hp Hn.
      * destruct (Hwake i w Hu Hp Hn) as (j & u & Hj & Hb). exists j, u. split; [|done]. by apply lookup_app_l_Some.
      * apply list_lookup_singleton_Some in Hu as [_ ->]. cbn in Hs. by rewrite Hs in Hp.
    + split; [|exact (wake_wakeful {| mutex := m; recorded := c; threads := <[i := t']> (threads s) |} c)].
      exact (wake_inv _ (runs_inv s i t t' m c true Hinv Hi Hrun)).
    + split; [by eapply runs_inv|by eapply runs_wakeful].
Qed.

(** * What waiting guarantees *)

(** The rest of a notification that has recorded its completion, run to its end, wakes whoever sleeps. *)
Lemma notification_wakes s i w j name pc :
  threads s !! i = Some (Wait w) → wt_pc w = WAsleep →
  threads s !! j = Some (Notify name pc) → pc = NUnlock ∨ pc = NBroadcast →
  ∃ s', rtc wait_step s s' ∧ threads s' !! i = Some (Wait (at_pc WLock w)) ∧
        threads s' !! j = Some (Notify name NDone).
Proof.
  intros Hi Hp Hj Hpc. assert (i ≠ j) as Hne by congruence.
  assert (∀ s, threads s !! i = Some (Wait w) → threads s !! j = Some (Notify name NBroadcast) →
    ∃ s', rtc wait_step s s' ∧ threads s' !! i = Some (Wait (at_pc WLock w)) ∧
          threads s' !! j = Some (Notify name NDone)) as Hlast.
  { clear s Hi Hj. intros s Hi Hj. pose proof (lookup_lt_Some _ _ _ Hj) as Hlt.
    eexists. split; [apply rtc_once; eapply (ws_run s j), r_n_broadcast; done|]. cbn.
    rewrite !list_lookup_fmap, list_lookup_insert_ne, Hi, list_lookup_insert_eq by done. cbn. by rewrite Hp. }
  destruct Hpc as [-> | ->]; [|by apply Hlast]. pose proof (lookup_lt_Some _ _ _ Hj) as Hlt.
  destruct (Hlast {| mutex := None; recorded := recorded s; threads := <[j := Notify name NBroadcast]> (threads s) |})
    as (s' & Hrun & H1 & H2); cbn; [by rewrite list_lookup_insert_ne|by rewrite list_lookup_insert_eq|].
  exists s'. split; [|done]. eapply rtc_l; [|exact Hrun].
  by apply (ws_run s j (Notify name NUnlock) (Notify name NBroadcast) None (recorded s) false Hj), r_n_unlock.
Qed.

(** C18.  No completion is missed: in every reachable state, for a request that sleeps although its
    completion is recorded there is a notification that has recorded and not yet broadcast; its
    remaining statements can run, and they wake the request.  At most one call holds the mutex. *)
Theorem no_completion_missed s :
  wait_reachable s →
  (∀ i w, threads s !! i = Some (Wait w) → wt_pc w = WAsleep → wt_Name w ∈ recorded s →
     ∃ j name pc s', threads s !! j = Some (Notify name pc) ∧ broadcasting (Notify name pc) = true ∧
       rtc wait_step s s' ∧ threads s' !! j = Some (Notify name NDone) ∧
       threads s' !! i = Some (Wait (at_pc WLock w))) ∧
  (∀ i j t u, threads s !! i = Some t → threads s !! j = Some u → holds t = true → holds u = true → i = j).
Proof.
  intros [Hinv Hwake]%wait_reachable_inv. split.
  - intros i w Hi Hp Hn. destruct (Hwake i w Hi Hp Hn) as (j & t & Hj & Hb).
    destruct t as [|name pc|]; [done| |done]. assert (pc = NUnlock ∨ pc = NBroadcast) as Hpc by (destruct pc; cbn in Hb; auto; done).
    destruct (notification_wakes s i w j name pc Hi Hp Hj Hpc) as (s' & H1 & H2 & H3).
    by exists j, name, pc, s'.
  - intros i j t u Hi Hj Ht Hu. apply (inv_mutex s Hinv _ _ Hi) in Ht. apply (inv_mutex s Hinv _ _ Hj) in Hu.
    congruence.
Qed.

(** C19.  A wait ends for a reason: when the caller has returned and its timer has not fired, the
    completion of its request was recorded. *)
Theorem wait_ends_for_a_reason s i w :
  wait_reachable s → threads s !! i = Some (Wait w) → wt_caller w = CReturned → wt_timeout w = false →
  ∃ j t, threads s !! j = Some t ∧ has_recorded (wt_Name w) t = true.
Proof.
  intros [Hinv _]%wait_reachable_inv Hi Hc Ht. destruct (inv_waiting s Hinv i w Hi) as (_ & H2 & H3 & H4 & _).
  by apply H2; [apply H3, H4|].
Qed.

(** ** Runs *)

(** One statement of thread [i], where it can run. *)
Definition run_one (i : nat) (t' : thread) (m : option nat) (c : gset string) (b : bool) (s : Shared) : Shared :=
  {| mutex := m; recorded := c;
     threads := let ts := <[i := t']> (threads s) in if b then wake <$> ts else ts |}.

Lemma run_one_reachable s i t t' m c b :
  wait_reachable s → threads s !! i = Some t → runs i (mutex s) (recorded s) t t' m c b →
  wait_reachable (run_one i t' m c b s).
Proof. intros Hs Hi Hr. eapply wr_step; [exact Hs|]. by eapply ws_run. Qed.

Definition leaked_wait : Waiting :=
  {| wt_Name := "r"; wt_pc := WAsleep; wt_caller := CReturned; wt_timeout := true; wt_complete := false |}.

Definition one (m : option nat) (w : Waiting) : Shared := {| mutex := m; recorded := ∅; threads := [Wait w] |}.

Lemma one_start name : wait_reachable (one None (new_wait name)).
Proof. exact (wr_step _ _ wr_start (ws_call _ (Wait (new_wait name)) eq_refl)). Qed.

Lemma one_runs m w w' m' b :
  wait_reachable (one m w) → runs 0 m ∅ (Wait w) (Wait w') m' ∅ b → wt_pc w' ≠ WAsleep ∨ b = false →
  wait_reachable (one m' w').
Proof.
  intros Hs Hr Hb. pose proof (run_one_reachable _ 0 (Wait w) (Wait w') m' ∅ b Hs eq_refl Hr) as H.
  unfold run_one, one in *. cbn in H. destruct b; [|done]. cbn in H. destruct Hb as [Hb|]; [|done].
  by destruct (wt_pc w').
Qed.

(** C40.  The wake-up of a timeout can be lost: the flag is set and broadcast without the mutex, so
    when the timer fires between the test of the loop and [cond.Wait()], the caller returns and its
    goroutine sleeps on, with nothing left that could run. *)
Theorem timeout_wakeup_lost :
  ∃ s, wait_reachable s ∧ threads s = [Wait leaked_wait] ∧
    ∀ i t t' m c b, threads s !! i = Some t → ¬ runs i (mutex s) (recorded s) t t' m c b.
Proof.
  exists (one None leaked_wait). split; [|split; [done|]].
  - pose proof (one_start "r") as H0.
    eapply one_runs in H0; [|by apply r_lock|by left].
    eapply one_runs in H0; [|by apply r_again; [|set_solver|]|by left].
    eapply one_runs in H0; [|by apply r_timeout|by left].
    eapply one_runs in H0; [|by apply r_timeout_broadcast|by left].
    eapply one_runs in H0; [|by apply r_wait|by right]. exact H0.
  - intros [|i] t t' m c b; [|done]. intros [= <-] Hr. inversion Hr; subst; done.
Qed.

(** A completion that arrives while its request sleeps. *)
Definition asleep : Waiting := at_pc WAsleep (new_wait "r").
Definition notified : Shared :=
  {| mutex := None; recorded := {["r"]}; threads := [Wait asleep; Notify "r" NBroadcast] |}.

Lemma notified_reachable : wait_reachable notified.
Proof.
  pose proof (one_start "r") as H0.
  eapply one_runs in H0; [|by apply r_lock|by left].
  eapply one_runs in H0; [|by apply r_again; [|set_solver|]|by left].
  eapply one_runs in H0; [|by apply r_wait|by right].
  pose proof (wr_step _ _ H0 (ws_call _ (Notify "r" NLock) eq_refl)) as H1. clear H0. rename H1 into H0.
  eapply (run_one_reachable _ 1) in H0; [|done|by apply r_n_lock].
  eapply (run_one_reachable _ 1) in H0; [|done|by apply r_n_record].
  eapply (run_one_reachable _ 1) in H0; [|done|by apply r_n_unlock].
  unfold run_one in H0. cbn in H0. rewrite (union_empty_r_L {["r"]}) in H0. exact H0.
Qed.

Lemma no_completion_missed_witness :
  ∃ j name pc s', threads notified !! j = Some (Notify name pc) ∧ broadcasting (Notify name pc) = true ∧
    rtc wait_step notified s' ∧ threads s' !! j = Some (Notify name NDone) ∧
    threads s' !! 0 = Some (Wait (at_pc WLock asleep)).
Proof.
  apply (proj1 (no_completion_missed notified notified_reachable) 0 asleep eq_refl eq_refl).
  vm_compute. reflexivity.
Defined.

(** The wait goes on until its caller returns. *)
Definition served : Waiting := caller_at CReturned false (sent asleep).

Lemma served_reachable :
  wait_reachable {| mutex := None; recorded := {["r"]}; threads := [Wait served; Notify "r" NDone] |}.
Proof.
  pose proof notified_reachable as H0.
  eapply (run_one_reachable _ 1) in H0; [|done|by apply r_n_broadcast].
  eapply (run_one_reachable _ 0) in H0; [|done|by apply r_lock].
  eapply (run_one_reachable _ 0) in H0; [|done|apply r_found; [done|left; cbn; set_solver]].
  eapply (run_one_reachable _ 0) in H0; [|done|by apply r_unlock].
  eapply (run_one_reachable _ 0) in H0; [|done|by apply r_send].
  eapply (run_one_reachable _ 0) in H0; [|done|by apply r_complete]. exact H0.
Qed.

Lemma wait_ends_for_a_reason_witness :
  ∃ j t, [Wait served; Notify "r" NDone] !! j = Some t ∧ has_recorded "r" t = true.
Proof.
  exact (wait_ends_for_a_reason {| mutex := None; recorded := {["r"]}; threads := [Wait served; Notify "r" NDone] |}
    0 served served_reachable eq_refl eq_refl eq_refl).
Defined.
