(* ===== verification/DriverProps.v ===== *)
(** What the copy offload driver looks up: the keys of requests, waiting times, the
    mounts of computes and rabbits, and profiles. *)
From S2P Require Import Prelude GoMonad GoStrings GoPath Api Dcp Command Env Hosts Dest Reconciler OffloadApi Driver Server.

(** * Keys *)

(** A text in which the separator first occurs right behind it splits there. *)
Lemma split_go_first sep a b cur :
  sep ≠ "" → cut sep (a +:+ sep +:+ b) = Some (a, b) →
  split_go sep (a +:+ sep +:+ b) cur 0 = (cur +:+ a) :: Split b sep.
Proof.
  intros Hsep. revert cur. induction a as [|c a IH]; intros cur.
  - rewrite string_app_nil_l, string_app_nil_r. intros _. by apply split_go_sep.
  - rewrite string_app_cons. cbn [cut split_go]. intros Hcut.
    destruct (strip_prefix sep (String c (a +:+ sep +:+ b))) as [r|] eqn:E; [by injection Hcut|].
    destruct (cut sep (a +:+ sep +:+ b)) as [[x y]|] eqn:Ec; [|done]. injection Hcut as -> ->.
    rewrite IH by done. by rewrite <- string_app_assoc, string_app_cons.
Qed.

Lemma split_go_none sep s cur :
  cut sep s = None → split_go sep s cur 0 = [cur +:+ s].
Proof.
  revert cur. induction s as [|c s IH]; intros cur; cbn [cut split_go]; [by rewrite string_app_nil_r|].
  destruct (strip_prefix sep (String c s)); [done|]. destruct (cut sep s) as [[x y]|]; [done|].
  intros _. rewrite IH by done. by rewrite <- string_app_assoc, string_app_cons.
Qed.

Lemma strip_dashes c s :
  strip_prefix "--" (String c s)
  = if Ascii.eqb "-" c then match s with String d s' => if Ascii.eqb "-" d then Some s' else None | _ => None end
    else None.
Proof. done. Qed.

(** Two dashes behind a text without two dashes that does not end in one. *)
Lemma cut_dashes ns rest :
  cut "--" (ns +:+ "-") = None → cut "--" (ns +:+ "--" +:+ rest) = Some (ns, rest).
Proof.
  induction ns as [|c ns IH]; [done|]. rewrite !(string_app_cons c ns). cbn [cut].
  destruct (strip_prefix "--" (String c (ns +:+ "-"))) as [r|] eqn:E; [done|].
  destruct (cut "--" (ns +:+ "-")) as [[x y]|]; [done|]. intros _. rewrite IH by done.
  destruct (strip_prefix "--" (String c (ns +:+ "--" +:+ rest))) as [r|] eqn:E'; [|done]. exfalso. revert E E'.
  rewrite !strip_dashes. destruct ns as [|d ns]; [by destruct (Ascii.eqb "-" c)|].
  rewrite !string_app_cons. destruct (Ascii.eqb "-" c); [|done]. by destruct (Ascii.eqb "-" d).
Qed.

(** The key of a request names its resource: splitting [<namespace>--<name>] gives the namespace
    and the name back, when neither has two dashes in a row and the namespace does not end in one. *)
Theorem dmKey_roundtrip dm :
  Contains (Namespace (dm_Meta dm) +:+ "-") "--" = false → Contains (Name (dm_Meta dm)) "--" = false →
  dmKeySplit (dmKey dm) = Ret (dm_key dm).
Proof.
  intros Hns%cut_not_contains Hn%cut_not_contains. unfold dmKeySplit, dmKey, Split.
  rewrite (split_go_first "--") by (done || by apply cut_dashes). unfold Split. rewrite split_go_none by done. done.
Qed.

Definition keyed_dm (namespace name : string) : NnfDataMovement :=
  let dm := new_dm nameBase namespace ∅ {| Path := ""; StorageReference := no_reference |}
              {| Path := ""; StorageReference := no_reference |} in
  set_meta (set_Name name (dm_Meta dm)) dm.

Lemma dmKey_roundtrip_witness :
  dmKeySplit (dmKey (keyed_dm "rabbit-1" "nnf-copy-offload-x7k2p")) = Ret ("rabbit-1", "nnf-copy-offload-x7k2p").
Proof.
  apply (dmKey_roundtrip (keyed_dm "rabbit-1" "nnf-copy-offload-x7k2p")); vm_compute; reflexivity.
Defined.

(** With two dashes in the name the key names another resource, and a text without two dashes is a
    panic. *)
Example dmKeySplit_limits :
  dmKeySplit (dmKey (keyed_dm "rabbit-1" "copy--2")) = Ret ("rabbit-1", "copy")
  ∧ dmKeySplit "unknown" = Panic "index out of range".
Proof. split; vm_compute; reflexivity. Qed.

(** * Waiting *)

(** The time a status request waits never overflows: a negative number of seconds, or one too
    large for a duration, is the longest duration there is, and any other number is exactly that
    many seconds. *)
Theorem maxWaitTimeDuration_exact secs :
  (int64_min ≤ secs ≤ int64_max)%Z →
  (0 ≤ maxWaitTimeDuration secs ≤ int64_max)%Z ∧
  ((0 ≤ secs)%Z → (secs * 1000000000 ≤ int64_max)%Z → maxWaitTimeDuration secs = (secs * 1000000000)%Z) ∧
  ((secs < 0)%Z ∨ (int64_max < secs * 1000000000)%Z → maxWaitTimeDuration secs = int64_max).
Proof.
  intros Hs. unfold maxWaitTimeDuration, to_int64, int64_max, int64_min in *.
  change ((2 ^ 63 - 1) / 1000000000)%Z with 9223372036%Z.
  destruct (Z.ltb_spec secs 0); [split_and!; cbn [orb]; lia|].
  destruct (Z.ltb_spec 9223372036 secs); cbn [orb]; [split_and!; lia|].
  rewrite Z.mod_small by lia. split_and!; lia.
Qed.

Lemma maxWaitTimeDuration_exact_witness : maxWaitTimeDuration 30 = 30000000000%Z.
Proof.
  destruct (maxWaitTimeDuration_exact 30) as (_ & H & _); [unfold int64_min, int64_max; lia|].
  apply H; [lia|unfold int64_max; lia].
Defined.

(** * Mounts and profiles *)

Section Lookups.
Context {W : Type} {kube : Kube W} {os : OS W} {okube : OffloadKube W}.
Context (drvr : DriverConfig).

(** The first mount of the device. *)
Lemma rabbit_mount_found ref mounts path :
  rabbit_mount ref mounts = Ret (Some path) →
  ∃ before mount after, mounts = before ++ mount :: after ∧ MountPath mount = path ∧ DeviceRef mount = ref ∧
    is_Some ref ∧ ∀ m, m ∈ before → DeviceRef m ≠ ref.
Proof.
  induction mounts as [|m mounts IH]; [done|]. cbn [rabbit_mount].
  destruct ref as [wanted|]; [|done]. destruct (DeviceRef m) as [given|] eqn:Ed; [|done]. cbn.
  case_bool_decide as Hw.
  - intros [= <-]. subst. exists [], m, mounts. split_and!; [done..|]. by intros x ?%elem_of_nil.
  - intros (before & x & after & -> & Hp & Hr & Hs & Hb)%IH. exists (m :: before), x, after. split_and!; [done..|].
    intros y [->|Hy]%elem_of_cons; [congruence|by apply Hb].
Qed.

Lemma compute_mount_found path cm mounts mount :
  compute_mount path cm mounts = Ret (Some mount) →
  mount ∈ mounts ∧ HasPrefix path (MountPath mount) = true.
Proof.
  induction mounts as [|m mounts IH]; [done|]. cbn [compute_mount].
  destruct (HasPrefix path (MountPath m)) eqn:Hp.
  - destruct (_ && _); [done|]. intros [= <-]. split; [by left|done].
  - intros [Hin ?]%IH. split; [by right|done].
Qed.

Lemma compute_mounts_found path cms cm mount :
  compute_mounts path cms = Ret (cm, mount) →
  cm ∈ cms ∧ mount ∈ Mounts cm ∧ HasPrefix path (MountPath mount) = true.
Proof.
  induction cms as [|c cms IH]; [done|]. cbn [compute_mounts].
  destruct (compute_mount path c (Mounts c)) as [[m|]|e|p] eqn:E; cbn; [| |done|done].
  - intros [= <- <-]. apply compute_mount_found in E. split; [by left|done].
  - intros (Hin & ?)%IH. split; [by right|done].
Qed.

(** C32.  The source on the rabbit is the source on the compute with the mount point exchanged: the path
    asked for is the path of a mount that a client mount of the compute has, followed by some text, and the path
    on the rabbit is the path of the first mount among the client mounts listed for the rabbit that has
    the same device reference, followed by the same text. *)
Theorem source_translated dmreq cm mount w w1 rabbit source w2 :
  findComputeMountInfo drvr dmreq w = (Ret (cm, mount), w1) →
  findRabbitRelativeSource drvr rabbit dmreq mount w1 = (Ret source, w2) →
  ∃ computeMounts rabbitMounts before rabbitMount after rest,
    listClientMounts (ComputeName dmreq) (workflow_match drvr) w = (Ret computeMounts, w1) ∧
    cm ∈ computeMounts ∧ mount ∈ Mounts cm ∧ SourcePath dmreq = MountPath mount +:+ rest ∧
    listClientMounts rabbit (workflow_match drvr) w1 = (Ret rabbitMounts, w2) ∧
    all_mounts rabbitMounts = before ++ rabbitMount :: after ∧
    DeviceRef rabbitMount = DeviceRef mount ∧ is_Some (DeviceRef mount) ∧
    (∀ m, m ∈ before → DeviceRef m ≠ DeviceRef mount) ∧
    source = MountPath rabbitMount +:+ rest.
Proof.
  unfold findComputeMountInfo. intros (cms & w3 & Hcms & H)%bind_Ret_inv H2.
  destruct cms as [|c0 cms]; [done|]. apply lift_Ret_inv in H as [Hcm ->].
  apply compute_mounts_found in Hcm as (Hc & Hm & Hp). apply HasPrefix_iff in Hp as [rest Hrest].
  unfold findRabbitRelativeSource in H2. apply bind_Ret_inv in H2 as (rms & w4 & Hrms & H2).
  destruct rms as [|r0 rms]; [done|]. apply bind_Ret_inv in H2 as (found & w5 & Hf & H2).
  apply lift_Ret_inv in Hf as [Hf ->]. destruct found as [path|]; [|done].
  apply rabbit_mount_found in Hf as (before & rm & after & Hall & Hpath & Href & Hsome & Hb).
  apply ret_inv in H2 as [<- ->]. exists (c0 :: cms), (r0 :: rms), before, rm, after, rest.
  split_and!; [done..|]. by rewrite Hrest, TrimPrefix_app, Hpath.
Qed.

(** Without a profile in the request the profile is the one profile marked as the default: if
    none or several are, the request is refused, and in any case the profile used is read by its
    name from the same namespace. *)
Theorem selectProfile_default dmreq profiles w w1 :
  DMProfile dmreq = "" → listProfiles "nnf-system" w = (Ret profiles, w1) →
  let defaults := List.filter (λ p, Default (p_Data p)) profiles in
  match selectProfile dmreq w with
  | (Ret profile, w2) => ∃ p, defaults = [p] ∧ getProfile ("nnf-system", p_Name p) w1 = (Ret profile, w2)
  | (Fail _, w2) => (length defaults ≠ 1 ∧ w2 = w1)
                    ∨ ∃ p e, defaults = [p] ∧ getProfile ("nnf-system", p_Name p) w1 = (Fail e, w2)
  | (Panic _, w2) => ∃ p x, defaults = [p] ∧ getProfile ("nnf-system", p_Name p) w1 = (Panic x, w2)
  end.
Proof.
  intros Hp Hl defaults. unfold selectProfile. rewrite Hp. cbn [String.eqb].
  unfold mbind, M_bind at 1 2. rewrite Hl. fold defaults.
  destruct defaults as [|p [|q ps]]; cbn [map].
  - left. split; [cbn; lia|done].
  - unfold mret, M_ret, map_err. destruct (getProfile ("nnf-system", p_Name p) w1) as [[pr|e|x] w2] eqn:E;
      [by exists p|right; by exists p, e|by exists p, x].
  - left. split; [cbn; lia|done].
Qed.
End Lookups.

Definition sample_request : DMRequest :=
  {| ComputeName := "compute-1"; SourcePath := "/mnt/nnf/job/out"; DestinationPath := "/lus/out";
     q_Dryrun := false; q_DcpOptions := ""; q_LogStdout := false; q_StoreStdout := false;
     q_Slots := -1; q_MaxSlots := -1; DMProfile := ""; q_MpirunOptions := "" |}.

Definition sample_mount (path : string) : ClientMountInfo :=
  {| MountPath := path; MountType := "gfs2"; DeviceType := "reference";
     DeviceRef := Some ({| Kind := "NnfNodeStorage"; RefName := "store"; RefNamespace := "rabbit-1" |}, 0%Z) |}.

(** The mount of a source is found by text, not by path elements: "/mnt/nnf2/x" is taken to be below
    the mount "/mnt/nnf". *)
Example mount_prefix_is_text :
  compute_mounts "/mnt/nnf2/x"
    [{| cm_Name := "cm"; cm_Namespace := "compute-1"; cm_Labels := None; Mounts := [sample_mount "/mnt/nnf"] |}]
  = Ret ({| cm_Name := "cm"; cm_Namespace := "compute-1"; cm_Labels := None; Mounts := [sample_mount "/mnt/nnf"] |},
         sample_mount "/mnt/nnf").
Proof. vm_compute. reflexivity. Qed.
