(* ===== verification/DriverRun.v ===== *)
(** Running commands of the copy offload daemon: how they are tracked from the
    request to their end, and what the HTTP handlers make of that. *)
From Stdlib Require Import Sorted.
From S2P Require Import Prelude GoMonad GoStrings GoPath Api Dcp Command Env Hosts Dest Reconciler OffloadApi Driver Server.

Lemma sort_strings_ne l : l ≠ [] → sort_strings l ≠ [].
Proof.
  destruct l as [|x l]; [done|]. intros _. change (insert_sorted x (sort_strings l) ≠ []).
  destruct (sort_strings l) as [|y l']; [done|]. unfold insert_sorted. by destruct (_ : bool).
Qed.

Lemma insert_sorted_elem x y l : y ∈ insert_sorted x l ↔ y = x ∨ y ∈ l.
Proof.
  induction l as [|z l IH]; cbn; [by rewrite list_elem_of_singleton, elem_of_nil; tauto|].
  destruct (String.leb x z); rewrite !elem_of_cons; [done|]. rewrite IH. tauto.
Qed.

Lemma sort_strings_elem x l : x ∈ sort_strings l ↔ x ∈ l.
Proof.
  induction l as [|y l IH]; cbn; [done|]. change (foldr insert_sorted [] l) with (sort_strings l).
  by rewrite insert_sorted_elem, elem_of_cons, IH.
Qed.

Lemma insert_sorted_sorted x l :
  Sorted (λ x y, String.leb x y) l → Sorted (λ x y, String.leb x y) (insert_sorted x l).
Proof.
  induction 1 as [|y l Hs IH Hd]; cbn; [by repeat constructor|].
  destruct (String.leb x y) eqn:E; [constructor; [by constructor|constructor; by rewrite E]|].
  constructor; [done|]. assert (String.leb y x) as Hyx.
  { destruct (String.leb_total x y) as [H|H]; [by rewrite E in H|by rewrite H]. }
  destruct Hd as [|z l Hz]; cbn; [by constructor|]. destruct (String.leb x z); by constructor.
Qed.

Lemma sort_strings_sorted l : Sorted (λ x y, String.leb x y) (sort_strings l).
Proof. induction l as [|x l IH]; cbn; [constructor|by apply insert_sorted_sorted]. Qed.

Lemma elem_of_map_keys {A} (m : gmap string A) name : name ∈ (fst <$> map_to_list m) ↔ is_Some (m !! name).
Proof.
  rewrite list_elem_of_fmap. split.
  - intros ([k a] & -> & H%elem_of_map_to_list). by exists a.
  - intros [a H%elem_of_map_to_list]. by exists (name, a).
Qed.

Lemma map_to_list_not_empty_keys {A} (m : gmap string A) :
  m ≠ ∅ → sort_strings (fst <$> map_to_list m) ≠ [].
Proof.
  intros Hm. apply sort_strings_ne. intros He%fmap_nil_inv. apply map_to_list_empty_iff in He. done.
Qed.

Section Run.
Context {W : Type} {kube : Kube W} {os : OS W} {okube : OffloadKube W}.
Context (drvr : DriverConfig) (Hmock : Mock drvr = false).

(** * The end of a command *)

(** Where every buffered line parses, what [cmd.Wait()] returned is overwritten. *)
Lemma offload_progress_overwrites r e1 e2 w c w1 :
  parse_lines (r_progressStart r) (buffered_lines (r_parseBuf r)) (r_cmdStatus r) w = (Ret (c, None), w1) →
  offload_progress drvr r e1 w = offload_progress drvr r e2 w.
Proof.
  intros E. unfold offload_progress. rewrite !(bind_Ret _ _ _ _ _ E). cbn [snd]. by rewrite Hmock.
Qed.

(** C37.  With progress collection on, the exit status of a copy offload command has no effect at
    all: the last progress collection assigns its own result to the variable that holds it, so
    whenever the output that is left parses, the end of the command is the same for every exit
    status, and a command that failed is recorded as a success. *)
Theorem offload_exit_status_ignored r err s c w1 :
  ProgressCollectionEnabled (progressCollectInterval (r_profile r)) = true →
  parse_lines (r_progressStart r) (buffered_lines (r_parseBuf r)) (r_cmdStatus r) (d_world s)
  = (Ret (c, None), w1) →
  finish_offload drvr r (Some err) s = finish_offload drvr r None s.
Proof.
  intros Hen E. unfold finish_offload. rewrite Hen. unfold mbind, M_bind at 1 3.
  assert (collect_progress drvr r (Some err) s = collect_progress drvr r None s) as ->; [|done].
  unfold collect_progress, d_io, mbind, M_bind.
  by rewrite (offload_progress_overwrites r (Some err) None _ _ _ E).
Qed.

(** When the resource cannot be read at the end of a command, the goroutine ends and leaves
    everything behind: the record of the request stays in the map, no completion is recorded, and the
    directory of the hostfile is not removed. *)
Theorem failed_final_read_leaks r err s e w' :
  ProgressCollectionEnabled (progressCollectInterval (r_profile r)) = false →
  getDM (r_req r) (d_world s) = (Fail e, w') →
  finish_offload drvr r err s = (Ret tt, d_set_world w' s).
Proof.
  intros Hen E. unfold finish_offload. rewrite Hen, Hmock.
  unfold attempt, d_io, mbind, M_bind, mret, M_ret. by rewrite E.
Qed.

(** * The machine *)

Definition routine_key (r : Routine) : string := dmKey (r_dm r).

(** Every running command has its record, under a key of its own. *)
Definition tracked (s : DSys W) : Prop :=
  (∀ r, r ∈ d_routines s →
    ∃ record, d_contexts s !! routine_key r = Some record ∧ rec_Ctx record = r_ctx r) ∧
  NoDup (routine_key <$> d_routines s).

Inductive offload_step (s : DSys W) : DSys W → Prop :=
(** a request; the server gives a resource a name of its own *)
| os_request dmreq key dm req s1 o s2 :
    Create drvr dmreq s = (Ret (key, dm, req), s1) → d_contexts s !! key = None →
    Drive drvr req dm s1 = (o, s2) → (∀ p, o ≠ Panic p) → offload_step s s2
(** a request that is refused, or whose handler panics: the HTTP server recovers *)
| os_refused dmreq o s1 : Create drvr dmreq s = (o, s1) → (∀ x, o ≠ Ret x) → offload_step s s1
| os_cancel name o s1 : CancelRequest name s = (o, s1) → offload_step s s1
| os_reap name o s1 : deleteCompletionByName name s = (o, s1) → offload_step s s1
| os_output rs1 r rs2 text :
    d_routines s = rs1 ++ r :: rs2 → offload_step s (d_set_routines (rs1 ++ add_output text r :: rs2) s)
| os_progress rs1 r rs2 err r' err' s1 :
    d_routines s = rs1 ++ r :: rs2 → collect_progress drvr r err s = (Ret (r', err'), s1) →
    offload_step s (d_set_routines (rs1 ++ r' :: rs2) s1)
| os_finish rs1 r rs2 err s1 :
    d_routines s = rs1 ++ r :: rs2 →
    finish_offload drvr r err (d_set_routines (rs1 ++ rs2) s) = (Ret tt, s1) → offload_step s s1
| os_shutdown user jwtParse req o s1 :
    ShutdownRequest (W:=W) user jwtParse req s = (o, s1) → offload_step s s1
(** the sleep is over *)
| os_exit : d_stopping s = true → offload_step s (d_exit s)
| os_world w' : offload_step s (d_set_world w' s).

Definition idle_driver (s : DSys W) : Prop := d_contexts s = ∅ ∧ d_routines s = [].

Inductive offload_reachable : DSys W → Prop :=
| or_start s : idle_driver s → offload_reachable s
| or_step s s' : offload_reachable s → offload_step s s' → offload_reachable s'.

(** ** What calls keep *)

Definition d_view (s : DSys W) : gmap string SrvrDataMovementRecord * list Routine :=
  (d_contexts s, d_routines s).

Lemma d_io_view {A} (m : M W A) : preserves d_view (d_io m).
Proof. done. Qed.

Lemma d_gets_view {A} (f : DSys W → A) : preserves d_view (d_gets f).
Proof. done. Qed.

Hint Resolve d_io_view d_gets_view : go_frame.

Lemma collect_progress_view r err : preserves d_view (collect_progress drvr r err).
Proof. unfold collect_progress. rewrite Hmock. walk idtac. Qed.

Lemma tracked_view s s' : d_view s' = d_view s → tracked s → tracked s'.
Proof. intros [= Hc Hr]. unfold tracked. by rewrite Hc, Hr. Qed.

(** The record of a new request, and the goroutine that [Drive] starts. *)
Lemma Create_records dmreq s key dm req s1 :
  Create drvr dmreq s = (Ret (key, dm, req), s1) →
  key = dmKey dm ∧
  d_contexts s1 = <[key := {| rec_Ctx := d_next s; mockDM := None |}]> (d_contexts s) ∧
  d_routines s1 = d_routines s.
Proof.
  unfold Create. intros (created & s2 & E & H)%bind_Ret_inv.
  pose proof (preserves_eq d_view _ _ _ _ (d_io_view _) E) as [= Hc Hr].
  assert (d_next s2 = d_next s) as Hn.
  { unfold d_io in E. by injection E as _ <-. }
  apply bind_Ret_inv in H as ([] & s3 & E3 & H). apply ret_inv in H as [[= <- <- <-] <-].
  unfold recordRequest, d_gets, d_modify, mbind, M_bind in E3. rewrite Hmock in E3. injection E3 as <-.
  cbn. by rewrite Hc, Hr, Hn.
Qed.

Lemma Create_refused dmreq s o s1 :
  Create drvr dmreq s = (o, s1) → (∀ x, o ≠ Ret x) → d_view s1 = d_view s.
Proof.
  unfold Create, d_io, recordRequest, d_gets, d_modify, mbind, M_bind, mret, M_ret.
  destruct (create_request drvr dmreq (d_world s)) as [[a|e1|p] w1]; cbn; intros [= <- <-] Hno; [|done|done].
  by destruct (Hno (dmKey (snd a), snd a, fst a)).
Qed.

Lemma driveWithContext_effect req ctx dm s o s1 :
  driveWithContext drvr req ctx dm s = (o, s1) →
  match o with
  | Ret _ => ∃ r, r_dm r = dm ∧ r_ctx r = ctx ∧ d_contexts s1 = d_contexts s ∧ d_routines s1 = r :: d_routines s
  | _ => d_view s1 = d_view s
  end.
Proof.
  unfold driveWithContext. rewrite Hmock. unfold mbind at 1, M_bind at 1.
  pose proof (d_io_view (RetryOnConflict DefaultRetry
    (get_and_update (dm_key dm) (setStart (command_status (cmdArgs req))))) s) as Hv.
  destruct (d_io (RetryOnConflict _ _) s) as [[[]|e|p] s2]; cbn [snd] in Hv;
    [|by intros [= <- <-]|by intros [= <- <-]].
  unfold runit, mbind at 1, M_bind at 1. set (m := if ProgressCollectionEnabled _ then _ else _).
  assert (preserves d_view m) as Hm by (unfold m; by destruct (ProgressCollectionEnabled _)).
  specialize (Hm s2). destruct (m s2) as [[t|e|p] s3]; cbn [snd] in Hm; rewrite Hv in Hm;
    [|by intros [= <- <-]|by intros [= <- <-]].
  injection Hm as Hc Hr. intros [= <- <-]. eexists. split_and!; [| | |cbn; by rewrite Hr]; done.
Qed.

Lemma Drive_outcome req dm s record o s' :
  d_contexts s !! dmKey dm = Some record → Drive drvr req dm s = (o, s') → (∀ p, o ≠ Panic p) →
  match o with
  | Ret _ => ∃ r, r_dm r = dm ∧ r_ctx r = rec_Ctx record ∧ d_contexts s' = d_contexts s
                  ∧ d_routines s' = r :: d_routines s
  | _ => d_contexts s' = delete (dmKey dm) (d_contexts s) ∧ d_routines s' = d_routines s
  end.
Proof.
  intros Hrec E Hnp. unfold Drive in E.
  assert (loadRequest dm s = (Ret record, s)) as Hload.
  { unfold loadRequest, loadRequestByName. by rewrite Hrec. }
  unfold mbind at 1, M_bind at 1 in E. rewrite Hload in E. unfold attempt, mbind, M_bind in E.
  destruct (driveWithContext drvr req (rec_Ctx record) dm s) as [o1 s1] eqn:Ed.
  apply driveWithContext_effect in Ed. destruct o1 as [[]|e|p]; [|injection Ed as Hc Hr|].
  - injection E as <- <-. exact Ed.
  - unfold d_io, deleteRequest, notifyCompletion, d_modify, mret, M_ret, fail in E.
    destruct (removeAll (Dir (mpiHostfile req)) (d_world s1)) as [[[]|e1|p1] w1]; cbn in E;
      injection E as <- <-; cbn; [by rewrite Hc, Hr|by rewrite Hc, Hr|by destruct (Hnp p1)].
  - injection E as <- _. by destruct (Hnp p).
Qed.

Lemma Drive_effect req dm s record o s' :
  d_contexts s !! dmKey dm = Some record → Drive drvr req dm s = (o, s') → (∀ p, o ≠ Panic p) →
  (∃ r, r_dm r = dm ∧ r_ctx r = rec_Ctx record ∧ d_contexts s' = d_contexts s
        ∧ d_routines s' = r :: d_routines s)
  ∨ (d_contexts s' = delete (dmKey dm) (d_contexts s) ∧ d_routines s' = d_routines s).
Proof.
  intros Hrec E Hnp. pose proof (Drive_outcome req dm s record o s' Hrec E Hnp) as H.
  destruct o; [by left|by right|by right].
Qed.

Lemma finish_offload_effect r err s s' :
  finish_offload drvr r err s = (Ret tt, s') →
  d_routines s' = d_routines s ∧
  (d_contexts s' = d_contexts s ∨ d_contexts s' = delete (routine_key r) (d_contexts s)).
Proof.
  unfold finish_offload. intros ([r1 e1] & s1 & E1 & H)%bind_Ret_inv. cbv beta iota in H. rewrite Hmock in H.
  assert (d_view s1 = d_view s ∧ r_dm r1 = r_dm r) as [[= Hc Hr] Hdm].
  { destruct (ProgressCollectionEnabled _); [|by apply ret_inv in E1 as [[= <- _] <-]].
    split; [by apply (preserves_eq d_view _ _ _ _ (collect_progress_view r err) E1)|].
    unfold collect_progress in E1. rewrite Hmock in E1. apply bind_Ret_inv in E1 as (p & s2 & E2 & E1).
    apply bind_Ret_inv in E1 as ([] & s3 & _ & E1). apply ret_inv in E1 as [-> _].
    unfold d_io in E2. destruct (offload_progress drvr r err (d_world s)) as [o w2] eqn:E3. cbn in E2.
    injection E2 as -> _. unfold offload_progress in E3. apply bind_Ret_inv in E3 as ([c [u|]] & w3 & _ & E3).
    - apply ret_inv in E3 as [[= <- _] _]. done.
    - cbn [snd] in E3. rewrite Hmock in E3. apply bind_Ret_inv in E3 as (u & w4 & _ & E3).
      apply ret_inv in E3 as [[= <- _] _]. done. }
  apply bind_Ret_inv in H as (got & s2 & E2 & H).
  pose proof (preserves_eq d_view _ _ _ _ (preserves_attempt _ _ (d_io_view _)) E2) as [= Hc2 Hr2].
  destruct got as [e|dm]; [apply ret_inv in H as [_ <-]; split; [congruence|left; congruence]|].
  apply bind_Ret_inv in H as (now & s3 & E3 & H).
  pose proof (preserves_eq d_view _ _ _ _ (d_io_view _) E3) as [= Hc3 Hr3].
  apply bind_Ret_inv in H as (isc & s4 & E4 & H). pose proof (preserves_eq d_view _ _ _ _ (d_gets_view _) E4) as [= Hc4 Hr4].
  apply bind_Ret_inv in H as (u5 & s5 & E5 & H). pose proof (preserves_eq d_view _ _ _ _ (d_io_view _) E5) as [= Hc5 Hr5].
  apply bind_Ret_inv in H as ([] & s6 & E6 & H).
  assert (d_view s6 = d_view s5) as [= Hc6 Hr6].
  { apply bind_Ret_inv in E6 as (u7 & s7 & E7 & E6). apply ret_inv in E6 as [_ <-].
    by apply (preserves_eq d_view _ _ _ _ (preserves_attempt _ _ (d_io_view _)) E7). }
  apply bind_Ret_inv in H as ([] & s7 & E7 & H). unfold deleteRequest, d_modify in E7. injection E7 as <-.
  unfold notifyCompletion, d_modify in H. injection H as <-. cbn.
  split; [congruence|]. right. unfold routine_key. rewrite <- Hdm. congruence.
Qed.
(** ** Every step keeps the tracking *)

Lemma tracked_fresh s key :
  tracked s → d_contexts s !! key = None → key ∉ routine_key <$> d_routines s.
Proof.
  intros [Ht _] Hk (r & -> & Hr)%list_elem_of_fmap. destruct (Ht r Hr) as (record & Hrec & _). congruence.
Qed.

Lemma request_tracked s dmreq key dm req s1 o s2 :
  tracked s → Create drvr dmreq s = (Ret (key, dm, req), s1) → d_contexts s !! key = None →
  Drive drvr req dm s1 = (o, s2) → (∀ p, o ≠ Panic p) → tracked s2.
Proof.
  intros Ht Ec Hfresh Ed Hnp. pose proof (tracked_fresh s key Ht Hfresh) as Hnew. destruct Ht as [Ht Hn].
  destruct (Create_records _ _ _ _ _ _ Ec) as (-> & Hc1 & Hr1).
  assert (∀ r, r ∈ d_routines s → routine_key r ≠ dmKey dm) as Hother.
  { intros r Hr Heq. apply Hnew. rewrite <- Heq. by apply list_elem_of_fmap_2. }
  destruct (Drive_effect req dm s1 {| rec_Ctx := d_next s; mockDM := None |} o s2)
    as [(r & Hdm & Hctx & Hc2 & Hr2)|[Hc2 Hr2]]; [by rewrite Hc1, lookup_insert_eq|done|done| |].
  - assert (routine_key r = dmKey dm) as Hkey by (unfold routine_key; by rewrite Hdm).
    split; rewrite Hr2, Hr1.
    + rewrite Hc2, Hc1. intros x [->|Hx]%elem_of_cons.
      * rewrite Hkey, lookup_insert_eq. by eexists.
      * rewrite lookup_insert_ne by (intros Heq; by apply (Hother x Hx)). by apply Ht.
    + rewrite fmap_cons. constructor; [by rewrite Hkey|done].
  - split; rewrite Hr2, Hr1; [|done]. intros x Hx. rewrite Hc2, Hc1, delete_insert_eq.
    rewrite lookup_delete_ne by (intros Heq; by apply (Hother x Hx)). by apply Ht.
Qed.

Lemma finish_tracked s rs1 r rs2 err s1 :
  tracked s → d_routines s = rs1 ++ r :: rs2 →
  finish_offload drvr r err (d_set_routines (rs1 ++ rs2) s) = (Ret tt, s1) → tracked s1.
Proof.
  intros [Ht Hn] Hrs E. apply finish_offload_effect in E as [Hr Hc]. cbn in Hr, Hc.
  rewrite Hrs, fmap_app, fmap_cons in Hn. apply NoDup_app in Hn as (N1 & N2 & [N3 N4]%NoDup_cons).
  split; rewrite Hr.
  - intros x Hx. assert (x ∈ d_routines s) as Hx'.
    { rewrite Hrs, elem_of_app, elem_of_cons. apply elem_of_app in Hx. tauto. }
    assert (routine_key x ≠ routine_key r) as Hne.
    { intros Heq. apply elem_of_app in Hx as [Hx|Hx].
      - apply (N2 (routine_key x)); [by apply list_elem_of_fmap_2|rewrite Heq; by left].
      - apply N3. rewrite <- Heq. by apply list_elem_of_fmap_2. }
    destruct Hc as [->| ->]; [by apply Ht|]. rewrite lookup_delete_ne by done. by apply Ht.
  - rewrite fmap_app. apply NoDup_app. split; [done|]. split; [|done]. intros k Hk Hk'.
    by apply (N2 k Hk); right.
Qed.

Lemma offload_progress_dm r err w r' err' w' :
  offload_progress drvr r err w = (Ret (r', err'), w') → r_dm r' = r_dm r ∧ r_ctx r' = r_ctx r.
Proof.
  unfold offload_progress. intros ([c [u|]] & w1 & _ & H)%bind_Ret_inv.
  - by apply ret_inv in H as [[= <- _] _].
  - cbn [snd] in H. rewrite Hmock in H. apply bind_Ret_inv in H as (u & w2 & _ & H).
    by apply ret_inv in H as [[= <- _] _].
Qed.

Lemma collect_progress_dm r err s r' err' s' :
  collect_progress drvr r err s = (Ret (r', err'), s') → r_dm r' = r_dm r ∧ r_ctx r' = r_ctx r.
Proof.
  unfold collect_progress. rewrite Hmock. intros (p & s1 & E1 & H)%bind_Ret_inv.
  apply bind_Ret_inv in H as ([] & s2 & _ & H). apply ret_inv in H as [-> _].
  unfold d_io in E1. destruct (offload_progress drvr r err (d_world s)) as [o w1] eqn:E. cbn in E1.
  injection E1 as -> _. by eapply offload_progress_dm.
Qed.

(** A goroutine that goes on keeps its resource and its context. *)
Lemma replace_tracked s rs1 r rs2 r' s1 :
  tracked s → d_routines s = rs1 ++ r :: rs2 → d_contexts s1 = d_contexts s →
  r_dm r' = r_dm r → r_ctx r' = r_ctx r → tracked (d_set_routines (rs1 ++ r' :: rs2) s1).
Proof.
  intros [Ht Hn] Hrs Hc Hdm Hctx.
  assert (routine_key r' = routine_key r) as Hkey by (unfold routine_key; by rewrite Hdm).
  assert (routine_key <$> rs1 ++ r' :: rs2 = routine_key <$> d_routines s) as Hf.
  { by rewrite Hrs, !fmap_app, !fmap_cons, Hkey. }
  split; cbn; [|by rewrite Hf]. intros x Hx. rewrite Hc.
  assert (x = r' ∨ x ∈ d_routines s) as [->|Hx'].
  { rewrite Hrs. rewrite !elem_of_app, !elem_of_cons in *. tauto. }
  - rewrite Hkey, Hctx. apply Ht. rewrite Hrs, elem_of_app, elem_of_cons. tauto.
  - by apply Ht.
Qed.

Lemma progress_tracked s rs1 r rs2 err r' err' s1 :
  tracked s → d_routines s = rs1 ++ r :: rs2 → collect_progress drvr r err s = (Ret (r', err'), s1) →
  tracked (d_set_routines (rs1 ++ r' :: rs2) s1).
Proof.
  intros Ht Hrs E. destruct (collect_progress_dm _ _ _ _ _ _ E) as [Hdm Hctx].
  pose proof (preserves_eq d_view _ _ _ _ (collect_progress_view r err) E) as [= Hc _].
  by apply (replace_tracked s rs1 r rs2).
Qed.

Lemma shutdown_view user jwtParse req s o s1 :
  ShutdownRequest (W:=W) user jwtParse req s = (o, s1) → d_view s1 = d_view s.
Proof.
  unfold ShutdownRequest, guarded. destruct (negb _); [by intros [= _ <-]|].
  destruct (validateMessage _ _ _); [by intros [= _ <-]|].
  unfold GetActiveRequests, ListRequests, attempt, d_gets, d_modify, mbind, M_bind, mret, M_ret.
  destruct (sort_strings _); by intros [= _ <-].
Qed.

Lemma step_tracked s s' : tracked s → offload_step s s' → tracked s'.
Proof.
  intros Ht Hstep.
  destruct Hstep as [dmreq key dm req s1 o s2 Ec Hf Ed Hnp|dmreq o s1 E Hno|name o s1 E|name o s1 E
    |rs1 r rs2 text Hrs|rs1 r rs2 err r' err' s1 Hrs E|rs1 r rs2 err s1 Hrs E|user jwtParse req o s1 E|_|w'].
  - by eapply request_tracked.
  - by apply (tracked_view s); [eapply Create_refused|].
  - apply (tracked_view s); [|done]. unfold CancelRequest, attempt, loadRequestByName, d_gets, d_modify,
      mbind, M_bind, mret, M_ret, fail in E.
    destruct (d_contexts s !! name); [by injection E as _ <-|]. case_bool_decide; by injection E as _ <-.
  - apply (tracked_view s); [|done]. unfold deleteCompletionByName, d_modify in E. by injection E as _ <-.
  - by apply (replace_tracked s rs1 r rs2).
  - by eapply progress_tracked.
  - by eapply finish_tracked.
  - apply (tracked_view s); [|done]. by eapply shutdown_view.
  - split; [by intros r ?%elem_of_nil|constructor].
  - done.
Qed.

Lemma reachable_tracked s : offload_reachable s → tracked s.
Proof.
  induction 1 as [s [Hc Hr]|s s' _ IH Hstep]; [|by eapply step_tracked].
  unfold tracked. rewrite Hr. split; [by intros r ?%elem_of_nil|constructor].
Qed.

(** C11.  A running copy offload command is listed and can be cancelled: in every reachable state the
    list of active requests is, sorted, exactly the keys that are recorded, the key of every running
    command is among them, cancelling it cancels exactly the context of that command, and no two
    running commands share a key. *)
Theorem offload_commands_tracked s r :
  offload_reachable s → r ∈ d_routines s →
  CancelRequest (dmKey (r_dm r)) s = (Ret tt, d_cancel (r_ctx r) s) ∧
  NoDup (routine_key <$> d_routines s) ∧
  ∃ items, ListRequests s = (Ret items, s) ∧ (∀ name, name ∈ items ↔ is_Some (d_contexts s !! name)) ∧
    Sorted (λ x y, String.leb x y) items ∧ routine_key r ∈ items.
Proof.
  intros [Ht Hn]%reachable_tracked Hr. destruct (Ht r Hr) as (record & Hrec & Hctx).
  assert (∀ name, name ∈ sort_strings (fst <$> map_to_list (d_contexts s)) ↔ is_Some (d_contexts s !! name))
    as Hitems by (intros name; by rewrite sort_strings_elem, elem_of_map_keys).
  split_and!; [|done|].
  - unfold CancelRequest, attempt, loadRequestByName, d_modify, mbind, M_bind.
    unfold routine_key in Hrec. by rewrite Hrec, Hctx.
  - eexists. split; [done|]. split_and!; [done|apply sort_strings_sorted|]. apply Hitems. by exists record.
Qed.
End Run.
