(* ===== verification/ServerProps.v ===== *)
(** What the HTTP server of the copy offload daemon guarantees: who is served,
    when it can be shut down, and what a request starts. *)
From S2P Require Import Prelude GoMonad GoStrings GoPath Api Dcp Command Env Hosts Dest Reconciler OffloadApi Driver Server DriverRun.

Section Guards.
Context {W : Type} {kube : Kube W} {os : OS W} {okube : OffloadKube W}.
Context (user : UserHttp) (drvr : DriverConfig).
Context (jwtParse : (string → error + string) → string → error + bool) (encode : list (string * string) → string)
  (wait : Z → D (W:=W) unit).

Definition token_of (req : Request) : string := TrimSpace (Replace1 (Authorization req) "Bearer" "").

Local Abbreviation verify := (verifyToken user jwtParse).
Local Abbreviation validate := (validateMessage user jwtParse).

(** A request that a server with a key serves: it carries a token that the library finds valid with
    that key, for the one accepted algorithm. *)
Definition authorized (req : Request) : Prop :=
  Authorization req ≠ "" ∧ jwtParse (token_key user) (token_of req) = inr true.

(** The handlers and the method each of them serves. *)
Definition handlers : list (string * (Request → D (W:=W) Response)) :=
  [("GET", Hello user jwtParse);
   ("GET", GetRequest_handler user drvr jwtParse encode wait);
   ("GET", ListRequests_handler user jwtParse);
   ("DELETE", CancelRequest_handler user jwtParse);
   ("POST", TrialRequest user drvr jwtParse);
   ("POST", ShutdownRequest user jwtParse)].

Lemma verifyToken_accepts token : verify token = None ↔ jwtParse (token_key user) token = inr true.
Proof. unfold verifyToken. destruct (jwtParse (token_key user) token) as [err|[]]; naive_solver. Qed.

Lemma validate_unauthorized req :
  KeyBytes user ≠ "" → ¬ authorized req → ∃ response, validate req = inl response ∧ Code response = 401%Z.
Proof.
  intros Hk Hna. unfold validateMessage. destruct (String.eqb_spec (KeyBytes user) ""); [done|].
  destruct (String.eqb_spec (Authorization req) ""); [by eexists|].
  destruct (verify (TrimSpace (Replace1 (Authorization req) "Bearer" ""))) as [err|] eqn:E; [by eexists|].
  apply verifyToken_accepts in E. destruct Hna. split; done.
Qed.

Lemma validate_version req :
  (KeyBytes user ≠ "" → authorized req) →
  validate req = if String.eqb (AcceptsVersion req) "1.0" then inr (AcceptsVersion req)
                 else inl (http_error "Valid versions: 1.0" 406).
Proof.
  intros Ha. unfold validateMessage.
  assert (∀ T (x y : T), (if negb (String.eqb (AcceptsVersion req) "1.0") then x else y)
                         = if String.eqb (AcceptsVersion req) "1.0" then y else x) as Hif.
  { by intros; destruct (String.eqb _ _). }
  destruct (String.eqb_spec (KeyBytes user) "") as [Ek|Hk]; [by rewrite Hif|].
  destruct (Ha Hk) as (Hne & Hv). rewrite Hif.
  destruct (String.eqb_spec (Authorization req) ""); [done|].
  fold (token_of req). by rewrite (proj2 (verifyToken_accepts _) Hv).
Qed.

Lemma handlers_guarded method h :
  (method, h) ∈ handlers → ∀ req, ∃ body, h req = guarded user jwtParse method req body.
Proof.
  unfold handlers. rewrite !elem_of_cons. intros H req.
  destruct H as [[= -> ->]|[[= -> ->]|[[= -> ->]|[[= -> ->]|[[= -> ->]|[[= -> ->]|[]%elem_of_nil]]]]]];
    eexists; reflexivity.
Qed.

Lemma guard_refuses method h req s :
  (method, h) ∈ handlers → KeyBytes user ≠ "" → ¬ authorized req →
  ∃ response, h req s = (Ret response, s) ∧
    Code response = if String.eqb (Method req) method then 401%Z else 501%Z.
Proof.
  intros Hh Hk Hna. destruct (handlers_guarded _ _ Hh req) as [body ->]. unfold guarded.
  destruct (String.eqb (Method req) method); cbn [negb]; [|by eexists].
  destruct (validate_unauthorized req Hk Hna) as (response & -> & Hc). by eexists.
Qed.

Lemma guarded_served method req (body : D (W:=W) Response) :
  Method req = method → AcceptsVersion req = "1.0" → (KeyBytes user ≠ "" → authorized req) →
  guarded user jwtParse method req body = body.
Proof.
  intros Hm Hv Ha. unfold guarded. rewrite (proj2 (String.eqb_eq _ _) Hm). cbn [negb].
  by rewrite validate_version, Hv.
Qed.

(** * Shutting down *)

(** C15.  A shutdown is granted only when no request is in progress: in every reachable state a shutdown
    request that is served is answered with 409 and changes nothing while a request is recorded, in
    particular while a command runs, and with 200 otherwise; its only effect is then that the shutdown
    of the server is scheduled. *)
Theorem shutdown_granted_when_idle req s :
  Mock drvr = false → offload_reachable drvr s →
  Method req = "POST" → AcceptsVersion req = "1.0" → (KeyBytes user ≠ "" → authorized req) →
  ∃ response s', ShutdownRequest user jwtParse req s = (Ret response, s') ∧
    (d_routines s ≠ [] → Code response = 409%Z) ∧
    (d_contexts s ≠ ∅ → Code response = 409%Z ∧ s' = s) ∧
    (d_contexts s = ∅ → Code response = 200%Z ∧ s' = d_stop s).
Proof.
  intros Hmock Hreach Hm Hv Ha. unfold ShutdownRequest. rewrite guarded_served by done.
  unfold GetActiveRequests, ListRequests, attempt, d_gets, d_modify, mbind, M_bind, mret, M_ret.
  destruct (decide (d_contexts s = ∅)) as [He|Hne].
  - rewrite He, map_to_list_empty. eexists _, _. split; [reflexivity|]. cbn. split_and!; [|done|done]. intros Hr.
    destruct (d_routines s) as [|r rs] eqn:Er; [done|].
    destruct (reachable_tracked drvr Hmock s Hreach) as [Ht _].
    destruct (Ht r ltac:(rewrite Er; by left)) as (record & Hrec & _). by rewrite He in Hrec.
  - pose proof (map_to_list_not_empty_keys _ Hne) as Hkeys.
    destruct (sort_strings (fst <$> map_to_list (d_contexts s))); [done|].
    eexists _, _. split; [reflexivity|]. done.
Qed.

(** * Starting *)

(** The goroutine a request starts. *)
Definition runs_for (key : string) (s s' : DSys W) : Prop :=
  ∃ r record, routine_key r = key ∧ d_routines s' = r :: d_routines s ∧
    d_contexts s' = <[key := record]> (d_contexts s) ∧ rec_Ctx record = r_ctx r.

Lemma create_and_drive_effect dmreq s o s' :
  u_Mock user = false → Mock drvr = false →
  (∀ key dm req s1, Create drvr dmreq s = (Ret (key, dm, req), s1) → d_contexts s !! key = None) →
  create_and_drive user drvr dmreq s = (o, s') →
  match o with
  | Ret key => runs_for key s s'
  | Fail _ => d_routines s' = d_routines s ∧ d_contexts s' = d_contexts s
  | Panic _ => True
  end.
Proof.
  intros Hu Hmock Hfresh. unfold create_and_drive. rewrite Hu. unfold mbind at 1, M_bind at 1.
  destruct (Create drvr dmreq s) as [[[[key dm] req]|e|p] s1] eqn:Ec.
  2: { intros [= <- <-]. by pose proof (Create_refused drvr dmreq s _ _ Ec ltac:(done)) as [= ? ?]. }
  2: { by intros [= <- <-]. }
  specialize (Hfresh _ _ _ _ eq_refl). destruct (Create_records drvr Hmock _ _ _ _ _ _ Ec) as (-> & Hc & Hr).
  unfold mbind, M_bind. destruct (Drive drvr req dm s1) as [o1 s2] eqn:Ed.
  pose proof (λ Hrec, Drive_outcome drvr Hmock req dm s1 {| rec_Ctx := d_next s; mockDM := None |}
    o1 s2 Hrec Ed) as Heff.
  rewrite Hc, lookup_insert_eq in Heff. specialize (Heff eq_refl).
  destruct o1 as [[]|e|p]; intros [= <- <-]; [| |done]; specialize (Heff ltac:(done)).
  - destruct Heff as (r & Hdm & Hctx & Hc2 & Hr2). eexists r, _. unfold routine_key.
    split_and!; [by rewrite Hdm|by rewrite Hr2, Hr|by rewrite Hc2|by rewrite Hctx].
  - destruct Heff as [Hc2 Hr2]. by rewrite Hc2, Hr2, Hr, delete_insert_id.
Qed.

(** C12.  A copy offload request starts a command if and only if it is answered with 200: the answer
    then names the key under which the one new goroutine is recorded with its own context, and with
    any other answer no goroutine has started and the recorded requests are as before. *)
Theorem TrialRequest_starts_one req dmreq s response s' :
  u_Mock user = false → Mock drvr = false →
  Method req = "POST" → AcceptsVersion req = "1.0" → (KeyBytes user ≠ "" → authorized req) →
  Server.Body req = Ret dmreq →
  (∀ key dm req s1, Create drvr dmreq s = (Ret (key, dm, req), s1) → d_contexts s !! key = None) →
  TrialRequest user drvr jwtParse req s = (Ret response, s') →
  (Code response = 200%Z ∧ ∃ key, Payload response = Text ("name=" +:+ key +:+ nl) ∧ runs_for key s s')
  ∨ ((Code response = 400%Z ∨ Code response = 500%Z) ∧
     d_routines s' = d_routines s ∧ d_contexts s' = d_contexts s).
Proof.
  intros Hu Hmock Hm Hv Ha Hb Hfresh. unfold TrialRequest. rewrite guarded_served by done. rewrite Hb.
  destruct (DMRequest_Validator dmreq); [intros [= <- <-]; right; cbn; auto|].
  unfold attempt, mbind, M_bind, mret, M_ret.
  destruct (create_and_drive user drvr dmreq s) as [o s1] eqn:E.
  apply create_and_drive_effect in E; [|done..]. destruct o as [key|e|p]; intros [= <- <-].
  - left. split; [done|]. by eexists.
  - right. cbn. auto.
Qed.
End Guards.
