(* ===== verification/DriverStatus.v ===== *)
(** What the copy offload daemon writes and reports of a request, and whose
    requests: the ownership of the resources, writes that meet conflicts, and the
    status response. *)
From S2P Require Import Prelude GoMonad GoStrings GoPath Api Dcp Command Env Cluster Hosts Dest Reconciler OffloadApi Driver DriverProps.

(** The resource carries the labels of the workflow the daemon serves. *)
Definition owned (drvr : DriverConfig) (dm : NnfDataMovement) : Prop :=
  default "" (Labels (dm_Meta dm) !! WorkflowNameLabel) = WorkflowName drvr ∧
  default "" (Labels (dm_Meta dm) !! WorkflowNamespaceLabel) = WorkflowNamespace drvr.

#[export] Instance owned_dec drvr dm : Decision (owned drvr dm).
Proof. unfold owned. apply _. Defined.

Lemma label_test drvr dm :
  negb (String.eqb (default "" (Labels (dm_Meta dm) !! WorkflowNameLabel)) (WorkflowName drvr))
  || negb (String.eqb (default "" (Labels (dm_Meta dm) !! WorkflowNamespaceLabel)) (WorkflowNamespace drvr))
  = negb (bool_decide (owned drvr dm)).
Proof.
  unfold owned. destruct (String.eqb_spec (default "" (Labels (dm_Meta dm) !! WorkflowNameLabel)) (WorkflowName drvr));
    destruct (String.eqb_spec (default "" (Labels (dm_Meta dm) !! WorkflowNamespaceLabel)) (WorkflowNamespace drvr));
    case_bool_decide as Ho; cbn; tauto.
Qed.

Lemma owner_labels_keep wf wf' labels :
  owner_labels wf labels !! WorkflowNameLabel = labels !! WorkflowNameLabel ∧
  owner_labels wf labels !! WorkflowNamespaceLabel = labels !! WorkflowNamespaceLabel ∧
  workflow_labels wf' labels !! WorkflowNameLabel = Some (wf_Name wf') ∧
  workflow_labels wf' labels !! WorkflowNamespaceLabel = Some (wf_Namespace wf').
Proof.
  unfold owner_labels, workflow_labels. split_and!.
  - by rewrite !lookup_insert_ne by done.
  - by rewrite !lookup_insert_ne by done.
  - rewrite !lookup_insert_ne by done. by rewrite lookup_insert_eq.
  - rewrite lookup_insert_ne by done. by rewrite lookup_insert_eq.
Qed.

Section Status.
Context {W : Type} {kube : Kube W} {os : OS W} {okube : OffloadKube W}.
Context (drvr : DriverConfig).

(** C28.  The resource of a request belongs to the workflow and acts for its user: it is only built
    while the workflow has completed its PreRun state, carries the workflow's labels (so that the
    daemon will report it), is torn down in PostRun, runs with the workflow's user and group, and
    takes its profile from the system namespace and its options from the request. *)
Theorem build_dm_owned dmreq w rabbit profile dm w' :
  (∀ k w wf w1, getWorkflow k w = (Ret wf, w1) → (wf_Namespace wf, wf_Name wf) = k) →
  build_dm drvr dmreq w = (Ret (rabbit, profile, dm), w') →
  ∃ wf w1, getWorkflow (WorkflowNamespace drvr, WorkflowName drvr) w = (Ret wf, w1) ∧
    wf_State wf = "PreRun" ∧ wf_Status wf = "Completed" ∧ owned drvr dm ∧
    Labels (dm_Meta dm) !! DataMovementTeardownStateLabel = Some "PostRun" ∧
    UserId (dm_Spec dm) = wf_UserID wf ∧ GroupId (dm_Spec dm) = wf_GroupID wf ∧
    UserConfig (dm_Spec dm) = Some (setUserConfig dmreq) ∧
    RefName (ProfileReference (dm_Spec dm)) = p_Name profile.
Proof.
  intros Hnamed H. unfold build_dm in H. apply bind_Ret_inv in H as (wf & w1 & Hwf & H).
  destruct (String.eqb_spec (wf_State wf) "PreRun") as [Hs|]; [|done].
  destruct (String.eqb_spec (wf_Status wf) "Completed") as [Ht|]; [|done]. cbn [negb orb] in H.
  apply bind_Ret_inv in H as (mount & w2 & _ & H). apply bind_Ret_inv in H as (rb & w3 & _ & H).
  apply bind_Ret_inv in H as (dm0 & w4 & _ & H). apply bind_Ret_inv in H as (pr & w5 & _ & H).
  apply ret_inv in H as [[= <- <- <-] _]. exists wf, w1. specialize (Hnamed _ _ _ _ Hwf).
  injection Hnamed as Hns Hn.
  split_and!; [done|done|done| |cbn; by rewrite lookup_insert_eq|done..].
  destruct (owner_labels_keep wf wf (workflow_labels wf (Labels (dm_Meta dm0)))) as (E1 & E2 & _).
  destruct (owner_labels_keep wf wf (Labels (dm_Meta dm0))) as (_ & _ & E3 & E4).
  unfold owned. cbn [dm_Meta Labels set_Labels]. rewrite !lookup_insert_ne by done.
  by rewrite E1, E2, E3, E4, Hn, Hns.
Qed.

(** ** Writes that meet conflicts *)

(** One version of the resource was stored: the current one with the status [final]. *)
Definition final_stored {laws : KubeLaws W} (k : NamespacedName) (final : NnfDataMovementStatus) (w w' : W) : Prop :=
  ∃ cur new, live (dms w) !! k = Some cur ∧ next_version (dms w) cur (set_status final cur) new ∧
    dms w' = put new (dms w).

(** What one attempt, or all of them, may leave. *)
Definition final_written {laws : KubeLaws W} (k : NamespacedName) (final : NnfDataMovementStatus) (w : W)
    (r : outcome unit * W) : Prop :=
  let '(o, w') := r in
  (final_stored k final w w' ∧ (o = Ret tt ∨ ∃ e, o = Fail e ∧ IsConflict e = false)) ∨
  (dms w' = dms w ∧
   ((o = Ret tt ∧ ∃ w1 e, getDM k w1 = (Fail e, w') ∧ IsNotFound e = true) ∨ ∃ e, o = Fail e)).

Lemma final_attempt {laws : KubeLaws W} k final (change : NnfDataMovement → M W NnfDataMovement) w :
  (∀ dm w, change dm w = (Ret (set_status final dm), w)) →
  final_written k final w (get_and_update k change w).
Proof.
  intros Hch. unfold get_and_update, attempt, mbind, M_bind. destruct (getDM_law k w) as [Hd Hg].
  destruct (getDM k w) as [[dm|e|p] w1] eqn:E; cbn in Hd, Hg; [| |done].
  - rewrite Hch. destruct Hg as [_ Hk]. pose proof (updateDMStatus_law (set_status final dm) w1) as Hu.
    rewrite Hd in Hu. change (dm_key (set_status final dm)) with (dm_key dm) in *.
    destruct (updateDMStatus (set_status final dm) w1) as [o w2]. cbn in Hu.
    remember (dms w2) as st eqn:Est. destruct Hu as [cur new Hl _ Hn|e|e cur new Hl _ He Hn]; unfold final_written.
    + left. split; [|by left]. exists cur, new. by rewrite <- Hk.
    + right. split; [done|right; by exists e].
    + left. split; [|right; by exists e]. exists cur, new. by rewrite <- Hk.
  - unfold IgnoreNotFound. destruct (IsNotFound e) eqn:He; right; (split; [done|]); [left|right; by exists e].
    split; [done|]. by exists w, e.
Qed.

(** A conflict has stored nothing, so the next attempt starts from the same resources. *)
Lemma final_retries {laws : KubeLaws W} k final (f : M W unit) n w :
  (∀ w, final_written k final w (f w)) → final_written k final w (RetryOnConflict (S n) f w).
Proof.
  intros Hf. induction n as [|n IH] in w |- *.
  { specialize (Hf w). cbn. by destruct (f w) as [[]]. }
  change (RetryOnConflict (S (S n)) f w) with
    (match f w with
     | (Fail e, w') => if IsConflict e then RetryOnConflict (S n) f w' else (Fail e, w')
     | r => r
     end).
  specialize (Hf w). destruct (f w) as [[a|e|p] w1]; [done| |done]. destruct (IsConflict e) eqn:Hc; [|done].
  assert (dms w1 = dms w) as Hd.
  { destruct Hf as [(_ & [?|(e' & [= <-] & ?)])|(Hd & _)]; [done|congruence|done]. }
  specialize (IH w1). destruct (RetryOnConflict (S n) f w1) as [o w2]. unfold final_written, final_stored in *.
  by rewrite Hd in IH.
Qed.

(** C31.  The final status of a copy offload request is stored whole and at most once, however many attempts
    meet conflicts: the write leaves the resources as they were, or has stored one new version, the current one
    with the status of the end of the command and its last command status.  It succeeds only if that version was
    stored or the resource is gone; a lost answer is an error that is not a conflict. *)
Theorem final_write_stores {laws : KubeLaws W} (r : Routine) (status : NnfDataMovementStatus) c w o w' :
  CommandStatus status = Some c → write_final r status w = (o, w') →
  let final := set_command_status (Some (r_cmdStatus r)) status in
  (final_stored (r_req r) final w w' ∧ (o = Ret tt ∨ ∃ e, o = Fail e ∧ IsConflict e = false)) ∨
  (dms w' = dms w ∧
   ((o = Ret tt ∧ ∃ w1 e, getDM (r_req r) w1 = (Fail e, w') ∧ IsNotFound e = true) ∨ ∃ e, o = Fail e)).
Proof.
  intros Hc E final. assert (final_written (r_req r) final w (write_final r status w)) as H; [|by rewrite E in H].
  apply final_retries. intros w0. apply final_attempt. intros dm w1. by rewrite Hc.
Qed.

(** ** Status requests *)

Lemma GetRequest_first_read wait statreq key dm s w1 :
  dmKeySplit (RequestName statreq) = Ret key → getDM key (d_world s) = (Ret dm, w1) →
  owned drvr dm ∨ GetRequest drvr wait statreq s
    = (Ret (inl (400%Z, ErrorString "request does not belong to workflow")), d_set_world w1 s).
Proof.
  intros Hk Hg. unfold GetRequest, lift_outcome, attempt, d_io, mbind, M_bind. rewrite Hk, Hg. cbn.
  rewrite label_test. case_bool_decide; [by left|by right].
Qed.

(** C29.  Only requests of the daemon's own workflow are reported: a resource of another workflow
    gets 400, without waiting and with nothing changed in the process, and where a status is
    reported, the resource that was read carries the labels of the workflow. *)
Theorem GetRequest_only_own wait statreq s r s' :
  GetRequest drvr wait statreq s = (Ret r, s') →
  ∃ key, dmKeySplit (RequestName statreq) = Ret key ∧
    match getDM key (d_world s) with
    | (Ret dm, w1) =>
        owned drvr dm ∨
        (r = inl (400%Z, ErrorString "request does not belong to workflow") ∧ s' = d_set_world w1 s)
    | (Fail e, w1) =>
        r = inl (if IsNotFound e then (404%Z, ErrorString "request not found") else (500%Z, e))
    | (Panic _, _) => False
    end.
Proof.
  intros H. pose proof H as H0. unfold GetRequest in H. apply bind_Ret_inv in H as (key & s1 & Hk & H).
  apply lift_Ret_inv in Hk as [Hk Hs1]; subst s1. exists key. split; [done|].
  destruct (getDM key (d_world s)) as [[dm|e|p] w1] eqn:Hg.
  - destruct (GetRequest_first_read wait statreq key dm s w1 Hk Hg) as [Ho|E]; [by left|right].
    rewrite H0 in E. by injection E.
  - unfold attempt, d_io, mbind, M_bind in H. rewrite Hg in H. cbn in H. unfold not_found in H.
    by destruct (IsNotFound e); injection H as <- _.
  - unfold attempt, d_io, mbind, M_bind in H. by rewrite Hg in H.
Qed.

Lemma state_map_completed s st : state_map s = Some st → st = COMPLETED ↔ s = DataMovementConditionTypeFinished.
Proof.
  unfold state_map. destruct (String.eqb_spec s ""); [intros [= <-]; by subst|].
  destruct (String.eqb_spec s DataMovementConditionTypeStarting); [intros [= <-]; by subst|].
  destruct (String.eqb_spec s DataMovementConditionTypeRunning); [intros [= <-]; by subst|].
  destruct (String.eqb_spec s DataMovementConditionTypeFinished); [intros [= <-]; by subst|done].
Qed.

Lemma shown_completed state (cancel : bool) :
  (if bool_decide (state ≠ COMPLETED) && cancel then CANCELLING else state) = COMPLETED ↔ state = COMPLETED.
Proof. by destruct state, cancel. Qed.

(** C30.  A request is reported as completed exactly when its resource is finished and was started
    (or was invalid), with the status of the resource; its completion is reaped exactly when it is
    so reported with an end time, so no completion is lost on a client that still has to be told;
    nothing else changes. *)
Theorem completed_reported_and_reaped statreq dm s r s' :
  buildStatusResponse statreq dm s = (Ret (inr r), s') →
  let st := dm_Status dm in
  let told := negb (IsZero (StartTime st)) || String.eqb (Status st) DataMovementConditionReasonInvalid in
  (rs_State r = COMPLETED ↔ told = true ∧ State st = DataMovementConditionTypeFinished) ∧
  (rs_State r = COMPLETED → status_map (Status st) = Some (rs_Status r) ∧ rs_Message r = Message st) ∧
  s' = d_set_completions
         (if bool_decide (rs_State r = COMPLETED) && negb (IsZero (EndTime st))
          then d_completions s ∖ {[RequestName statreq]} else d_completions s) s.
Proof.
  unfold buildStatusResponse. set (st := dm_Status dm).
  assert (∀ x : DSys W, x = d_set_completions (d_completions x) x) as Hid by by intros [].
  destruct (IsZero (StartTime st)) eqn:Hz; [destruct (String.eqb_spec (Status st)
    DataMovementConditionReasonInvalid) as [Hi|Hi]|]; cbn [andb negb orb].
  2: { intros [= <- <-]. cbn. split_and!; [naive_solver|done|apply Hid]. }
  all: destruct (state_map (State st)) as [state|] eqn:Es; [|done];
    pose proof (state_map_completed _ _ Es) as Hc;
    destruct (status_map (Status st)) as [status|] eqn:Et; [|done];
    intros ([] & s1 & E & H)%bind_Ret_inv; apply ret_inv in H as [[= <-] <-]; cbn [rs_State rs_Status rs_Message];
    set (shown := if bool_decide (state ≠ COMPLETED) && Cancel (dm_Spec dm) then CANCELLING else state) in *;
    pose proof (shown_completed state (Cancel (dm_Spec dm))) as Hsh; fold shown in Hsh;
    (split_and!; [naive_solver|done|]);
    destruct (bool_decide (shown = COMPLETED) && negb (IsZero (EndTime st)));
    [by injection E as <-|apply ret_inv in E as [_ <-]; apply Hid].
Qed.
End Status.
