(* ===== verification/DriverScenarios.v ===== *)
(** Runs of the copy offload daemon on the simulated cluster: the witnesses of
    its theorems, and a failed command that is recorded as a success. *)
From S2P Require Import Prelude GoMonad GoStrings GoPath Api Dcp Command Env Cluster Sim Hosts Dest Reconciler OffloadApi Driver Server DriverProps DriverRun ServerProps DriverStatus.

(** * A site: one rabbit, one compute, one workflow *)

Definition workflow : Workflow :=
  {| wf_Name := "job"; wf_Namespace := "default"; wf_UID := "b2c"; wf_State := "PreRun";
     wf_Status := "Completed"; wf_UserID := 1000; wf_GroupID := 2000 |}.

Definition client_mount (node path : string) : ClientMount :=
  {| cm_Name := node +:+ "-mount"; cm_Namespace := node;
     cm_Labels := Some {[ WorkflowNameLabel := "job"; WorkflowNamespaceLabel := "default" ]};
     Mounts := [sample_mount path] |}.

Definition client_mounts : list ClientMount :=
  [client_mount "compute-1" "/mnt/nnf/job"; client_mount "rabbit-1" "/mnt/nnf/7a1/rabbit-1-0"].

Definition mount_matches (namespace : string) (labels : list (string * string)) (cm : ClientMount) : bool :=
  (String.eqb namespace "" || String.eqb (cm_Namespace cm) namespace)
  && forallb (λ l, bool_decide ((default ∅ (cm_Labels cm)) !! fst l = Some (snd l))) labels.

(** A created resource: the name is the prefix and the counter of the store. *)
Definition named (dm : NnfDataMovement) (st : DMStore) : NnfDataMovement :=
  set_rv (counter st + 1) (set_meta (set_Name (GenerateName (dm_Meta dm) +:+ itoa (Z.of_N (counter st)))
                                              (dm_Meta dm)) dm).

#[export] Instance site_kube : OffloadKube Sim := {
  getWorkflow k := λ w, (if bool_decide (k = ("default", "job")) then Ret workflow
                         else Fail (StatusError NotFound "not found"), w);
  getStorageNodes k := λ w, (Ret [{| sn_Name := "rabbit-1"; ComputesAccess := ["compute-1"; "compute-2"] |}], w);
  listClientMounts ns labels := λ w, (Ret (List.filter (mount_matches ns labels) client_mounts), w);
  listLustreFileSystems := λ w, (Ret [{| lfs_Name := "lus"; lfs_Namespace := "default"; MountRoot := "/lus" |}], w);
  listProfiles ns := λ w, (Ret (List.filter (λ p, String.eqb (p_Namespace p) ns)
                                  (snd <$> map_to_list (sim_profiles w))), w);
  createDM dm := λ w,
    let new := named dm (sim_store w) in (Ret new, sim_set_store (put new (sim_store w)) w);
  timeString := itoa;
  durationString := λ d, itoa d +:+ "µs"
}.

Definition site_driver : DriverConfig := {| Mock := false; WorkflowName := "job"; WorkflowNamespace := "default" |}.

Definition stat_as_root (hostfile path : string) : string :=
  buildStatOrMkdirCommand 0 1000 2000 default_stat_command default_setpriv_command hostfile path.

Definition site_world : Sim :=
  {| sim_store := {| live := ∅; history := []; counter := 1 |};
     sim_profiles := {[ ("nnf-system", "default") := default_profile ]};
     sim_storages := ∅; sim_nodeStorages := {[ ("rabbit-1", "store") := {| ns_FileSystemType := "gfs2" |} ]};
     sim_pods := [{| pod_Name := "job-worker-0"; pod_Namespace := "default";
                     pod_Labels := {[ "training.kubeflow.org/job-name" := "job";
                                      "training.kubeflow.org/job-role" := "worker" ]};
                     NodeName := "rabbit-1"; PodIP := "10.0.0.7" |}];
     sim_files := ∅;
     sim_commands := {[ stat_as_root "/tmp/dm-0/hostfile" "/mnt/nnf/7a1/rabbit-1-0/out" := "directory" +:+ nl;
                        stat_as_root "/tmp/dm-0/hostfile" "/lus/out" := "directory" +:+ nl;
                        buildStatOrMkdirCommand 0 1000 2000 default_mkdir_command default_setpriv_command
                          "/tmp/dm-0/hostfile" "/lus/out/rabbit-1-0" := "" ]};
     sim_clock := 100; sim_faults := []; sim_reads := [] |}.

Definition d_boot (w : Sim) : DSys Sim :=
  {| d_world := w; d_contexts := ∅; d_completions := ∅; d_cancelled := ∅; d_next := 0; MockCount := 0;
     d_routines := []; d_stopping := false |}.

(** A request of the compute: create and drive. *)
Definition requested (s : DSys Sim) : option (DSys Sim) :=
  match Create site_driver sample_request s with
  | (Ret (key, dm, req), s1) =>
      match d_contexts s !! key, Drive site_driver req dm s1 with
      | None, (Ret _, s2) => Some s2
      | _, _ => None
      end
  | _ => None
  end.

Definition busy : DSys Sim := default (d_boot site_world) (requested (d_boot site_world)).

Lemma requested_reachable s s' :
  offload_reachable site_driver s → requested s = Some s' → offload_reachable site_driver s'.
Proof.
  intros Hr H. unfold requested in H.
  destruct (Create site_driver sample_request s) as [[[[key dm] req]|e|p] s1] eqn:Ec; [|done|done].
  destruct (d_contexts s !! key) eqn:Hf; [done|].
  destruct (Drive site_driver req dm s1) as [[[]|e|p] s2] eqn:Ed; [|done|done]. injection H as <-.
  eapply or_step; [exact Hr|]. by eapply os_request.
Qed.

Lemma reachable_busy : offload_reachable site_driver busy.
Proof.
  apply (requested_reachable (d_boot site_world)); [by apply or_start|].
  assert (bool_decide (is_Some (requested (d_boot site_world))) = true) as [x Hx]%bool_decide_eq_true_1
    by (vm_compute; reflexivity).
  unfold busy. by rewrite Hx.
Qed.

(** The goroutine of the request, with some output. *)
Definition busy_routine : Routine :=
  match d_routines busy with
  | r :: _ => add_output ("Copied 1 GiB (50%)" +:+ nl) r
  | [] => {| r_req := ("", ""); r_dm := keyed_dm "" ""; r_profile := default_profile; r_hostfile := "";
             r_ctx := 0; r_cmdStatus := empty_CommandStatus; r_parseBuf := ""; r_combinedOutBuf := "";
             r_progressStart := 0 |}
  end.

Definition exit_1 : error := ErrorString "exit status 1".

(** The end of the command with an error, and the status in the cluster afterwards. *)
Definition after_failure : DSys Sim := snd (finish_offload site_driver busy_routine (Some exit_1) (d_set_routines [] busy)).

Definition status_after (s : DSys Sim) : option (string * string) :=
  option_map (λ dm, (State (dm_Status dm), Status (dm_Status dm)))
    (live (sim_store (d_world s)) !! ("rabbit-1", "nnf-copy-offload-node-1")).

(** A copy offload command that fails is recorded as a success: with the default profile, a
    command that writes one line of progress and then exits with status 1 leaves a resource that
    says Finished and Success. *)
Theorem failed_offload_recorded_as_success :
  status_after busy = Some ("Running", "") ∧
  status_after after_failure = Some ("Finished", "Success") ∧
  d_contexts after_failure = ∅ ∧ d_completions after_failure = {["rabbit-1--nnf-copy-offload-node-1"]}.
Proof. split_and!; vm_compute; reflexivity. Qed.

(** * Witnesses *)

Definition found_mount : outcome (ClientMount * ClientMountInfo) * Sim :=
  findComputeMountInfo site_driver sample_request site_world.

Definition found_source : outcome string * Sim :=
  findRabbitRelativeSource site_driver "rabbit-1" sample_request (sample_mount "/mnt/nnf/job") (snd found_mount).

Lemma found_mount_ok :
  found_mount = (Ret (client_mount "compute-1" "/mnt/nnf/job", sample_mount "/mnt/nnf/job"), snd found_mount).
Proof. apply pair_of_fst. vm_compute. reflexivity. Qed.

Lemma found_source_ok : found_source = (Ret "/mnt/nnf/7a1/rabbit-1-0/out", snd found_source).
Proof. apply pair_of_fst. vm_compute. reflexivity. Qed.

Lemma source_translated_witness :
  ∃ rabbitMounts rabbitMount,
    listClientMounts "rabbit-1" (workflow_match site_driver) (snd found_mount) = (Ret rabbitMounts, snd found_source) ∧
    rabbitMount ∈ all_mounts rabbitMounts ∧
    ∃ rest, SourcePath sample_request = MountPath (sample_mount "/mnt/nnf/job") +:+ rest ∧
    "/mnt/nnf/7a1/rabbit-1-0/out" = MountPath rabbitMount +:+ rest.
Proof.
  destruct (source_translated site_driver sample_request (client_mount "compute-1" "/mnt/nnf/job")
    (sample_mount "/mnt/nnf/job") site_world (snd found_mount) "rabbit-1" "/mnt/nnf/7a1/rabbit-1-0/out"
    (snd found_source) found_mount_ok found_source_ok)
    as (cms & rms & before & m & after & rest & _ & _ & _ & H1 & H2 & H3 & _ & _ & _ & H4).
  exists rms, m. split; [exact H2|]. split; [rewrite H3; apply elem_of_app; right; apply elem_of_cons; by left|].
  exists rest. split; [exact H1|exact H4].
Defined.

(** The final write after two reads of an old version. *)
Definition ended_status : NnfDataMovementStatus :=
  final_status false None 200
    (with_dm (default (r_dm busy_routine) (live (sim_store (d_world busy)) !! r_req busy_routine)) busy_routine).
Definition lagging : Sim :=
  let w := d_world busy in sim_with (sim_store w) (sim_files w) (sim_clock w) [] [1; 1] w.
Definition final_run : outcome unit * Sim := write_final busy_routine ended_status lagging.

Lemma final_run_ok : final_run = (Ret tt, snd final_run).
Proof. apply pair_of_fst. vm_compute. reflexivity. Qed.

Lemma ended_command : CommandStatus ended_status = Some (default empty_CommandStatus (CommandStatus ended_status)).
Proof. apply some_default. vm_compute. reflexivity. Qed.

Lemma final_write_stores_witness :
  let final := set_command_status (Some (r_cmdStatus busy_routine)) ended_status in
  final_stored (r_req busy_routine) final lagging (snd final_run)
  ∨ (dms (snd final_run) = dms lagging ∧
     ∃ w1 e, getDM (r_req busy_routine) w1 = (Fail e, snd final_run) ∧ IsNotFound e = true).
Proof.
  destruct (final_write_stores busy_routine ended_status _ lagging (Ret tt) (snd final_run) ended_command final_run_ok)
    as [[H _]|(H1 & [(_ & H2)|(e & H2)])].
  - left. exact H.
  - right. exact (conj H1 H2).
  - discriminate H2.
Defined.

(** The third attempt has stored it. *)
Example final_run_status :
  (λ dm, (State (dm_Status dm), Status (dm_Status dm))) <$> live (sim_store (snd final_run)) !! r_req busy_routine
  = Some (DataMovementConditionTypeFinished, DataMovementConditionReasonSuccess).
Proof. vm_compute. reflexivity. Qed.

Lemma listed_profiles : listProfiles "nnf-system" site_world = (Ret [default_profile], site_world).
Proof. apply pair_of_fst. vm_compute. reflexivity. Qed.

Lemma selected_profile :
  selectProfile sample_request site_world = (Ret default_profile, snd (selectProfile sample_request site_world)).
Proof. apply pair_of_fst. vm_compute. reflexivity. Qed.

Lemma selectProfile_default_witness :
  ∃ p, List.filter (λ p, Default (p_Data p)) [default_profile] = [p] ∧
    getProfile ("nnf-system", p_Name p) site_world
    = (Ret default_profile, snd (selectProfile sample_request site_world)).
Proof.
  pose proof (selectProfile_default sample_request [default_profile] site_world site_world eq_refl
    listed_profiles) as H.
  cbv zeta in H. rewrite selected_profile in H. exact H.
Defined.

Definition left_over : outcome (NnfDataMovementCommandStatus * option (list string)) * Sim :=
  parse_lines (r_progressStart busy_routine) (buffered_lines (r_parseBuf busy_routine))
    (r_cmdStatus busy_routine) (d_world busy).

Definition left_status : NnfDataMovementCommandStatus :=
  match fst left_over with Ret (c, _) => c | _ => empty_CommandStatus end.

Lemma left_over_parses : left_over = (Ret (left_status, None), snd left_over).
Proof. apply pair_of_fst. vm_compute. reflexivity. Qed.

Lemma offload_exit_status_ignored_witness :
  finish_offload site_driver busy_routine (Some exit_1) busy = finish_offload site_driver busy_routine None busy.
Proof.
  exact (offload_exit_status_ignored site_driver eq_refl busy_routine exit_1 busy left_status (snd left_over)
    ltac:(vm_compute; reflexivity) left_over_parses).
Defined.

(** A profile without progress collection, and a resource that is gone. *)
Definition quiet_profile : NnfDataMovementProfile :=
  {| p_Name := "quiet"; p_Namespace := "nnf-system";
     p_Data := {| Default := false; p_Slots := 8; p_MaxSlots := 0; p_Command := default_command;
                  p_LogStdout := false; p_StoreStdout := false; ProgressIntervalSeconds := 0;
                  CreateDestDir := true; StatCommand := default_stat_command;
                  MkdirCommand := default_mkdir_command; SetprivCommand := default_setpriv_command |} |}.
Definition orphan : Routine :=
  {| r_req := ("rabbit-1", "gone"); r_dm := keyed_dm "rabbit-1" "gone"; r_profile := quiet_profile;
     r_hostfile := "/tmp/dm-0/hostfile"; r_ctx := 0; r_cmdStatus := empty_CommandStatus; r_parseBuf := "";
     r_combinedOutBuf := ""; r_progressStart := 0 |}.

Lemma failed_final_read_leaks_witness :
  ∃ w', finish_offload site_driver orphan None busy = (Ret tt, d_set_world w' busy).
Proof.
  exists (snd (getDM (r_req orphan) (d_world busy))).
  apply (failed_final_read_leaks site_driver eq_refl orphan None busy (StatusError NotFound "not found")).
  - vm_compute. reflexivity.
  - apply pair_of_fst. vm_compute. reflexivity.
Defined.

Lemma busy_routines : d_routines busy = [default busy_routine (head (d_routines busy))].
Proof. vm_compute. reflexivity. Qed.

Lemma offload_commands_tracked_witness :
  let r := default busy_routine (head (d_routines busy)) in
  CancelRequest (dmKey (r_dm r)) busy = (Ret tt, d_cancel (r_ctx r) busy).
Proof.
  intros r. apply (offload_commands_tracked site_driver eq_refl busy r); [exact reachable_busy|].
  rewrite busy_routines. apply list_elem_of_singleton. reflexivity.
Defined.

(** ** The server *)

Definition site_user : UserHttp := {| u_Mock := false; KeyBytes := "k" |}.

(** A token library: the algorithm is the prefix, the signature is the key. *)
Definition alg_of (token : string) : string := if HasPrefix token "none" then "none" else "HS256".
Definition parse_token (keyFunc : string → error + string) (token : string) : error + bool :=
  match keyFunc (alg_of token) with
  | inl err => inl err
  | inr key => if HasSuffix token key then inr true else inl (ErrorString "signature is invalid")
  end.
Definition encode_params (params : list (string * string)) : string := Join (map fst params) "&".
Definition no_wait (d : Z) : D (W:=Sim) unit := mret tt.

Definition post_request (authorization : string) : Request :=
  {| Method := "POST"; Authorization := authorization; AcceptsVersion := "1.0";
     URL := Ret ("/trial", []); Server.Body := Ret sample_request |}.

Lemma post_authorized : authorized site_user parse_token (post_request "Bearer user-k").
Proof. split_and!; vm_compute; [discriminate|reflexivity..]. Qed.

Lemma shutdown_granted_when_idle_witness :
  ∃ response s',
    ShutdownRequest site_user parse_token (post_request "Bearer user-k") busy = (Ret response, s')
    ∧ Code response = 409%Z ∧ s' = busy.
Proof.
  destruct (shutdown_granted_when_idle site_user site_driver parse_token
    (post_request "Bearer user-k") busy eq_refl reachable_busy eq_refl eq_refl (λ _, post_authorized))
    as (response & s' & E & _ & H & _).
  exists response, s'. split; [exact E|apply H]. intros He.
  assert (bool_decide (is_Some (d_contexts busy !! "rabbit-1--nnf-copy-offload-node-1")) = true)
    as [x Hx]%bool_decide_eq_true_1 by (vm_compute; reflexivity).
  rewrite He, lookup_empty in Hx. discriminate Hx.
Defined.



Definition trial : outcome Response * DSys Sim :=
  TrialRequest site_user site_driver parse_token (post_request "Bearer user-k") (d_boot site_world).
Definition trial_response : Response := {| Code := 200; Payload := Text ("name=rabbit-1--nnf-copy-offload-node-1" +:+ nl) |}.

Lemma trial_returns : trial = (Ret trial_response, snd trial).
Proof. apply pair_of_fst. vm_compute. reflexivity. Qed.

Lemma TrialRequest_starts_one_witness :
  ∃ key, Payload trial_response = Text ("name=" +:+ key +:+ nl) ∧ runs_for key (d_boot site_world) (snd trial).
Proof.
  destruct (TrialRequest_starts_one site_user site_driver parse_token (post_request "Bearer user-k")
    sample_request (d_boot site_world) trial_response (snd trial) eq_refl eq_refl eq_refl eq_refl
    (λ _, post_authorized) eq_refl (λ _ _ _ _ _, eq_refl) trial_returns) as [[_ H]|[[H|H] _]];
    [exact H|discriminate H|discriminate H].
Defined.

(** ** Status *)

Definition built : string * NnfDataMovementProfile * NnfDataMovement :=
  match build_dm site_driver sample_request site_world with
  | (Ret r, _) => r
  | _ => ("", default_profile, keyed_dm "" "")
  end.

Lemma built_ok : build_dm site_driver sample_request site_world = (Ret (fst (fst built), snd (fst built), snd built),
                                                                snd (build_dm site_driver sample_request site_world)).
Proof. apply pair_of_fst. vm_compute. reflexivity. Qed.

Lemma site_workflow_named k (w : Sim) wf w1 :
  getWorkflow k w = (Ret wf, w1) → (wf_Namespace wf, wf_Name wf) = k.
Proof. cbn. case_bool_decide as Hk; [|done]. intros [= <- _]. by subst. Qed.

Lemma build_dm_owned_witness : owned site_driver (snd built).
Proof.
  destruct (build_dm_owned site_driver sample_request site_world _ _ _ _ site_workflow_named built_ok)
    as (wf & w1 & _ & _ & _ & Ho & _).
  exact Ho.
Defined.

(** Another workflow asks for the request. *)
Definition other_driver : DriverConfig := {| Mock := false; WorkflowName := "job2"; WorkflowNamespace := "default" |}.
Definition ask : StatusRequest := {| RequestName := "rabbit-1--nnf-copy-offload-node-1"; MaxWaitSecs := 10 |}.

Lemma GetRequest_only_own_witness :
  ∃ key, dmKeySplit (RequestName ask) = Ret key ∧
    match getDM key (d_world busy) with
    | (Ret dm, w1) =>
        owned other_driver dm ∨
        (fst (GetRequest other_driver no_wait ask busy)
         = Ret (inl (400%Z, ErrorString "request does not belong to workflow"))
         ∧ snd (GetRequest other_driver no_wait ask busy) = d_set_world w1 busy)
    | _ => False
    end.
Proof.
  assert (fst (GetRequest other_driver no_wait ask busy)
    = Ret (inl (400%Z, ErrorString "request does not belong to workflow"))) as E by (vm_compute; reflexivity).
  destruct (GetRequest_only_own other_driver no_wait ask busy
    (inl (400%Z, ErrorString "request does not belong to workflow"))
    (snd (GetRequest other_driver no_wait ask busy))) as (key & Hk & H).
  { apply pair_of_fst, E. }
  exists key. split; [exact Hk|]. revert H. destruct (getDM key (d_world busy)) as [[dm|e|p] w1].
  - intros [Ho|[_ Hs]]; [left; exact Ho|right]. split; [exact E|exact Hs].
  - destruct (IsNotFound e); intros H; discriminate H.
  - intros [].
Defined.

Definition finished_offload : NnfDataMovement :=
  default (keyed_dm "" "")
    (live (sim_store (d_world after_failure)) !! ("rabbit-1", "nnf-copy-offload-node-1")).

Definition told_response : DataMovementStatusResponse :=
  match fst (buildStatusResponse ask finished_offload after_failure) with
  | Ret (inr r) => r
  | _ => {| rs_State := PENDING; rs_Status := UNKNOWN_STATUS; rs_Message := ""; rs_CommandStatus := None;
            rs_StartTime := ""; rs_EndTime := "" |}
  end.

Lemma told : buildStatusResponse ask finished_offload after_failure
  = (Ret (inr told_response), snd (buildStatusResponse ask finished_offload after_failure)).
Proof. apply pair_of_fst. vm_compute. reflexivity. Qed.

Lemma completed_reported_and_reaped_witness :
  rs_State told_response = COMPLETED ∧
  (rs_State told_response = COMPLETED →
   status_map (Status (dm_Status finished_offload)) = Some (rs_Status told_response) ∧
   rs_Message told_response = Message (dm_Status finished_offload)).
Proof.
  destruct (completed_reported_and_reaped ask finished_offload after_failure told_response
    (snd (buildStatusResponse ask finished_offload after_failure)) told) as (H1 & H2 & _).
  split; [|exact H2]. apply H1. split; vm_compute; reflexivity.
Defined.
