(* ===== verification/ManagerApi.v ===== *)
(** The resources of the data movement manager and the calls it makes: pods and
    the objects that hold them, secrets, services, global Lustre file systems,
    the controller reference and [CreateOrUpdate] of controller-runtime.

    Objects have the fields the manager sets or reads.  All other fields of a spec,
    which the server fills in with its defaults, are one opaque field ([dep_Rest],
    [svc_Rest], [dss_Rest]): [CreateOrUpdate] compares them with the rest. *)
From S2P Require Import Prelude GoMonad GoStrings Api Env.

(** * Pods *)

Record EnvVar := { ev_Name : string; ev_Value : string }.

Record VolumeMount := {
  vm_Name : string;
  vm_MountPath : string;
  vm_MountPropagation : option string
}.

Inductive VolumeSource :=
| SecretVolume (secretName : string) (defaultMode : Z) (items : list (string * string))
| ClaimVolume (claimName : string)
| HostPathVolume (path type : string)
| OtherVolume (description : string).

Record Volume := { v_Name : string; v_Source : VolumeSource }.

Record Container := {
  ct_Name : string;
  ct_Args : list string;
  ct_Env : list EnvVar;
  ct_VolumeMounts : list VolumeMount;
  (** the capabilities of the security context, if there is one *)
  ct_Capabilities : option (list string)
}.

Record Toleration := { tol_Key : string; tol_Operator : string; tol_Value : string; tol_Effect : string }.

Record PodSpec := {
  ps_Containers : list Container;
  ps_Volumes : list Volume;
  ps_NodeSelector : gmap string string;
  ps_Subdomain : string;
  ps_ServiceAccountName : string;
  ps_Tolerations : list Toleration;
  ps_ShareProcessNamespace : option bool
}.

(** The slim pod of the manager resource. *)
Record NnfPodSpec := {
  np_Containers : list Container;
  np_Volumes : list Volume;
  np_ShareProcessNamespace : option bool
}.

Definition ToCorePodSpec (s : NnfPodSpec) : PodSpec :=
  {| ps_Containers := np_Containers s; ps_Volumes := np_Volumes s; ps_NodeSelector := ∅;
     ps_Subdomain := ""; ps_ServiceAccountName := ""; ps_Tolerations := [];
     ps_ShareProcessNamespace := np_ShareProcessNamespace s |}.

#[export] Instance EnvVar_eq_dec : EqDecision EnvVar.
Proof. solve_decision. Defined.
#[export] Instance VolumeMount_eq_dec : EqDecision VolumeMount.
Proof. solve_decision. Defined.
#[export] Instance VolumeSource_eq_dec : EqDecision VolumeSource.
Proof. solve_decision. Defined.
#[export] Instance Volume_eq_dec : EqDecision Volume.
Proof. solve_decision. Defined.
#[export] Instance Container_eq_dec : EqDecision Container.
Proof. solve_decision. Defined.
#[export] Instance Toleration_eq_dec : EqDecision Toleration.
Proof. solve_decision. Defined.
#[export] Instance PodSpec_eq_dec : EqDecision PodSpec.
Proof. solve_decision. Defined.

(** * Objects *)

(** The controller reference of an object. *)
Record OwnerReference := { or_Kind : string; or_Name : string; or_UID : string }.

#[export] Instance OwnerReference_eq_dec : EqDecision OwnerReference.
Proof. solve_decision. Defined.

Record NnfDataMovementManager := {
  m_Name : string;
  m_Namespace : string;
  m_UID : string;
  m_Selector : gmap string string;
  m_PodSpec : NnfPodSpec;
  m_UpdateStrategy : string;
  m_HostPath : string;
  m_MountPath : string;
  Ready : bool
}.

Record Secret := {
  sec_Name : string;
  sec_Namespace : string;
  sec_PrivateKey : string;
  sec_PublicKey : string;
  sec_Owner : option OwnerReference
}.

Record Deployment := {
  dep_Name : string;
  dep_Namespace : string;
  dep_Labels : gmap string string;
  dep_Owner : option OwnerReference;
  dep_Spec : PodSpec;
  dep_Rest : string
}.

Record Service := {
  svc_Name : string;
  svc_Namespace : string;
  svc_Owner : option OwnerReference;
  svc_Selector : gmap string string;
  svc_ClusterIP : string;
  svc_Rest : string
}.

(** The labels of the pods and their spec. *)
Record PodTemplateSpec := { pt_Labels : gmap string string; pt_Spec : PodSpec }.

Record DaemonSetSpec := {
  dss_Selector : gmap string string;
  dss_Template : PodTemplateSpec;
  dss_UpdateStrategy : string;
  dss_Rest : string
}.

Record DaemonSetStatus := {
  ObservedGeneration : Z;
  DesiredNumberScheduled : Z;
  UpdatedNumberScheduled : Z;
  NumberReady : Z
}.

Record DaemonSet := {
  ds_Name : string;
  ds_Namespace : string;
  ds_Owner : option OwnerReference;
  ds_Spec : option DaemonSetSpec;
  ds_Generation : Z;
  ds_Status : DaemonSetStatus
}.

(** A LustreFileSystem of the lustre-fs-operator: the access modes per namespace. *)
Record GlobalLustre := {
  gl_Meta : ObjectMeta;
  gl_MountRoot : string;
  gl_Namespaces : gmap string (list string)
}.

#[export] Instance Deployment_eq_dec : EqDecision Deployment.
Proof. solve_decision. Defined.
#[export] Instance Service_eq_dec : EqDecision Service.
Proof. solve_decision. Defined.
#[export] Instance PodTemplateSpec_eq_dec : EqDecision PodTemplateSpec.
Proof. solve_decision. Defined.
#[export] Instance DaemonSetSpec_eq_dec : EqDecision DaemonSetSpec.
Proof. solve_decision. Defined.
#[export] Instance DaemonSetStatus_eq_dec : EqDecision DaemonSetStatus.
Proof. solve_decision. Defined.
#[export] Instance DaemonSet_eq_dec : EqDecision DaemonSet.
Proof. solve_decision. Defined.

Definition gl_key (l : GlobalLustre) : NamespacedName := (Namespace (gl_Meta l), Name (gl_Meta l)).
Definition manager_key (m : NnfDataMovementManager) : NamespacedName := (m_Namespace m, m_Name m).

(** * The client *)

(** One kind of resource *)
Record Resource (W A : Type) := {
  rc_get : NamespacedName → M W A;
  rc_create : A → M W A;
  rc_update : A → M W A
}.
Arguments rc_get {W A}.
Arguments rc_create {W A}.
Arguments rc_update {W A}.

Class ManagerKube (W : Type) := {
  getManager : NamespacedName → M W NnfDataMovementManager;
  updateManagerStatus : NnfDataMovementManager → M W NnfDataMovementManager;
  secrets : Resource W Secret;
  deployments : Resource W Deployment;
  services : Resource W Service;
  daemonsets : Resource W DaemonSet;
  listLustre : M W (list GlobalLustre);
  updateLustre : GlobalLustre → M W GlobalLustre
}.

(** [meta.IsNoMatchError] *)
Definition IsNoMatchError (e : error) : bool :=
  match e with StatusError NoMatch _ => true | _ => false end.

Definition controller_ref (m : NnfDataMovementManager) : OwnerReference :=
  {| or_Kind := "NnfDataMovementManager"; or_Name := m_Name m; or_UID := m_UID m |}.

(** [ctrl.SetControllerReference]: the reference an object gets, or the error that another object
    controls it; references are compared by kind and name. *)
Definition SetControllerReference (m : NnfDataMovementManager) (owner : option OwnerReference)
    : outcome (option OwnerReference) :=
  match owner with
  | Some o =>
      if String.eqb (or_Kind o) "NnfDataMovementManager" && String.eqb (or_Name o) (m_Name m)
      then Ret (Some (controller_ref m))
      else Fail (ErrorString ("Object is already owned by another " +:+ or_Kind o +:+ " controller " +:+ or_Name o))
  | None => Ret (Some (controller_ref m))
  end.

Inductive OperationResult := OperationResultNone | OperationResultCreated | OperationResultUpdated.

Section Client.
Context {W : Type} {A : Type} {A_dec : EqDecision A}.

(** [controllerutil.CreateOrUpdate] of an object that has its key only. *)
Definition CreateOrUpdate (r : Resource W A) (key : NamespacedName) (obj : A) (mutate : A → outcome A)
    : M W OperationResult :=
  got ← attempt (rc_get r key);
  match got with
  | inl err =>
      if negb (IsNotFound err) then fail err
      else
        obj ← lift_outcome (mutate obj);
        _ ← rc_create r obj;
        mret OperationResultCreated
  | inr existing =>
      obj ← lift_outcome (mutate existing);
      if bool_decide (existing = obj) then mret OperationResultNone
      else
        _ ← rc_update r obj;
        mret OperationResultUpdated
  end.
End Client.
