(* ===== verification/Manager.v ===== *)
(** The data movement manager,
    internal/controller/datamovementmanager_controller.go: it creates the secret,
    the deployment, the service and the daemonset of the data movement service,
    gives the service access to the global Lustre file systems, and keeps those
    from going away while workers mount them. *)
From S2P Require Import Prelude GoMonad GoStrings Api Env Crypto ManagerApi.

Definition dm_finalizer : string := "dm.cray.hpe.com".

Definition deploymentName : string := "nnf-dm-controller-manager".
Definition daemonsetName : string := "nnf-dm-worker".
Definition serviceName : string := "dm".
Definition nnfVolumeName : string := "nnf".
Definition sshAuthVolume : string := "ssh-auth".
Definition sshPublicKey : string := "ssh-publickey".
(** [keyutil.ECPrivateKeyBlockType] *)
Definition ECPrivateKeyBlockType : string := "EC PRIVATE KEY".
Definition ReadWriteMany : string := "ReadWriteMany".

Definition sshAuthVolumeItems : list (string * string) :=
  [("ssh-privatekey", "id_rsa"); (sshPublicKey, "id_rsa.pub"); (sshPublicKey, "authorized_keys")].

(** * Pods *)

Definition set_containers (cs : list Container) (p : PodSpec) : PodSpec :=
  {| ps_Containers := cs; ps_Volumes := ps_Volumes p; ps_NodeSelector := ps_NodeSelector p;
     ps_Subdomain := ps_Subdomain p; ps_ServiceAccountName := ps_ServiceAccountName p;
     ps_Tolerations := ps_Tolerations p; ps_ShareProcessNamespace := ps_ShareProcessNamespace p |}.

Definition add_volumes (vs : list Volume) (p : PodSpec) : PodSpec :=
  {| ps_Containers := ps_Containers p; ps_Volumes := ps_Volumes p ++ vs; ps_NodeSelector := ps_NodeSelector p;
     ps_Subdomain := ps_Subdomain p; ps_ServiceAccountName := ps_ServiceAccountName p;
     ps_Tolerations := ps_Tolerations p; ps_ShareProcessNamespace := ps_ShareProcessNamespace p |}.

Definition add_mounts (ms : list VolumeMount) (c : Container) : Container :=
  {| ct_Name := ct_Name c; ct_Args := ct_Args c; ct_Env := ct_Env c;
     ct_VolumeMounts := ct_VolumeMounts c ++ ms; ct_Capabilities := ct_Capabilities c |}.

Definition add_env (e : EnvVar) (c : Container) : Container :=
  {| ct_Name := ct_Name c; ct_Args := ct_Args c; ct_Env := ct_Env c ++ [e];
     ct_VolumeMounts := ct_VolumeMounts c; ct_Capabilities := ct_Capabilities c |}.

Definition set_args (args : list string) (c : Container) : Container :=
  {| ct_Name := ct_Name c; ct_Args := args; ct_Env := ct_Env c;
     ct_VolumeMounts := ct_VolumeMounts c; ct_Capabilities := ct_Capabilities c |}.

Definition set_capabilities (caps : list string) (c : Container) : Container :=
  {| ct_Name := ct_Name c; ct_Args := ct_Args c; ct_Env := ct_Env c;
     ct_VolumeMounts := ct_VolumeMounts c; ct_Capabilities := Some caps |}.

(** The index [findContainer] returns a pointer to. *)
Fixpoint container_index (name : string) (cs : list Container) : option nat :=
  match cs with
  | [] => None
  | c :: cs' => if String.eqb (ct_Name c) name then Some 0 else S <$> container_index name cs'
  end.

Definition findContainer (podSpec : PodSpec) (name : string) : outcome nat :=
  let name := ToLower name in
  match container_index name (ps_Containers podSpec) with
  | Some idx => Ret idx
  | None => Fail (ErrorString ("could not locate '" +:+ name +:+ "' container in pod spec"))
  end.

(** A change through the pointer, and nothing without the container. *)
Definition update_container (idx : nat) (f : Container → Container) (p : PodSpec) : PodSpec :=
  set_containers (alter f idx (ps_Containers p)) p.

Definition with_container (name : string) (f : Container → Container) (p : PodSpec) : PodSpec :=
  match findContainer p name with Ret idx => update_container idx f p | _ => p end.

Definition setupSSHAuthVolumes (manager : NnfDataMovementManager) (podSpec : PodSpec) : PodSpec :=
  let podSpec := add_volumes
    [{| v_Name := sshAuthVolume; v_Source := SecretVolume (m_Name manager) 384 sshAuthVolumeItems |}] podSpec in
  set_containers
    (add_mounts [{| vm_Name := sshAuthVolume; vm_MountPath := "/root/.ssh"; vm_MountPropagation := None |}]
       <$> ps_Containers podSpec) podSpec.

(** [PersistentVolumeClaimName] *)
Definition PersistentVolumeClaimName (fs : GlobalLustre) (namespace mode : string) : string :=
  Name (gl_Meta fs) +:+ "-" +:+ namespace +:+ "-" +:+ ToLower mode +:+ "-pvc".

Definition deleting (fs : GlobalLustre) : bool := negb (IsZero (DeletionTimestamp (gl_Meta fs))).

Definition lustre_volume (manager : NnfDataMovementManager) (fs : GlobalLustre) : Volume :=
  {| v_Name := Name (gl_Meta fs);
     v_Source := ClaimVolume (PersistentVolumeClaimName fs (m_Namespace manager) ReadWriteMany) |}.

Definition lustre_mount (fs : GlobalLustre) : VolumeMount :=
  {| vm_Name := Name (gl_Meta fs); vm_MountPath := gl_MountRoot fs; vm_MountPropagation := None |}.

(** The loop over the file systems: the volumes and the mounts. *)
Fixpoint lustre_volumes (manager : NnfDataMovementManager) (fileSystems : list GlobalLustre)
    (volumes : list Volume) (volumeMounts : list VolumeMount) : list Volume * list VolumeMount :=
  match fileSystems with
  | [] => (volumes, volumeMounts)
  | fs :: fileSystems' =>
      if deleting fs then lustre_volumes manager fileSystems' volumes volumeMounts
      else lustre_volumes manager fileSystems' (volumes ++ [lustre_volume manager fs])
             (volumeMounts ++ [lustre_mount fs])
  end.

Definition setupLustreVolumes (manager : NnfDataMovementManager) (podSpec : PodSpec)
    (fileSystems : list GlobalLustre) : PodSpec :=
  let '(volumes, volumeMounts) := lustre_volumes manager fileSystems [] [] in
  let volumes := volumes ++
    [{| v_Name := nnfVolumeName; v_Source := HostPathVolume (m_HostPath manager) "DirectoryOrCreate" |}] in
  let podSpec := add_volumes volumes podSpec in
  let volumeMounts := volumeMounts ++
    [{| vm_Name := nnfVolumeName; vm_MountPath := m_MountPath manager;
        vm_MountPropagation := Some "HostToContainer" |}] in
  set_containers (add_mounts volumeMounts <$> ps_Containers podSpec) podSpec.

(** * Deployment *)

(** The first argument of the base that selects the manager is replaced. *)
Fixpoint select_default (args : list string) : list string :=
  match args with
  | [] => []
  | arg :: args' =>
      if String.eqb arg "--controller=manager" then "--controller=default" :: args'
      else arg :: select_default args'
  end.

Definition deployment_container (c : Container) : Container :=
  add_env {| ev_Name := "OMPI_MCA_orte_keep_fqdn_hostnames"; ev_Value := "true" |}
    (set_args (select_default (ct_Args c) ++ ["--leader-elect=false"]) c).

Definition wrap_ref (what : string) (o : outcome (option OwnerReference)) : outcome (option OwnerReference) :=
  match o with
  | Fail e => Fail (Errorf_w ("setting " +:+ what +:+ " controller reference failed: ") e "")
  | r => r
  end.

Definition deployment_mutate (manager : NnfDataMovementManager) (base deployment : Deployment)
    : outcome Deployment :=
  let podSpec := dep_Spec base in
  idx ← findContainer podSpec "manager";
  let podSpec := setupSSHAuthVolumes manager (update_container idx deployment_container podSpec) in
  owner ← wrap_ref "Deployment" (SetControllerReference manager (dep_Owner deployment));
  Ret {| dep_Name := dep_Name deployment; dep_Namespace := dep_Namespace deployment;
         dep_Labels := dep_Labels base; dep_Owner := owner; dep_Spec := podSpec;
         dep_Rest := dep_Rest base |}.

(** * Service *)

Definition service_mutate (manager : NnfDataMovementManager) (service : Service) : outcome Service :=
  owner ← wrap_ref "Service" (SetControllerReference manager (svc_Owner service));
  Ret {| svc_Name := svc_Name service; svc_Namespace := svc_Namespace service; svc_Owner := owner;
         svc_Selector := {[ DataMovementWorkerLabel := "true" ]}; svc_ClusterIP := "None";
         svc_Rest := svc_Rest service |}.

(** * Daemonset *)

Definition worker_capabilities : list string :=
  ["SETUID"; "SETGID"; "SYS_CHROOT"; "NET_BIND_SERVICE"; "DAC_OVERRIDE"; "CHOWN"; "FOWNER"; "MKNOD"].

Definition worker_settings (manager : NnfDataMovementManager) (p : PodSpec) : PodSpec :=
  {| ps_Containers := ps_Containers p; ps_Volumes := ps_Volumes p; ps_NodeSelector := m_Selector manager;
     ps_Subdomain := serviceName; ps_ServiceAccountName := "nnf-dm-node-controller";
     ps_Tolerations := [{| tol_Key := "cray.nnf.node"; tol_Operator := "Equal"; tol_Value := "true";
                           tol_Effect := "NoSchedule" |}];
     ps_ShareProcessNamespace := Some true |}.

(** The pod of the workers; [environment] is the variable ENVIRONMENT. *)
Definition worker_pod_spec (environment : string) (manager : NnfDataMovementManager)
    (filesystems : list GlobalLustre) : PodSpec :=
  let env := {| ev_Name := "ENVIRONMENT"; ev_Value := environment |} in
  let podSpec := worker_settings manager (ToCorePodSpec (m_PodSpec manager)) in
  let podSpec := with_container "manager" (add_env env) podSpec in
  let podSpec := with_container "worker" (λ c, set_capabilities worker_capabilities (add_env env c)) podSpec in
  setupLustreVolumes manager (setupSSHAuthVolumes manager podSpec) filesystems.

Definition daemonset_spec (environment : string) (manager : NnfDataMovementManager)
    (filesystems : list GlobalLustre) : DaemonSetSpec :=
  {| dss_Selector := m_Selector manager;
     dss_Template := {| pt_Labels := <[DataMovementWorkerLabel := "true"]> (m_Selector manager);
                        pt_Spec := worker_pod_spec environment manager filesystems |};
     dss_UpdateStrategy := m_UpdateStrategy manager;
     dss_Rest := "" |}.

Definition daemonset_mutate (environment : string) (manager : NnfDataMovementManager)
    (filesystems : list GlobalLustre) (ds : DaemonSet) : outcome DaemonSet :=
  owner ← wrap_ref "DaemonSet" (SetControllerReference manager (ds_Owner ds));
  Ret {| ds_Name := ds_Name ds; ds_Namespace := ds_Namespace ds; ds_Owner := owner;
         ds_Spec := Some (daemonset_spec environment manager filesystems);
         ds_Generation := ds_Generation ds; ds_Status := ds_Status ds |}.

(** When the rollout of the daemonset is complete. *)
Definition rolled_out (ds : DaemonSet) : bool :=
  let d := DesiredNumberScheduled (ds_Status ds) in
  negb (negb (ObservedGeneration (ds_Status ds) =? ds_Generation ds)%Z || (d <? 1)%Z
        || negb (UpdatedNumberScheduled (ds_Status ds) =? d)%Z || negb (NumberReady (ds_Status ds) =? d)%Z).

Definition ds_volumes (ds : DaemonSet) : list Volume :=
  match ds_Spec ds with Some spec => ps_Volumes (pt_Spec (dss_Template spec)) | None => [] end.

(** * The file systems *)

(** Access for the namespace of the manager, and the finalizer while the file system is not deleted. *)
Definition grant_access (manager : NnfDataMovementManager) (lustre : GlobalLustre) : GlobalLustre :=
  {| gl_Meta := if negb (deleting lustre) && negb (ContainsFinalizer (gl_Meta lustre) dm_finalizer)
                then AddFinalizer dm_finalizer (gl_Meta lustre) else gl_Meta lustre;
     gl_MountRoot := gl_MountRoot lustre;
     gl_Namespaces := if bool_decide (is_Some (gl_Namespaces lustre !! m_Namespace manager))
                      then gl_Namespaces lustre
                      else <[m_Namespace manager := [ReadWriteMany]]> (gl_Namespaces lustre) |}.

Definition drop_finalizer (lustre : GlobalLustre) : GlobalLustre :=
  {| gl_Meta := RemoveFinalizer dm_finalizer (gl_Meta lustre); gl_MountRoot := gl_MountRoot lustre;
     gl_Namespaces := gl_Namespaces lustre |}.

(** The file systems that are being deleted; [None] if the daemonset still has one of them. *)
Fixpoint finalizersToRemove (ds : DaemonSet) (filesystems : list GlobalLustre) : option (list GlobalLustre) :=
  match filesystems with
  | [] => Some []
  | lustre :: filesystems' =>
      if deleting lustre then
        if existsb (λ vol, String.eqb (Name (gl_Meta lustre)) (v_Name vol)) (ds_volumes ds) then None
        else cons lustre <$> finalizersToRemove ds filesystems'
      else finalizersToRemove ds filesystems'
  end.

Section Manager.
Context {W : Type} {os : OS W} {crypto : Crypto W} {mkube : ManagerKube W}.

(** A listing without the resource definition of Lustre is empty. *)
Definition list_filesystems : M W (list GlobalLustre) :=
  got ← attempt listLustre;
  match got with
  | inl err =>
      if IsNoMatchError err then mret []
      else fail (Errorf_w "list lustre file systems failed: " err "")
  | inr items => mret items
  end.

Definition newSecret (manager : NnfDataMovementManager) : M W Secret :=
  privateKey ← map_err (λ err, Errorf_w "generating private key failed: " err "") GenerateKey;
  privateDER ← map_err (λ err, Errorf_w "converting private key to DER format failed: " err "")
                 (lift_outcome (MarshalECPrivateKey privateKey));
  let privatePEM := default "" (EncodeToMemory ECPrivateKeyBlockType privateDER) in
  publicKey ← map_err (λ err, Errorf_w "generating public key failed: " err "")
                (lift_outcome (NewPublicKey privateKey));
  owner ← lift_outcome (wrap_ref "Secret" (SetControllerReference manager None));
  mret {| sec_Name := m_Name manager; sec_Namespace := m_Namespace manager; sec_PrivateKey := privatePEM;
          sec_PublicKey := MarshalAuthorizedKey publicKey; sec_Owner := owner |}.

Definition createSecretIfNecessary (manager : NnfDataMovementManager) : M W unit :=
  got ← attempt (rc_get secrets (manager_key manager));
  match got with
  | inl err =>
      if IsNotFound err then
        secret ← newSecret manager;
        _ ← rc_create secrets secret;
        mret tt
      else fail err
  | inr _ => mret tt
  end.

Definition createOrUpdateDeploymentIfNecessary (manager : NnfDataMovementManager) : M W unit :=
  base ← map_err (λ err, Errorf_w "retrieving base deployment failed " err "")
           (rc_get deployments (manager_key manager));
  let deployment := {| dep_Name := deploymentName; dep_Namespace := m_Namespace manager; dep_Labels := ∅;
                       dep_Owner := None; dep_Spec := ToCorePodSpec {| np_Containers := []; np_Volumes := [];
                                                                       np_ShareProcessNamespace := None |};
                       dep_Rest := "" |} in
  _ ← CreateOrUpdate deployments (m_Namespace manager, deploymentName) deployment (deployment_mutate manager base);
  mret tt.

Definition createOrUpdateServiceIfNecessary (manager : NnfDataMovementManager) : M W unit :=
  let service := {| svc_Name := serviceName; svc_Namespace := m_Namespace manager; svc_Owner := None;
                    svc_Selector := ∅; svc_ClusterIP := ""; svc_Rest := "" |} in
  _ ← CreateOrUpdate services (m_Namespace manager, serviceName) service (service_mutate manager);
  mret tt.

(** The loops of updates: the first error ends them. *)
Fixpoint update_each (f : GlobalLustre → GlobalLustre) (items : list GlobalLustre) : M W unit :=
  match items with
  | [] => mret tt
  | lustre :: items' => _ ← updateLustre (f lustre); update_each f items'
  end.

Definition updateLustreFileSystemsIfNecessary (manager : NnfDataMovementManager) : M W unit :=
  items ← list_filesystems;
  update_each (grant_access manager) items.

Definition createOrUpdateDaemonSetIfNecessary (manager : NnfDataMovementManager) : M W unit :=
  filesystems ← list_filesystems;
  let ds := {| ds_Name := daemonsetName; ds_Namespace := m_Namespace manager; ds_Owner := None; ds_Spec := None;
               ds_Generation := 0; ds_Status := {| ObservedGeneration := 0; DesiredNumberScheduled := 0;
                                                   UpdatedNumberScheduled := 0; NumberReady := 0 |} |} in
  _ ← CreateOrUpdate daemonsets (m_Namespace manager, daemonsetName) ds
        (daemonset_mutate (Getenv "ENVIRONMENT") manager filesystems);
  mret tt.

Definition isDaemonSetReady (manager : NnfDataMovementManager) : M W bool :=
  got ← attempt (rc_get daemonsets (m_Namespace manager, daemonsetName));
  match got with
  | inl err => if IsNotFound err then mret false else fail err
  | inr ds => mret (rolled_out ds)
  end.

(** An error of [isDaemonSetReady] comes with [false] and is dropped. *)
Definition removeLustreFileSystemsFinalizersIfNecessary (manager : NnfDataMovementManager) : M W unit :=
  filesystems ← list_filesystems;
  got ← attempt (rc_get daemonsets (m_Namespace manager, daemonsetName));
  match got with
  | inl err => if IsNotFound err then mret tt else fail err
  | inr ds =>
      match finalizersToRemove ds filesystems with
      | None | Some [] => mret tt
      | Some items =>
          ready ← attempt (isDaemonSetReady manager);
          match ready with
          | inr true =>
              update_each drop_finalizer
                (List.filter (λ l, ContainsFinalizer (gl_Meta l) dm_finalizer) items)
          | _ => mret tt
          end
      end
  end.

(** The steps of [Reconcile] up to the readiness. *)
Definition manager_steps (manager : NnfDataMovementManager) : M W bool :=
  _ ← createSecretIfNecessary manager;
  _ ← createOrUpdateDeploymentIfNecessary manager;
  _ ← createOrUpdateServiceIfNecessary manager;
  _ ← updateLustreFileSystemsIfNecessary manager;
  _ ← createOrUpdateDaemonSetIfNecessary manager;
  _ ← removeLustreFileSystemsFinalizersIfNecessary manager;
  isDaemonSetReady manager.

Definition set_Ready (ready : bool) (m : NnfDataMovementManager) : NnfDataMovementManager :=
  {| m_Name := m_Name m; m_Namespace := m_Namespace m; m_UID := m_UID m; m_Selector := m_Selector m;
     m_PodSpec := m_PodSpec m; m_UpdateStrategy := m_UpdateStrategy m; m_HostPath := m_HostPath m;
     m_MountPath := m_MountPath m; Ready := ready |}.

(** [CloseWithStatusUpdate]: a changed status is written; the error of the reconciliation wins, and a
    conflict of the update is none. *)
Definition close_status (manager : NnfDataMovementManager) (ready : bool) (err : option error) : M W unit :=
  let result (err : option error) : M W unit := match err with Some e => fail e | None => mret tt end in
  if Bool.eqb ready (Ready manager) then result err
  else
    updated ← attempt (updateManagerStatus (set_Ready ready manager));
    match err, updated with
    | None, inl updateError => if IsConflict updateError then mret tt else fail updateError
    | _, _ => result err
    end.

(** The result: whether to requeue at once. *)
Definition Manager_Reconcile (req : NamespacedName) : M W bool :=
  got ← attempt (getManager req);
  match got with
  | inl err => match IgnoreNotFound err with None => mret false | Some e => fail e end
  | inr manager =>
      steps ← attempt (manager_steps manager);
      let '(requeue, ready, err) :=
        match steps with
        | inl err => if IsConflict err then (true, Ready manager, None) else (false, false, Some err)
        | inr ready => (false, ready, None)
        end in
      _ ← close_status manager ready err;
      mret requeue
  end.
End Manager.
