(* ===== verification/ManagerTrace.v ===== *)
(** The calls the data movement manager makes, as a trace.

    The client of the manager reads from informer caches: an answer may be old, a write
    may be refused or its answer lost, and others write at any time.  So nothing is assumed of the
    answers: [recording] wraps any client whatever, runs it, and records each call with its
    answer.  The theorems of ManagerRun.v are about these traces. *)
From S2P Require Import Prelude GoMonad GoStrings Api Env Crypto ManagerApi Manager.

(** * Calls *)

Inductive call (A : Type) :=
| Get (k : NamespacedName) (o : outcome A)
| Create (a : A) (o : outcome A)
| Update (a : A) (o : outcome A).
Arguments Get {A}.
Arguments Create {A}.
Arguments Update {A}.

Inductive event :=
| OnSecret (c : call Secret)
| OnDeployment (c : call Deployment)
| OnService (c : call Service)
| OnDaemonSet (c : call DaemonSet)
| ListedLustre (o : outcome (list GlobalLustre))
| UpdatedLustre (l : GlobalLustre) (o : outcome GlobalLustre)
| GotManager (k : NamespacedName) (o : outcome NnfDataMovementManager)
| WroteStatus (m : NnfDataMovementManager) (o : outcome NnfDataMovementManager).

(** The key of an object. *)
Class Keyed (A : Type) := key_of : A → NamespacedName.

#[export] Instance secret_keyed : Keyed Secret := λ s, (sec_Namespace s, sec_Name s).
#[export] Instance deployment_keyed : Keyed Deployment := λ d, (dep_Namespace d, dep_Name d).
#[export] Instance service_keyed : Keyed Service := λ s, (svc_Namespace s, svc_Name s).
#[export] Instance daemonset_keyed : Keyed DaemonSet := λ d, (ds_Namespace d, ds_Name d).

Lemma deployment_mutate_key m base a b : deployment_mutate m base a = Ret b → key_of b = key_of a.
Proof.
  unfold deployment_mutate. destruct (findContainer _ _); [|done..]. cbn.
  destruct (wrap_ref _ _); [|done..]. cbn. by intros [= <-].
Qed.

Lemma service_mutate_key m a b : service_mutate m a = Ret b → key_of b = key_of a.
Proof. unfold service_mutate. destruct (wrap_ref _ _); [|done..]. cbn. by intros [= <-]. Qed.

Lemma daemonset_mutate_key e m fss a b : daemonset_mutate e m fss a = Ret b → key_of b = key_of a.
Proof. unfold daemonset_mutate. destruct (wrap_ref _ _); [|done..]. cbn. by intros [= <-]. Qed.

(** * The recording client *)

Section Recording.
Context {W : Type} {os : OS W} {crypto : Crypto W} {mkube : ManagerKube W}.

Definition Traced : Type := W * list event.

Definition record {A} (ev : outcome A → event) (c : M W A) : M Traced A := λ wt,
  let r := c (fst wt) in (fst r, (snd r, snd wt ++ [ev (fst r)])).

(** A call that is not one of the client. *)
Definition silent {A} (c : M W A) : M Traced A := λ wt,
  let r := c (fst wt) in (fst r, (snd r, snd wt)).

Definition recording_resource {A} (on : call A → event) (r : Resource W A) : Resource Traced A :=
  {| rc_get k := record (λ o, on (Get k o)) (rc_get r k);
     rc_create a := record (λ o, on (Create a o)) (rc_create r a);
     rc_update a := record (λ o, on (Update a o)) (rc_update r a) |}.

Definition recording : ManagerKube Traced :=
  {| getManager k := record (GotManager k) (getManager k);
     updateManagerStatus m := record (WroteStatus m) (updateManagerStatus m);
     secrets := recording_resource OnSecret secrets;
     deployments := recording_resource OnDeployment deployments;
     services := recording_resource OnService services;
     daemonsets := recording_resource OnDaemonSet daemonsets;
     listLustre := record ListedLustre listLustre;
     updateLustre l := record (UpdatedLustre l) (updateLustre l) |}.

Definition recording_crypto : Crypto Traced :=
  {| GenerateKey := silent GenerateKey;
     MarshalECPrivateKey := MarshalECPrivateKey;
     MarshalPKCS8PrivateKey := MarshalPKCS8PrivateKey;
     EncodeToMemory := EncodeToMemory;
     pem_Decode := pem_Decode;
     NewPublicKey := NewPublicKey;
     MarshalAuthorizedKey := MarshalAuthorizedKey |}.

Definition recording_os : OS Traced :=
  {| mkdirTemp d p := silent (mkdirTemp d p);
     mkdirAll p := silent (mkdirAll p);
     createFile p := silent (createFile p);
     writeString p t := silent (writeString p t);
     openFile p := silent (openFile p);
     removeAll p := silent (removeAll p);
     statIsDir p := silent (statIsDir p);
     runCommand c := silent (runCommand c);
     nowMicro := silent nowMicro;
     environ := environ;
     getuid := getuid |}.

(** The steps of a reconciliation, with the trace of their calls. *)
Definition traced_steps (m : NnfDataMovementManager) (w : W) : outcome bool * Traced :=
  manager_steps (os := recording_os) (crypto := recording_crypto) (mkube := recording) m (w, []).

(** ** Recording does not change what the code does *)

Definition mirrors {A} (c' : M Traced A) (c : M W A) : Prop :=
  ∀ w tr, fst (c' (w, tr)) = fst (c w) ∧ fst (snd (c' (w, tr))) = snd (c w).

Lemma mirrors_record {A} ev (c : M W A) : mirrors (record ev c) c.
Proof. done. Qed.
Lemma mirrors_silent {A} (c : M W A) : mirrors (silent c) c.
Proof. done. Qed.
Lemma mirrors_ret {A} (a : A) : mirrors (mret a) (mret a).
Proof. done. Qed.
Lemma mirrors_fail {A} e : mirrors (fail e : M Traced A) (fail e).
Proof. done. Qed.
Lemma mirrors_lift {A} (o : outcome A) : mirrors (lift_outcome o) (lift_outcome o).
Proof. done. Qed.

Lemma mirrors_bind {A B} (c' : M Traced A) (c : M W A) (f' : A → M Traced B) (f : A → M W B) :
  mirrors c' c → (∀ a, mirrors (f' a) (f a)) → mirrors (c' ≫= f') (c ≫= f).
Proof.
  intros Hc Hf w tr. specialize (Hc w tr). unfold mbind, M_bind.
  destruct (c' (w, tr)) as [o' [w1' tr1]], (c w) as [o w1]. cbn in Hc. destruct Hc as [-> ->].
  destruct o; [apply Hf|done..].
Qed.

Lemma mirrors_attempt {A} (c' : M Traced A) (c : M W A) : mirrors c' c → mirrors (attempt c') (attempt c).
Proof.
  intros Hc w tr. specialize (Hc w tr). unfold attempt.
  destruct (c' (w, tr)) as [o' [w1' tr1]], (c w) as [o w1]. cbn in Hc. destruct Hc as [-> ->]. by destruct o.
Qed.

Lemma mirrors_map_err {A} f (c' : M Traced A) (c : M W A) : mirrors c' c → mirrors (map_err f c') (map_err f c).
Proof.
  intros Hc w tr. specialize (Hc w tr). unfold map_err.
  destruct (c' (w, tr)) as [o' [w1' tr1]], (c w) as [o w1]. cbn in Hc. destruct Hc as [-> ->]. by destruct o.
Qed.

Ltac mirror := repeat first
  [ apply mirrors_record | apply mirrors_silent | apply mirrors_ret | apply mirrors_fail | apply mirrors_lift
  | apply mirrors_bind | apply mirrors_attempt | apply mirrors_map_err
  | match goal with |- ∀ _, _ => intros ? end | case_match ].

Lemma update_each_mirrors f items :
  mirrors (update_each (mkube := recording) f items) (update_each f items).
Proof. induction items; cbn [update_each]; mirror. apply IHitems. Qed.

Lemma CreateOrUpdate_mirrors {A} `{EqDecision A} on (r : Resource W A) k obj mutate :
  mirrors (CreateOrUpdate (recording_resource on r) k obj mutate) (CreateOrUpdate r k obj mutate).
Proof. unfold CreateOrUpdate. mirror. Qed.

Lemma traced_steps_mirrors m :
  mirrors (manager_steps (os := recording_os) (crypto := recording_crypto) (mkube := recording) m) (manager_steps m).
Proof.
  unfold manager_steps, createSecretIfNecessary, newSecret, createOrUpdateDeploymentIfNecessary,
    createOrUpdateServiceIfNecessary, updateLustreFileSystemsIfNecessary, createOrUpdateDaemonSetIfNecessary,
    removeLustreFileSystemsFinalizersIfNecessary, isDaemonSetReady, list_filesystems.
  mirror.
  all: first [apply CreateOrUpdate_mirrors | apply update_each_mirrors].
Qed.

Lemma traced_steps_run m w :
  ∃ tr, traced_steps m w = (fst (manager_steps m w), (snd (manager_steps m w), tr)).
Proof.
  destruct (traced_steps_mirrors m w []) as [H1 H2]. fold (traced_steps m w) in H1, H2.
  exists (snd (snd (traced_steps m w))). destruct (traced_steps m w) as [o [w' tr]]. cbn in *. by subst.
Qed.

(** ** What code with the recording client emits *)

(** From every world, the code adds events to the trace that satisfy [Q] with its outcome. *)
Definition emits {A} (Q : outcome A → list event → Prop) (c : M Traced A) : Prop :=
  ∀ w tr, ∃ o w' ev, c (w, tr) = (o, (w', tr ++ ev)) ∧ Q o ev.

Lemma emits_weaken {A} (Q1 Q : outcome A → list event → Prop) c :
  emits Q1 c → (∀ o ev, Q1 o ev → Q o ev) → emits Q c.
Proof. intros Hc HQ w tr. destruct (Hc w tr) as (o & w' & ev & E & H). exists o, w', ev. auto. Qed.

Lemma emits_here {A} (Q : outcome A → list event → Prop) (o : outcome A) (c : M Traced A) :
  (∀ wt, c wt = (o, wt)) → Q o [] → emits Q c.
Proof. intros Hc HQ w tr. exists o, w, []. by rewrite app_nil_r. Qed.

Lemma emits_record {A} (Q : outcome A → list event → Prop) ev (c : M W A) : (∀ o, Q o [ev o]) → emits Q (record ev c).
Proof. intros HQ w tr. by exists (fst (c w)), (snd (c w)), [ev (fst (c w))]. Qed.

Lemma emits_silent {A} (Q : outcome A → list event → Prop) (c : M W A) : (∀ o, Q o []) → emits Q (silent c).
Proof. intros HQ w tr. exists (fst (c w)), (snd (c w)), []. by rewrite app_nil_r. Qed.

Lemma emits_bind {A B} (Q1 : outcome A → list event → Prop) (Q : outcome B → list event → Prop)
    (c : M Traced A) (f : A → M Traced B) :
  emits Q1 c → (∀ e ev, Q1 (Fail e) ev → Q (Fail e) ev) → (∀ p ev, Q1 (Panic p) ev → Q (Panic p) ev) →
  (∀ a ev, Q1 (Ret a) ev → emits (λ o ev', Q o (ev ++ ev')) (f a)) → emits Q (c ≫= f).
Proof.
  intros Hc HF HP Hf w tr. destruct (Hc w tr) as (o & w1 & ev & E & H1). unfold mbind, M_bind. rewrite E.
  destruct o as [a|e|p]; [|by exists (Fail e), w1, ev; auto|by exists (Panic p), w1, ev; auto].
  destruct (Hf a ev H1 w1 (tr ++ ev)) as (o2 & w2 & ev2 & E2 & H2). exists o2, w2, (ev ++ ev2).
  by rewrite E2, app_assoc.
Qed.

Lemma emits_attempt {A} (Q : outcome (error + A) → list event → Prop) (c : M Traced A) :
  emits (λ o ev, Q (match o with Ret a => Ret (inr a) | Fail e => Ret (inl e) | Panic p => Panic p end) ev) c →
  emits Q (attempt c).
Proof.
  intros Hc w tr. destruct (Hc w tr) as (o & w1 & ev & E & H1). unfold attempt. rewrite E.
  destruct o; by eexists _, w1, ev.
Qed.

Lemma emits_map_err {A} (Q : outcome A → list event → Prop) f (c : M Traced A) :
  emits (λ o ev, Q (match o with Fail e => Fail (f e) | r => r end) ev) c → emits Q (map_err f c).
Proof.
  intros Hc w tr. destruct (Hc w tr) as (o & w1 & ev & E & H1). unfold map_err. rewrite E.
  destruct o; by eexists _, w1, ev.
Qed.

(** Two steps, for properties [P] of traces that hold of a concatenation when they hold of its parts. *)
Lemma emits_each {A B} (P : list event → Prop) (c : M Traced A) (f : A → M Traced B) :
  (∀ x y, P x → P y → P (x ++ y)) → emits (λ _, P) c → (∀ a, emits (λ _, P) (f a)) → emits (λ _, P) (c ≫= f).
Proof.
  intros Happ Hc Hf. eapply emits_bind; [exact Hc|done|done|]. intros a ev Hev.
  eapply emits_weaken; [apply Hf|]. auto.
Qed.

(** The object at [k] is [a], as far as the trace shows: it was read so, created so, or what was read
    there was updated to it, with success. *)
Definition in_place {A} `{Keyed A} (on : call A → event) (k : NamespacedName) (a : A) (tr : list event) : Prop :=
  on (Get k (Ret a)) ∈ tr
  ∨ (key_of a = k ∧ ∃ a', on (Create a (Ret a')) ∈ tr)
  ∨ (∃ cur, on (Get k (Ret cur)) ∈ tr ∧ key_of a = key_of cur ∧ ∃ a', on (Update a (Ret a')) ∈ tr).

Lemma in_place_sub {A} `{Keyed A} on k (a : A) tr tr' : in_place on k a tr → tr ⊆ tr' → in_place on k a tr'.
Proof.
  intros [H1|[(Hk & a' & H1)|(cur & H1 & Hk & a' & H2)]] Hs; [left; by apply Hs|right; left|right; right].
  - split; [done|]. exists a'. by apply Hs.
  - exists cur. split; [by apply Hs|]. split; [done|]. exists a'. by apply Hs.
Qed.

(** [CreateOrUpdate] makes calls of its kind only; after a success the object is in place: what the
    function makes of the object it read or, without one, of the empty one. *)
Lemma CreateOrUpdate_emits {A} `{EqDecision A} `{Keyed A} on (r : Resource W A) k obj mutate :
  key_of obj = k → (∀ a b, mutate a = Ret b → key_of b = key_of a) →
  emits (λ o ev, (∀ e, e ∈ ev → ∃ c, e = on c) ∧
                 ∀ res, o = Ret res → ∃ cur new, mutate cur = Ret new ∧ in_place on k new ev)
    (CreateOrUpdate (recording_resource on r) k obj mutate).
Proof.
  intros Hobj Hkey. assert (∀ c, ∀ e, e ∈ [on c] → ∃ c, e = on c) as H1 by (intros c e ->%list_elem_of_singleton; eauto).
  assert (∀ c c', ∀ e, e ∈ [on c; on c'] → ∃ c, e = on c) as H2.
  { intros c c' e [-> | ->%list_elem_of_singleton]%elem_of_cons; eauto. }
  intros w tr. unfold CreateOrUpdate, attempt, mbind, M_bind, lift_outcome. cbn. unfold record. cbn.
  destruct (rc_get r k w) as [[cur|e|p] w1]; cbn.
  - destruct (mutate cur) as [new|e|p] eqn:Em.
    2-3: eexists _, w1, _; split; [reflexivity|]; split; [apply H1|discriminate].
    case_bool_decide as Heq.
    + eexists _, w1, _. split; [reflexivity|]. split; [apply H1|]. intros res _. exists cur, cur. subst.
      split; [done|]. left. by apply list_elem_of_singleton.
    + cbn. destruct (rc_update r new w1) as [[a|e|p] w2]; cbn; eexists _, w2, _; rewrite <- app_assoc;
        (split; [reflexivity|]); (split; [apply H2|try discriminate]).
      intros res _. exists cur, new. split; [done|]. right. right. exists cur. split; [by left|].
      split; [by apply Hkey|]. exists a. right. by left.
  - destruct (IsNotFound e); cbn; [|eexists _, w1, _; split; [reflexivity|]; split; [apply H1|discriminate]].
    destruct (mutate obj) as [new|e'|p] eqn:Em.
    2-3: eexists _, w1, _; split; [reflexivity|]; split; [apply H1|discriminate].
    cbn. destruct (rc_create r new w1) as [[a|e'|p] w2]; cbn; eexists _, w2, _; rewrite <- app_assoc;
      (split; [reflexivity|]); (split; [apply H2|try discriminate]).
    intros res _. exists obj, new. split; [done|]. right. left.
    split; [by rewrite (Hkey _ _ Em)|]. exists a. right. by left.
  - eexists _, w1, _. split; [reflexivity|]. split; [apply H1|discriminate].
Qed.
End Recording.
Arguments Traced : clear implicits.
