(* ===== verification/ManagerProps.v ===== *)
(** What the data movement manager describes: the pods of the workers, which of its
    objects settle, and how the daemonset depends on the listing. *)
From S2P Require Import Prelude GoMonad GoStrings Api Env Crypto ManagerApi Manager.

(** * The pods of the workers *)

Definition live_lustre (fss : list GlobalLustre) : list GlobalLustre := List.filter (λ l, negb (deleting l)) fss.

Lemma lustre_volumes_spec m fss vs ms :
  lustre_volumes m fss vs ms = (vs ++ (lustre_volume m <$> live_lustre fss), ms ++ (lustre_mount <$> live_lustre fss)).
Proof.
  revert vs ms. induction fss as [|l fss IH]; intros vs ms; cbn; [by rewrite !app_nil_r|].
  destruct (deleting l); cbn; rewrite IH; [done|]. by rewrite <- !app_assoc.
Qed.

Definition ssh_mount : VolumeMount :=
  {| vm_Name := sshAuthVolume; vm_MountPath := "/root/.ssh"; vm_MountPropagation := None |}.
Definition nnf_mount (m : NnfDataMovementManager) : VolumeMount :=
  {| vm_Name := nnfVolumeName; vm_MountPath := m_MountPath m; vm_MountPropagation := Some "HostToContainer" |}.

Lemma with_container_mounts name f p :
  (∀ c, ct_Name (f c) = ct_Name c ∧ ct_VolumeMounts (f c) = ct_VolumeMounts c) →
  map ct_Name (ps_Containers (with_container name f p)) = map ct_Name (ps_Containers p) ∧
  map ct_VolumeMounts (ps_Containers (with_container name f p)) = map ct_VolumeMounts (ps_Containers p) ∧
  ps_Volumes (with_container name f p) = ps_Volumes p.
Proof.
  intros Hf. unfold with_container. destruct (findContainer p name) as [idx| |]; [|done..]. cbn.
  split_and!; [| |done].
  - revert idx. induction (ps_Containers p) as [|c cs IH]; intros [|idx]; cbn; f_equal; [apply Hf|apply IH].
  - revert idx. induction (ps_Containers p) as [|c cs IH]; intros [|idx]; cbn; f_equal; [apply Hf|apply IH].
Qed.

Lemma add_mounts_map ms cs :
  map ct_Name (add_mounts ms <$> cs) = map ct_Name cs ∧
  map ct_VolumeMounts (add_mounts ms <$> cs) = map (λ v, v ++ ms) (map ct_VolumeMounts cs).
Proof. split; induction cs as [|c cs IH]; cbn; f_equal; done. Qed.

Definition ssh_volume (m : NnfDataMovementManager) : Volume :=
  {| v_Name := sshAuthVolume; v_Source := SecretVolume (m_Name m) 384 sshAuthVolumeItems |}.
Definition nnf_volume (m : NnfDataMovementManager) : Volume :=
  {| v_Name := nnfVolumeName; v_Source := HostPathVolume (m_HostPath m) "DirectoryOrCreate" |}.

(** The containers of a worker with their environment and capabilities, before any mount is added. *)
Definition worker_base (environment : string) (m : NnfDataMovementManager) : PodSpec :=
  let env := {| ev_Name := "ENVIRONMENT"; ev_Value := environment |} in
  with_container "worker" (λ c, set_capabilities worker_capabilities (add_env env c))
    (with_container "manager" (add_env env) (worker_settings m (ToCorePodSpec (m_PodSpec m)))).

Lemma worker_base_lists environment m :
  map ct_Name (ps_Containers (worker_base environment m)) = map ct_Name (np_Containers (m_PodSpec m)) ∧
  map ct_VolumeMounts (ps_Containers (worker_base environment m))
  = map ct_VolumeMounts (np_Containers (m_PodSpec m)) ∧
  ps_Volumes (worker_base environment m) = np_Volumes (m_PodSpec m).
Proof.
  unfold worker_base. set (env := {| ev_Name := "ENVIRONMENT"; ev_Value := environment |}).
  set (p0 := worker_settings m (ToCorePodSpec (m_PodSpec m))).
  destruct (with_container_mounts "manager" (add_env env) p0) as (N1 & M1 & V1); [done|].
  destruct (with_container_mounts "worker" (λ c, set_capabilities worker_capabilities (add_env env c))
    (with_container "manager" (add_env env) p0)) as (N2 & M2 & V2); [done|].
  by rewrite N2, M2, V2, N1, M1, V1.
Qed.

Lemma worker_pod_shape environment m fss :
  ps_Volumes (worker_pod_spec environment m fss)
  = np_Volumes (m_PodSpec m) ++ [ssh_volume m] ++ (lustre_volume m <$> live_lustre fss) ++ [nnf_volume m] ∧
  ps_Containers (worker_pod_spec environment m fss)
  = add_mounts ((lustre_mount <$> live_lustre fss) ++ [nnf_mount m])
      <$> (add_mounts [ssh_mount] <$> ps_Containers (worker_base environment m)).
Proof.
  unfold worker_pod_spec, setupLustreVolumes. rewrite lustre_volumes_spec.
  cbn [ps_Volumes ps_Containers set_containers add_volumes setupSSHAuthVolumes app].
  split; [|done]. destruct (worker_base_lists environment m) as (_ & _ & V).
  unfold worker_base in V. rewrite V. by rewrite <- !app_assoc.
Qed.

(** C25.  The pod of a worker mounts what it has to: its volumes are those of the manager resource, the
    SSH keys, one claim per global Lustre file system that is not being deleted, in their order, and
    the NNF directory, and every container mounts each of them besides its own mounts; a file system
    that is being deleted is in neither list. *)
Theorem worker_volumes_exact environment m fss :
  let p := worker_pod_spec environment m fss in
  ps_Volumes p
  = np_Volumes (m_PodSpec m) ++ [ssh_volume m] ++ (lustre_volume m <$> live_lustre fss) ++ [nnf_volume m] ∧
  map ct_Name (ps_Containers p) = map ct_Name (np_Containers (m_PodSpec m)) ∧
  map ct_VolumeMounts (ps_Containers p)
  = map (λ c, ct_VolumeMounts c ++ [ssh_mount] ++ (lustre_mount <$> live_lustre fss) ++ [nnf_mount m])
      (np_Containers (m_PodSpec m)).
Proof.
  intros p. subst p. destruct (worker_pod_shape environment m fss) as [V C].
  destruct (worker_base_lists environment m) as (N & Mo & _). split_and!; [done| |].
  - by rewrite C, !(proj1 (add_mounts_map _ _)), N.
  - rewrite C, !(proj2 (add_mounts_map _ _)), Mo, !map_map. apply map_ext. intros c. by rewrite <- app_assoc.
Qed.

(** * Which objects settle *)

Lemma SetControllerReference_idem m o o' :
  SetControllerReference m o = Ret o' → SetControllerReference m o' = Ret o'.
Proof.
  unfold SetControllerReference. intros H.
  assert (o' = Some (controller_ref m)) as ->.
  { destruct o as [x|]; [destruct (String.eqb (or_Kind x) _ && _)|]; by simplify_eq. }
  cbn. by rewrite !(proj2 (String.eqb_eq _ _)).
Qed.

Lemma wrap_ref_idem what m o o' :
  wrap_ref what (SetControllerReference m o) = Ret o' → wrap_ref what (SetControllerReference m o') = Ret o'.
Proof.
  unfold wrap_ref. destruct (SetControllerReference m o) as [x| |] eqn:E; [|done..]. intros [= <-].
  by rewrite (SetControllerReference_idem _ _ _ E).
Qed.

Lemma deployment_mutate_idem m base d d' :
  deployment_mutate m base d = Ret d' → deployment_mutate m base d' = Ret d'.
Proof.
  unfold deployment_mutate. destruct (findContainer (dep_Spec base) "manager"); [|done..]. cbn.
  destruct (wrap_ref _ (SetControllerReference m (dep_Owner d))) as [o| |] eqn:E; [|done..]. cbn.
  intros [= <-]. cbn. by rewrite (wrap_ref_idem _ _ _ _ E).
Qed.

(** The other fields of the spec are the server's. *)
Definition set_svc_Rest (rest : string) (s : Service) : Service :=
  {| svc_Name := svc_Name s; svc_Namespace := svc_Namespace s; svc_Owner := svc_Owner s;
     svc_Selector := svc_Selector s; svc_ClusterIP := svc_ClusterIP s; svc_Rest := rest |}.

Lemma service_mutate_idem m s s' rest :
  service_mutate m s = Ret s' → service_mutate m (set_svc_Rest rest s') = Ret (set_svc_Rest rest s').
Proof.
  unfold service_mutate. destruct (wrap_ref _ (SetControllerReference m (svc_Owner s))) as [o| |] eqn:E; [|done..].
  cbn. intros [= <-]. cbn. by rewrite (wrap_ref_idem _ _ _ _ E).
Qed.

Lemma daemonset_mutate_spec environment m fss ds ds' :
  daemonset_mutate environment m fss ds = Ret ds' → ds_Spec ds' = Some (daemonset_spec environment m fss).
Proof. unfold daemonset_mutate. destruct (wrap_ref _ _); [|done..]. cbn. by intros [= <-]. Qed.

Section Settle.
Context {W : Type} {os : OS W} {mkube : ManagerKube W}.

(** An object that the function leaves as it is is not written, another one is. *)
Lemma CreateOrUpdate_unchanged {A} `{EqDecision A} (r : Resource W A) k obj mutate a w w1 :
  rc_get r k w = (Ret a, w1) → mutate a = Ret a →
  CreateOrUpdate r k obj mutate w = (Ret OperationResultNone, w1).
Proof.
  intros Hg Hm. unfold CreateOrUpdate, attempt, mbind, M_bind, lift_outcome. rewrite Hg, Hm.
  by rewrite bool_decide_eq_true_2.
Qed.

Lemma CreateOrUpdate_changed {A} `{EqDecision A} (r : Resource W A) k obj mutate a b w w1 :
  rc_get r k w = (Ret a, w1) → mutate a = Ret b → a ≠ b →
  CreateOrUpdate r k obj mutate w = (_ ← rc_update r b; mret OperationResultUpdated) w1.
Proof.
  intros Hg Hm Hne. unfold CreateOrUpdate, attempt, mbind, M_bind, lift_outcome. rewrite Hg, Hm.
  by rewrite bool_decide_eq_false_2.
Qed.

(** The deployment and the service settle, the daemonset does not: a deployment that is read as the manager
    makes it, and a service that is read so with whatever else the server fills in, are not written again; a
    daemonset in which the server has filled in defaults is sent again without them each time, since
    its whole spec is replaced. *)
Theorem objects_settle_but_daemonset m base fss environment w w1 :
  (∀ obj d d', deployment_mutate m base d = Ret d' →
     rc_get deployments (m_Namespace m, deploymentName) w = (Ret d', w1) →
     CreateOrUpdate deployments (m_Namespace m, deploymentName) obj (deployment_mutate m base) w
     = (Ret OperationResultNone, w1)) ∧
  (∀ obj s s' rest, service_mutate m s = Ret s' →
     rc_get services (m_Namespace m, serviceName) w = (Ret (set_svc_Rest rest s'), w1) →
     CreateOrUpdate services (m_Namespace m, serviceName) obj (service_mutate m) w = (Ret OperationResultNone, w1)) ∧
  (∀ obj ds spec ds', rc_get daemonsets (m_Namespace m, daemonsetName) w = (Ret ds, w1) →
     ds_Spec ds = Some spec → dss_Rest spec ≠ "" → daemonset_mutate environment m fss ds = Ret ds' →
     ds_Spec ds' = Some (daemonset_spec environment m fss) ∧
     CreateOrUpdate daemonsets (m_Namespace m, daemonsetName) obj (daemonset_mutate environment m fss) w
     = (_ ← rc_update daemonsets ds'; mret OperationResultUpdated) w1).
Proof.
  split_and!.
  - intros obj d d' Hm Hg. apply (CreateOrUpdate_unchanged _ _ _ _ d'); [done|]. by eapply deployment_mutate_idem.
  - intros obj s s' rest Hm Hg. apply (CreateOrUpdate_unchanged _ _ _ _ _ _ _ Hg). by eapply service_mutate_idem.
  - intros obj ds spec ds' Hg Hs Hr Hm. pose proof (daemonset_mutate_spec _ _ _ _ _ Hm) as Hs'. split; [done|].
    apply (CreateOrUpdate_changed _ _ _ _ _ _ _ _ Hg Hm). intros ->. rewrite Hs' in Hs. by injection Hs as <-.
Qed.
End Settle.

(** The daemonset depends on the order of the listing: two file systems with different names that
    come in the other order make another daemonset, so it is updated and its workers are restarted
    although nothing has changed. *)
Theorem listing_order_changes_daemonset environment m a b :
  Name (gl_Meta a) ≠ Name (gl_Meta b) → deleting a = false → deleting b = false →
  daemonset_spec environment m [a; b] ≠ daemonset_spec environment m [b; a].
Proof.
  intros Hne Ha Hb Heq.
  assert (ps_Volumes (worker_pod_spec environment m [a; b]) = ps_Volumes (worker_pod_spec environment m [b; a]))
    as Hv.
  { change (ps_Volumes (pt_Spec (dss_Template (daemonset_spec environment m [a; b])))
            = ps_Volumes (pt_Spec (dss_Template (daemonset_spec environment m [b; a])))). by rewrite Heq. }
  destruct (worker_pod_shape environment m [a; b]) as [V1 _].
  destruct (worker_pod_shape environment m [b; a]) as [V2 _].
  rewrite V1, V2 in Hv. unfold live_lustre in Hv. cbn in Hv. rewrite Ha, Hb in Hv. cbn in Hv.
  apply app_inv_head in Hv. injection Hv as Hv _ _ _. done.
Qed.
