(* ===== verification/ManagerRun.v ===== *)
(** Reconciliations of the data movement manager as a whole, with any client and
    whatever it answers: the finalizers of the file systems, what readiness means, and
    errors. *)
From S2P Require Import Prelude GoMonad GoStrings Api Env Crypto ManagerApi Manager ManagerTrace ManagerProps.

(** The rollout of a daemonset is complete: the controller has seen the current template, there are
    nodes to run on, and each of them runs a ready pod of that template. *)
Definition complete_rollout (ds : DaemonSet) : Prop :=
  let st := ds_Status ds in
  ObservedGeneration st = ds_Generation ds ∧ (0 < DesiredNumberScheduled st)%Z ∧
  UpdatedNumberScheduled st = DesiredNumberScheduled st ∧ NumberReady st = DesiredNumberScheduled st.

Lemma rolled_out_complete ds : rolled_out ds = true ↔ complete_rollout ds.
Proof.
  unfold rolled_out, complete_rollout. rewrite negb_true_iff, !orb_false_iff, !negb_false_iff, !Z.eqb_eq, Z.ltb_ge.
  split; intros H; destr_and; split_and!; lia || done.
Qed.

Definition protected (l : GlobalLustre) : Prop := ContainsFinalizer (gl_Meta l) dm_finalizer = true.

Lemma protected_elem l : protected l ↔ dm_finalizer ∈ Finalizers (gl_Meta l).
Proof. unfold protected, ContainsFinalizer. by rewrite bool_decide_eq_true. Qed.

Lemma grant_access_ok m l :
  gl_key (grant_access m l) = gl_key l ∧
  ResourceVersion (gl_Meta (grant_access m l)) = ResourceVersion (gl_Meta l) ∧
  DeletionTimestamp (gl_Meta (grant_access m l)) = DeletionTimestamp (gl_Meta l) ∧
  (protected l → protected (grant_access m l)) ∧ (deleting l = false → protected (grant_access m l)) ∧
  is_Some (gl_Namespaces (grant_access m l) !! m_Namespace m).
Proof.
  unfold grant_access, gl_key, deleting, protected. cbn [gl_Meta gl_Namespaces].
  assert (∀ mt, ContainsFinalizer (AddFinalizer dm_finalizer mt) dm_finalizer = true) as Hadd.
  { intros mt. unfold AddFinalizer. destruct (ContainsFinalizer mt dm_finalizer) eqn:E; [done|].
    unfold ContainsFinalizer. cbn. apply bool_decide_eq_true, elem_of_app. right. by apply list_elem_of_singleton. }
  assert (∀ mt, Name (AddFinalizer dm_finalizer mt) = Name mt ∧ Namespace (AddFinalizer dm_finalizer mt) = Namespace mt
    ∧ DeletionTimestamp (AddFinalizer dm_finalizer mt) = DeletionTimestamp mt
    ∧ ResourceVersion (AddFinalizer dm_finalizer mt) = ResourceVersion mt) as Hsame.
  { intros mt. unfold AddFinalizer. by destruct (ContainsFinalizer mt dm_finalizer). }
  destruct (Hsame (gl_Meta l)) as (H1 & H2 & H3 & H4).
  destruct (negb (IsZero (DeletionTimestamp (gl_Meta l)))) eqn:Hd; cbn [negb andb].
  all: destruct (ContainsFinalizer (gl_Meta l) dm_finalizer) eqn:Hc; cbn [negb andb];
    rewrite ?H1, ?H2, ?H3, ?H4, ?Hadd; (split_and!; [done|done|done|done|done|]);
    (case_bool_decide as Hn; [done|by rewrite lookup_insert_eq]).
Qed.

Section Run.
Context {W : Type} {os : OS W} {crypto : Crypto W} {mkube : ManagerKube W}.

Definition worker_key (m : NnfDataMovementManager) : NamespacedName := (m_Namespace m, daemonsetName).

(** * What each step asks of the cluster *)

Local Existing Instances recording recording_os recording_crypto.

(** A listing, or none because the resource definition of Lustre is missing. *)
Definition answered (items : list GlobalLustre) (o : outcome (list GlobalLustre)) : Prop :=
  o = Ret items ∨ (items = [] ∧ ∃ e, o = Fail e ∧ IsNoMatchError e = true).

Lemma list_emits :
  emits (λ o ev, ∃ a, ev = [ListedLustre a] ∧ ∀ items, o = Ret items → answered items a) list_filesystems.
Proof.
  unfold list_filesystems. eapply emits_bind.
  - apply emits_attempt, emits_record. intros a. instantiate (1 := λ o ev, ∃ a, ev = [ListedLustre a] ∧
      match o with Ret (inr items) => a = Ret items | Ret (inl e) => a = Fail e | _ => True end).
    exists a. by destruct a.
  - intros e ev (a & -> & _). by exists a.
  - intros e ev (a & -> & _). by exists a.
  - intros [e|items] ev (a & -> & ->); [destruct (IsNoMatchError e) eqn:He|];
      (eapply emits_here; [done|]); eexists; (split; [done|]); [|done|].
    + intros items [= <-]. right. split; [done|]. by exists e.
    + intros items' [= <-]. by left.
Qed.

(** A loop of updates sends what the function makes of items, of all of them if it succeeds. *)
Lemma update_each_emits f items :
  emits (λ o ev, (∀ e, e ∈ ev → ∃ l a, l ∈ items ∧ e = UpdatedLustre (f l) a) ∧
                 (o = Ret tt → ∀ l, l ∈ items → ∃ a, UpdatedLustre (f l) (Ret a) ∈ ev))
    (update_each f items).
Proof.
  induction items as [|x items IH]; cbn [update_each].
  { eapply emits_here; [done|]. split; [by intros e ?%elem_of_nil|by intros _ l ?%elem_of_nil]. }
  eapply emits_bind.
  - apply emits_record. intros a. instantiate (1 := λ o ev, ev = [UpdatedLustre (f x) o]). done.
  - intros e ev ->. split; [|done]. intros e' ->%list_elem_of_singleton. exists x, (Fail e). split; [by left|done].
  - intros p ev ->. split; [|done]. intros e' ->%list_elem_of_singleton. exists x, (Panic p). split; [by left|done].
  - intros a ev ->. eapply emits_weaken; [apply IH|]. intros o ev [H1 H2]. cbn. split.
    + intros e [->|(l & a' & Hin & ->)%H1]%elem_of_cons; [exists x, (Ret a); split; [by left|done]|].
      exists l, a'. split; [by right|done].
    + intros Ho l [->|Hin]%elem_of_cons; [exists a; by left|]. destruct (H2 Ho l Hin) as [a' Ha']. exists a'. by right.
Qed.

Lemma newSecret_emits m :
  emits (λ o ev, ev = [] ∧ ∀ s, o = Ret s → (sec_Namespace s, sec_Name s) = manager_key m) (newSecret m).
Proof.
  intros w tr. unfold newSecret, map_err, mbind, M_bind, lift_outcome. cbn. unfold silent. cbn.
  destruct (GenerateKey w) as [[key|e|p] w1]; cbn; repeat case_match; simplify_eq/=;
    eexists _, w1, []; rewrite app_nil_r; (split; [reflexivity|]); (split; [done|]); try discriminate.
  by intros s [= <-].
Qed.

(** The secret was found or has been created. *)
Definition secret_in_place (m : NnfDataMovementManager) (tr : list event) : Prop :=
  ∃ s, in_place OnSecret (manager_key m) s tr.

(** All calls are of one kind. *)
Definition only {A} (on : call A → event) (ev : list event) : Prop := ∀ e, e ∈ ev → ∃ c, e = on c.

Lemma secret_emits m :
  emits (λ o ev, only OnSecret ev ∧ (o = Ret tt → secret_in_place m ev)) (createSecretIfNecessary m).
Proof.
  unfold createSecretIfNecessary. eapply emits_bind.
  - apply emits_attempt, emits_record. intros a. instantiate (1 := λ o ev, ∃ a, ev = [OnSecret (Get (manager_key m) a)]
      ∧ match o with Ret (inr s) => a = Ret s | _ => True end). exists a. by destruct a.
  - intros e ev (a & -> & _). split; [|done]. intros x ->%list_elem_of_singleton. eauto.
  - intros e ev (a & -> & _). split; [|done]. intros x ->%list_elem_of_singleton. eauto.
  - assert (∀ a x, x ∈ [OnSecret (Get (manager_key m) a)] → ∃ c, x = OnSecret c) as Hone
      by (intros a x ->%list_elem_of_singleton; eauto).
    intros [e|s] ev (a & -> & Ha).
    2: { eapply emits_here; [done|]. split; [exact (Hone _)|]. intros _. subst a. exists s.
         left; by apply list_elem_of_singleton. }
    destruct (IsNotFound e); [|eapply emits_here; [done|]; split; [exact (Hone _)|done]].
    eapply emits_bind; [apply newSecret_emits|intros e' ev [-> _]; split; [exact (Hone _)|done]..|].
    intros s ev [-> Hs]. eapply emits_bind.
    + apply emits_record. intros o. instantiate (1 := λ o ev, ev = [OnSecret (Create s o)]). done.
    + intros e' ev ->. split; [|done]. intros x [-> | ->%list_elem_of_singleton]%elem_of_cons; eauto.
    + intros e' ev ->. split; [|done]. intros x [-> | ->%list_elem_of_singleton]%elem_of_cons; eauto.
    + intros s' ev ->. eapply emits_here; [done|]. cbn. split.
      * intros x [-> | ->%list_elem_of_singleton]%elem_of_cons; eauto.
      * intros _. exists s. right. left. split; [by apply Hs|]. exists s'. right. by left.
Qed.

Definition deployment_in_place (m : NnfDataMovementManager) (tr : list event) : Prop :=
  ∃ base cur dep, OnDeployment (Get (manager_key m) (Ret base)) ∈ tr ∧ deployment_mutate m base cur = Ret dep ∧
    in_place OnDeployment (m_Namespace m, deploymentName) dep tr.

Lemma deployment_emits m :
  emits (λ o ev, only OnDeployment ev ∧ (o = Ret tt → deployment_in_place m ev)) (createOrUpdateDeploymentIfNecessary m).
Proof.
  unfold createOrUpdateDeploymentIfNecessary. eapply emits_bind.
  - apply emits_map_err, emits_record. intros a. instantiate (1 := λ o ev, ∃ a, ev = [OnDeployment (Get (manager_key m) a)]
      ∧ match o with Ret s => a = Ret s | _ => True end). exists a. by destruct a.
  - intros e ev (a & -> & _). split; [|done]. intros x ->%list_elem_of_singleton. eauto.
  - intros e ev (a & -> & _). split; [|done]. intros x ->%list_elem_of_singleton. eauto.
  - intros base ev (a & -> & ->).
    assert (∀ ev, only OnDeployment ev → only OnDeployment (OnDeployment (Get (manager_key m) (Ret base)) :: ev)) as Hcons
      by (intros ev He x [-> |Hx]%elem_of_cons; eauto).
    eapply emits_bind; [apply CreateOrUpdate_emits; [done|apply deployment_mutate_key]
      |intros e ev [Ho _]; split; [by apply Hcons|done]..|].
    intros res ev [Ho Hok]. eapply emits_here; [done|]. rewrite app_nil_r. split; [by apply Hcons|]. intros _.
    destruct (Hok res eq_refl) as (cur & new & Hm & Hin). exists base, cur, new. split; [by left|]. split; [done|].
    eapply in_place_sub; [exact Hin|]. intros x Hx. by right.
Qed.

Definition service_in_place (m : NnfDataMovementManager) (tr : list event) : Prop :=
  ∃ svc, in_place OnService (m_Namespace m, serviceName) svc tr ∧
    svc_Selector svc = {[ DataMovementWorkerLabel := "true" ]} ∧ svc_ClusterIP svc = "None".

Lemma service_emits m :
  emits (λ o ev, only OnService ev ∧ (o = Ret tt → service_in_place m ev)) (createOrUpdateServiceIfNecessary m).
Proof.
  unfold createOrUpdateServiceIfNecessary. eapply emits_bind;
    [apply CreateOrUpdate_emits; [done|apply service_mutate_key]|by intros e ev [Ho _]..|].
  intros res ev [Ho Hok]. eapply emits_here; [done|]. rewrite app_nil_r. split; [done|]. intros _.
  destruct (Hok res eq_refl) as (cur & new & Hm & Hin). exists new. split; [done|]. unfold service_mutate in Hm.
  destruct (wrap_ref _ _); [|done..]. cbn in Hm. by injection Hm as <-.
Qed.

(** Every file system of a listing has been given access and, unless it is being deleted, the finalizer. *)
Definition access_granted (m : NnfDataMovementManager) (tr : list event) : Prop :=
  ∃ a items, ListedLustre a ∈ tr ∧ answered items a ∧
    ∀ l, l ∈ items → ∃ l' a', UpdatedLustre l' (Ret a') ∈ tr ∧ gl_key l' = gl_key l ∧
      is_Some (gl_Namespaces l' !! m_Namespace m) ∧ (deleting l = false → protected l').

(** A listing, then updates of what it listed. *)
Lemma grant_emits m :
  emits (λ o ev, (∃ a items ups, ev = ListedLustre a :: ups ∧ (answered items a ∨ ups = []) ∧
                    ∀ e, e ∈ ups → ∃ l r, l ∈ items ∧ e = UpdatedLustre (grant_access m l) r)
                 ∧ (o = Ret tt → access_granted m ev))
    (updateLustreFileSystemsIfNecessary m).
Proof.
  unfold updateLustreFileSystemsIfNecessary. eapply emits_bind; [apply list_emits| | |].
  1-2: intros e ev (a & -> & _); (split; [|done]); exists a, [], []; (split_and!; [done|by right|by intros x ?%elem_of_nil]).
  intros items ev (a & -> & Ha). specialize (Ha items eq_refl).
  eapply emits_weaken; [apply update_each_emits|]. intros o ups [H1 H2]. cbn. split.
  - exists a, items, ups. split_and!; [done|by left|done].
  - intros Ho. exists a, items. split; [by left|]. split; [done|]. intros l Hl. destruct (H2 Ho l Hl) as [a' Ha'].
    destruct (grant_access_ok m l) as (Hk & _ & _ & _ & Hp & Hn). exists (grant_access m l), a'. split; [by right|done].
Qed.

Definition mounts_all (m : NnfDataMovementManager) (items : list GlobalLustre) (spec : DaemonSetSpec) : Prop :=
  ∀ l, l ∈ items → deleting l = false →
    lustre_volume m l ∈ ps_Volumes (pt_Spec (dss_Template spec)) ∧
    ∀ c, c ∈ ps_Containers (pt_Spec (dss_Template spec)) → lustre_mount l ∈ ct_VolumeMounts c.

Lemma worker_mounts environment m fss l :
  l ∈ fss → deleting l = false →
  lustre_volume m l ∈ ps_Volumes (worker_pod_spec environment m fss) ∧
  ∀ c, c ∈ ps_Containers (worker_pod_spec environment m fss) → lustre_mount l ∈ ct_VolumeMounts c.
Proof.
  intros Hin Hd. assert (l ∈ live_lustre fss) as Hlive.
  { apply list_elem_of_In, filter_In. split; [by apply list_elem_of_In|by rewrite Hd]. }
  destruct (worker_pod_shape environment m fss) as [-> ->]. split.
  - rewrite !elem_of_app. right. right. left. by apply list_elem_of_fmap_2.
  - intros c (c0 & -> & _)%list_elem_of_fmap. cbn. rewrite !elem_of_app. right. left. by apply list_elem_of_fmap_2.
Qed.

(** The daemonset mounts every file system of a listing that is not being deleted, in every container. *)
Definition daemonset_in_place (m : NnfDataMovementManager) (tr : list event) : Prop :=
  ∃ a items ds spec, ListedLustre a ∈ tr ∧ answered items a ∧ in_place OnDaemonSet (worker_key m) ds tr ∧
    ds_Spec ds = Some spec ∧ mounts_all m items spec.

Lemma daemonset_emits m :
  emits (λ o ev, (∀ e, e ∈ ev → (∃ a, e = ListedLustre a) ∨ ∃ c, e = OnDaemonSet c) ∧
                 (o = Ret tt → daemonset_in_place m ev))
    (createOrUpdateDaemonSetIfNecessary m).
Proof.
  unfold createOrUpdateDaemonSetIfNecessary. eapply emits_bind; [apply list_emits| | |].
  1-2: intros e ev (a & -> & _); (split; [|done]); intros x ->%list_elem_of_singleton; eauto.
  intros items ev (a & -> & Ha). specialize (Ha items eq_refl).
  assert (∀ ev, only OnDaemonSet ev → ∀ e, e ∈ ListedLustre a :: ev → (∃ a, e = ListedLustre a) ∨ ∃ c, e = OnDaemonSet c) as Hcons
    by (intros ev He x [-> |Hx]%elem_of_cons; eauto).
  eapply emits_bind; [apply CreateOrUpdate_emits; [done|apply daemonset_mutate_key]
    |intros e ev [Ho _]; split; [by apply Hcons|done]..|].
  intros res ev [Ho Hok]. eapply emits_here; [done|]. rewrite app_nil_r. split; [by apply Hcons|]. intros _.
  destruct (Hok res eq_refl) as (cur & new & Hm & Hin). eexists a, items, new, _. split; [by left|]. split; [done|].
  split; [eapply in_place_sub; [exact Hin|]; intros x Hx; by right|]. split; [by eapply daemonset_mutate_spec|].
  intros l Hl Hd. by apply worker_mounts.
Qed.

Lemma ready_emits m :
  emits (λ o ev, ∃ a, ev = [OnDaemonSet (Get (worker_key m) a)] ∧
                      (o = Ret true → ∃ ds, a = Ret ds ∧ complete_rollout ds))
    (isDaemonSetReady m).
Proof.
  unfold isDaemonSetReady. eapply emits_bind.
  - apply emits_attempt, emits_record. intros a. instantiate (1 := λ o ev, ∃ a, ev = [OnDaemonSet (Get (worker_key m) a)]
      ∧ match o with Ret (inr s) => a = Ret s | _ => True end). exists a. by destruct a.
  - intros e ev (a & -> & _). by exists a.
  - intros e ev (a & -> & _). by exists a.
  - intros [e|ds] ev (a & -> & Ha).
    + destruct (IsNotFound e); (eapply emits_here; [done|]); by exists a.
    + eapply emits_here; [done|]. exists a. split; [done|]. subst a. intros [= H%rolled_out_complete]. by exists ds.
Qed.

Lemma finalizersToRemove_spec ds fss items :
  finalizersToRemove ds fss = Some items →
  (∀ l, l ∈ items → l ∈ fss ∧ deleting l = true) ∧
  (∀ l v, l ∈ items → v ∈ ds_volumes ds → v_Name v ≠ Name (gl_Meta l)).
Proof.
  revert items. induction fss as [|x fss IH]; intros items; cbn [finalizersToRemove].
  { intros [= <-]. split; [by intros l ?%elem_of_nil|by intros l v ?%elem_of_nil]. }
  destruct (deleting x) eqn:Hd.
  - destruct (existsb _ (ds_volumes ds)) eqn:He; [done|]. intros (items' & Hf & ->)%fmap_Some.
    destruct (IH _ Hf) as [H1 H2]. split.
    + intros l [->|Hin]%elem_of_cons; [split; [by left|done]|]. destruct (H1 l Hin). split; [by right|done].
    + intros l v [->|Hin]%elem_of_cons Hv; [|by apply H2]. intros Heq.
      assert (existsb (λ vol, String.eqb (Name (gl_Meta x)) (v_Name vol)) (ds_volumes ds) = true) as Ht.
      { apply existsb_exists. exists v. split; [by apply list_elem_of_In|]. apply String.eqb_eq. done. }
      congruence.
  - intros Hf. destruct (IH _ Hf) as [H1 H2]. split; [|done]. intros l Hin. destruct (H1 l Hin). split; [by right|done].
Qed.


Definition no_update (ev : list event) : Prop := ∀ l r, UpdatedLustre l r ∉ ev.

(** The last step updates nothing, or it has read a listing, a daemonset without the file systems that are
    being deleted and a rolled out daemonset, in this order, and drops finalizers of those. *)
Lemma remove_emits m :
  emits (λ _ ev, no_update ev ∨
      ∃ items ds ds' todo ups, ev = [ListedLustre (Ret items); OnDaemonSet (Get (worker_key m) (Ret ds));
                                     OnDaemonSet (Get (worker_key m) (Ret ds'))] ++ ups ∧
        finalizersToRemove ds items = Some todo ∧ complete_rollout ds' ∧
        ∀ e, e ∈ ups → ∃ l r, l ∈ todo ∧ e = UpdatedLustre (drop_finalizer l) r)
    (removeLustreFileSystemsFinalizersIfNecessary m).
Proof.
  unfold removeLustreFileSystemsFinalizersIfNecessary. eapply emits_bind; [apply list_emits| | |].
  1-2: intros e ev (a & -> & _); left; intros l r Hin; by apply list_elem_of_singleton in Hin.
  intros items ev (la & -> & Hla). specialize (Hla items eq_refl). eapply emits_bind.
  - apply emits_attempt, emits_record. intros a. instantiate (1 := λ o ev, ∃ a, ev = [OnDaemonSet (Get (worker_key m) a)]
      ∧ match o with Ret (inr s) => a = Ret s | _ => True end). exists a. by destruct a.
  - intros e ev (a & -> & _). left. intros l r [? |[? |[]%elem_of_nil]%elem_of_cons]%elem_of_cons; done.
  - intros e ev (a & -> & _). left. intros l r [? |[? |[]%elem_of_nil]%elem_of_cons]%elem_of_cons; done.
  - assert (∀ a, no_update [ListedLustre la; OnDaemonSet (Get (worker_key m) a)]) as Hnone.
    { intros a l r [? |[? |[]%elem_of_nil]%elem_of_cons]%elem_of_cons; done. }
    intros [e|ds] ev (a & -> & Ha).
    { destruct (IsNotFound e); (eapply emits_here; [done|]); left; exact (Hnone _). }
    subst a. destruct (finalizersToRemove ds items) as [[|x todo]|] eqn:Ef.
    1,3: (eapply emits_here; [done|]); left; exact (Hnone _).
    destruct Hla as [->|(-> & _)]; [|done].
    assert (∀ a, no_update [ListedLustre (Ret items); OnDaemonSet (Get (worker_key m) (Ret ds));
                            OnDaemonSet (Get (worker_key m) a)]) as Hnone'.
    { intros a l r [? |[? |[? |[]%elem_of_nil]%elem_of_cons]%elem_of_cons]%elem_of_cons; done. }
    eapply emits_bind.
    + apply emits_attempt. eapply emits_weaken; [apply ready_emits|]. intros o ev H.
      instantiate (1 := λ o ev, ∃ a, ev = [OnDaemonSet (Get (worker_key m) a)] ∧
        (o = Ret (inr true) → ∃ ds, a = Ret ds ∧ complete_rollout ds)).
      destruct H as (a & -> & H). exists a. split; [done|]. destruct o as [b|e|p]; [|done..].
      intros [= ->]. by apply H.
    + intros e ev (a & -> & _). left. exact (Hnone' _).
    + intros e ev (a & -> & _). left. exact (Hnone' _).
    + intros b ev (a & -> & H). destruct b as [e|[]].
      1,3: (eapply emits_here; [done|]); left; exact (Hnone' _).
      destruct (H eq_refl) as (ds' & -> & Hr). eapply emits_weaken; [apply update_each_emits|].
      intros o ups [Hu _]. right. exists items, ds, ds', (x :: todo), ups. split_and!; [done|done|done|].
      intros e He. destruct (Hu e He) as (l & r & Hl & ->). exists l, r. split; [|done].
      by apply list_elem_of_In, filter_In in Hl as [Hl%list_elem_of_In _].
Qed.

(** * Finalizers *)

(** What the trace shows when the finalizer of [l] is given up: after the last listing, in which [l] is being
    deleted, a daemonset without a volume of its name was read and then one whose rollout is complete;
    only updates of file systems came after. *)
Definition released (m : NnfDataMovementManager) (tr : list event) (l : GlobalLustre) : Prop :=
  deleting l = true ∧
  ∃ tr0 items ds ds' ups,
    tr = tr0 ++ [ListedLustre (Ret items); OnDaemonSet (Get (worker_key m) (Ret ds));
                 OnDaemonSet (Get (worker_key m) (Ret ds'))] ++ ups ∧
    l ∈ items ∧ (∀ v, v ∈ ds_volumes ds → v_Name v ≠ Name (gl_Meta l)) ∧ complete_rollout ds' ∧
    ∀ e, e ∈ ups → ∃ x r, e = UpdatedLustre x r.

(** An update of [l] after the calls of [tr] is an update of a version listed before, and keeps its
    finalizer or has released it. *)
Definition justified (m : NnfDataMovementManager) (tr : list event) (l : GlobalLustre) : Prop :=
  ∃ l0 items, ListedLustre (Ret items) ∈ tr ∧ l0 ∈ items ∧ gl_key l = gl_key l0 ∧
    ResourceVersion (gl_Meta l) = ResourceVersion (gl_Meta l0) ∧
    DeletionTimestamp (gl_Meta l) = DeletionTimestamp (gl_Meta l0) ∧
    (protected l0 → protected l ∨ released m tr l0).

Definition safe (m : NnfDataMovementManager) (ev : list event) : Prop :=
  ∀ pre l r post, ev = pre ++ UpdatedLustre l r :: post → justified m pre l.

Lemma justified_after m tr0 tr l : justified m tr l → justified m (tr0 ++ tr) l.
Proof.
  intros (l0 & items & H1 & H2 & H3 & H4 & H5 & H6). exists l0, items. split; [apply elem_of_app; by right|].
  split_and!; [done..|]. intros [?|(Hd & tr1 & its & ds & ds' & ups & -> & H)]%H6; [by left|right]. split; [done|].
  exists (tr0 ++ tr1), its, ds, ds', ups. by rewrite <- app_assoc.
Qed.

Lemma safe_app m x y : safe m x → safe m y → safe m (x ++ y).
Proof.
  intros Hx Hy pre l r post E. apply List.app_eq_app in E as (z & [[-> Hz]|[-> ->]]).
  - destruct z as [|e z]; cbn in Hz.
    + specialize (Hy [] l r post (eq_sym Hz)). apply (justified_after m pre) in Hy.
      by rewrite app_nil_r in Hy.
    + injection Hz as <- ->. by apply (Hx pre l r z).
  - apply justified_after. by apply (Hy z l r post).
Qed.

Lemma safe_none m ev : no_update ev → safe m ev.
Proof. intros Hn pre l r post ->. destruct (Hn l r). apply elem_of_app. right. by left. Qed.

Lemma safe_only {A} m (on : call A → event) ev : (∀ c l r, on c ≠ UpdatedLustre l r) → only on ev → safe m ev.
Proof. intros Hon Ho. apply safe_none. intros l r (c & Hc)%Ho. by apply (Hon c l r). Qed.

Lemma update_position pre0 ups pre l r post :
  no_update pre0 → pre0 ++ ups = pre ++ UpdatedLustre l r :: post →
  ∃ mid, pre = pre0 ++ mid ∧ ups = mid ++ UpdatedLustre l r :: post.
Proof.
  intros Hn E. apply List.app_eq_app in E as (z & [[-> Hz]|[-> ->]]); [|by exists z].
  destruct z as [|e z]; cbn in Hz; [exists []; by rewrite !app_nil_r|]. injection Hz as <- ->.
  destruct (Hn l r). apply elem_of_app. right. by left.
Qed.

Lemma grant_safe m : emits (λ _, safe m) (updateLustreFileSystemsIfNecessary m).
Proof.
  eapply emits_weaken; [apply grant_emits|]. intros o ev ((a & items & ups & -> & Ha & Hu) & _) pre l r post E.
  apply (update_position [ListedLustre a] ups) in E as (mid & -> & ->).
  2: intros l' r' Hin; by apply list_elem_of_singleton in Hin.
  destruct (Hu (UpdatedLustre l r)) as (l0 & r' & Hl0 & [= -> ->]); [apply elem_of_app; right; by left|].
  destruct Ha as [[->|[-> _]]|E]; [|by apply elem_of_nil in Hl0|by destruct mid].
  exists l0, items. destruct (grant_access_ok m l0) as (H1 & H2 & H3 & H4 & _).
  split; [by left|]. split_and!; [done..|]. intros Hp. left. by apply H4.
Qed.

Lemma remove_safe m : emits (λ _, safe m) (removeLustreFileSystemsFinalizersIfNecessary m).
Proof.
  eapply emits_weaken; [apply remove_emits|].
  intros _ ev [Hn|(items & ds & ds' & todo & ups & -> & Hf & Hr & Hu)]; [by apply safe_none|].
  intros pre l r post E. apply update_position in E as (mid & -> & ->).
  2: { intros l' r' [? |[? |[? |[]%elem_of_nil]%elem_of_cons]%elem_of_cons]%elem_of_cons; done. }
  destruct (Hu (UpdatedLustre l r)) as (l0 & r' & Hl0 & [= -> ->]); [apply elem_of_app; right; by left|].
  destruct (finalizersToRemove_spec _ _ _ Hf) as [H1 H2]. destruct (H1 l0 Hl0) as [Hin Hd].
  exists l0, items. split; [by left|]. split_and!; [done..|]. intros _. right. split; [done|].
  exists [], items, ds, ds', mid. split_and!; [done|done|by intros v; apply H2|done|].
  intros e He. destruct (Hu e) as (x & rx & _ & ->); [apply elem_of_app; by left|]. by eexists _, _.
Qed.

Lemma manager_steps_safe m : emits (λ _, safe m) (manager_steps m).
Proof.
  unfold manager_steps. apply emits_each; [apply safe_app| |intros _].
  { eapply emits_weaken; [apply secret_emits|]. intros o ev [Ho _]. by eapply safe_only; [|exact Ho]. }
  apply emits_each; [apply safe_app| |intros _].
  { eapply emits_weaken; [apply deployment_emits|]. intros o ev [Ho _]. by eapply safe_only; [|exact Ho]. }
  apply emits_each; [apply safe_app| |intros _].
  { eapply emits_weaken; [apply service_emits|]. intros o ev [Ho _]. by eapply safe_only; [|exact Ho]. }
  apply emits_each; [apply safe_app|apply grant_safe|intros _].
  apply emits_each; [apply safe_app| |intros _].
  { eapply emits_weaken; [apply daemonset_emits|]. intros o ev [Ho _]. apply safe_none.
    by intros l r [[? ?]|[? ?]]%Ho. }
  apply emits_each; [apply safe_app|apply remove_safe|intros _].
  eapply emits_weaken; [apply ready_emits|]. intros o ev (a & -> & _). apply safe_none.
  intros l r Hin. by apply list_elem_of_singleton in Hin.
Qed.

Lemma traced_emits m w Q : emits Q (manager_steps (mkube := recording) m) →
  ∀ o w', manager_steps m w = (o, w') → ∃ tr, traced_steps m w = (o, (w', tr)) ∧ Q o tr.
Proof.
  intros HQ o w' E. destruct (traced_steps_run m w) as [tr Ht]. rewrite E in Ht. cbn in Ht. exists tr. split; [done|].
  destruct (HQ w []) as (o1 & w1 & ev & E1 & Hq). fold (traced_steps m w) in E1. rewrite Ht in E1. by simplify_eq/=.
Qed.

(** C10.  A global Lustre file system is released only on evidence.  With any client, whatever it answers and
    however the reconciliation ends, every update of a file system that the manager sends is made of a
    version it has listed, so the server refuses it if that is no longer the current one, and it
    takes the finalizer of data movement away from a version that has it only if, in this order and with no
    other calls since, that version was listed as being deleted, a daemonset was read that has no volume of its
    name, and a daemonset was read whose rollout is complete on every node. *)
Theorem lustre_released_on_evidence m w o w' :
  manager_steps m w = (o, w') →
  ∃ tr, traced_steps m w = (o, (w', tr)) ∧
    ∀ pre l r post, tr = pre ++ UpdatedLustre l r :: post → justified m pre l.
Proof. intros E. exact (traced_emits m w _ (manager_steps_safe m) o w' E). Qed.

(** * Readiness *)





(** * Errors *)

(** C27.  Conflicts are retried and other errors are reported: when a step of a reconciliation fails with
    a conflict, the manager is reconciled again and its status is left alone; with any other error the
    reconciliation fails with that error, and a manager that was ready is first written as not ready. *)
Theorem manager_errors req m w w1 e w2 :
  getManager req w = (Ret m, w1) → manager_steps m w1 = (Fail e, w2) →
  if IsConflict e then Manager_Reconcile req w = (Ret true, w2)
  else if Ready m then
    no_panic (updateManagerStatus (set_Ready false m)) →
    Manager_Reconcile req w = (Fail e, snd (updateManagerStatus (set_Ready false m) w2))
  else Manager_Reconcile req w = (Fail e, w2).
Proof.
  intros Hg Hs. unfold Manager_Reconcile, attempt, mbind, M_bind. rewrite Hg, Hs.
  destruct (IsConflict e); cbn.
  - unfold close_status. by rewrite Bool.eqb_reflx.
  - destruct (Ready m) eqn:Hr; unfold close_status; rewrite Hr; cbn [Bool.eqb]; [|done].
    intros Hnp. unfold attempt, mbind, M_bind. specialize (Hnp w2).
    by destruct (updateManagerStatus (set_Ready false m) w2) as [[a|e'|p] w3].
Qed.
End Run.
