(* ===== verification/ManagerScenarios.v ===== *)
(** Runs of the data movement manager on a small cluster: the witnesses of its
    theorems, and what an old daemonset in the cache leads to. *)
From S2P Require Import Prelude GoMonad GoStrings Api Command Env Crypto ManagerApi Manager ManagerTrace ManagerProps ManagerRun.

(** * A cluster *)

(** What the server has, and: the old versions of daemonsets that the cache of the client still answers with,
    the file system that is deleted before each listing, if any, and the answer to updates of file systems. *)
Record MSim := {
  ms_managers : gmap NamespacedName NnfDataMovementManager;
  ms_secrets : gmap NamespacedName Secret;
  ms_deployments : gmap NamespacedName Deployment;
  ms_services : gmap NamespacedName Service;
  ms_daemonsets : gmap NamespacedName DaemonSet;
  ms_lustre : gmap NamespacedName GlobalLustre;
  ms_cached : gmap NamespacedName DaemonSet;
  ms_deletions : list (option NamespacedName);
  ms_fault : option error
}.

Definition ms_not_found : error := StatusError NotFound "not found".
Definition conflict : error := StatusError Conflict "the object has been modified".

Definition ms_get {A} (objs : MSim → gmap NamespacedName A) (k : NamespacedName) : M MSim A := λ w,
  (match objs w !! k with Some a => Ret a | None => Fail ms_not_found end, w).

Definition put_secret (s : Secret) : M MSim Secret := λ w,
  (Ret s, {| ms_managers := ms_managers w; ms_secrets := <[(sec_Namespace s, sec_Name s) := s]> (ms_secrets w);
             ms_deployments := ms_deployments w; ms_services := ms_services w; ms_daemonsets := ms_daemonsets w;
             ms_lustre := ms_lustre w; ms_cached := ms_cached w; ms_deletions := ms_deletions w;
             ms_fault := ms_fault w |}).

Definition put_deployment (d : Deployment) : M MSim Deployment := λ w,
  (Ret d, {| ms_managers := ms_managers w; ms_secrets := ms_secrets w;
             ms_deployments := <[(dep_Namespace d, dep_Name d) := d]> (ms_deployments w);
             ms_services := ms_services w; ms_daemonsets := ms_daemonsets w; ms_lustre := ms_lustre w;
             ms_cached := ms_cached w; ms_deletions := ms_deletions w; ms_fault := ms_fault w |}).

(** The server fills in its defaults. *)
Definition put_service (s : Service) : M MSim Service := λ w,
  let s := set_svc_Rest "defaults" s in
  (Ret s, {| ms_managers := ms_managers w; ms_secrets := ms_secrets w; ms_deployments := ms_deployments w;
             ms_services := <[(svc_Namespace s, svc_Name s) := s]> (ms_services w);
             ms_daemonsets := ms_daemonsets w; ms_lustre := ms_lustre w; ms_cached := ms_cached w;
             ms_deletions := ms_deletions w; ms_fault := ms_fault w |}).

Definition set_daemonset (d : DaemonSet) (w : MSim) : MSim :=
  {| ms_managers := ms_managers w; ms_secrets := ms_secrets w; ms_deployments := ms_deployments w;
     ms_services := ms_services w; ms_daemonsets := <[(ds_Namespace d, ds_Name d) := d]> (ms_daemonsets w);
     ms_lustre := ms_lustre w; ms_cached := ms_cached w; ms_deletions := ms_deletions w; ms_fault := ms_fault w |}.

Definition with_defaults (spec : DaemonSetSpec) : DaemonSetSpec :=
  {| dss_Selector := dss_Selector spec; dss_Template := dss_Template spec;
     dss_UpdateStrategy := dss_UpdateStrategy spec; dss_Rest := "defaults" |}.

(** The next generation of a daemonset, whose controller has seen the generations up to [observed]. *)
Definition next_generation (observed : Z → Z) (d : DaemonSet) : DaemonSet :=
  let g := (ds_Generation d + 1)%Z in
  {| ds_Name := ds_Name d; ds_Namespace := ds_Namespace d; ds_Owner := ds_Owner d;
     ds_Spec := with_defaults <$> ds_Spec d; ds_Generation := g;
     ds_Status := {| ObservedGeneration := observed g; DesiredNumberScheduled := 2;
                     UpdatedNumberScheduled := 2; NumberReady := 2 |} |}.

(** A new daemonset is rolled out at once on two nodes; an update is not: its status is that of the
    generation before. *)
Definition create_daemonset (d : DaemonSet) : M MSim DaemonSet := λ w,
  let d := next_generation (λ g, g) d in (Ret d, set_daemonset d w).
Definition update_daemonset (d : DaemonSet) : M MSim DaemonSet := λ w,
  let d := next_generation (λ g, g - 1)%Z d in (Ret d, set_daemonset d w).

Definition get_daemonset (k : NamespacedName) : M MSim DaemonSet :=
  ms_get (λ w, ms_cached w ∪ ms_daemonsets w) k.

Definition ms_set_lustre (ls : gmap NamespacedName GlobalLustre) (ds : list (option NamespacedName)) (w : MSim) : MSim :=
  {| ms_managers := ms_managers w; ms_secrets := ms_secrets w; ms_deployments := ms_deployments w;
     ms_services := ms_services w; ms_daemonsets := ms_daemonsets w; ms_lustre := ls; ms_cached := ms_cached w;
     ms_deletions := ds; ms_fault := ms_fault w |}.

Definition next_lustre (deletion : option Z) (l : GlobalLustre) : GlobalLustre :=
  {| gl_Meta := {| Name := Name (gl_Meta l); Namespace := Namespace (gl_Meta l);
                   GenerateName := GenerateName (gl_Meta l); Labels := Labels (gl_Meta l);
                   Finalizers := Finalizers (gl_Meta l); DeletionTimestamp := deletion;
                   ResourceVersion := ResourceVersion (gl_Meta l) + 1 |};
     gl_MountRoot := gl_MountRoot l; gl_Namespaces := gl_Namespaces l |}.

(** An update of an old version is refused; an object that is being deleted goes with its last finalizer. *)
Definition put_lustre (l : GlobalLustre) : M MSim GlobalLustre := λ w,
  match ms_fault w, ms_lustre w !! gl_key l with
  | Some e, _ => (Fail e, w)
  | None, None => (Fail ms_not_found, w)
  | None, Some cur =>
      if bool_decide (ResourceVersion (gl_Meta cur) = ResourceVersion (gl_Meta l)) then
        let l' := next_lustre (DeletionTimestamp (gl_Meta l)) l in
        let r := if deleting l && bool_decide (Finalizers (gl_Meta l) = []) then None else Some l' in
        (Ret l', ms_set_lustre (partial_alter (λ _, r) (gl_key l) (ms_lustre w)) (ms_deletions w) w)
      else (Fail conflict, w)
  end.

(** Somebody deletes a file system, then the listing is answered. *)
Definition list_lustre : M MSim (list GlobalLustre) := λ w,
  let ls := match head (ms_deletions w) with
            | Some (Some k) => alter (next_lustre (Some 7%Z)) k (ms_lustre w)
            | _ => ms_lustre w
            end in
  (Ret (snd <$> map_to_list ls), ms_set_lustre ls (tail (ms_deletions w)) w).

Definition put_manager (m : NnfDataMovementManager) : M MSim NnfDataMovementManager := λ w,
  (Ret m, {| ms_managers := <[manager_key m := m]> (ms_managers w); ms_secrets := ms_secrets w;
             ms_deployments := ms_deployments w; ms_services := ms_services w; ms_daemonsets := ms_daemonsets w;
             ms_lustre := ms_lustre w; ms_cached := ms_cached w; ms_deletions := ms_deletions w;
             ms_fault := ms_fault w |}).

#[export] Instance ms_kube : ManagerKube MSim := {
  getManager k := ms_get ms_managers k;
  updateManagerStatus := put_manager;
  secrets := {| rc_get := ms_get ms_secrets; rc_create := put_secret; rc_update := put_secret |};
  deployments := {| rc_get := ms_get ms_deployments; rc_create := put_deployment; rc_update := put_deployment |};
  services := {| rc_get := ms_get ms_services; rc_create := put_service; rc_update := put_service |};
  daemonsets := {| rc_get := get_daemonset; rc_create := create_daemonset; rc_update := update_daemonset |};
  listLustre := list_lustre;
  updateLustre := put_lustre
}.

#[export] Instance ms_crypto : Crypto MSim := {
  GenerateKey := λ w, (Ret "key", w);
  MarshalECPrivateKey := λ k, Ret k;
  MarshalPKCS8PrivateKey := λ k, Ret k;
  EncodeToMemory := λ type bytes, Some (type +:+ bytes);
  pem_Decode := λ text, Some text;
  NewPublicKey := λ k, Ret k;
  MarshalAuthorizedKey := λ k, k
}.

#[export] Instance ms_os : OS MSim := {
  mkdirTemp d pat := λ w, (Ret d, w);
  mkdirAll p := λ w, (Ret tt, w);
  createFile p := λ w, (Ret tt, w);
  writeString p s := λ w, (Ret tt, w);
  openFile p := λ w, (Fail ms_not_found, w);
  removeAll p := λ w, (Ret tt, w);
  statIsDir p := λ w, (Fail ms_not_found, w);
  runCommand c := λ w, (Ret ("", None), w);
  nowMicro := λ w, (Ret 1%Z, w);
  environ := λ name, if String.eqb name "ENVIRONMENT" then Some "production" else None;
  getuid := 0%Z
}.

(** * A manager with two file systems *)

Definition container (name : string) (args : list string) : Container :=
  {| ct_Name := name; ct_Args := args; ct_Env := []; ct_VolumeMounts := []; ct_Capabilities := None |}.

Definition site_manager : NnfDataMovementManager :=
  {| m_Name := "nnf-dm-manager-controller-manager"; m_Namespace := "nnf-dm-system"; m_UID := "4f1";
     m_Selector := {[ "cray.nnf.node" := "true" ]};
     m_PodSpec := {| np_Containers := [container "manager" ["--controller=node"]; container "worker" []];
                     np_Volumes := []; np_ShareProcessNamespace := None |};
     m_UpdateStrategy := "RollingUpdate"; m_HostPath := "/mnt/nnf"; m_MountPath := "/mnt/nnf"; Ready := false |}.

Definition base_deployment : Deployment :=
  {| dep_Name := "nnf-dm-manager-controller-manager"; dep_Namespace := "nnf-dm-system"; dep_Labels := ∅;
     dep_Owner := None;
     dep_Spec := ToCorePodSpec {| np_Containers := [container "manager" ["--controller=manager"]];
                                  np_Volumes := []; np_ShareProcessNamespace := None |};
     dep_Rest := "defaults" |}.

Definition site_lustre (name : string) (finalizers : list string) (deleted : option Z) : GlobalLustre :=
  {| gl_Meta := {| Name := name; Namespace := "nnf-dm-system"; GenerateName := ""; Labels := ∅;
                   Finalizers := finalizers; DeletionTimestamp := deleted; ResourceVersion := 1 |};
     gl_MountRoot := "/" +:+ name; gl_Namespaces := ∅ |}.

Definition new_lustre : GlobalLustre := site_lustre "lus" [] None.
Definition old_lustre : GlobalLustre := site_lustre "old" [dm_finalizer] (Some 7%Z).

Definition manager_site (fault : option error) : MSim :=
  {| ms_managers := {[ manager_key site_manager := site_manager ]}; ms_secrets := ∅;
     ms_deployments := {[ manager_key site_manager := base_deployment ]}; ms_services := ∅; ms_daemonsets := ∅;
     ms_lustre := {[ gl_key new_lustre := new_lustre; gl_key old_lustre := old_lustre ]}; ms_cached := ∅;
     ms_deletions := []; ms_fault := fault |}.

Definition steps_run : outcome bool * MSim := manager_steps site_manager (manager_site None).

Lemma steps_ready : steps_run = (Ret true, snd steps_run).
Proof. apply pair_of_fst. vm_compute. reflexivity. Qed.

Definition worker_volumes (w : MSim) : option (list string) :=
  (λ ds, map v_Name (ds_volumes ds)) <$> ms_daemonsets w !! worker_key site_manager.

(** The reconciliation mounts the new file system and lets the old one go. *)
Example steps_state :
  map fst (map_to_list (ms_lustre (snd steps_run))) = [("nnf-dm-system", "lus")] ∧
  worker_volumes (snd steps_run) = Some ["ssh-auth"; "lus"; "nnf"] ∧
  option_map (λ d, map ct_Args (ps_Containers (dep_Spec d)))
    (ms_deployments (snd steps_run) !! ("nnf-dm-system", deploymentName))
  = Some [["--controller=default"; "--leader-elect=false"]].
Proof. split_and!; vm_compute; reflexivity. Qed.


Lemma lustre_released_on_evidence_witness :
  ∃ tr, traced_steps site_manager (manager_site None) = (Ret true, (snd steps_run, tr)) ∧
    ∀ pre l r post, tr = pre ++ UpdatedLustre l r :: post → justified site_manager pre l.
Proof. exact (lustre_released_on_evidence site_manager (manager_site None) (Ret true) (snd steps_run) steps_ready). Defined.

(** The updates it sends: access to both, and the finalizer of the old one is dropped. *)
Example steps_updates :
  omap (λ e, match e with UpdatedLustre l _ => Some (Name (gl_Meta l), Finalizers (gl_Meta l)) | _ => None end)
    (snd (snd (traced_steps site_manager (manager_site None))))
  = [("old", [dm_finalizer]); ("lus", [dm_finalizer]); ("old", [])].
Proof. vm_compute. reflexivity. Qed.

(** ** An old daemonset in the cache *)

(** A cluster whose daemonset is rolled out without file systems; [new_lustre] was just created.  The client
    answers reads of the daemonset with that version. *)
Definition old_daemonset : DaemonSet :=
  next_generation (λ g, g)
    {| ds_Name := daemonsetName; ds_Namespace := "nnf-dm-system"; ds_Owner := Some (controller_ref site_manager);
       ds_Spec := Some (daemonset_spec "production" site_manager []); ds_Generation := 0;
       ds_Status := {| ObservedGeneration := 0; DesiredNumberScheduled := 0; UpdatedNumberScheduled := 0;
                       NumberReady := 0 |} |}.

Definition stale_site (deletions : list (option NamespacedName)) : MSim :=
  {| ms_managers := {[ manager_key site_manager := site_manager ]}; ms_secrets := ∅;
     ms_deployments := {[ manager_key site_manager := base_deployment ]}; ms_services := ∅;
     ms_daemonsets := {[ worker_key site_manager := old_daemonset ]};
     ms_lustre := {[ gl_key new_lustre := new_lustre ]}; ms_cached := {[ worker_key site_manager := old_daemonset ]};
     ms_deletions := deletions; ms_fault := None |}.



Lemma listing_order_changes_daemonset_witness :
  daemonset_spec "" site_manager [new_lustre; site_lustre "scratch" [] None]
  ≠ daemonset_spec "" site_manager [site_lustre "scratch" [] None; new_lustre].
Proof.
  apply (listing_order_changes_daemonset "" site_manager new_lustre (site_lustre "scratch" [] None)).
  - discriminate.
  - reflexivity.
  - reflexivity.
Defined.

Lemma manager_errors_witness :
  Manager_Reconcile (manager_key site_manager) (manager_site (Some conflict))
  = (Ret true, snd (manager_steps site_manager (manager_site (Some conflict)))).
Proof.
  apply (manager_errors (manager_key site_manager) site_manager (manager_site (Some conflict))
    (manager_site (Some conflict)) conflict (snd (manager_steps site_manager (manager_site (Some conflict))))).
  - apply pair_of_fst. vm_compute. reflexivity.
  - apply pair_of_fst. vm_compute. reflexivity.
Defined.

(** ** Objects that are there *)

(** The deployment and the service after a first reconciliation. *)
Definition made_deployment : Deployment :=
  default base_deployment (ms_deployments (snd steps_run) !! ("nnf-dm-system", deploymentName)).
Definition empty_service : Service :=
  {| svc_Name := serviceName; svc_Namespace := "nnf-dm-system"; svc_Owner := None; svc_Selector := ∅;
     svc_ClusterIP := ""; svc_Rest := "" |}.
Definition made_service : Service :=
  default empty_service (ms_services (snd steps_run) !! ("nnf-dm-system", serviceName)).

Definition settled_site : MSim := snd (put_service made_service (snd (put_deployment made_deployment (stale_site [])))).

(** The deployment and the service are left alone, the daemonset with the defaults of the server is sent again. *)
Lemma objects_settle_but_daemonset_witness :
  CreateOrUpdate deployments ("nnf-dm-system", deploymentName) base_deployment
    (deployment_mutate site_manager base_deployment) settled_site = (Ret OperationResultNone, settled_site) ∧
  CreateOrUpdate services ("nnf-dm-system", serviceName) empty_service (service_mutate site_manager) settled_site
  = (Ret OperationResultNone, settled_site) ∧
  CreateOrUpdate daemonsets (worker_key site_manager) old_daemonset (daemonset_mutate "production" site_manager [])
    settled_site
  = (_ ← rc_update daemonsets
            {| ds_Name := daemonsetName; ds_Namespace := "nnf-dm-system"; ds_Owner := Some (controller_ref site_manager);
               ds_Spec := Some (daemonset_spec "production" site_manager []); ds_Generation := 1;
               ds_Status := ds_Status old_daemonset |}; mret OperationResultUpdated) settled_site.
Proof.
  destruct (objects_settle_but_daemonset site_manager base_deployment [] "production" settled_site settled_site)
    as (H1 & H2 & H3).
  split; [|split].
  - apply (H1 base_deployment made_deployment made_deployment); vm_compute; reflexivity.
  - apply (H2 empty_service made_service made_service "defaults"); vm_compute; reflexivity.
  - refine (proj2 (H3 old_daemonset old_daemonset (with_defaults (daemonset_spec "production" site_manager [])) _ _ _ _ _)).
    + reflexivity.
    + reflexivity.
    + discriminate.
    + reflexivity.
Defined.
