(* ===== verification/Process.v ===== *)
(** What the commands of the repository share: a fatal error, the files they
    write, and the configuration of the API client from the environment
    (cmd/main.go and [setupClient] of daemons/copy-offload/cmd/main.go).

    A command that logs a message and calls [os.Exit(1)] fails with the message
    and the error: nothing runs after it. *)
From S2P Require Import Prelude GoMonad GoStrings Api Env.

Section Process.
Context {W : Type} {os : OS W}.

(** The command ends with [msg] when the call fails. *)
Definition or_exit {A} (msg : string) (m : M W A) : M W A :=
  map_err (λ err, Errorf_w (msg +:+ ": ") err "") m.

Definition exit_with {A} (msg : string) : M W A := fail (ErrorString msg).

(** [os.WriteFile]: the file is created or truncated, then written *)
Definition WriteFile (path data : string) : M W unit :=
  _ ← createFile path;
  writeString path data.
End Process.

(** [rest.Config], with the fields the commands set; [float32] is a parameter *)
Record RestConfig (float32 : Type) := { QPS : float32; Burst : Z }.
Arguments QPS {float32}.
Arguments Burst {float32}.

Class RestClient (W float32 : Type) := {
  (** [ctrl.GetConfigOrDie] exits without a configuration *)
  GetConfigOrDie : M W (RestConfig float32);
  (** [strconv.ParseFloat(s, 32)] *)
  ParseFloat : string → outcome float32
}.

Section Rest.
Context {W float32 : Type} {os : OS W} {rest : RestClient W float32}.

Definition rest_config : M W (RestConfig float32) :=
  config ← GetConfigOrDie;
  config ←
    match environ "NNF_REST_CONFIG_QPS" with
    | Some qpsString =>
        qps ← or_exit "invalid value for NNF_REST_CONFIG_QPS" (lift_outcome (ParseFloat qpsString));
        mret {| QPS := qps; Burst := Burst config |}
    | None => mret config
    end;
  match environ "NNF_REST_CONFIG_BURST" with
  | Some burstString =>
      burst ← or_exit "invalid value for NNF_REST_CONFIG_BURST" (lift_outcome (Atoi burstString));
      mret {| QPS := QPS config; Burst := burst |}
  | None => mret config
  end.
End Rest.
