(* ===== verification/MakeJwt.v ===== *)
(** The generator of keys and tokens for the copy offload daemon,
    daemons/copy-offload-testing/make-jwt/make-jwt.go. *)
From S2P Require Import Prelude GoMonad GoStrings Api Env Crypto Process.

Definition SigningMethodHS256 : string := "HS256".

Section MakeJwt.
Context {W : Type} {os : OS W} {crypto : Crypto W} {jwt : Jwt}.

(** The bytes of the key, and the key in PEM form *)
Definition createKeyForTokens : M W (string * string) :=
  privateKey ← map_err (λ err, Errorf_w "failure from GenerateKey: " err "") GenerateKey;
  privBytes ← map_err (λ err, Errorf_w "failure from MarshalPKCS8PrivateKey: " err "")
                (lift_outcome (MarshalPKCS8PrivateKey privateKey));
  match EncodeToMemory "EC PRIVATE KEY" privBytes with
  | None => fail (ErrorString "unable to PEM-encode signing key for token")
  | Some pemKey => mret (privBytes, pemKey)
  end.

Definition createTokenFromKey (key method : string) : M W string :=
  now ← nowMicro;
  let claims := {| sub := "user-container"; iat := (now / 1000000)%Z |} in
  map_err (λ err, Errorf_w "failure from SignedString: " err "")
    (lift_outcome (SignedString method claims key)).

(** The key function: the key, for the method it was made for *)
Definition method_key (key method alg : string) : error + string :=
  if negb (String.eqb alg method)
  then inl (ErrorString "token verification failed: unexpected signing method for token")
  else inr key.

Definition verify_token (tokenString key method : string) : outcome unit :=
  match jwtParse (method_key key method) tokenString with
  | inl err => Fail (Errorf_w "token verification failed: parse failed: " err "")
  | inr valid => if valid then Ret tt else Fail (ErrorString "token verification failed: invalid token")
  end.

(** [main]; a nil block of [pem.Decode] is dereferenced *)
Definition make_jwt (tokenKeyFile tokenFile : string) : M W unit :=
  created ← or_exit "unable to create a signing key" createKeyForTokens;
  let '(privKey, pemKey) := created in
  tokenString ← or_exit "unable to create token" (createTokenFromKey privKey SigningMethodHS256);
  _ ← or_exit "verify failed" (lift_outcome (verify_token tokenString privKey SigningMethodHS256));
  _ ← or_exit ("unable to write file " +:+ tokenKeyFile) (WriteFile tokenKeyFile pemKey);
  _ ← or_exit ("unable to write file " +:+ tokenFile) (WriteFile tokenFile tokenString);
  inKey ← or_exit "unable to read back the key file" (openFile tokenKeyFile);
  keyBytes ← match pem_Decode inKey with
             | None => lift_outcome (Panic "invalid memory address or nil pointer dereference")
             | Some bytes => mret bytes
             end;
  if negb (String.eqb privKey keyBytes) then exit_with "key block does not match private key"
  else
    tokenStr2 ← or_exit "unable to read back the token" (openFile tokenFile);
    or_exit "verify 2 failed" (lift_outcome (verify_token tokenStr2 keyBytes SigningMethodHS256)).
End MakeJwt.

(** * What it leaves *)

Section Files.
Context {W : Type} {os : OS W} {oslaws : OSLaws W} {crypto : Crypto W} {jwt : Jwt}.

Lemma verify_token_Ret token key method :
  verify_token token key method = Ret tt → jwtParse (method_key key method) token = inr true.
Proof. unfold verify_token. by destruct (jwtParse _ _) as [err|[]]. Qed.

(** When the generator succeeds, the two files it leaves fit: the key file is a PEM block and the
    token file is a token that the library accepts with the key in the block. *)
Lemma make_jwt_files tokenKeyFile tokenFile w w' :
  make_jwt tokenKeyFile tokenFile w = (Ret tt, w') →
  ∃ inKey key token,
    contents w' !! tokenKeyFile = Some inKey ∧ pem_Decode inKey = Some key ∧
    contents w' !! tokenFile = Some token ∧
    jwtParse (method_key key SigningMethodHS256) token = inr true.
Proof.
  unfold make_jwt. intros ([privKey pemKey] & w1 & _ & H)%bind_Ret_inv.
  do 4 apply bind_Ret_inv in H as (? & ? & _ & H).
  apply bind_Ret_inv in H as (inKey & w2 & E2 & H). apply map_err_Ret_inv, openFile_ret in E2 as [Hk Hc2].
  apply bind_Ret_inv in H as (key & w3 & E3 & H). destruct (pem_Decode inKey) as [bytes|] eqn:Hd; [|done].
  apply ret_inv in E3 as [-> ->]. destruct (negb _); [done|].
  apply bind_Ret_inv in H as (token & w4 & E4 & H). apply map_err_Ret_inv, openFile_ret in E4 as [Ht Hc4].
  apply map_err_Ret_inv, lift_Ret_inv in H as [Hv <-]. rewrite Hc2 in Ht. exists inKey, key, token.
  rewrite Hc4, Hc2. split_and!; [done..|]. by apply verify_token_Ret.
Qed.
End Files.
