(* ===== verification/Daemon.v ===== *)
(** The command of the copy offload daemon, daemons/copy-offload/cmd/main.go:
    from the flags, the environment and the files it reads to the server it
    runs, and the routing of requests to the handlers of Server.v. *)
From S2P Require Import Prelude GoMonad GoStrings GoPath Api Env Crypto Process MakeJwt Hosts Dest Reconciler OffloadApi Driver Server DriverRun ServerProps.

Record Flags := {
  addr : string;
  certFile : string;
  keyFile : string;
  tokenKeyFile : string;
  skipTls : bool;
  skipToken : bool;
  mock : bool
}.

Definition default_flags : Flags :=
  {| addr := "localhost:4000"; certFile := "cert.pem"; keyFile := "key.pem"; tokenKeyFile := "token_key.pem";
     skipTls := false; skipToken := false; mock := false |}.

(** [crypto/tls] and the client of the cluster *)
Class DaemonLib (W float32 : Type) := {
  LoadX509KeyPair : string → string → M W string;
  newClient : RestConfig float32 → M W unit;
  getNnfNode : NamespacedName → M W unit
}.

(** The server that listens: with TLS and a certificate, or without *)
Record OffloadServer := {
  Addr : string;
  TLSConfig : option string;
  Drvr : DriverConfig;
  httpHandler : UserHttp
}.

Section Main.
Context {W float32 : Type} {os : OS W} {crypto : Crypto W} {rest : RestClient W float32}
  {lib : DaemonLib W float32}.

Definition setupClient : M W unit :=
  config ← rest_config;
  or_exit "Unable to create client" (newClient config).

Definition clientSanity (rabbitName : string) : M W unit :=
  or_exit "Failed to retrieve my own NnfNode" (getNnfNode (rabbitName, "nnf-nlc")).

(** The key the tokens are signed with, out of its PEM file *)
Definition token_key_block (flags : Flags) : M W string :=
  inKey ← or_exit "unable to read back the key file" (openFile (tokenKeyFile flags));
  match pem_Decode inKey with
  | None => exit_with "unable to decode PEM key for token"
  | Some bytes => mret bytes
  end.

(** [main] up to the server it starts *)
Definition daemon_main (flags : Flags) : M W OffloadServer :=
  let rabbitName := Getenv "NNF_NODE_NAME" in
  if String.eqb rabbitName "" then exit_with "Did not find NNF_NODE_NAME"
  else if String.eqb (Getenv "ENVIRONMENT") "" then exit_with "Did not find ENVIRONMENT"
  else
    drvr ← or_exit "Unable to create driver" (lift_outcome (NewDriver (mock flags)));
    tlsConfig ←
      (if negb (skipTls flags) then
         cert ← or_exit "Error loading certificate and key file"
                  (LoadX509KeyPair (certFile flags) (keyFile flags));
         mret (Some cert)
       else mret None);
    keyBytes ← (if negb (skipToken flags) then token_key_block flags else mret "");
    _ ← (if negb (mock flags) then (_ ← setupClient; clientSanity rabbitName) else mret tt);
    mret {| Addr := addr flags; TLSConfig := tlsConfig; Drvr := drvr;
            httpHandler := {| u_Mock := mock flags; KeyBytes := keyBytes |} |}.
End Main.

(** * Routing *)

(** [cleanPath] of [http.ServeMux] *)
Definition cleanPath (p : string) : string :=
  if String.eqb p "" then "/"
  else
    let p := if HasPrefix p "/" then p else "/" +:+ p in
    let np := Clean p in
    if HasSuffix p "/" && negb (String.eqb np "/") then np +:+ "/" else np.

(** A pattern that ends in a slash matches the tree below it, others one path. *)
Definition pattern_matches (pattern path : string) : bool :=
  if HasSuffix pattern "/" then HasPrefix path pattern else String.eqb path pattern.

Section Serve.
Context {W : Type} {kube : Kube W} {os : OS W} {okube : OffloadKube W} {jwt : Jwt}.
Context (encode : list (string * string) → string) (wait : Z → D (W:=W) unit).
(** the status of the redirections of the mux, which depends on the release of Go *)
Context (redirect_code : Z).
Context (d : OffloadServer).

(** [mux.HandleFunc] *)
Definition routes : list (string * (Request → D (W:=W) Response)) :=
  let user := httpHandler d in
  [("/hello", Hello user jwtParse);
   ("/trial", TrialRequest user (Drvr d) jwtParse);
   ("/cancel/", CancelRequest_handler user jwtParse);
   ("/list", ListRequests_handler user jwtParse);
   ("/status/", GetRequest_handler user (Drvr d) jwtParse encode wait);
   ("/shutdown", ShutdownRequest user jwtParse)].

(** [mux.ServeHTTP] of a request for a path *)
Definition serve (path : string) (req : Request) : D (W:=W) Response :=
  let clean := if String.eqb (Method req) "CONNECT" then path else cleanPath path in
  let redirect := mret {| Code := redirect_code; Payload := Text "" |} in
  match List.find (λ route, pattern_matches (fst route) clean) routes with
  | Some (_, handler) => if String.eqb clean path then handler req else redirect
  | None =>
      if existsb (λ route, String.eqb (fst route) (clean +:+ "/")) routes then redirect
      else if String.eqb clean path then mret (http_error "404 page not found" 404)
      else redirect
  end.

(** The codes of a request that no handler serves *)
Definition refused (code : Z) : Prop :=
  code = 401%Z ∨ code = 501%Z ∨ code = 404%Z ∨ code = redirect_code.

Lemma route_handler pattern h :
  (pattern, h) ∈ routes → ∃ method, (method, h) ∈ handlers (httpHandler d) (Drvr d) jwtParse encode wait.
Proof.
  unfold routes, handlers. rewrite !elem_of_cons.
  intros [[= _ ->]|[[= _ ->]|[[= _ ->]|[[= _ ->]|[[= _ ->]|[[= _ ->]|[]%elem_of_nil]]]]]];
    eexists; rewrite !elem_of_cons; eauto 10.
Qed.

Lemma serve_cases path req s :
  (∃ method h, (method, h) ∈ handlers (httpHandler d) (Drvr d) jwtParse encode wait ∧
     serve path req s = h req s) ∨
  ∃ response, serve path req s = (Ret response, s) ∧ (Code response = 404%Z ∨ Code response = redirect_code).
Proof.
  unfold serve. destruct (List.find _ _) as [[pattern h]|] eqn:Ef.
  - apply find_some in Ef as [Hin%list_elem_of_In _]. destruct (route_handler _ _ Hin) as [method Hh].
    destruct (String.eqb _ path); [left; by exists method, h|right]. eexists. split; [done|]. by right.
  - right. destruct (existsb _ _); [|destruct (String.eqb _ path)]; eexists; (split; [done|]); auto.
Qed.
End Serve.

(** * Who is served *)

Section Tokens.
Context {W float32 : Type} {kube : Kube W} {os : OS W} {oslaws : OSLaws W} {okube : OffloadKube W}
  {crypto : Crypto W} {rest : RestClient W float32} {lib : DaemonLib W float32} {jwt : Jwt}.
(** Loading the certificate does not write files. *)
Context (certificate_reads : ∀ cert key, preserves contents (LoadX509KeyPair cert key)).

(** The key of a server that was not told to do without is the one in the file. *)
Lemma daemon_key flags w d w' :
  daemon_main flags w = (Ret d, w') → skipToken flags = false →
  ∃ inKey, contents w !! tokenKeyFile flags = Some inKey ∧ pem_Decode inKey = Some (KeyBytes (httpHandler d)).
Proof.
  unfold daemon_main. destruct (String.eqb _ ""); [done|]. destruct (String.eqb _ ""); [done|].
  intros H Hs. rewrite Hs in H. cbn [negb] in H.
  apply bind_Ret_inv in H as (drvr & w1 & [_ <-]%map_err_Ret_inv%lift_Ret_inv & H).
  apply bind_Ret_inv in H as (tls & w2 & Htls & H).
  apply bind_Ret_inv in H as (key & w3 & Hkey & H).
  apply bind_Ret_inv in H as ([] & w4 & _ & [<- _]%ret_inv). cbn.
  assert (contents w2 = contents w) as Hc.
  { destruct (negb (skipTls flags)); [|by apply ret_inv in Htls as [_ <-]].
    apply bind_Ret_inv in Htls as (cert & w5 & E%map_err_Ret_inv & [_ <-]%ret_inv).
    by apply (preserves_eq _ _ _ _ _ (certificate_reads _ _) E). }
  unfold token_key_block in Hkey. apply bind_Ret_inv in Hkey as (inKey & w5 & E & Hkey).
  apply map_err_Ret_inv, openFile_ret in E as [Hin _]. destruct (pem_Decode inKey) as [bytes|] eqn:Hd; [|done].
  apply ret_inv in Hkey as [<- _]. exists inKey. by rewrite <- Hc.
Qed.

(** C13.  A daemon that was not started with --skip-token, with a key that is not empty in the key file,
    serves nobody without a token: whatever the path, a request without a token that the library finds
    valid with that key for HS256 is refused (401, or 501, 404 or a redirection where it does not get as
    far), and nothing changes, neither in the process nor in the cluster. *)
Theorem daemon_serves_with_token_only encode wait redirect_code flags w d w' inKey key path req s :
  daemon_main flags w = (Ret d, w') → skipToken flags = false →
  contents w !! tokenKeyFile flags = Some inKey → pem_Decode inKey = Some key → key ≠ "" →
  ¬ (Authorization req ≠ "" ∧
     jwtParse (token_key {| u_Mock := mock flags; KeyBytes := key |}) (token_of req) = inr true) →
  ∃ response, serve encode wait redirect_code d path req s = (Ret response, s) ∧
    refused redirect_code (Code response).
Proof.
  intros Hmain Hskip Hfile Hpem Hkey Hna. destruct (daemon_key _ _ _ _ Hmain Hskip) as (inKey' & Hf' & Hp').
  assert (KeyBytes (httpHandler d) = key) as Hk by congruence.
  assert (¬ authorized (httpHandler d) jwtParse req) as Hna'.
  { intros [Ha Hv]. apply Hna. split; [done|]. unfold token_key in *. cbn. by rewrite Hk in Hv. }
  destruct (serve_cases encode wait redirect_code d path req s) as [(method & h & Hh & ->)|(response & -> & Hc)].
  - destruct (guard_refuses (httpHandler d) (Drvr d) jwtParse encode wait method h req s) as (response & E & Hc);
      [done|by rewrite Hk|done|].
    exists response. split; [done|]. unfold refused. rewrite Hc. destruct (String.eqb _ _); auto.
  - exists response. split; [done|]. unfold refused. naive_solver.
Qed.

(** A key file whose PEM block is empty turns the tokens off: a daemon that was not started with
    --skip-token then serves requests that carry none. *)
Theorem empty_key_serves_anyone encode wait redirect_code flags w d w' inKey req s :
  daemon_main flags w = (Ret d, w') → skipToken flags = false →
  contents w !! tokenKeyFile flags = Some inKey → pem_Decode inKey = Some "" →
  Method req = "GET" → AcceptsVersion req = "1.0" → Authorization req = "" →
  serve (W:=W) encode wait redirect_code d "/hello" req s = (Ret (http_ok ("hello back at ya" +:+ nl)), s).
Proof.
  intros Hmain Hskip Hfile Hpem Hm Hv Ha. destruct (daemon_key _ _ _ _ Hmain Hskip) as (inKey' & Hf' & Hp').
  assert (KeyBytes (httpHandler d) = "") as Hk by congruence.
  trans (Hello (httpHandler d) jwtParse req s); [unfold serve; by rewrite Hm|].
  unfold Hello. by rewrite guarded_served.
Qed.

(** ** The generator and the daemon *)

(** [jwt.Parse] checks a token with the key its key function returns: another key function that
    returns the same keys gives the same result. *)
Context (parse_key : ∀ keyFunc keyFunc' token valid,
  jwtParse keyFunc token = inr valid → (∀ alg key, keyFunc alg = inr key → keyFunc' alg = inr key) →
  jwtParse keyFunc' token = inr valid).

Lemma bearer_token token : TrimSpace token = token → TrimSpace (Replace1 ("Bearer " +:+ token) "Bearer" "") = token.
Proof. intros H. rewrite <- H at 2. reflexivity. Qed.

(** C14.  The tokens of the generator open the daemon: when make-jwt has succeeded and a daemon is started
    with the key file it left, the token file holds a token with which, as bearer token and with
    version 1.0, every request passes the validation of the server. *)
Theorem generated_token_accepted tokenFile flags w w1 d w2 :
  make_jwt (tokenKeyFile flags) tokenFile w = (Ret tt, w1) →
  daemon_main flags w1 = (Ret d, w2) → skipToken flags = false →
  ∃ token, contents w1 !! tokenFile = Some token ∧
    (TrimSpace token = token →
     ∀ req, Authorization req = "Bearer " +:+ token → AcceptsVersion req = "1.0" →
       validateMessage (httpHandler d) jwtParse req = inr "1.0").
Proof.
  intros Hmake Hmain Hskip. destruct (make_jwt_files _ _ _ _ Hmake) as (inKey & key & token & Hf & Hp & Ht & Hv).
  destruct (daemon_key _ _ _ _ Hmain Hskip) as (inKey' & Hf' & Hp').
  assert (KeyBytes (httpHandler d) = key) as Hk by congruence.
  exists token. split; [done|]. intros Htrim req Ha Hver. rewrite validate_version, Hver; [done|].
  intros _. split; [by rewrite Ha|]. unfold token_of. rewrite Ha, bearer_token by done.
  apply (parse_key _ _ _ _ Hv). intros alg k. unfold method_key, token_key, SigningMethodHS256. rewrite Hk.
  by destruct (negb _).
Qed.
End Tokens.
