(* ===== verification/Entry.v ===== *)
(** The command of the controllers, cmd/main.go: which reconcilers a process
    runs, which namespaces it reads and whose data movements it reconciles. *)
From S2P Require Import Prelude GoMonad GoStrings GoPath Api Env Process Hosts Dest Reconciler OffloadApi Driver.

Definition NamespaceDefault : string := "default".
Definition DataMovementProfileNamespace : string := "nnf-system".

Inductive ControllerType := ManagerController | DefaultController | NodeController.

Definition GetType (c : ControllerType) : string :=
  match c with ManagerController => "manager" | DefaultController => "default" | NodeController => "node" end.

(** [ctrl.Options]; the namespaces of the cache *)
Record Options := {
  BindAddress : string;
  HealthProbeBindAddress : string;
  LeaderElection : bool;
  LeaderElectionID : string;
  DefaultNamespaces : gset string
}.

(** The reconciler a controller sets up, with the namespace it watches *)
Inductive ReconcilerConfig :=
| NnfDataMovementManagerReconciler
| DataMovementReconciler (WatchNamespace : string).

Class ControllerRuntime (W float32 : Type) := {
  Manager : Type;
  NewManager : RestConfig float32 → Options → M W Manager;
  SetupWithManager : ReconcilerConfig → Manager → M W unit;
  AddHealthzCheck : string → Manager → M W unit;
  AddReadyzCheck : string → Manager → M W unit;
  Start : Manager → M W unit
}.

Record MainFlags := {
  metricsAddr : string;
  probeAddr : string;
  enableLeaderElection : bool;
  controller : string
}.

(** The namespaces of the cache; [nodeName] is the variable NNF_NODE_NAME *)
Definition namespaceCache (nodeName : string) (c : ControllerType) : gset string :=
  match c with
  | ManagerController => {[ NamespaceDefault; DataMovementNamespace ]}
  | DefaultController => {[ NamespaceDefault; DataMovementNamespace; DataMovementProfileNamespace ]}
  | NodeController =>
      {[ NamespaceDefault; DataMovementNamespace; DataMovementProfileNamespace; nodeName ]}
  end.

Definition reconciler_of (nodeName : string) (c : ControllerType) : ReconcilerConfig :=
  match c with
  | ManagerController => NnfDataMovementManagerReconciler
  | DefaultController => DataMovementReconciler DataMovementNamespace
  | NodeController => DataMovementReconciler nodeName
  end.

Section Main.
Context {W float32 : Type} {os : OS W} {rest : RestClient W float32} {runtime : ControllerRuntime W float32}.

Definition newDataMovementController (controller : string) : M W ControllerType :=
  if String.eqb controller "manager" then mret ManagerController
  else if String.eqb controller "default" then mret DefaultController
  else if String.eqb controller "node" then mret NodeController
  else exit_with "unable to create controller".

Definition SetOptions (c : ControllerType) (opts : Options) : Options :=
  {| BindAddress := BindAddress opts; HealthProbeBindAddress := HealthProbeBindAddress opts;
     LeaderElection := LeaderElection opts; LeaderElectionID := LeaderElectionID opts;
     DefaultNamespaces := namespaceCache (Getenv "NNF_NODE_NAME") c |}.

Definition SetupReconcilers (c : ControllerType) (mgr : Manager) : M W unit :=
  or_exit "unable to create controller" (SetupWithManager (reconciler_of (Getenv "NNF_NODE_NAME") c) mgr).

Definition main (flags : MainFlags) : M W unit :=
  dmCtrl ← newDataMovementController (controller flags);
  let options := SetOptions dmCtrl
    {| BindAddress := metricsAddr flags; HealthProbeBindAddress := probeAddr flags;
       LeaderElection := enableLeaderElection flags; LeaderElectionID := "a60dd315.cray.hpe.com";
       DefaultNamespaces := ∅ |} in
  config ← rest_config;
  mgr ← or_exit "unable to start manager" (NewManager config options);
  _ ← SetupReconcilers dmCtrl mgr;
  _ ← or_exit "unable to set up health check" (AddHealthzCheck "healthz" mgr);
  _ ← or_exit "unable to set up ready check" (AddReadyzCheck "readyz" mgr);
  or_exit "problem running manager" (Start mgr).
End Main.

(** [filterByNamespace] of internal/controller/datamovement_controller.go *)
Definition filterByNamespace (namespace : string) (dm : NnfDataMovement) : bool :=
  String.eqb (Namespace (dm_Meta dm)) namespace.

(** Whether a process reconciles a data movement: the events its reconciler accepts *)
Definition reconciles (nodeName : string) (c : ControllerType) (dm : NnfDataMovement) : bool :=
  match reconciler_of nodeName c with
  | DataMovementReconciler WatchNamespace => filterByNamespace WatchNamespace dm
  | NnfDataMovementManagerReconciler => false
  end.

(** * One controller per data movement *)

(** The processes of a system: the manager, the default controller, and one controller on each node *)
Definition fleet (nodes : list string) : list (string * ControllerType) :=
  ("", ManagerController) :: ("", DefaultController) :: map (λ node, (node, NodeController)) nodes.

Definition reconcilers (dm : NnfDataMovement) (nodes : list string) : list (string * ControllerType) :=
  List.filter (λ p, reconciles (fst p) (snd p) dm) (fleet nodes).

Lemma node_reconcilers dm nodes :
  List.filter (λ p, reconciles (fst p) (snd p) dm) (map (λ node, (node, NodeController)) nodes)
  = map (λ node, (node, NodeController)) (List.filter (String.eqb (Namespace (dm_Meta dm))) nodes).
Proof.
  induction nodes as [|node nodes IH]; [done|]. cbn [map List.filter fst snd]. rewrite IH.
  unfold reconciles, filterByNamespace. cbn. by destruct (String.eqb (Namespace (dm_Meta dm)) node).
Qed.

Lemma filter_eqb_absent (x : string) l : x ∉ l → List.filter (String.eqb x) l = [].
Proof.
  induction l as [|y l IH]; cbn; [done|]. intros [Hy Hl]%not_elem_of_cons.
  destruct (String.eqb_spec x y); [done|]. by apply IH.
Qed.

Lemma filter_eqb_one (x : string) l : NoDup l → x ∈ l → List.filter (String.eqb x) l = [x].
Proof.
  induction 1 as [|y l Hy Hl IH]; [by intros ?%elem_of_nil|]. cbn.
  destruct (String.eqb_spec x y) as [->|Hne]; [by rewrite filter_eqb_absent|].
  intros [->|Hx]%elem_of_cons; [done|]. by apply IH.
Qed.

(** C16.  Every data movement has one controller: in a system with different nodes, none of them named as the
    data movement namespace, a data movement of that namespace is reconciled by the default controller
    alone, one in the namespace of a node by the controller of that node alone, and any other by none. *)
Theorem one_controller_per_data_movement nodes dm :
  NoDup nodes → DataMovementNamespace ∉ nodes →
  reconcilers dm nodes =
    if String.eqb (Namespace (dm_Meta dm)) DataMovementNamespace then [("", DefaultController)]
    else if bool_decide (Namespace (dm_Meta dm) ∈ nodes) then [(Namespace (dm_Meta dm), NodeController)]
    else [].
Proof.
  intros Hn Hd. unfold reconcilers, fleet. cbn [List.filter fst snd reconciles reconciler_of].
  rewrite node_reconcilers. unfold filterByNamespace.
  destruct (String.eqb_spec (Namespace (dm_Meta dm)) DataMovementNamespace) as [Heq|_].
  - by rewrite Heq, filter_eqb_absent.
  - case_bool_decide; [by rewrite filter_eqb_one|by rewrite filter_eqb_absent].
Qed.

(** * What a process runs *)

Section Started.
Context {W float32 : Type} {os : OS W} {rest : RestClient W float32} {runtime : ControllerRuntime W float32}.

Lemma newDataMovementController_Ret name w c w' :
  newDataMovementController (W:=W) name w = (Ret c, w') → GetType c = name ∧ w' = w.
Proof.
  unfold newDataMovementController.
  destruct (String.eqb_spec name "manager") as [->|_]; [by intros [<- <-]%ret_inv|].
  destruct (String.eqb_spec name "default") as [->|_]; [by intros [<- <-]%ret_inv|].
  destruct (String.eqb_spec name "node") as [->|_]; [by intros [<- <-]%ret_inv|done].
Qed.

(** What the flag makes of a process: the reconciler and the namespaces of its cache. *)
Definition process_runs (flag : string) (rc : ReconcilerConfig) (namespaces : gset string) : Prop :=
  (flag = "manager" ∧ rc = NnfDataMovementManagerReconciler ∧ namespaces = {[ "default"; "nnf-dm-system" ]}) ∨
  (flag = "default" ∧ rc = DataMovementReconciler "nnf-dm-system" ∧
     namespaces = {[ "default"; "nnf-dm-system"; "nnf-system" ]}) ∨
  (flag = "node" ∧ rc = DataMovementReconciler (Getenv "NNF_NODE_NAME") ∧
     namespaces = {[ "default"; "nnf-dm-system"; "nnf-system"; Getenv "NNF_NODE_NAME" ]}).

(** A process sets up the one reconciler its flag names before it starts: whenever it runs to its end,
    its calls were, one after the other: the configuration with the limits of the environment, a manager whose
    cache has the namespaces of that controller, one reconciler, which watches the data movement
    namespace for the default controller and that of the node for a node controller, two health checks, and the start. *)
Theorem process_runs_named_controller flags w w' :
  main flags w = (Ret tt, w') →
  ∃ config options mgr rc w1 w2 w3 w4 w5,
    rest_config w = (Ret config, w1) ∧
    NewManager config options w1 = (Ret mgr, w2) ∧
    SetupWithManager rc mgr w2 = (Ret tt, w3) ∧
    AddHealthzCheck "healthz" mgr w3 = (Ret tt, w4) ∧
    AddReadyzCheck "readyz" mgr w4 = (Ret tt, w5) ∧
    Start mgr w5 = (Ret tt, w') ∧
    process_runs (controller flags) rc (DefaultNamespaces options) ∧
    (∀ b, environ "NNF_REST_CONFIG_BURST" = Some b → Atoi b = Ret (Burst config)) ∧
    (∀ q, environ "NNF_REST_CONFIG_QPS" = Some q → ParseFloat q = Ret (QPS config)).
Proof.
  unfold main. intros (c & w0 & [Hc ->]%newDataMovementController_Ret & H)%bind_Ret_inv.
  apply bind_Ret_inv in H as (config & w1 & Hcfg & H).
  apply bind_Ret_inv in H as (mgr & w2 & Hmgr%map_err_Ret_inv & H).
  apply bind_Ret_inv in H as ([] & w3 & Hset%map_err_Ret_inv & H).
  apply bind_Ret_inv in H as ([] & w4 & Hh%map_err_Ret_inv & H).
  apply bind_Ret_inv in H as ([] & w5 & Hr%map_err_Ret_inv & Hstart%map_err_Ret_inv).
  eexists config, _, mgr, _, w1, w2, w3, w4, w5. split_and!; [done|exact Hmgr|exact Hset|done|done|done| | |].
  { rewrite <- Hc. unfold process_runs. destruct c; cbn; auto 6. }
  - intros b Hb. unfold rest_config in Hcfg. apply bind_Ret_inv in Hcfg as (c0 & wa & _ & Hcfg).
    apply bind_Ret_inv in Hcfg as (c1 & wb & _ & Hcfg). rewrite Hb in Hcfg.
    apply bind_Ret_inv in Hcfg as (burst & wc & [Ha _]%map_err_Ret_inv%lift_Ret_inv & Hcfg).
    by apply ret_inv in Hcfg as [<- _].
  - intros q Hq. unfold rest_config in Hcfg. apply bind_Ret_inv in Hcfg as (c0 & wa & _ & Hcfg).
    apply bind_Ret_inv in Hcfg as (c1 & wb & E & Hcfg). rewrite Hq in E.
    apply bind_Ret_inv in E as (qps & wc & [Ha _]%map_err_Ret_inv%lift_Ret_inv & E).
    apply ret_inv in E as [<- _]. destruct (environ "NNF_REST_CONFIG_BURST").
    + apply bind_Ret_inv in Hcfg as (burst & wd & _ & Hcfg). by apply ret_inv in Hcfg as [<- _].
    + by apply ret_inv in Hcfg as [<- _].
Qed.
End Started.

(** * Copy offload *)

Section Offload.
Context {W : Type} {kube : Kube W} {os : OS W} {okube : OffloadKube W}.

(** The storage node through which the compute node is served, "" if there is none. *)
Lemma rabbit_of_serves compute storageNodes :
  (∃ node, node ∈ storageNodes ∧ sn_Name node = rabbit_of compute storageNodes ∧ compute ∈ ComputesAccess node) ∨
  (rabbit_of compute storageNodes = "" ∧ ∀ node, node ∈ storageNodes → compute ∉ ComputesAccess node).
Proof.
  induction storageNodes as [|n ns IH]; cbn [rabbit_of]; [right; split; [done|by intros ? ?%elem_of_nil]|].
  case_bool_decide as Hn; [left; exists n; split; [by left|done]|].
  destruct IH as [(node & Hin & ?)|[-> Hnone]]; [left; exists node; split; [by right|done]|right].
  split; [done|]. intros node [->|Hin]%elem_of_cons; [done|by apply Hnone].
Qed.

(** C36.  The data movements of the copy offload daemon are in the namespaces the controllers watch: for a
    source on a Lustre mount of the compute node the data movement is in the data movement namespace, which the
    default controller reconciles; for one on a gfs2 mount it is in the namespace of the rabbit that serves the compute
    node as the system configuration says (the empty name if none does), which the controller of that rabbit reconciles; other mounts are refused. *)
Theorem offload_data_movement_is_watched drvr dmreq w rabbit profile dm w' :
  build_dm drvr dmreq w = (Ret (rabbit, profile, dm), w') →
  ∃ cm mount w1 w2 storageNodes w3,
    findComputeMountInfo drvr dmreq w1 = (Ret (cm, mount), w2) ∧
    getStorageNodes ("default", "default") w2 = (Ret storageNodes, w3) ∧
    ((∃ node, node ∈ storageNodes ∧ sn_Name node = rabbit ∧ ComputeName dmreq ∈ ComputesAccess node) ∨
     (rabbit = "" ∧ ∀ node, node ∈ storageNodes → ComputeName dmreq ∉ ComputesAccess node)) ∧
    ((MountType mount = "lustre" ∧ Namespace (dm_Meta dm) = "nnf-dm-system" ∧ reconciles "" DefaultController dm = true) ∨
     (MountType mount = "gfs2" ∧ Namespace (dm_Meta dm) = rabbit ∧ reconciles rabbit NodeController dm = true)).
Proof.
  unfold build_dm. intros (wf & w1 & _ & H)%bind_Ret_inv. destruct (_ || _); [done|].
  apply bind_Ret_inv in H as ([cm mount] & w2 & Hm & H). apply bind_Ret_inv in H as (rb & w3 & Hrb & H).
  apply bind_Ret_inv in H as (dm0 & w4 & E & H). apply bind_Ret_inv in H as (pr & w5 & _ & H).
  apply ret_inv in H as [[= <- <- <-] _]. unfold findRabbitNameFromCompute in Hrb.
  apply bind_Ret_inv in Hrb as (nodes & w6 & Hn%map_err_Ret_inv & Hrb). apply ret_inv in Hrb as [<- ->].
  exists cm, mount, w1, w2, nodes, w3. split_and!; [done|done|apply rabbit_of_serves|].
  unfold reconciles, filterByNamespace. cbn. cbn [snd] in E.
  destruct (String.eqb_spec (MountType mount) "lustre") as [Hl|_]; [left|].
  - unfold createNnfDataMovement in E. do 4 apply bind_Ret_inv in E as (? & ? & _ & E).
    apply ret_inv in E as [<- _]. done.
  - destruct (String.eqb_spec (MountType mount) "gfs2") as [Hg|_]; [right|done].
    unfold createNnfNodeDataMovement in E. do 2 apply bind_Ret_inv in E as (? & ? & _ & E).
    apply ret_inv in E as [<- _]. split_and!; [done|done|by apply String.eqb_eq].
Qed.
End Offload.
