(* ===== verification/EntryScenarios.v ===== *)
(** Runs of the commands on the simulated system: the witnesses of the theorems
    of Daemon.v and Entry.v, and a copy offload request that a controller runs
    a second time. *)
From S2P Require Import Prelude GoMonad GoStrings GoPath Api Dcp Command Env Cluster Sim Crypto Process MakeJwt Hosts Dest Reconciler OffloadApi Driver Server DriverProps DriverRun ServerProps DriverStatus Scenarios DriverScenarios Daemon Entry.

(** * The process *)

Definition process_environ (name : string) : option string :=
  if String.eqb name "NNF_NODE_NAME" then Some "rabbit-1"
  else if String.eqb name "ENVIRONMENT" then Some "production"
  else if String.eqb name "DW_WORKFLOW_NAME" then Some "job"
  else if String.eqb name "DW_WORKFLOW_NAMESPACE" then Some "default"
  else if String.eqb name "NNF_REST_CONFIG_BURST" then Some "200"
  else None.

(** The simulated operating system with an environment *)
Definition process_os : OS Sim := {|
  mkdirTemp := mkdirTemp; mkdirAll := mkdirAll; createFile := createFile; writeString := writeString;
  openFile := openFile; removeAll := removeAll; statIsDir := statIsDir; runCommand := runCommand;
  nowMicro := nowMicro; environ := process_environ; getuid := getuid
|}.

Definition process_os_laws : @OSLaws Sim process_os :=
  match sim_os_laws with
  | Build_OSLaws _ _ files ok a b c d e f g h i j k l m n => @Build_OSLaws Sim process_os files ok a b c d e f g h i j k l m n
  end.

(** Keys in PEM form have a marker; a token is its algorithm and its key. *)
#[export] Instance sim_crypto : Crypto Sim := {
  GenerateKey := λ w, (Ret "k", w);
  MarshalECPrivateKey := λ k, Ret k;
  MarshalPKCS8PrivateKey := λ k, Ret k;
  EncodeToMemory := λ type bytes, Some ("PEM" +:+ bytes);
  pem_Decode := λ text, if HasPrefix text "PEM" then Some (drop_str 3 text) else None;
  NewPublicKey := λ k, Ret k;
  MarshalAuthorizedKey := λ k, k
}.

#[export] Instance sim_jwt : Jwt := {
  jwtParse := parse_token;
  SignedString := λ method claims key, Ret (method +:+ "." +:+ sub claims +:+ "." +:+ key)
}.

#[export] Instance sim_rest : RestClient Sim nat := {
  GetConfigOrDie := λ w, (Ret {| QPS := 20; Burst := 30 |}, w);
  ParseFloat := λ s, Ret (String.length s)
}.

#[export] Instance sim_daemon_lib : DaemonLib Sim nat := {
  LoadX509KeyPair := λ cert key w, (Ret cert, w);
  newClient := λ config w, (Ret tt, w);
  getNnfNode := λ k w, (Ret tt, w)
}.

#[export] Instance sim_runtime : ControllerRuntime Sim nat := {
  Manager := Options;
  NewManager := λ config options w, (Ret options, w);
  SetupWithManager := λ r mgr w, (Ret tt, w);
  AddHealthzCheck := λ name mgr w, (Ret tt, w);
  AddReadyzCheck := λ name mgr w, (Ret tt, w);
  Start := λ mgr w, (Ret tt, w)
}.

Lemma sim_certificate_reads cert key : preserves sim_files (LoadX509KeyPair (W:=Sim) (float32:=nat) cert key).
Proof. done. Qed.

Lemma sim_parse_key keyFunc keyFunc' token valid :
  jwtParse keyFunc token = inr valid → (∀ alg key, keyFunc alg = inr key → keyFunc' alg = inr key) →
  jwtParse keyFunc' token = inr valid.
Proof.
  cbn. unfold parse_token. destruct (keyFunc (alg_of token)) as [err|key] eqn:E; [done|].
  intros H Hk. by rewrite (Hk _ _ E).
Qed.

(** * The daemon *)

(** The generator, then the daemon with the key it left *)
Definition generated : outcome unit * Sim :=
  make_jwt (os:=process_os) "token_key.pem" "token" site_world.

Definition daemon_started (w : Sim) : outcome OffloadServer * Sim :=
  daemon_main (os:=process_os) (float32:=nat) default_flags w.

Definition the_daemon : OffloadServer :=
  {| Addr := "localhost:4000"; TLSConfig := Some "cert.pem"; Drvr := site_driver; httpHandler := site_user |}.

Lemma generated_ok : generated = (Ret tt, snd generated).
Proof. apply pair_of_fst. vm_compute. reflexivity. Qed.

Lemma daemon_started_ok : daemon_started (snd generated) = (Ret the_daemon, snd (daemon_started (snd generated))).
Proof. apply pair_of_fst. vm_compute. reflexivity. Qed.

Definition the_token : string := default "" (contents (OSLaws:=process_os_laws) (snd generated) !! "token").

Lemma the_token_text : the_token = "HS256.user-container.k".
Proof. vm_compute. reflexivity. Qed.

Lemma generated_token_accepted_witness :
  validateMessage (httpHandler the_daemon) jwtParse (post_request "Bearer HS256.user-container.k") = inr "1.0".
Proof.
  destruct (generated_token_accepted (oslaws:=process_os_laws) (float32:=nat) sim_certificate_reads sim_parse_key
    "token" default_flags site_world (snd generated) the_daemon _ generated_ok daemon_started_ok eq_refl)
    as (token & Ht & H).
  assert (token = "HS256.user-container.k") as ->.
  { rewrite <- the_token_text. unfold the_token. rewrite Ht. reflexivity. }
  apply H; vm_compute; reflexivity.
Defined.

Lemma generated_key : contents (OSLaws:=process_os_laws) (snd generated) !! tokenKeyFile default_flags = Some "PEMk".
Proof. vm_compute. reflexivity. Qed.

(** An unsigned token *)
Lemma daemon_serves_with_token_only_witness :
  ∃ response, serve (os:=process_os) encode_params no_wait 307 the_daemon "/trial" (post_request "Bearer none-k") busy
    = (Ret response, busy) ∧ refused 307 (Code response).
Proof.
  apply (daemon_serves_with_token_only (oslaws:=process_os_laws) (float32:=nat) sim_certificate_reads
    encode_params no_wait 307 default_flags (snd generated) the_daemon _ "PEMk" "k" "/trial"
    (post_request "Bearer none-k") busy daemon_started_ok eq_refl generated_key eq_refl).
  - discriminate.
  - intros [_ H]. vm_compute in H. discriminate H.
Defined.

(** The same daemon over an empty block *)
Definition empty_key : Sim := sim_set_files {[ "token_key.pem" := "PEM" ]} site_world.
Definition open_daemon : OffloadServer :=
  {| Addr := "localhost:4000"; TLSConfig := Some "cert.pem"; Drvr := site_driver;
     httpHandler := {| u_Mock := false; KeyBytes := "" |} |}.
Definition anonymous : Request :=
  {| Method := "GET"; Authorization := ""; AcceptsVersion := "1.0"; URL := Ret ("/hello", []);
     Server.Body := Fail (ErrorString "EOF") |}.

Lemma empty_key_started : daemon_started empty_key = (Ret open_daemon, snd (daemon_started empty_key)).
Proof. apply pair_of_fst. vm_compute. reflexivity. Qed.

Lemma empty_key_file : contents (OSLaws:=process_os_laws) empty_key !! tokenKeyFile default_flags = Some "PEM".
Proof. vm_compute. reflexivity. Qed.

Lemma empty_key_serves_anyone_witness :
  serve (os:=process_os) encode_params no_wait 307 open_daemon "/hello" anonymous busy
  = (Ret (http_ok ("hello back at ya" +:+ nl)), busy).
Proof.
  exact (empty_key_serves_anyone (oslaws:=process_os_laws) (float32:=nat) sim_certificate_reads
    encode_params no_wait 307 default_flags empty_key open_daemon _ "PEM" anonymous busy empty_key_started
    eq_refl empty_key_file eq_refl eq_refl eq_refl eq_refl).
Defined.

(** * The controllers *)

Definition node_flags : MainFlags :=
  {| metricsAddr := ":8080"; probeAddr := ":8081"; enableLeaderElection := false; controller := "node" |}.

Definition node_run : outcome unit * Sim := main (os:=process_os) (float32:=nat) node_flags site_world.

Lemma node_run_ok : node_run = (Ret tt, snd node_run).
Proof. apply pair_of_fst. vm_compute. reflexivity. Qed.

Lemma process_runs_named_controller_witness :
  ∃ config options (mgr : Options) w1 w2 w3,
    rest_config (os:=process_os) (float32:=nat) site_world = (Ret config, w1) ∧
    NewManager config options w1 = (Ret mgr, w2) ∧
    (∃ rc, SetupWithManager rc mgr w2 = (Ret tt, w3) ∧
           process_runs (os:=process_os) "node" rc (DefaultNamespaces options)) ∧ Atoi "200" = Ret (Burst config).
Proof.
  destruct (process_runs_named_controller (os:=process_os) (float32:=nat) node_flags site_world (snd node_run)
    node_run_ok) as (config & options & mgr & rc & w1 & w2 & w3 & w4 & w5 & H1 & H2 & H3 & _ & _ & _ & H7 & H8 & _).
  exists config, options, mgr, w1, w2, w3. split; [exact H1|]. split; [exact H2|].
  split; [exists rc; exact (conj H3 H7)|exact (H8 "200" eq_refl)].
Defined.

Lemma one_controller_per_data_movement_witness :
  reconcilers (snd built) ["rabbit-1"; "rabbit-2"] = [("rabbit-1", NodeController)].
Proof.
  apply (one_controller_per_data_movement ["rabbit-1"; "rabbit-2"] (snd built)).
  - apply NoDup_cons. split; [|apply NoDup_singleton]. rewrite list_elem_of_singleton. discriminate.
  - rewrite !elem_of_cons, elem_of_nil. intros [H|[H|[]]]; discriminate H.
Defined.

Lemma offload_data_movement_is_watched_witness :
  ∃ mount w1 w2 cm, findComputeMountInfo site_driver sample_request w1 = (Ret (cm, mount), w2) ∧
    ((MountType mount = "lustre" ∧ Namespace (dm_Meta (snd built)) = "nnf-dm-system") ∨
     (MountType mount = "gfs2" ∧ Namespace (dm_Meta (snd built)) = fst (fst built) ∧
      reconciles (fst (fst built)) NodeController (snd built) = true)).
Proof.
  destruct (offload_data_movement_is_watched site_driver sample_request site_world _ _ _ _ built_ok)
    as (cm & mount & w1 & w2 & nodes & w3 & H1 & _ & _ & H4).
  exists mount, w1, w2, cm. split; [exact H1|].
  destruct H4 as [(H4 & H5 & _)|H4]; [left; exact (conj H4 H5)|right; exact H4].
Defined.

(** * A request that runs twice *)

(** The commands on the hostfile the controller writes, which is named after the resource *)
Definition twice_world : Sim :=
  let hostfile := "/tmp/nnf-copy-offload-node-1/hostfile" in
  {| sim_store := sim_store site_world; sim_profiles := sim_profiles site_world;
     sim_storages := sim_storages site_world; sim_nodeStorages := sim_nodeStorages site_world;
     sim_pods := sim_pods site_world; sim_files := sim_files site_world;
     sim_commands :=
       <[stat_as_root hostfile "/mnt/nnf/7a1/rabbit-1-0/out" := "directory" +:+ nl]>
       (<[stat_as_root hostfile "/lus/out/rabbit-1-0" := "directory" +:+ nl]>
       (<[buildStatOrMkdirCommand 0 1000 2000 default_mkdir_command default_setpriv_command hostfile
            "/lus/out/rabbit-1-0/rabbit-1-0" := ""]> (sim_commands site_world)));
     sim_clock := 100; sim_faults := []; sim_reads := [] |}.

(** The daemon accepts the request; then the controller of the rabbit sees the new resource. *)
Definition offloaded : DSys Sim :=
  snd (TrialRequest site_user site_driver parse_token (post_request "Bearer user-k") (d_boot twice_world)).
Definition offload_key : NamespacedName := ("rabbit-1", "nnf-copy-offload-node-1").
Definition taken_over : Sys Sim :=
  settle (Reconcile offload_key (settle (Reconcile offload_key (boot (d_world offloaded))))).

(** The data movement of a copy offload request is run a second time by the controller of the rabbit:
    the daemon and the controller each have a command running for the same resource, and that of the
    controller copies one index mount directory further down. *)
Example offload_runs_twice :
  map (λ r, dm_key (r_dm r)) (d_routines offloaded) = [offload_key] ∧
  map r_req (routines taken_over) = [offload_key] ∧
  map (λ r, HasSuffix (Command (r_cmdStatus r)) " /mnt/nnf/7a1/rabbit-1-0/out /lus/out/rabbit-1-0")
    (d_routines offloaded) = [true] ∧
  map (λ r, HasSuffix (Command (r_cmdStatus r)) " /mnt/nnf/7a1/rabbit-1-0/out /lus/out/rabbit-1-0/rabbit-1-0")
    (routines taken_over) = [true].
Proof. vm_compute. split_and!; reflexivity. Qed.
